(** * lib-fatfs: the File Allocation Table and the directory-entry store

    A shallow embedding of [fatfs_fat.c] and [fatfs_node.c].  The mount
    structure, its two scratch buffers and the block device are threaded
    through every operation as an explicit state; C integers are [Z] with
    their 16- and 32-bit wrap-around written out; loops whose trip count
    the code does not bound take a fuel argument. *)

From Stdlib Require Import ZArith List Bool Lia Btauto.
From coqutil Require Import Z.bitblast.
Import ListNotations.
Local Open Scope Z_scope.

(** ** Machine integers *)

Definition u8 (x : Z) : Z := x mod 256.
Definition u16 (x : Z) : Z := x mod 65536.
Definition u32 (x : Z) : Z := x mod 4294967296.
Definition __U32_MAX : Z := 4294967295.

(** ** errno.h *)

Definition ENOENT : Z := 2.
Definition EIO : Z := 5.
Definition EAGAIN : Z := 11.
Definition EINVAL : Z := 22.
Definition ENOSPC : Z := 28.

(** ** Memory buffers

    A buffer is addressed by byte offset.  Cells are read through [u8],
    so only their low eight bits are ever observed. *)

Definition buffer := Z -> Z.

Definition buf_blit (dst : buffer) (doff : Z) (src : Z -> Z) (len : Z) : buffer :=
  fun i => if (doff <=? i) && (i <? doff + len) then src (i - doff) else dst i.

(** A 16-bit access through a [__u16] pointer at [buf + off], on a
    little-endian host. *)
Definition load16 (buf : buffer) (off : Z) : Z :=
  Z.lor (u8 (buf off)) (Z.shiftl (u8 (buf (off + 1))) 8).

Definition store16 (buf : buffer) (off : Z) (val : Z) : buffer :=
  fun i => if i =? off then u8 val
           else if i =? off + 1 then u8 (Z.shiftr val 8)
           else buf i.

(** ** The block device

    Modelled from the spec: the synchronous sector I/O collaborator
    [uk_blkdev_sync_io] (uk/blkdev.h is not part of the repository).  A
    request transfers exactly one whole sector or fails with a non-zero
    code and transfers nothing.  [blk_faults] scripts the outcome of the
    coming requests (head first, [0] is success, an exhausted script means
    success); [blk_log] records every request issued, newest first. *)

Definition SEC_SIZE : Z := 512.

Inductive uk_blkreq_op : Type := UK_BLKREQ_READ | UK_BLKREQ_WRITE.

Record uk_blkdev : Type := mk_blkdev {
  blk_data : Z -> Z -> Z;
  blk_faults : list Z;
  blk_log : list (uk_blkreq_op * Z)
}.

Definition blk_store (data : Z -> Z -> Z) (sec : Z) (buf : buffer) (boff : Z)
  : Z -> Z -> Z :=
  fun s o => if (s =? sec) && (0 <=? o) && (o <? SEC_SIZE)
             then buf (boff + o) else data s o.

Definition uk_blkdev_sync_io (d : uk_blkdev) (op : uk_blkreq_op) (sec : Z)
           (buf : buffer) (boff : Z) : Z * uk_blkdev * buffer :=
  let error := hd 0 (blk_faults d) in
  let faults := tl (blk_faults d) in
  let log := (op, sec) :: blk_log d in
  if error =? 0 then
    match op with
    | UK_BLKREQ_READ =>
        (0, mk_blkdev (blk_data d) faults log,
         buf_blit buf boff (blk_data d sec) SEC_SIZE)
    | UK_BLKREQ_WRITE =>
        (0, mk_blkdev (blk_store (blk_data d) sec buf boff) faults log, buf)
    end
  else (error, mk_blkdev (blk_data d) faults log, buf).

(** ** struct fatfsmount *)

Record fatfsmount : Type := mk_fatfsmount {
  fat_type : Z;
  root_start : Z;
  fat_start : Z;
  data_start : Z;
  fat_eof : Z;
  sec_per_cl : Z;
  cluster_size : Z;
  last_cluster : Z;
  fat_mask : Z;
  free_scan : Z;
  fat_buf : buffer;
  dir_buf : buffer;
  dev : uk_blkdev
}.

Definition set_fat_buf (fmp : fatfsmount) (b : buffer) : fatfsmount :=
  mk_fatfsmount (fat_type fmp) (root_start fmp) (fat_start fmp) (data_start fmp)
    (fat_eof fmp) (sec_per_cl fmp) (cluster_size fmp) (last_cluster fmp)
    (fat_mask fmp) (free_scan fmp) b (dir_buf fmp) (dev fmp).

Definition set_dir_buf (fmp : fatfsmount) (b : buffer) : fatfsmount :=
  mk_fatfsmount (fat_type fmp) (root_start fmp) (fat_start fmp) (data_start fmp)
    (fat_eof fmp) (sec_per_cl fmp) (cluster_size fmp) (last_cluster fmp)
    (fat_mask fmp) (free_scan fmp) (fat_buf fmp) b (dev fmp).

Definition set_dev (fmp : fatfsmount) (d : uk_blkdev) : fatfsmount :=
  mk_fatfsmount (fat_type fmp) (root_start fmp) (fat_start fmp) (data_start fmp)
    (fat_eof fmp) (sec_per_cl fmp) (cluster_size fmp) (last_cluster fmp)
    (fat_mask fmp) (free_scan fmp) (fat_buf fmp) (dir_buf fmp) d.

(** ** fatfs.h

    Modelled from the spec: the macros of fatfs.h, which is not among the
    sources.  The spec gives 0 as the free value, 2 as the first valid
    data cluster, 12 and 16 as the two FAT types, and "values >= the
    end-of-chain threshold" as the end-of-chain test. *)

Definition CL_FREE : Z := 0.
Definition CL_FIRST : Z := 2.
Definition FAT12 (fmp : fatfsmount) : bool := fat_type fmp =? 12.
Definition FAT16 (fmp : fatfsmount) : bool := fat_type fmp =? 16.
Definition IS_EOFCL (fmp : fatfsmount) (cl : Z) : bool := fat_eof fmp <=? cl.

(** ** Results and the state monad of a mount

    [Ok a] is the C return value 0 with [a] stored through the output
    pointer, [Err e] is the C return value [e <> 0], [OutOfFuel] says
    that a loop did not finish within the fuel given, and [Trap] that
    the call does not return because it divides by zero (undefined in C;
    the processor raises a divide error). *)

Inductive result (A : Type) : Type :=
| Ok (a : A)
| Err (e : Z)
| OutOfFuel
| Trap.
Arguments Ok {A} a.
Arguments Err {A} e.
Arguments OutOfFuel {A}.
Arguments Trap {A}.

Definition fatfs (A : Type) : Type := fatfsmount -> result A * fatfsmount.

Definition ret {A : Type} (a : A) : fatfs A := fun fmp => (Ok a, fmp).
Definition fail {A : Type} (e : Z) : fatfs A := fun fmp => (Err e, fmp).

Definition bind {A B : Type} (m : fatfs A) (k : A -> fatfs B) : fatfs B :=
  fun fmp =>
    match m fmp with
    | (Ok a, fmp') => k a fmp'
    | (Err e, fmp') => (Err e, fmp')
    | (OutOfFuel, fmp') => (OutOfFuel, fmp')
    | (Trap, fmp') => (Trap, fmp')
    end.

Notation "x <- m ;; k" := (bind m (fun x => k))
  (at level 61, m at next level, right associativity).
Notation "m ;;; k" := (bind m (fun _ => k))
  (at level 61, right associativity).

(** The C integer a result stands for (a call that does not return has
    none). *)
Definition errno {A : Type} (r : result A) : option Z :=
  match r with
  | Ok _ => Some 0
  | Err e => Some e
  | OutOfFuel => None
  | Trap => None
  end.

(** One sector transferred between the device and [fat_buf + boff]:
    [error = uk_blkdev_sync_io(...); if (error != 0) return error;]. *)
Definition fat_io (op : uk_blkreq_op) (sec boff : Z) : fatfs unit :=
  fun fmp =>
    let '(error, d, b) := uk_blkdev_sync_io (dev fmp) op sec (fat_buf fmp) boff in
    let fmp' := set_dev (set_fat_buf fmp b) d in
    if error =? 0 then (Ok tt, fmp') else (Err error, fmp').

(** The same for [dir_buf]. *)
Definition dir_io (op : uk_blkreq_op) (sec : Z) : fatfs unit :=
  fun fmp =>
    let '(error, d, b) := uk_blkdev_sync_io (dev fmp) op sec (dir_buf fmp) 0 in
    let fmp' := set_dev (set_dir_buf fmp b) d in
    if error =? 0 then (Ok tt, fmp') else (Err error, fmp').

(** ** fatfs_fat.c *)

Definition read_fat_entry (cl : Z) : fatfs unit :=
  fun fmp =>
    let sec := if FAT16 fmp then u32 (cl * 2) / SEC_SIZE
               else u32 (cl * 3) / 2 / SEC_SIZE in
    let border := if FAT16 fmp then false
                  else (u32 (cl * 3) / 2) mod SEC_SIZE =? SEC_SIZE - 1 in
    let sec := u32 (sec + fat_start fmp) in
    (fat_io UK_BLKREQ_READ sec 0 ;;;
     if negb (FAT12 fmp) || negb border then ret tt
     else fat_io UK_BLKREQ_READ (u32 (sec + 1)) SEC_SIZE) fmp.

Definition write_fat_entry (cl : Z) : fatfs unit :=
  fun fmp =>
    let sec := if FAT16 fmp then u32 (cl * 2) / SEC_SIZE
               else u32 (cl * 3) / 2 / SEC_SIZE in
    let border := if FAT16 fmp then false
                  else (u32 (cl * 3) / 2) mod SEC_SIZE =? SEC_SIZE - 1 in
    let sec := u32 (sec + fat_start fmp) in
    (fat_io UK_BLKREQ_WRITE sec 0 ;;;
     if negb (FAT12 fmp) || negb border then ret tt
     else fat_io UK_BLKREQ_WRITE (u32 (sec + 1)) SEC_SIZE) fmp.

Definition fat_next_cluster (cl : Z) : fatfs Z :=
  read_fat_entry cl ;;;
  fun fmp =>
    let offset := if FAT16 fmp then u32 (cl * 2) mod SEC_SIZE
                  else (u32 (cl * 3) / 2) mod SEC_SIZE in
    let val := load16 (fat_buf fmp) offset in
    let val := if FAT12 fmp then
                 if Z.land cl 1 =? 0 then Z.land val 4095
                 else Z.shiftr val 4
               else val in
    (Ok val, fmp).

Definition fat_set_cluster (cl next : Z) : fatfs unit :=
  read_fat_entry cl ;;;
  (fun fmp =>
    let offset := if FAT16 fmp then u32 (cl * 2) mod SEC_SIZE
                  else (u32 (cl * 3) / 2) mod SEC_SIZE in
    let val := u16 (Z.land next (fat_mask fmp)) in
    let val := if FAT12 fmp then
                 let tmp := load16 (fat_buf fmp) offset in
                 if Z.land cl 1 =? 0 then Z.lor val (Z.land tmp 61440)
                 else Z.lor (u16 (Z.shiftl val 4)) (Z.land tmp 15)
               else val in
    (Ok tt, set_fat_buf fmp (store16 (fat_buf fmp) offset val))) ;;;
  write_fat_entry cl.

(** The [while (cl != scan_start)] loop of [fat_alloc_cluster]. *)
Fixpoint fat_alloc_scan (fuel : nat) (scan_start cl : Z) : fatfs Z :=
  if cl =? scan_start then fail ENOSPC
  else
    match fuel with
    | O => fun fmp => (OutOfFuel, fmp)
    | S fuel' =>
        next <- fat_next_cluster cl ;;
        if next =? CL_FREE then ret cl
        else fun fmp =>
               let cl1 := u32 (cl + 1) in
               let cl2 := if last_cluster fmp <=? cl1 then CL_FIRST else cl1 in
               fat_alloc_scan fuel' scan_start cl2 fmp
    end.

Definition fat_alloc_cluster (fuel : nat) (scan_start : Z) : fatfs Z :=
  fun fmp =>
    let scan_start := if scan_start =? 0 then free_scan fmp else scan_start in
    fat_alloc_scan fuel scan_start (u32 (scan_start + 1)) fmp.

(** The [while (!IS_EOFCL(fmp, cl))] loop of [fat_free_clusters]; it
    returns the value of [cl] on which the loop stopped. *)
Fixpoint fat_free_walk (fuel : nat) (cl : Z) : fatfs Z :=
  fun fmp =>
    if IS_EOFCL fmp cl then (Ok cl, fmp)
    else
      match fuel with
      | O => (OutOfFuel, fmp)
      | S fuel' =>
          (next <- fat_next_cluster cl ;;
           fat_set_cluster cl CL_FREE ;;;
           fat_free_walk fuel' next) fmp
      end.

Definition fat_free_clusters (fuel : nat) (start : Z) : fatfs unit :=
  if start <? CL_FIRST then fail EINVAL
  else
    cl <- fat_free_walk fuel start ;;
    (* Clear eof *)
    fat_set_cluster cl CL_FREE.

(** The [for (i = 0; i < target; i++)] loop of [fat_seek_cluster], [n]
    iterations to go. *)
Fixpoint fat_seek_steps (n : nat) (c : Z) : fatfs Z :=
  match n with
  | O => ret c
  | S n' =>
      c' <- fat_next_cluster c ;;
      fun fmp =>
        if IS_EOFCL fmp c' then (Err EIO, fmp) else fat_seek_steps n' c' fmp
  end.

Definition fat_seek_cluster (start offset : Z) : fatfs Z :=
  fun fmp =>
    if last_cluster fmp <? start then (Err EIO, fmp)
    else if cluster_size fmp =? 0 then (Trap, fmp) (* division by zero *)
    else
      let target := offset / cluster_size fmp in
      fat_seek_steps (Z.to_nat target) start fmp.

(** The [for (i = 1; i < cl_len; i++)] loop of [fat_expand_file], [n]
    iterations to go.  It returns the final values of [alloc] and
    [current]. *)
Fixpoint fat_expand_steps (fuel : nat) (n : nat) (alloc : bool) (current : Z)
  : fatfs (bool * Z) :=
  match n with
  | O => ret (alloc, current)
  | S n' =>
      next <- fat_next_cluster current ;;
      fun fmp =>
        (an <- (if alloc || (fat_eof fmp <=? next)
                then (next' <- fat_alloc_cluster fuel current ;; ret (true, next'))
                else ret (alloc, next)) ;;
         (if fst an then fat_set_cluster current (snd an) else ret tt) ;;;
         fat_expand_steps fuel n' (fst an) (snd an)) fmp
  end.

(** [cl] is an in/out parameter: the second component of the result is
    its value when the function returns, whatever the return value. *)
Definition fat_expand_file (fuel : nat) (cl size : Z)
  : fatfsmount -> result unit * Z * fatfsmount :=
  fun fmp =>
    if cluster_size fmp =? 0 then (Trap, cl, fmp) (* division by zero *)
    else
    let cl_len := u32 (size + cluster_size fmp - 1) / cluster_size fmp in
    (* allocate cluster if the file was previously empty *)
    let first := if cl =? CL_FREE
                 then (c <- fat_alloc_cluster fuel 0 ;; ret (c, true)) fmp
                 else (Ok (cl, false), fmp) in
    match first with
    | (Err e, fmp0) => (Err e, cl, fmp0)
    | (OutOfFuel, fmp0) => (OutOfFuel, cl, fmp0)
    | (Trap, fmp0) => (Trap, cl, fmp0)
    | (Ok (cl0, alloc0), fmp0) =>
        match fat_expand_steps fuel (Z.to_nat (cl_len - 1)) alloc0 cl0 fmp0 with
        | (Err e, fmp1) => (Err e, cl0, fmp1)
        | (OutOfFuel, fmp1) => (OutOfFuel, cl0, fmp1)
        | (Trap, fmp1) => (Trap, cl0, fmp1)
        | (Ok (alloc, current), fmp1) =>
            if alloc
            then (* add eof; the return value is dropped *)
              (Ok tt, cl0, snd (fat_set_cluster current (fat_eof fmp1) fmp1))
            else (Ok tt, cl0, fmp1)
        end
    end.

(** The [while (!IS_EOFCL(fmp, cl))] loop of [fat_expand_dir]; it returns
    the value of [cl] on which the loop stopped. *)
Fixpoint fat_dir_walk (fuel : nat) (cl : Z) : fatfs Z :=
  fun fmp =>
    if IS_EOFCL fmp cl then (Ok cl, fmp)
    else
      match fuel with
      | O => (OutOfFuel, fmp)
      | S fuel' => (next <- fat_next_cluster cl ;; fat_dir_walk fuel' next) fmp
      end.

Definition fat_expand_dir (fuel : nat) (cl : Z) : fatfs Z :=
  (* Find last cluster number of FAT chain. *)
  cl <- fat_dir_walk fuel cl ;;
  next <- fat_alloc_cluster fuel cl ;;
  fat_set_cluster cl next ;;;
  (fun fmp => fat_set_cluster next (fat_eof fmp) fmp) ;;;
  ret next.

(** ** Directory records and node handles

    Modelled from the spec: [struct fat_dirent] and [struct fatfs_node]
    are declared in fatfs.h, which is not among the sources.  A record is
    32 bytes on disk: the 11-byte name, the attribute byte, ten reserved
    bytes, then time, date and starting cluster (two bytes each, little
    endian) and the four-byte size. *)

Record fat_dirent : Type := mk_fat_dirent {
  name : list Z;
  attr : Z;
  reserve : list Z;
  time : Z;
  date : Z;
  cluster : Z;
  size : Z
}.

Record fatfs_node : Type := mk_fatfs_node {
  dirent : fat_dirent;
  sector : Z;
  offset : Z
}.

Definition DIRENT_SIZE : Z := 32.
Definition DIR_PER_SEC : Z := SEC_SIZE / DIRENT_SIZE.

Definition buf_bytes (b : buffer) (off : Z) (n : nat) : list Z :=
  map (fun k => u8 (b (off + Z.of_nat k))) (seq 0 n).

Definition le_bytes (n : nat) (v : Z) : list Z :=
  map (fun k => u8 (Z.shiftr v (8 * Z.of_nat k))) (seq 0 n).

Definition load_le (b : buffer) (off : Z) (n : nat) : Z :=
  fold_right (fun x acc => Z.lor x (Z.shiftl acc 8)) 0 (buf_bytes b off n).

(** The record that a [struct fat_dirent *] at [buf + off] points to. *)
Definition dirent_at (b : buffer) (off : Z) : fat_dirent :=
  mk_fat_dirent (buf_bytes b off 11) (u8 (b (off + 11)))
    (buf_bytes b (off + 12) 10)
    (load_le b (off + 22) 2) (load_le b (off + 24) 2) (load_le b (off + 26) 2)
    (load_le b (off + 28) 4).

(** The 32 bytes of a record. *)
Definition dirent_bytes (de : fat_dirent) : list Z :=
  map (fun k => u8 (nth k (name de) 0)) (seq 0 11)
  ++ [u8 (attr de)]
  ++ map (fun k => u8 (nth k (reserve de) 0)) (seq 0 10)
  ++ le_bytes 2 (time de) ++ le_bytes 2 (date de) ++ le_bytes 2 (cluster de)
  ++ le_bytes 4 (size de).

Definition IS_EMPTY (de : fat_dirent) : bool := nth 0 (name de) 0 =? 0.
Definition IS_DELETED (de : fat_dirent) : bool := nth 0 (name de) 0 =? 229.

(** Constants, macros and collaborators that the directory store takes
    from outside this repository's sources: the root-directory sentinel,
    the attribute bits, the cluster-to-sector macro, and the name
    normalisation and comparison routines. *)
Class fatfs_env : Type := {
  CL_ROOT : Z;
  FA_SUBDIR : Z;
  FA_VOLID : Z;
  cl_to_sec : fatfsmount -> Z -> Z;
  fat_convert_name : list Z -> list Z;
  fat_compare_name : list Z -> list Z -> Z
}.

Definition IS_VOL `{fatfs_env} (de : fat_dirent) : bool :=
  negb (Z.land (attr de) FA_VOLID =? 0).

(** ** fatfs_node.c *)

Definition fat_read_dirent (sec : Z) : fatfs unit := dir_io UK_BLKREQ_READ sec.
Definition fat_write_dirent (sec : Z) : fatfs unit := dir_io UK_BLKREQ_WRITE sec.

(** The scan of [fat_lookup_dirent] over the records of the sector held
    in [dir_buf], [n] records to go from index [i]. *)
Fixpoint fat_lookup_scan `{fatfs_env} (n : nat) (i : Z) (b : buffer) (sec : Z)
         (fname : list Z) : result fatfs_node :=
  match n with
  | O => Err EAGAIN
  | S n' =>
      let de := dirent_at b (DIRENT_SIZE * i) in
      if IS_EMPTY de then Err ENOENT
      else if negb (IS_VOL de) && (fat_compare_name (name de) fname =? 0)
      then Ok (mk_fatfs_node de sec (u32 (DIRENT_SIZE * i)))
      else fat_lookup_scan n' (i + 1) b sec fname
  end.

Definition fat_lookup_dirent `{fatfs_env} (sec : Z) (fname : list Z)
  : fatfs fatfs_node :=
  fat_read_dirent sec ;;;
  fun fmp =>
    (fat_lookup_scan (Z.to_nat DIR_PER_SEC) 0 (dir_buf fmp) sec fname, fmp).

(** Sectors [sec], [sec + 1], ... searched while the per-sector scan
    answers [EAGAIN], [n] sectors to go: the [for] loops over the root
    region and over one cluster. *)
Fixpoint fat_lookup_sectors `{fatfs_env} (n : nat) (sec : Z) (fname : list Z)
  : fatfs (option fatfs_node) :=
  match n with
  | O => ret None
  | S n' =>
      fun fmp =>
        match fat_lookup_dirent sec fname fmp with
        | (Ok np, fmp') => (Ok (Some np), fmp')
        | (Err e, fmp') =>
            if e =? EAGAIN
            then fat_lookup_sectors n' (u32 (sec + 1)) fname fmp'
            else (Err e, fmp')
        | (OutOfFuel, fmp') => (OutOfFuel, fmp')
        | (Trap, fmp') => (Trap, fmp')
        end
  end.

(** The [while (!IS_EOFCL(fmp, cl))] loop of [fatfs_lookup_node]. *)
Fixpoint fat_lookup_chain `{fatfs_env} (fuel : nat) (cl : Z) (fname : list Z)
  : fatfs fatfs_node :=
  fun fmp =>
    if IS_EOFCL fmp cl then (Err ENOENT, fmp)
    else
      match fuel with
      | O => (OutOfFuel, fmp)
      | S fuel' =>
          (found <- fat_lookup_sectors (Z.to_nat (sec_per_cl fmp))
                      (u32 (cl_to_sec fmp cl)) fname ;;
           match found with
           | Some np => ret np
           | None =>
               cl' <- fat_next_cluster cl ;;
               fat_lookup_chain fuel' cl' fname
           end) fmp
      end.

(** [dnp] is [dvp->v_data]; the mount [dvp->v_mount->m_data] is the
    state; [None] is a NULL [name]. *)
Definition fatfs_lookup_node `{fatfs_env} (fuel : nat) (dnp : fatfs_node)
           (name : option (list Z)) : fatfs fatfs_node :=
  match name with
  | None => fail ENOENT
  | Some name =>
      let fat_name := firstn 11 (fat_convert_name name) ++ [0] in
      let cl := cluster (dirent dnp) in
      if cl =? CL_ROOT then
        (* Search entry in root directory *)
        fun fmp =>
          (found <- fat_lookup_sectors
                      (Z.to_nat (data_start fmp - root_start fmp))
                      (root_start fmp) fat_name ;;
           match found with
           | Some np => ret np
           | None => fail ENOENT
           end) fmp
      else
        (* Search entry in sub directory *)
        fat_lookup_chain fuel cl fat_name
  end.

(** The scan of [fat_get_dirent]; the second component is the value left
    in [*index]. *)
Fixpoint fat_get_scan `{fatfs_env} (n : nat) (i : Z) (b : buffer)
         (sec target index : Z) : result fatfs_node * Z :=
  match n with
  | O => (Err EAGAIN, index)
  | S n' =>
      let de := dirent_at b (DIRENT_SIZE * i) in
      if IS_EMPTY de then (Err ENOENT, index)
      else if negb (IS_DELETED de) && negb (IS_VOL de) then
        (* valid file *)
        if index =? target
        then (Ok (mk_fatfs_node de sec (u32 (DIRENT_SIZE * i))), index)
        else fat_get_scan n' (i + 1) b sec target (index + 1)
      else fat_get_scan n' (i + 1) b sec target index
  end.

Definition fat_get_dirent `{fatfs_env} (sec target index : Z)
  : fatfsmount -> result fatfs_node * Z * fatfsmount :=
  fun fmp =>
    match fat_read_dirent sec fmp with
    | (Ok _, fmp') =>
        (fat_get_scan (Z.to_nat DIR_PER_SEC) 0 (dir_buf fmp') sec target index,
         fmp')
    | (Err e, fmp') => (Err e, index, fmp')
    | (OutOfFuel, fmp') => (OutOfFuel, index, fmp')
    | (Trap, fmp') => (Trap, index, fmp')
    end.

(** Sectors [sec], [sec + 1], ... enumerated while the per-sector scan
    answers [EAGAIN]; [inl np] is the record found, [inr index] the
    running index after [n] sectors. *)
Fixpoint fat_get_sectors `{fatfs_env} (n : nat) (sec target index : Z)
  : fatfs (fatfs_node + Z) :=
  match n with
  | O => ret (inr index)
  | S n' =>
      fun fmp =>
        match fat_get_dirent sec target index fmp with
        | (Ok np, _, fmp') => (Ok (inl np), fmp')
        | (Err e, index', fmp') =>
            if e =? EAGAIN
            then fat_get_sectors n' (u32 (sec + 1)) target index' fmp'
            else (Err e, fmp')
        | (OutOfFuel, _, fmp') => (OutOfFuel, fmp')
        | (Trap, _, fmp') => (Trap, fmp')
        end
  end.

(** The [while (!IS_EOFCL(fmp, cl))] loop of [fatfs_get_node]. *)
Fixpoint fat_get_chain `{fatfs_env} (fuel : nat) (cl target index : Z)
  : fatfs fatfs_node :=
  fun fmp =>
    if IS_EOFCL fmp cl then (Err ENOENT, fmp)
    else
      match fuel with
      | O => (OutOfFuel, fmp)
      | S fuel' =>
          (found <- fat_get_sectors (Z.to_nat (sec_per_cl fmp))
                      (u32 (cl_to_sec fmp cl)) target index ;;
           match found with
           | inl np => ret np
           | inr index' =>
               cl' <- fat_next_cluster cl ;;
               fat_get_chain fuel' cl' target index'
           end) fmp
      end.

(** What [fatfs_get_node] leaves in [*np] for the two entries that the
    root directory does not hold on disk ([dots] is 1 for [.] and 2 for
    [..]): name, attribute, cluster, time and date are assigned, the
    sector becomes the all-ones sentinel, and the other fields keep what
    they held. *)
Definition synth_node `{fatfs_env} (np : fatfs_node) (dots : nat) (cl : Z)
  : fatfs_node :=
  mk_fatfs_node
    (mk_fat_dirent (repeat 46 dots ++ repeat 32 (11 - dots)) (u8 FA_SUBDIR)
       (reserve (dirent np)) 0 0 (u16 cl) (size (dirent np)))
    __U32_MAX (offset np).

(** [dnp] is [dvp->v_data]; [np] is the caller's node, returned updated
    on success. *)
Definition fatfs_get_node `{fatfs_env} (fuel : nat) (dnp : fatfs_node)
           (index : Z) (np : fatfs_node) : fatfs fatfs_node :=
  let cl := cluster (dirent dnp) in
  let cur_index := 0 in
  if cl =? CL_ROOT then
    if index =? 0 then ret (synth_node np 1 cl)
    else if index =? 1 then ret (synth_node np 2 cl)
    else
      (* Get entry from the root directory *)
      fun fmp =>
        (found <- fat_get_sectors (Z.to_nat (data_start fmp - root_start fmp))
                    (root_start fmp) (index - 2) cur_index ;;
         match found with
         | inl np' => ret np'
         | inr _ => fail ENOENT
         end) fmp
  else
    (* Get entry from the sub directory *)
    fat_get_chain fuel cl index cur_index.

(** The scan of [fat_add_dirent] over the records of the sector held in
    [dir_buf]: the index of the first deleted or empty record, [n]
    records to go from index [i]. *)
Fixpoint fat_add_scan (n : nat) (i : Z) (b : buffer) : option Z :=
  match n with
  | O => None
  | S n' =>
      let de := dirent_at b (DIRENT_SIZE * i) in
      if IS_DELETED de || IS_EMPTY de then Some i
      else fat_add_scan n' (i + 1) b
  end.

(** [memcpy(dst + off, &np->dirent, sizeof(struct fat_dirent))]. *)
Definition put_dirent (b : buffer) (off : Z) (de : fat_dirent) : buffer :=
  buf_blit b off (fun k => nth (Z.to_nat k) (dirent_bytes de) 0) DIRENT_SIZE.

Definition fat_add_dirent (sec : Z) (np : fatfs_node) : fatfs unit :=
  fat_read_dirent sec ;;;
  fun fmp =>
    match fat_add_scan (Z.to_nat DIR_PER_SEC) 0 (dir_buf fmp) with
    | None => (Err ENOENT, fmp)
    | Some i =>
        (* found *)
        fat_write_dirent sec
          (set_dir_buf fmp
             (put_dirent (dir_buf fmp) (DIRENT_SIZE * i) (dirent np)))
    end.

(** Sectors [sec], [sec + 1], ... tried while [fat_add_dirent] answers
    [ENOENT], [n] sectors to go; [true] says that the record was put. *)
Fixpoint fat_add_sectors (n : nat) (sec : Z) (np : fatfs_node) : fatfs bool :=
  match n with
  | O => ret false
  | S n' =>
      fun fmp =>
        match fat_add_dirent sec np fmp with
        | (Ok _, fmp') => (Ok true, fmp')
        | (Err e, fmp') =>
            if e =? ENOENT
            then fat_add_sectors n' (u32 (sec + 1)) np fmp'
            else (Err e, fmp')
        | (OutOfFuel, fmp') => (OutOfFuel, fmp')
        | (Trap, fmp') => (Trap, fmp')
        end
  end.

(** The [while (!IS_EOFCL(fmp, cl))] loop of [fatfs_add_node]: [None]
    when the record was put, otherwise the value of [cl] on which the
    loop stopped. *)
Fixpoint fat_add_chain `{fatfs_env} (fuel : nat) (cl : Z) (np : fatfs_node)
  : fatfs (option Z) :=
  fun fmp =>
    if IS_EOFCL fmp cl then (Ok (Some cl), fmp)
    else
      match fuel with
      | O => (OutOfFuel, fmp)
      | S fuel' =>
          (put <- fat_add_sectors (Z.to_nat (sec_per_cl fmp))
                    (u32 (cl_to_sec fmp cl)) np ;;
           if put then ret None
           else
             next <- fat_next_cluster cl ;;
             fat_add_chain fuel' next np) fmp
      end.

(** The loop that writes the zeroed [dir_buf] to every sector of the new
    cluster. *)
Fixpoint fat_clear_sectors (n : nat) (sec : Z) : fatfs unit :=
  match n with
  | O => ret tt
  | S n' => fat_write_dirent sec ;;; fat_clear_sectors n' (u32 (sec + 1))
  end.

(** [dnp] is [dvp->v_data]. *)
Definition fatfs_add_node `{fatfs_env} (fuel : nat) (dnp np : fatfs_node)
  : fatfs unit :=
  let cl := cluster (dirent dnp) in
  if cl =? CL_ROOT then
    (* Add entry in root directory *)
    fun fmp =>
      (put <- fat_add_sectors (Z.to_nat (data_start fmp - root_start fmp))
                (root_start fmp) np ;;
       if put then ret tt else fail ENOENT) fmp
  else
    (* Search entry in sub directory *)
    r <- fat_add_chain fuel cl np ;;
    match r with
    | None => ret tt
    | Some cl =>
        (* No entry found, add one more free cluster for directory *)
        next <- fat_expand_dir fuel cl ;;
        (* Initialize free cluster. *)
        (fun fmp =>
           (Ok tt,
            set_dir_buf fmp (buf_blit (dir_buf fmp) 0 (fun _ => 0) SEC_SIZE))) ;;;
        (fun fmp =>
           fat_clear_sectors (Z.to_nat (sec_per_cl fmp))
             (u32 (cl_to_sec fmp next)) fmp) ;;;
        (* Try again *)
        (fun fmp => fat_add_dirent (u32 (cl_to_sec fmp next)) np fmp)
    end.

Definition fatfs_put_node (np : fatfs_node) : fatfs unit :=
  fat_read_dirent (sector np) ;;;
  (fun fmp =>
     (Ok tt,
      set_dir_buf fmp
        (buf_blit (dir_buf fmp) (offset np)
           (fun k => nth (Z.to_nat k) (dirent_bytes (dirent np)) 0)
           DIRENT_SIZE))) ;;;
  fat_write_dirent (sector np).

(** ** The FAT as the device holds it

    What the codec computes, stated on the device contents alone.  These
    definitions serve to state and prove the properties below; the
    lemmas [fat_next_cluster_ok] and [fat_set_cluster_ok] connect them
    to the code. *)

(** Byte offset of the entry of [cl] inside the FAT. *)
Definition fat_pos (fmp : fatfsmount) (cl : Z) : Z :=
  if FAT16 fmp then u32 (cl * 2) else u32 (cl * 3) / 2.

(** Sector and offset of the first and of the second byte of the entry. *)
Definition fat_loc0 (fmp : fatfsmount) (cl : Z) : Z * Z :=
  (u32 (fat_pos fmp cl / SEC_SIZE + fat_start fmp), fat_pos fmp cl mod SEC_SIZE).

Definition fat_loc1 (fmp : fatfsmount) (cl : Z) : Z * Z :=
  let '(sec, off) := fat_loc0 fmp cl in
  if off =? SEC_SIZE - 1 then (u32 (sec + 1), 0) else (sec, off + 1).

Definition blk_byte (d : uk_blkdev) (loc : Z * Z) : Z :=
  u8 (blk_data d (fst loc) (snd loc)).

(** The 16-bit word that holds the entry of [cl]. *)
Definition fat_word (fmp : fatfsmount) (cl : Z) : Z :=
  Z.lor (blk_byte (dev fmp) (fat_loc0 fmp cl))
        (Z.shiftl (blk_byte (dev fmp) (fat_loc1 fmp cl)) 8).

(** The adjustment of [fat_next_cluster] and the merge of
    [fat_set_cluster], on words. *)
Definition entry_of_word (fmp : fatfsmount) (cl w : Z) : Z :=
  if FAT12 fmp then
    if Z.land cl 1 =? 0 then Z.land w 4095 else Z.shiftr w 4
  else w.

Definition word_with_entry (fmp : fatfsmount) (cl next tmp : Z) : Z :=
  let val := u16 (Z.land next (fat_mask fmp)) in
  if FAT12 fmp then
    if Z.land cl 1 =? 0 then Z.lor val (Z.land tmp 61440)
    else Z.lor (u16 (Z.shiftl val 4)) (Z.land tmp 15)
  else val.

(** The FAT entry of [cl] stored on the device. *)
Definition fat_entry (fmp : fatfsmount) (cl : Z) : Z :=
  entry_of_word fmp cl (fat_word fmp cl).

(** The device contents after the entry of [cl] is set to [next]: the two
    bytes of the entry's word change, every other byte stays. *)
Definition at_loc (loc : Z * Z) (s o : Z) : bool :=
  (s =? fst loc) && (o =? snd loc).

Definition fat_poke (fmp : fatfsmount) (cl next : Z) : Z -> Z -> Z :=
  fun s o =>
    let w := word_with_entry fmp cl next (fat_word fmp cl) in
    if at_loc (fat_loc0 fmp cl) s o then u8 w
    else if at_loc (fat_loc1 fmp cl) s o then u8 (Z.shiftr w 8)
    else blk_data (dev fmp) s o.

(** The [h]-th byte of the FAT, when the table does not wrap around the
    32-bit sector space. *)
Definition fat_byte_loc (fmp : fatfsmount) (h : Z) : Z * Z :=
  (fat_start fmp + h / SEC_SIZE, h mod SEC_SIZE).

Definition fat_byte (fmp : fatfsmount) (h : Z) : Z :=
  blk_byte (dev fmp) (fat_byte_loc fmp h).

(** ** Well-formed mounts *)

(** The mount is a FAT12 or a FAT16 one with the mask of its type. *)
Definition fat_kind_ok (fmp : fatfsmount) : Prop :=
  (fat_type fmp = 12 /\ fat_mask fmp = 4095) \/
  (fat_type fmp = 16 /\ fat_mask fmp = 65535).

(** The sectors of the FAT are addressable with 32 bits: the largest
    table (65536 entries of two bytes) takes 256 sectors. *)
Definition fat_region_ok (fmp : fatfsmount) : Prop :=
  0 <= fat_start fmp /\ fat_start fmp + 256 < 4294967296.

(** [cl] is a cluster number that an entry of this FAT can hold. *)
Definition fat_index (fmp : fatfsmount) (cl : Z) : Prop :=
  0 <= cl <= fat_mask fmp.

(** [cl] is a valid data cluster. *)
Definition valid_cluster (fmp : fatfsmount) (cl : Z) : Prop :=
  CL_FIRST <= cl < last_cluster fmp.

(** No fault is scripted: every coming request succeeds. *)
Definition io_ok (fmp : fatfsmount) : Prop := blk_faults (dev fmp) = [].

(** A mounted FAT12 or FAT16 volume whose device serves every request:
    the FAT is addressable, and the cluster numbers in use lie below the
    end-of-chain threshold, which an entry can hold. *)
Definition good (fmp : fatfsmount) : Prop :=
  fat_kind_ok fmp /\ fat_region_ok fmp /\ io_ok fmp /\
  (0 <= last_cluster fmp <= fat_eof fmp /\ fat_eof fmp <= fat_mask fmp).

(** ** Relations between two states of a mount *)

(** The same geometry: every field but the buffers and the device. *)
Definition same_geometry (a b : fatfsmount) : Prop :=
  fat_type a = fat_type b /\ root_start a = root_start b /\
  fat_start a = fat_start b /\ data_start a = data_start b /\
  fat_eof a = fat_eof b /\ sec_per_cl a = sec_per_cl b /\
  cluster_size a = cluster_size b /\ last_cluster a = last_cluster b /\
  fat_mask a = fat_mask b /\ free_scan a = free_scan b.

(** The same geometry, device contents and fault script. *)
Definition same_disk (a b : fatfsmount) : Prop :=
  same_geometry a b /\ blk_data (dev a) = blk_data (dev b) /\
  blk_faults (dev a) = blk_faults (dev b).

(** The requests issued between two states were all reads. *)
Definition only_reads (a b : fatfsmount) : Prop :=
  exists l, blk_log (dev b) = l ++ blk_log (dev a) /\
            Forall (fun r => fst r = UK_BLKREQ_READ) l.

Definition no_write (a b : fatfsmount) : Prop :=
  blk_data (dev b) = blk_data (dev a) /\ only_reads a b.

(** An operation that leaves the device contents as they were and issues
    read requests only, whatever it returns. *)
Definition read_only {A : Type} (m : fatfs A) : Prop :=
  forall fmp, no_write fmp (snd (m fmp)).

(** An operation that leaves every field of the mount but the buffers
    and the device as it was. *)
Definition keeps_geometry {A : Type} (m : fatfs A) : Prop :=
  forall fmp, same_geometry fmp (snd (m fmp)).

(** The outcome of an operation whose first request the device fails
    with [e]: the error is [e], and the device holds what it held. *)
Definition fails_clean {A : Type} (e : Z) (fmp : fatfsmount)
           (r : result A * fatfsmount) : Prop :=
  fst r = Err e /\ blk_data (dev (snd r)) = blk_data (dev fmp).

(** ** Directory records on the device *)

(** A record whose fields fit the 32 bytes of its on-disk form. *)
Definition dirent_wf (de : fat_dirent) : Prop :=
  length (name de) = 11%nat /\ Forall (fun x => 0 <= x < 256) (name de) /\
  0 <= attr de < 256 /\
  length (reserve de) = 10%nat /\ Forall (fun x => 0 <= x < 256) (reserve de) /\
  0 <= time de < 65536 /\ 0 <= date de < 65536 /\ 0 <= cluster de < 65536 /\
  0 <= size de < 4294967296.

(** The handle [np] names one of the records of a sector and carries
    the record that the device holds there. *)
Definition on_disk (fmp : fatfsmount) (np : fatfs_node) : Prop :=
  (exists j, 0 <= j < DIR_PER_SEC /\ offset np = DIRENT_SIZE * j) /\
  dirent np = dirent_at (blk_data (dev fmp) (sector np)) (offset np).

(** The record in slot [j] of sector [sec]. *)
Definition slot (fmp : fatfsmount) (sec j : Z) : fat_dirent :=
  dirent_at (blk_data (dev fmp) sec) (DIRENT_SIZE * j).

(** A record that the search for [fname] accepts, and one that it
    passes over. *)
Definition hit `{fatfs_env} (fname : list Z) (de : fat_dirent) : Prop :=
  IS_EMPTY de = false /\ IS_VOL de = false /\
  fat_compare_name (name de) fname = 0.

Definition miss `{fatfs_env} (fname : list Z) (de : fat_dirent) : Prop :=
  IS_EMPTY de = false /\
  (IS_VOL de = true \/ fat_compare_name (name de) fname <> 0).

(** A record that is neither deleted nor the end marker. *)
Definition in_use (de : fat_dirent) : Prop :=
  IS_DELETED de = false /\ IS_EMPTY de = false.

(** Slot [j'] of sector [s'] comes before slot [j] of sector [s] in the
    order in which the root directory is scanned. *)
Definition root_before (fmp : fatfsmount) (s' j' s j : Z) : Prop :=
  root_start fmp <= s' /\ 0 <= j' < DIR_PER_SEC /\
  (s' < s \/ (s' = s /\ j' < j)).

(** A record that [fatfs_get_node] counts: neither deleted nor a volume
    label. *)
Definition is_live `{fatfs_env} (de : fat_dirent) : bool :=
  negb (IS_DELETED de) && negb (IS_VOL de).

(** The number of records counted among the [m] slots from slot [i] of
    a sector image. *)
Fixpoint live_slots `{fatfs_env} (data : Z -> Z) (m : nat) (i : Z) : Z :=
  match m with
  | O => 0
  | S m' =>
      (if is_live (dirent_at data (DIRENT_SIZE * i)) then 1 else 0)
      + live_slots data m' (i + 1)
  end.

(** The same among all the slots of the [n] sectors from [sec]. *)
Fixpoint live_sectors `{fatfs_env} (fmp : fatfsmount) (n : nat) (sec : Z) : Z :=
  match n with
  | O => 0
  | S n' =>
      live_slots (blk_data (dev fmp) sec) (Z.to_nat DIR_PER_SEC) 0
      + live_sectors fmp n' (sec + 1)
  end.

(** The same among the slots of the root directory that come before
    slot [j] of sector [s]. *)
Definition live_before `{fatfs_env} (fmp : fatfsmount) (s j : Z) : Z :=
  live_sectors fmp (Z.to_nat (s - root_start fmp)) (root_start fmp)
  + live_slots (blk_data (dev fmp) s) (Z.to_nat j) 0.

(** The first sector of a cluster, as the directory loops compute it:
    [sec = cl_to_sec(fmp, cl)], held in 32 bits. *)
Definition first_sector `{fatfs_env} (fmp : fatfsmount) (cl : Z) : Z :=
  u32 (cl_to_sec fmp cl).

(** [s] is one of the sectors of cluster [cl]. *)
Definition cluster_sector `{fatfs_env} (fmp : fatfsmount) (cl s : Z) : Prop :=
  first_sector fmp cl <= s < first_sector fmp cl + sec_per_cl fmp.

(** [s] is a sector that holds a byte of the FAT entry of [cl]. *)
Definition fat_sector (fmp : fatfsmount) (cl s : Z) : Prop :=
  s = fst (fat_loc0 fmp cl) \/ s = fst (fat_loc1 fmp cl).

(** ** Chains

    [reads fmp cl v]: [fat_next_cluster(fmp, cl, &next)] returns 0 with
    [next == v]. *)
Definition reads (fmp : fatfsmount) (cl v : Z) : Prop :=
  fst (fat_next_cluster cl fmp) = Ok v.

(** [chain fmp cl rest]: the clusters [cl :: rest] are linked in this
    order, each link below the end-of-chain threshold, and the entry of
    the last one is an end-of-chain value. *)
Fixpoint chain (fmp : fatfsmount) (cl : Z) (rest : list Z) : Prop :=
  match rest with
  | [] => exists v, reads fmp cl v /\ fat_eof fmp <= v
  | cl' :: rest' =>
      reads fmp cl cl' /\ cl' < fat_eof fmp /\ chain fmp cl' rest'
  end.

(** The device-level reading of the links of a chain. *)
Fixpoint links (fmp : fatfsmount) (cl : Z) (rest : list Z) : Prop :=
  match rest with
  | [] => True
  | cl' :: rest' => fat_entry fmp cl = cl' /\ links fmp cl' rest'
  end.

(** ** What the scans find

    [scan_finds free last s f]: among the candidates that the scan of
    [fat_alloc_cluster] examines from [s] -- [s + 1], [s + 2], ... while
    below [last], then [CL_FIRST], [CL_FIRST + 1], ... up to [s - 1] --
    the first free one is [f], either before the scan wraps around or
    after it. *)
Definition scan_finds (free : Z -> Prop) (last s f : Z) : Prop :=
  free f /\
  ((s < f < last /\ forall k, s < k < f -> ~ free k) \/
   (CL_FIRST <= f < last /\ f < s /\
    (forall k, s < k -> k < last \/ k = s + 1 -> ~ free k) /\
    (forall k, CL_FIRST <= k < f -> ~ free k))).

(** [free_seq free last taken s fs]: successive scans, the first from
    [s] and each next one from the cluster found before, find the
    clusters [fs] in this order; a cluster counts as free when [free]
    says so and it is not in [taken], the clusters that the caller has
    linked since (every scan start once the next cluster is found). *)
Fixpoint free_seq (free : Z -> Prop) (last : Z) (taken : list Z) (s : Z)
         (fs : list Z) : Prop :=
  match fs with
  | [] => True
  | f :: fs' =>
      scan_finds (fun k => free k /\ ~ In k taken) last s f /\
      free_seq free last (s :: taken) f fs'
  end.

(** The clusters [new] are those that the scans of [fat_expand_file]
    find when it grows the chain [old]: for an empty file the first scan
    starts from the cursor and links nothing, otherwise it starts from
    the last cluster of the chain. *)
Definition scans_find (fmp : fatfsmount) (old new : list Z) : Prop :=
  let free := fun k => reads fmp k CL_FREE in
  match old, new with
  | [], [] => True
  | [], f :: fs =>
      scan_finds free (last_cluster fmp) (free_scan fmp) f /\
      free_seq free (last_cluster fmp) [] f fs
  | _ :: _, _ => free_seq free (last_cluster fmp) [] (last old 0) new
  end.

(** The value of [alloc] after the loop of [fat_expand_file] has run
    over the clusters [new] it had to allocate. *)
Definition grown (alloc : bool) (new : list Z) : bool :=
  match new with [] => alloc | _ :: _ => true end.

(** The clusters whose entries [fat_expand_file] assigns when it appends
    the clusters [new] to the chain [old]. *)
Definition touched (old new : list Z) : list Z :=
  match old with [] => new | _ :: _ => last old 0 :: new end.

(** ** Concrete volumes

    A FAT16 volume after the scenario of the spec (512-byte sectors, four
    sectors per cluster, end-of-chain threshold 0xFFF8): the FAT is
    sector 1, the root directory sectors 3 and 4, the data clusters
    2 .. 9 from sector 5 on.  Every sector but the FAT sector is filled
    with 0xF6. *)

Definition fat16_bytes (entries : list Z) : list Z :=
  flat_map (fun e => [u8 e; u8 (Z.shiftr e 8)]) entries.

Definition demo_data (fat : list Z) : Z -> Z -> Z :=
  fun s o => if s =? 1 then nth (Z.to_nat o) fat 0 else 246.

Definition demo16 (entries : list Z) (faults : list Z) : fatfsmount :=
  mk_fatfsmount 16 3 1 5 65528 4 2048 10 65535 2 (fun _ => 0) (fun _ => 0)
    (mk_blkdev (demo_data (fat16_bytes entries)) faults []).

(** Clusters 2 -> 3 -> 4 -> EOF in use, 5 .. 9 free. *)
Definition chain234 : list Z := [65528; 65535; 3; 4; 65535; 0; 0; 0; 0; 0].

(** A FAT12 volume with 400 clusters whose FAT (sectors 1 and 2) holds
    an arbitrary byte pattern; the entries of clusters 340 and 341 share
    the bytes 510, 511 and 512 of the table. *)
Definition demo12 : fatfsmount :=
  mk_fatfsmount 12 5 1 12 4088 1 512 400 4095 2 (fun _ => 0) (fun _ => 0)
    (mk_blkdev (fun s o => (37 * s + 11 * o + 5) mod 256) [] []).

(** Standard values for what the directory store takes from outside. *)
Definition demo_env : fatfs_env :=
  Build_fatfs_env 0 16 8
    (fun fmp cl => data_start fmp + (cl - 2) * sec_per_cl fmp)
    (fun n => n)
    (fun a b => if list_eq_dec Z.eq_dec (firstn 11 a) (firstn 11 b) then 0 else 1).

(** The handle of the root directory. *)
Definition blank_dirent : fat_dirent := mk_fat_dirent [] 0 [] 0 0 0 0.
Definition root_node : fatfs_node := mk_fatfs_node blank_dirent 0 0.

(** The same volume with a root directory: sector 3 holds a volume
    label, a deleted record and the file FILE.TXT (cluster 2, 100
    bytes); the fourth slot is the end-of-directory marker. *)
Definition file_txt : list Z := [70; 73; 76; 69; 32; 32; 32; 32; 84; 88; 84].

Definition demo_records : list fat_dirent :=
  [ mk_fat_dirent [70; 65; 84; 70; 83; 32; 32; 32; 32; 32; 32] 8 [] 0 0 0 0;
    mk_fat_dirent [229; 76; 68; 32; 32; 32; 32; 32; 84; 88; 84] 32 [] 0 0 7 9;
    mk_fat_dirent file_txt 32 [] 0 0 2 100 ].

Definition demo_dir_data : Z -> Z -> Z :=
  fun s o =>
    if s =? 3 then nth (Z.to_nat o) (flat_map dirent_bytes demo_records) 0
    else demo_data (fat16_bytes chain234) s o.

Definition demo_dir (faults : list Z) : fatfsmount :=
  mk_fatfsmount 16 3 1 5 65528 4 2048 10 65535 2 (fun _ => 0) (fun _ => 0)
    (mk_blkdev demo_dir_data faults []).

(** The same volume with the file 7 -> 8 -> EOF, clusters 2 and 3 free
    and every other cluster in use: a scan from 8 has to wrap around. *)
Definition chain78 : list Z :=
  [65528; 65535; 0; 0; 65535; 65535; 65535; 8; 65535; 65535].

(** A record for NEW.TXT, one cluster from cluster 5 on. *)
Definition new_txt : list Z := [78; 69; 87; 32; 32; 32; 32; 32; 84; 88; 84].

Definition new_node : fatfs_node :=
  mk_fatfs_node
    (mk_fat_dirent new_txt 32 [0; 0; 0; 0; 0; 0; 0; 0; 0; 0] 0 0 5 2048) 0 0.

(** The handle of the sub-directory of cluster 2: on the volume
    [demo16 chain234] its chain is 2 -> 3 -> 4 and its sectors 5 .. 16,
    like every sector but the FAT sector, are filled with 0xF6, so that
    none of its slots is free. *)
Definition sub_node : fatfs_node :=
  mk_fatfs_node (mk_fat_dirent [] 16 [] 0 0 2 0) 0 0.

(** A FAT16 volume of the largest size, 65524 data clusters of one
    sector (clusters 2 .. 65525, [last_cluster] 65526): the FAT takes
    the sectors 1 .. 256, and its last ten entries (65526 .. 65535) are
    padding that holds zero.  The volume has one file of one cluster,
    the last cluster 65525; every other cluster is free. *)
Definition demo_max_data : Z -> Z -> Z :=
  fun s o =>
    if s =? 1 then nth (Z.to_nat o) [248; 255; 255; 255] 0
    else if (s =? 256) && ((o =? 490) || (o =? 491)) then 255
    else 0.

Definition demo_max : fatfsmount :=
  mk_fatfsmount 16 257 1 289 65528 1 512 65526 65535 2 (fun _ => 0) (fun _ => 0)
    (mk_blkdev demo_max_data [] []).

(** * Proofs *)

Ltac bool_cases :=
  repeat match goal with
  | |- context [?a =? ?b] => destruct (Z.eqb_spec a b)
  | |- context [?a <=? ?b] => destruct (Z.leb_spec a b)
  | |- context [?a <? ?b] => destruct (Z.ltb_spec a b)
  end; cbn [andb orb negb]; try lia.

Ltac fin :=
  try assumption; try discriminate; try lia;
  try (rewrite ?Z.sub_0_r, ?Z.add_0_l, ?Z.add_0_r; reflexivity).

Lemma u32_range x : 0 <= u32 x < 4294967296.
Proof. unfold u32. apply Z.mod_pos_bound. lia. Qed.

Lemma u32_small x : 0 <= x < 4294967296 -> u32 x = x.
Proof. intros. unfold u32. apply Z.mod_small. lia. Qed.

Lemma u32_succ_neq s : 0 <= s < 4294967296 -> u32 (s + 1) <> s.
Proof.
  intros H. unfold u32.
  destruct (Z.eq_dec s 4294967295) as [->|Hn].
  - cbn. lia.
  - rewrite Z.mod_small; lia.
Qed.

(** ** One request on a device without scripted faults *)

Lemma fat_io_read_ok fmp sec boff :
  io_ok fmp ->
  fat_io UK_BLKREQ_READ sec boff fmp =
  (Ok tt,
   set_dev (set_fat_buf fmp
              (buf_blit (fat_buf fmp) boff (blk_data (dev fmp) sec) SEC_SIZE))
           (mk_blkdev (blk_data (dev fmp)) []
              ((UK_BLKREQ_READ, sec) :: blk_log (dev fmp)))).
Proof.
  unfold io_ok, fat_io, uk_blkdev_sync_io. intros ->. reflexivity.
Qed.

Lemma fat_io_write_ok fmp sec boff :
  io_ok fmp ->
  fat_io UK_BLKREQ_WRITE sec boff fmp =
  (Ok tt,
   set_dev (set_fat_buf fmp (fat_buf fmp))
           (mk_blkdev (blk_store (blk_data (dev fmp)) sec (fat_buf fmp) boff) []
              ((UK_BLKREQ_WRITE, sec) :: blk_log (dev fmp)))).
Proof.
  unfold io_ok, fat_io, uk_blkdev_sync_io. intros ->. reflexivity.
Qed.

(** ** The position of an entry *)

Lemma fat_kind_cases fmp :
  fat_kind_ok fmp ->
  (FAT12 fmp = true /\ FAT16 fmp = false /\ fat_mask fmp = 4095) \/
  (FAT12 fmp = false /\ FAT16 fmp = true /\ fat_mask fmp = 65535).
Proof.
  unfold fat_kind_ok, FAT12, FAT16. intros [[-> ->]|[-> ->]]; [left|right]; auto.
Qed.

Lemma fat_loc0_range fmp cl :
  0 <= fst (fat_loc0 fmp cl) < 4294967296 /\ 0 <= snd (fat_loc0 fmp cl) < 512.
Proof.
  unfold fat_loc0, SEC_SIZE; cbn [fst snd]. split.
  - apply u32_range.
  - apply Z.mod_pos_bound. lia.
Qed.

Lemma fat_loc_neq fmp cl : fat_loc0 fmp cl <> fat_loc1 fmp cl.
Proof.
  pose proof (fat_loc0_range fmp cl) as [Hs Ho].
  unfold fat_loc1. destruct (fat_loc0 fmp cl) as [s o]. cbn [fst snd] in *.
  unfold SEC_SIZE. bool_cases; intros E; inversion E; lia.
Qed.

(** On a FAT16 an entry never ends a sector: its offset is even. *)
Lemma fat16_offset_even fmp cl :
  FAT16 fmp = true -> snd (fat_loc0 fmp cl) <> 511.
Proof.
  unfold fat_loc0, fat_pos, SEC_SIZE, u32. intros ->. cbn [snd].
  Z.div_mod_to_equations. lia.
Qed.

(** ** Loading and storing the sectors of an entry *)

Lemma read_fat_entry_ok fmp cl :
  fat_kind_ok fmp -> io_ok fmp ->
  exists fmp',
    read_fat_entry cl fmp = (Ok tt, fmp') /\
    same_disk fmp fmp' /\ io_ok fmp' /\
    (forall i, 0 <= i < 512 ->
       fat_buf fmp' i = blk_data (dev fmp) (fst (fat_loc0 fmp cl)) i) /\
    (FAT12 fmp = true -> snd (fat_loc0 fmp cl) = 511 ->
     forall i, 512 <= i < 1024 ->
       fat_buf fmp' i = blk_data (dev fmp) (fst (fat_loc1 fmp cl)) (i - 512)).
Proof.
  intros Hk Hio.
  pose proof (fat16_offset_even fmp cl) as Heven.
  unfold read_fat_entry, bind, fat_loc1, fat_loc0, fat_pos in *.
  cbn [fst snd] in *.
  destruct (fat_kind_cases fmp Hk) as [(H12 & H16 & _)|(H12 & H16 & _)];
    rewrite ?H12, ?H16 in *; cbn [negb orb].
  - rewrite fat_io_read_ok by assumption.
    destruct (Z.eqb_spec ((u32 (cl * 3) / 2) mod SEC_SIZE) (SEC_SIZE - 1)) as [Hb|Hb];
      cbn [negb].
    + rewrite fat_io_read_ok by reflexivity.
      eexists; split; [reflexivity|].
      repeat split; cbn; intros; unfold buf_blit, SEC_SIZE; bool_cases; fin.
    + eexists; split; [reflexivity|].
      repeat split; cbn; intros; unfold buf_blit, SEC_SIZE in *; bool_cases; fin.
  - rewrite fat_io_read_ok by assumption.
    eexists; split; [reflexivity|].
    repeat split; cbn; intros; unfold buf_blit, SEC_SIZE in *; bool_cases; fin.
Qed.

Lemma same_disk_flags a b :
  same_disk a b ->
  FAT12 b = FAT12 a /\ FAT16 b = FAT16 a /\ fat_mask b = fat_mask a /\
  fat_start b = fat_start a /\ last_cluster b = last_cluster a /\
  fat_eof b = fat_eof a /\ free_scan b = free_scan a.
Proof.
  unfold same_disk, same_geometry, FAT12, FAT16.
  intros ((-> & _ & -> & _ & -> & _ & _ & -> & -> & ->) & _).
  repeat split.
Qed.

Lemma same_disk_trans a b c : same_disk a b -> same_disk b c -> same_disk a c.
Proof.
  unfold same_disk, same_geometry.
  intros (G1 & D1 & F1) (G2 & D2 & F2).
  repeat split; try congruence; intuition congruence.
Qed.

Lemma same_disk_loc a b cl :
  same_disk a b ->
  fat_loc0 b cl = fat_loc0 a cl /\ fat_loc1 b cl = fat_loc1 a cl.
Proof.
  intros H. destruct (same_disk_flags a b H) as (H12 & H16 & _ & Hs & _).
  unfold fat_loc1, fat_loc0, fat_pos. rewrite H16, Hs. split; reflexivity.
Qed.

Lemma same_disk_entry a b cl :
  same_disk a b -> fat_entry b cl = fat_entry a cl.
Proof.
  intros H. destruct (same_disk_loc a b cl H) as [L0 L1].
  destruct (same_disk_flags a b H) as (H12 & _).
  destruct H as (_ & D & _).
  unfold fat_entry, entry_of_word, fat_word, blk_byte.
  rewrite L0, L1, H12, D. reflexivity.
Qed.

(** The word found in the buffer once the sectors of an entry are
    loaded is the word the device holds. *)
Lemma loaded_word fmp cl (buf : buffer) :
  fat_kind_ok fmp ->
  (forall i, 0 <= i < 512 ->
     buf i = blk_data (dev fmp) (fst (fat_loc0 fmp cl)) i) ->
  (FAT12 fmp = true -> snd (fat_loc0 fmp cl) = 511 ->
   forall i, 512 <= i < 1024 ->
     buf i = blk_data (dev fmp) (fst (fat_loc1 fmp cl)) (i - 512)) ->
  load16 buf (snd (fat_loc0 fmp cl)) = fat_word fmp cl.
Proof.
  intros Hk Hlo Hhi.
  pose proof (fat_loc0_range fmp cl) as [_ Ho].
  pose proof (fat16_offset_even fmp cl) as Heven.
  unfold load16, fat_word, blk_byte.
  rewrite Hlo by assumption. f_equal. f_equal. f_equal.
  destruct (Z.eq_dec (snd (fat_loc0 fmp cl)) 511) as [E|E].
  - destruct (fat_kind_cases fmp Hk) as [(H12 & _)|(_ & H16 & _)];
      [|exfalso; exact (Heven H16 E)].
    rewrite E, (Hhi H12 E) by lia.
    unfold fat_loc1 in *. destruct (fat_loc0 fmp cl) as [s o]; cbn [fst snd] in *.
    subst o. reflexivity.
  - rewrite Hlo by lia.
    unfold fat_loc1. destruct (fat_loc0 fmp cl) as [s o]; cbn [fst snd] in *.
    unfold SEC_SIZE. bool_cases; reflexivity.
Qed.

Lemma fat_next_cluster_ok fmp cl :
  fat_kind_ok fmp -> io_ok fmp ->
  exists fmp',
    fat_next_cluster cl fmp = (Ok (fat_entry fmp cl), fmp') /\
    same_disk fmp fmp' /\ io_ok fmp'.
Proof.
  intros Hk Hio.
  destruct (read_fat_entry_ok fmp cl Hk Hio) as (fmp' & Hr & Hsd & Hio' & Hlo & Hhi).
  destruct (same_disk_flags _ _ Hsd) as (H12 & H16 & _).
  unfold fat_next_cluster, bind. rewrite Hr.
  exists fmp'. split; [|split; assumption].
  f_equal. f_equal.
  unfold fat_entry, entry_of_word.
  rewrite <- (loaded_word fmp cl (fat_buf fmp') Hk Hlo Hhi).
  rewrite H12, H16. unfold fat_loc0, fat_pos. cbn [snd].
  destruct (FAT16 fmp); reflexivity.
Qed.

Lemma fat_kind_ok_same a b : same_geometry a b -> fat_kind_ok a -> fat_kind_ok b.
Proof.
  unfold same_geometry, fat_kind_ok.
  intros (T & _ & _ & _ & _ & _ & _ & _ & M & _). rewrite T, M. auto.
Qed.

Lemma write_fat_entry_ok fmp cl :
  fat_kind_ok fmp -> io_ok fmp ->
  exists fmp',
    write_fat_entry cl fmp = (Ok tt, fmp') /\
    same_geometry fmp fmp' /\ io_ok fmp' /\
    forall s o,
      blk_data (dev fmp') s o =
      if FAT12 fmp && (snd (fat_loc0 fmp cl) =? 511)
      then blk_store (blk_store (blk_data (dev fmp)) (fst (fat_loc0 fmp cl))
                        (fat_buf fmp) 0)
             (fst (fat_loc1 fmp cl)) (fat_buf fmp) 512 s o
      else blk_store (blk_data (dev fmp)) (fst (fat_loc0 fmp cl)) (fat_buf fmp) 0 s o.
Proof.
  intros Hk Hio.
  pose proof (fat16_offset_even fmp cl) as Heven.
  unfold write_fat_entry, bind, fat_loc1, fat_loc0, fat_pos in *.
  cbn [fst snd] in *.
  destruct (fat_kind_cases fmp Hk) as [(H12 & H16 & _)|(H12 & H16 & _)];
    rewrite ?H12, ?H16 in *; cbn [negb orb andb].
  - rewrite fat_io_write_ok by assumption.
    unfold SEC_SIZE.
    destruct (Z.eqb_spec ((u32 (cl * 3) / 2) mod 512) (512 - 1)) as [Hb|Hb];
      cbn [negb].
    + rewrite fat_io_write_ok by reflexivity.
      eexists; split; [reflexivity|].
      split; [unfold same_geometry; cbn; repeat split|].
      split; [reflexivity|]. intros s o. cbn.
      change (512 - 1) with 511 in Hb. rewrite Hb. reflexivity.
    + eexists; split; [reflexivity|].
      split; [unfold same_geometry; cbn; repeat split|].
      split; [reflexivity|]. intros s o. cbn.
      destruct (Z.eqb_spec ((u32 (cl * 3) / 2) mod 512) 511); [lia|reflexivity].
  - rewrite fat_io_write_ok by assumption.
    eexists; split; [reflexivity|].
    split; [unfold same_geometry; cbn; repeat split|].
    split; [reflexivity|]. intros s o. reflexivity.
Qed.

Lemma same_geometry_set_fat_buf fmp b : same_geometry fmp (set_fat_buf fmp b).
Proof. unfold same_geometry. cbn. repeat split. Qed.

Lemma same_geometry_trans a b c :
  same_geometry a b -> same_geometry b c -> same_geometry a c.
Proof. unfold same_geometry. intuition congruence. Qed.

Lemma same_geometry_loc a b cl :
  same_geometry a b ->
  fat_loc0 b cl = fat_loc0 a cl /\ fat_loc1 b cl = fat_loc1 a cl /\
  FAT12 b = FAT12 a /\ FAT16 b = FAT16 a /\ fat_mask b = fat_mask a.
Proof.
  unfold same_geometry, fat_loc1, fat_loc0, fat_pos, FAT12, FAT16.
  intros (-> & _ & -> & _ & _ & _ & _ & _ & -> & _). repeat split.
Qed.

Lemma fat_set_cluster_ok fmp cl next :
  fat_kind_ok fmp -> io_ok fmp ->
  exists fmp',
    fat_set_cluster cl next fmp = (Ok tt, fmp') /\
    same_geometry fmp fmp' /\ io_ok fmp' /\
    forall s o, blk_data (dev fmp') s o = fat_poke fmp cl next s o.
Proof.
  intros Hk Hio.
  destruct (read_fat_entry_ok fmp cl Hk Hio)
    as (fmp1 & Hr & Hsd & Hio1 & Hlo & Hhi).
  pose proof (loaded_word fmp cl (fat_buf fmp1) Hk Hlo Hhi) as Hw.
  destruct (same_disk_flags _ _ Hsd) as (H12 & H16 & Hm & _).
  pose proof Hsd as (Hg1 & Hd1 & _).
  set (w := word_with_entry fmp cl next (fat_word fmp cl)).
  set (fmp2 := set_fat_buf fmp1 (store16 (fat_buf fmp1) (snd (fat_loc0 fmp cl)) w)).
  assert (Hg2 : same_geometry fmp fmp2).
  { eapply same_geometry_trans; [exact Hg1|apply same_geometry_set_fat_buf]. }
  destruct (write_fat_entry_ok fmp2 cl (fat_kind_ok_same _ _ Hg2 Hk) Hio1)
    as (fmp3 & Hwr & Hg3 & Hio3 & Hdata).
  exists fmp3. split; [|split; [eapply same_geometry_trans; eassumption|split; [assumption|]]].
  - unfold fat_set_cluster, bind. rewrite Hr.
    replace (set_fat_buf fmp1 _) with fmp2; [rewrite Hwr; reflexivity|].
    unfold fmp2, w, word_with_entry. rewrite <- Hw.
    rewrite H12, H16, Hm. unfold fat_loc0, fat_pos; cbn [snd].
    destruct (FAT16 fmp), (FAT12 fmp); reflexivity.
  - intros s o. rewrite Hdata. clear Hdata Hwr.
    destruct (same_geometry_loc _ _ cl Hg2) as (L0 & L1 & F12 & _).
    rewrite L0, L1, F12.
    pose proof (fat_loc0_range fmp cl) as [Hs0 Ho0].
    pose proof (fat16_offset_even fmp cl) as Heven.
    unfold fat_poke, at_loc. fold w.
    unfold fat_loc1 in *. destruct (fat_loc0 fmp cl) as [s0 o0]. cbn [fst snd] in *.
    change (fat_buf fmp2) with (store16 (fat_buf fmp1) o0 w).
    change (dev fmp2) with (dev fmp1).
    rewrite <- Hd1.
    unfold blk_store, store16, SEC_SIZE in *.
    change (512 - 1) with 511 in *.
    pose proof (u32_succ_neq s0 Hs0) as Hsucc.
    revert Hhi.
    destruct (fat_kind_cases fmp Hk) as [(K12 & K16 & _)|(K12 & K16 & _)];
      rewrite K12 in *; cbn [andb];
      (destruct (Z.eqb_spec o0 511) as [Eb|Eb]; cbn [fst snd]; intros Hhi).
    + specialize (Hhi eq_refl Eb).
      bool_cases; fin; subst; rewrite ?Z.add_0_l;
        first [rewrite Hlo by lia; reflexivity
              |rewrite Hhi by lia; f_equal; lia].
    + bool_cases; fin; subst; rewrite ?Z.add_0_l; rewrite Hlo by lia; reflexivity.
    + exfalso. exact (Heven K16 Eb).
    + bool_cases; fin; subst; rewrite ?Z.add_0_l; rewrite Hlo by lia; reflexivity.
Qed.

(** ** Bit-level facts about the packing of entries *)

Ltac bits_norm :=
  unfold u8, u16;
  change 256 with (2 ^ 8); change 65536 with (2 ^ 16);
  change 4095 with (Z.ones 12); change 15 with (Z.ones 4);
  change 65535 with (Z.ones 16);
  change 61440 with (Z.shiftl (Z.ones 4) 12).

Lemma word_of_bytes w :
  Z.lor (u8 (u8 w)) (Z.shiftl (u8 (u8 (Z.shiftr w 8))) 8) = u16 w.
Proof. bits_norm. Z.bitblast. Qed.

Lemma entry12_even n t :
  Z.land (u16 (Z.lor (u16 (Z.land n 4095)) (Z.land t 61440))) 4095 = Z.land n 4095.
Proof. bits_norm. Z.bitblast. Qed.

Lemma entry12_odd n t :
  Z.shiftr (u16 (Z.lor (u16 (Z.shiftl (u16 (Z.land n 4095)) 4)) (Z.land t 15))) 4
  = Z.land n 4095.
Proof. bits_norm. Z.bitblast. Qed.

Lemma entry16 n : u16 (u16 (Z.land n 65535)) = Z.land n 65535.
Proof. bits_norm. Z.bitblast. Qed.

Lemma frame12_even n x0 x1 y :
  let w := Z.lor (u16 (Z.land n 4095)) (Z.land (Z.lor (u8 x0) (Z.shiftl (u8 x1) 8)) 61440) in
  Z.shiftr (Z.lor (u8 (u8 (Z.shiftr w 8))) (Z.shiftl (u8 y) 8)) 4 =
  Z.shiftr (Z.lor (u8 x1) (Z.shiftl (u8 y) 8)) 4.
Proof. cbv zeta. bits_norm. Z.bitblast. Qed.

Lemma frame12_odd n x0 x1 z :
  let w := Z.lor (u16 (Z.shiftl (u16 (Z.land n 4095)) 4)) (Z.land (Z.lor (u8 x0) (Z.shiftl (u8 x1) 8)) 15) in
  Z.land (Z.lor (u8 z) (Z.shiftl (u8 (u8 w)) 8)) 4095 =
  Z.land (Z.lor (u8 z) (Z.shiftl (u8 x0) 8)) 4095.
Proof.
  cbv zeta. bits_norm. Z.bitblast;
    repeat match goal with
           | |- context [Z.testbit ?a ?j] => rewrite (Z.testbit_neg_r a j) by lia
           end; btauto.
Qed.

(** ** The entry of a cluster after it is set *)

Lemma fat_entry_set_same fmp fmp' cl next :
  fat_kind_ok fmp -> same_geometry fmp fmp' ->
  (forall s o, blk_data (dev fmp') s o = fat_poke fmp cl next s o) ->
  fat_entry fmp' cl = Z.land next (fat_mask fmp).
Proof.
  intros Hk Hg Hd.
  destruct (same_geometry_loc _ _ cl Hg) as (L0 & L1 & F12 & F16 & Fm).
  pose proof (fat_loc_neq fmp cl) as Hne.
  unfold fat_entry, fat_word, blk_byte. rewrite L0, L1, !Hd.
  unfold fat_poke, at_loc.
  destruct (fat_loc0 fmp cl) as [s0 o0], (fat_loc1 fmp cl) as [s1 o1].
  cbn [fst snd]. rewrite !Z.eqb_refl. cbn [andb].
  assert (E : (s1 =? s0) && (o1 =? o0) = false).
  { apply andb_false_iff.
    destruct (Z.eqb_spec s1 s0), (Z.eqb_spec o1 o0); auto. subst. congruence. }
  rewrite E, word_of_bytes.
  unfold entry_of_word, word_with_entry. rewrite F12.
  destruct (fat_kind_cases fmp Hk) as [(K12 & K16 & Km)|(K12 & K16 & Km)];
    rewrite K12, Km.
  - destruct (Z.land cl 1 =? 0); [apply entry12_even|apply entry12_odd].
  - apply entry16.
Qed.

(** ** The bytes of the table, when it does not wrap *)

Lemma land_1_mod2 c : (Z.land c 1 =? 0) = (c mod 2 =? 0).
Proof.
  change 1 with (Z.ones 1). rewrite Z.land_ones by lia. reflexivity.
Qed.

Lemma fat_pos_no_wrap fmp cl :
  fat_kind_ok fmp -> fat_index fmp cl ->
  fat_pos fmp cl = (if FAT16 fmp then cl * 2 else cl * 3 / 2) /\
  0 <= fat_pos fmp cl <= 131070.
Proof.
  unfold fat_index, fat_pos, u32. intros Hk Hc.
  destruct (fat_kind_cases fmp Hk) as [(K12 & K16 & Km)|(K12 & K16 & Km)];
    rewrite K16; rewrite Km in Hc.
  - rewrite Z.mod_small by lia. split; [reflexivity|].
    Z.div_mod_to_equations. lia.
  - rewrite Z.mod_small by lia. split; [reflexivity|]. lia.
Qed.

Lemma fat_loc_bytes fmp cl :
  fat_kind_ok fmp -> fat_region_ok fmp -> fat_index fmp cl ->
  fat_loc0 fmp cl = fat_byte_loc fmp (fat_pos fmp cl) /\
  fat_loc1 fmp cl = fat_byte_loc fmp (fat_pos fmp cl + 1).
Proof.
  intros Hk [Hs1 Hs2] Hc.
  destruct (fat_pos_no_wrap fmp cl Hk Hc) as [_ Hp].
  unfold fat_loc1, fat_loc0, fat_byte_loc, SEC_SIZE.
  set (g := fat_pos fmp cl) in *.
  assert (E : u32 (g / 512 + fat_start fmp) = fat_start fmp + g / 512).
  { rewrite u32_small; [lia|]. Z.div_mod_to_equations. lia. }
  rewrite E. split; [reflexivity|].
  destruct (Z.eqb_spec (g mod 512) (512 - 1)) as [Eb|Eb].
  - rewrite u32_small by (Z.div_mod_to_equations; lia).
    f_equal; Z.div_mod_to_equations; lia.
  - f_equal; Z.div_mod_to_equations; lia.
Qed.

Lemma fat_byte_loc_inj fmp h h' :
  0 <= h -> 0 <= h' ->
  at_loc (fat_byte_loc fmp h) (fst (fat_byte_loc fmp h')) (snd (fat_byte_loc fmp h'))
  = (h' =? h).
Proof.
  intros Hh Hh'. unfold at_loc, fat_byte_loc, SEC_SIZE. cbn [fst snd].
  destruct (Z.eqb_spec h' h) as [->|Hne].
  - rewrite !Z.eqb_refl. reflexivity.
  - apply andb_false_iff.
    destruct (Z.eqb_spec (fat_start fmp + h' / 512) (fat_start fmp + h / 512));
      destruct (Z.eqb_spec (h' mod 512) (h mod 512)); auto.
    exfalso. Z.div_mod_to_equations. lia.
Qed.

Lemma fat_word_bytes fmp cl :
  fat_kind_ok fmp -> fat_region_ok fmp -> fat_index fmp cl ->
  fat_word fmp cl =
  Z.lor (fat_byte fmp (fat_pos fmp cl))
        (Z.shiftl (fat_byte fmp (fat_pos fmp cl + 1)) 8).
Proof.
  intros Hk Hr Hc. destruct (fat_loc_bytes fmp cl Hk Hr Hc) as [L0 L1].
  unfold fat_word, fat_byte. rewrite L0, L1. reflexivity.
Qed.

(** Byte [h] of the table after the entry of [cl] is set. *)
Lemma fat_byte_poked fmp fmp' cl next h :
  fat_kind_ok fmp -> fat_region_ok fmp -> fat_index fmp cl ->
  same_geometry fmp fmp' ->
  (forall s o, blk_data (dev fmp') s o = fat_poke fmp cl next s o) ->
  0 <= h ->
  fat_byte fmp' h =
  let w := word_with_entry fmp cl next (fat_word fmp cl) in
  if h =? fat_pos fmp cl then u8 (u8 w)
  else if h =? fat_pos fmp cl + 1 then u8 (u8 (Z.shiftr w 8))
  else fat_byte fmp h.
Proof.
  intros Hk Hr Hc Hg Hd Hh.
  destruct (fat_loc_bytes fmp cl Hk Hr Hc) as [L0 L1].
  destruct (fat_pos_no_wrap fmp cl Hk Hc) as [_ Hp].
  assert (Es : fat_byte_loc fmp' h = fat_byte_loc fmp h).
  { unfold fat_byte_loc. destruct Hg as (_ & _ & <- & _). reflexivity. }
  unfold fat_byte, blk_byte. rewrite Es, Hd. unfold fat_poke.
  rewrite L0, L1, !fat_byte_loc_inj by lia.
  cbv zeta.
  destruct (h =? fat_pos fmp cl); [reflexivity|].
  destruct (h =? fat_pos fmp cl + 1); reflexivity.
Qed.

(** Setting the entry of [cl] leaves the entry of every other cluster as
    it was. *)
Lemma fat_entry_set_other fmp fmp' cl next cl' :
  fat_kind_ok fmp -> fat_region_ok fmp ->
  fat_index fmp cl -> fat_index fmp cl' -> cl' <> cl ->
  same_geometry fmp fmp' ->
  (forall s o, blk_data (dev fmp') s o = fat_poke fmp cl next s o) ->
  fat_entry fmp' cl' = fat_entry fmp cl'.
Proof.
  intros Hk Hr Hc Hc' Hne Hg Hd.
  assert (Hk' : fat_kind_ok fmp') by (eapply fat_kind_ok_same; eassumption).
  assert (Hr' : fat_region_ok fmp').
  { unfold fat_region_ok in *. destruct Hg as (_ & _ & <- & _). assumption. }
  assert (Hi' : fat_index fmp' cl').
  { unfold fat_index in *. destruct Hg as (_ & _ & _ & _ & _ & _ & _ & _ & <- & _).
    assumption. }
  destruct (same_geometry_loc _ _ cl' Hg) as (_ & _ & F12 & F16 & Fm).
  assert (Ep : fat_pos fmp' cl' = fat_pos fmp cl').
  { unfold fat_pos. rewrite F16. reflexivity. }
  destruct (fat_pos_no_wrap fmp cl Hk Hc) as [Hp Hpr].
  destruct (fat_pos_no_wrap fmp cl' Hk Hc') as [Hp' Hpr'].
  unfold fat_entry.
  rewrite (fat_word_bytes fmp' cl' Hk' Hr' Hi'), (fat_word_bytes fmp cl' Hk Hr Hc').
  rewrite Ep.
  rewrite !(fat_byte_poked fmp fmp' cl next) by (assumption || lia).
  cbv zeta. unfold entry_of_word. rewrite F12.
  set (g := fat_pos fmp cl) in *. set (g' := fat_pos fmp cl') in *.
  unfold word_with_entry.
  rewrite (fat_word_bytes fmp cl Hk Hr Hc). fold g.
  unfold fat_index in *.
  destruct (fat_kind_cases fmp Hk) as [(K12 & K16 & Km)|(K12 & K16 & Km)];
    rewrite K12; rewrite K16 in Hp, Hp'; rewrite Km in *.
  - rewrite !land_1_mod2.
    destruct (Z.eqb_spec (cl mod 2) 0) as [Ev|Od];
      destruct (Z.eqb_spec (cl' mod 2) 0) as [Ev'|Od'].
    + assert (g' <> g /\ g' <> g + 1 /\ g' + 1 <> g /\ g' + 1 <> g + 1)
        as (N1 & N2 & N3 & N4) by (Z.div_mod_to_equations; lia).
      bool_cases; reflexivity.
    + destruct (Z.eq_dec cl' (cl + 1)) as [En|En].
      * assert (g' = g + 1) as -> by (Z.div_mod_to_equations; lia).
        bool_cases; unfold fat_byte, blk_byte; apply frame12_even.
      * assert (g' <> g /\ g' <> g + 1 /\ g' + 1 <> g /\ g' + 1 <> g + 1)
          as (N1 & N2 & N3 & N4) by (Z.div_mod_to_equations; lia).
        bool_cases; reflexivity.
    + destruct (Z.eq_dec cl (cl' + 1)) as [En|En].
      * assert (g = g' + 1) as Eg by (Z.div_mod_to_equations; lia).
        rewrite Eg.
        bool_cases; unfold fat_byte, blk_byte; apply frame12_odd.
      * assert (g' <> g /\ g' <> g + 1 /\ g' + 1 <> g /\ g' + 1 <> g + 1)
          as (N1 & N2 & N3 & N4) by (Z.div_mod_to_equations; lia).
        bool_cases; reflexivity.
    + assert (g' <> g /\ g' <> g + 1 /\ g' + 1 <> g /\ g' + 1 <> g + 1)
        as (N1 & N2 & N3 & N4) by (Z.div_mod_to_equations; lia).
      bool_cases; reflexivity.
  - assert (g' <> g /\ g' <> g + 1 /\ g' + 1 <> g /\ g' + 1 <> g + 1)
      as (N1 & N2 & N3 & N4) by lia.
    bool_cases; reflexivity.
Qed.

(** ** Round trip and neighbour isolation *)

(** C1.  On a FAT12 or FAT16 mount whose sector I/O succeeds, for every
    cluster number [c] (the valid ones among them) and every value [v],
    [fat_set_cluster(fmp, c, v)] returns 0 and a following
    [fat_next_cluster(fmp, c, &next)] returns 0 with
    [next == (v & fat_mask)]. *)
Theorem set_then_next_round_trip (fmp : fatfsmount) (c v : Z) :
  fat_kind_ok fmp -> io_ok fmp ->
  exists fmp1 fmp2,
    fat_set_cluster c v fmp = (Ok tt, fmp1) /\
    fat_next_cluster c fmp1 = (Ok (Z.land v (fat_mask fmp)), fmp2).
Proof.
  intros Hk Hio.
  destruct (fat_set_cluster_ok fmp c v Hk Hio) as (fmp1 & Hs & Hg & Hio1 & Hd).
  assert (Hk1 : fat_kind_ok fmp1) by (eapply fat_kind_ok_same; eassumption).
  destruct (fat_next_cluster_ok fmp1 c Hk1 Hio1) as (fmp2 & Hn & _).
  exists fmp1, fmp2. split; [assumption|].
  rewrite Hn, (fat_entry_set_same fmp fmp1 c v Hk Hg Hd). reflexivity.
Qed.

Lemma set_then_next_round_trip_witness :
  fat_kind_ok (demo16 chain234 []) /\ io_ok (demo16 chain234 []) /\
  exists fmp1 fmp2,
    fat_set_cluster 5 74565 (demo16 chain234 []) = (Ok tt, fmp1) /\
    fat_next_cluster 5 fmp1 = (Ok 9029, fmp2).
Proof.
  assert (Hk : fat_kind_ok (demo16 chain234 [])) by (right; split; reflexivity).
  assert (Hio : io_ok (demo16 chain234 [])) by reflexivity.
  split; [exact Hk|split; [exact Hio|]].
  exact (set_then_next_round_trip (demo16 chain234 []) 5 74565 Hk Hio).
Defined.

(** C4.  On a FAT12 mount, [fat_set_cluster(fmp, c, v)] leaves the value
    that [fat_next_cluster] reads for the adjacent cluster [c + 1] or
    [c - 1] as it was, for every 12-bit cluster number [c], the pairs
    whose three packed bytes straddle a sector boundary included. *)
Theorem fat12_neighbour_isolation (fmp : fatfsmount) (c c' v : Z) :
  fat_type fmp = 12 -> fat_mask fmp = 4095 ->
  fat_region_ok fmp -> io_ok fmp ->
  0 <= c <= 4095 -> 0 <= c' <= 4095 -> c' = c + 1 \/ c' = c - 1 ->
  exists stored fmp0 fmp1 fmp2,
    fat_next_cluster c' fmp = (Ok stored, fmp0) /\
    fat_set_cluster c v fmp = (Ok tt, fmp1) /\
    fat_next_cluster c' fmp1 = (Ok stored, fmp2).
Proof.
  intros Ht Hm Hr Hio Hc Hc' Hadj.
  assert (Hk : fat_kind_ok fmp) by (left; split; assumption).
  destruct (fat_next_cluster_ok fmp c' Hk Hio) as (fmp0 & Hn0 & _).
  destruct (fat_set_cluster_ok fmp c v Hk Hio) as (fmp1 & Hs & Hg & Hio1 & Hd).
  assert (Hk1 : fat_kind_ok fmp1) by (eapply fat_kind_ok_same; eassumption).
  destruct (fat_next_cluster_ok fmp1 c' Hk1 Hio1) as (fmp2 & Hn2 & _).
  exists (fat_entry fmp c'), fmp0, fmp1, fmp2.
  split; [assumption|split; [assumption|]].
  rewrite Hn2. f_equal. f_equal.
  apply (fat_entry_set_other fmp fmp1 c v c'); auto;
    unfold fat_index; rewrite ?Hm; lia.
Qed.

Lemma fat12_neighbour_isolation_witness :
  fat_type demo12 = 12 /\ fat_mask demo12 = 4095 /\
  fat_region_ok demo12 /\ io_ok demo12 /\
  0 <= 341 <= 4095 /\ 0 <= 340 <= 4095 /\ (340 = 341 + 1 \/ 340 = 341 - 1) /\
  fat_pos demo12 341 mod SEC_SIZE = SEC_SIZE - 1 /\
  exists stored fmp0 fmp1 fmp2,
    fat_next_cluster 340 demo12 = (Ok stored, fmp0) /\
    fat_set_cluster 341 2989 demo12 = (Ok tt, fmp1) /\
    fat_next_cluster 340 fmp1 = (Ok stored, fmp2).
Proof.
  assert (Hr : fat_region_ok demo12) by (unfold fat_region_ok; cbn; lia).
  assert (H1 : 0 <= 341 <= 4095) by lia.
  assert (H0 : 0 <= 340 <= 4095) by lia.
  assert (Ha : 340 = 341 + 1 \/ 340 = 341 - 1) by (right; reflexivity).
  repeat (split; [first [reflexivity | assumption]|]).
  exact (fat12_neighbour_isolation demo12 341 340 2989
           eq_refl eq_refl Hr eq_refl H1 H0 Ha).
Defined.

(** ** Lookup and enumeration only read *)

Lemma no_write_refl a : no_write a a.
Proof. split; [reflexivity|]. exists []. split; [reflexivity|constructor]. Qed.

Lemma no_write_trans a b c : no_write a b -> no_write b c -> no_write a c.
Proof.
  intros [D1 (l1 & L1 & F1)] [D2 (l2 & L2 & F2)]. split; [congruence|].
  exists (l2 ++ l1). split.
  - rewrite L2, L1. apply app_assoc.
  - apply Forall_app. split; assumption.
Qed.

Lemma read_only_ret {A} (a : A) : read_only (ret a).
Proof. intros fmp. apply no_write_refl. Qed.

Lemma read_only_fail {A} e : read_only (@fail A e).
Proof. intros fmp. apply no_write_refl. Qed.

Lemma read_only_bind {A B} (m : fatfs A) (k : A -> fatfs B) :
  read_only m -> (forall a, read_only (k a)) -> read_only (bind m k).
Proof.
  intros Hm Hk fmp. specialize (Hm fmp). unfold bind.
  destruct (m fmp) as [[a|e| |] fmp']; cbn [snd] in *; try assumption.
  eapply no_write_trans; [exact Hm|apply Hk].
Qed.

Lemma sync_io_read_no_write d sec buf boff :
  let d' := snd (fst (uk_blkdev_sync_io d UK_BLKREQ_READ sec buf boff)) in
  blk_data d' = blk_data d /\ blk_log d' = (UK_BLKREQ_READ, sec) :: blk_log d.
Proof.
  unfold uk_blkdev_sync_io. destruct (hd 0 (blk_faults d) =? 0); split; reflexivity.
Qed.

Lemma read_only_fat_io sec boff : read_only (fat_io UK_BLKREQ_READ sec boff).
Proof.
  intros fmp. unfold fat_io.
  pose proof (sync_io_read_no_write (dev fmp) sec (fat_buf fmp) boff) as [D L].
  destruct (uk_blkdev_sync_io _ _ _ _ _) as [[e d] b]. cbn [fst snd] in *.
  assert (N : no_write fmp (set_dev (set_fat_buf fmp b) d)).
  { split; [exact D|]. exists [(UK_BLKREQ_READ, sec)]. cbn.
    split; [exact L|]. repeat constructor. }
  destruct (e =? 0); exact N.
Qed.

Lemma read_only_dir_io sec : read_only (dir_io UK_BLKREQ_READ sec).
Proof.
  intros fmp. unfold dir_io.
  pose proof (sync_io_read_no_write (dev fmp) sec (dir_buf fmp) 0) as [D L].
  destruct (uk_blkdev_sync_io _ _ _ _ _) as [[e d] b]. cbn [fst snd] in *.
  assert (N : no_write fmp (set_dev (set_dir_buf fmp b) d)).
  { split; [exact D|]. exists [(UK_BLKREQ_READ, sec)]. cbn.
    split; [exact L|]. repeat constructor. }
  destruct (e =? 0); exact N.
Qed.

Lemma read_only_read_fat_entry cl : read_only (read_fat_entry cl).
Proof.
  intros fmp. unfold read_fat_entry.
  apply read_only_bind; [apply read_only_fat_io|]. intros _.
  destruct (_ || _); [apply read_only_ret|apply read_only_fat_io].
Qed.

Lemma read_only_fat_next_cluster cl : read_only (fat_next_cluster cl).
Proof.
  unfold fat_next_cluster.
  apply read_only_bind; [apply read_only_read_fat_entry|].
  intros _ fmp. apply no_write_refl.
Qed.

Section DirectoryReads.
Context `{fatfs_env}.

Lemma read_only_fat_lookup_dirent sec fname :
  read_only (fat_lookup_dirent sec fname).
Proof.
  unfold fat_lookup_dirent, fat_read_dirent.
  apply read_only_bind; [apply read_only_dir_io|].
  intros _ fmp. apply no_write_refl.
Qed.

Lemma read_only_fat_lookup_sectors n : forall sec fname,
  read_only (fat_lookup_sectors n sec fname).
Proof.
  induction n as [|n IH]; intros sec fname; cbn [fat_lookup_sectors].
  - apply read_only_ret.
  - intros fmp.
    pose proof (read_only_fat_lookup_dirent sec fname fmp) as Hd.
    destruct (fat_lookup_dirent sec fname fmp) as [[np|e| |] fmp']; cbn [snd] in *;
      try exact Hd.
    destruct (e =? EAGAIN); [|exact Hd].
    eapply no_write_trans; [exact Hd|apply IH].
Qed.

Lemma read_only_fat_lookup_chain fuel : forall cl fname,
  read_only (fat_lookup_chain fuel cl fname).
Proof.
  induction fuel as [|fuel IH]; intros cl fname fmp; cbn [fat_lookup_chain];
    (destruct (IS_EOFCL fmp cl); [apply no_write_refl|]).
  - apply no_write_refl.
  - apply read_only_bind; [apply read_only_fat_lookup_sectors|].
    intros [np|]; [apply read_only_ret|].
    apply read_only_bind; [apply read_only_fat_next_cluster|].
    intros cl'. apply IH.
Qed.

Lemma read_only_fatfs_lookup_node fuel dnp name :
  read_only (fatfs_lookup_node fuel dnp name).
Proof.
  unfold fatfs_lookup_node. destruct name as [name|]; [|apply read_only_fail].
  destruct (_ =? CL_ROOT); [|apply read_only_fat_lookup_chain].
  intros fmp.
  apply read_only_bind; [apply read_only_fat_lookup_sectors|].
  intros [np|]; [apply read_only_ret|apply read_only_fail].
Qed.

Lemma no_write_fat_get_dirent sec target index fmp :
  no_write fmp (snd (fat_get_dirent sec target index fmp)).
Proof.
  unfold fat_get_dirent, fat_read_dirent.
  pose proof (read_only_dir_io sec fmp) as Hd.
  destruct (dir_io UK_BLKREQ_READ sec fmp) as [[[]|e| |] fmp']; exact Hd.
Qed.

Lemma read_only_fat_get_sectors n : forall sec target index,
  read_only (fat_get_sectors n sec target index).
Proof.
  induction n as [|n IH]; intros sec target index; cbn [fat_get_sectors].
  - apply read_only_ret.
  - intros fmp.
    pose proof (no_write_fat_get_dirent sec target index fmp) as Hd.
    destruct (fat_get_dirent sec target index fmp) as [[[np|e| |] index'] fmp'];
      cbn [snd] in *; try exact Hd.
    destruct (e =? EAGAIN); [|exact Hd].
    eapply no_write_trans; [exact Hd|apply IH].
Qed.

Lemma read_only_fat_get_chain fuel : forall cl target index,
  read_only (fat_get_chain fuel cl target index).
Proof.
  induction fuel as [|fuel IH]; intros cl target index fmp; cbn [fat_get_chain];
    (destruct (IS_EOFCL fmp cl); [apply no_write_refl|]).
  - apply no_write_refl.
  - apply read_only_bind; [apply read_only_fat_get_sectors|].
    intros [np|index']; [apply read_only_ret|].
    apply read_only_bind; [apply read_only_fat_next_cluster|].
    intros cl'. apply IH.
Qed.

Lemma read_only_fatfs_get_node fuel dnp index np :
  read_only (fatfs_get_node fuel dnp index np).
Proof.
  unfold fatfs_get_node.
  destruct (_ =? CL_ROOT); [|apply read_only_fat_get_chain].
  destruct (index =? 0); [apply read_only_ret|].
  destruct (index =? 1); [apply read_only_ret|].
  intros fmp.
  apply read_only_bind; [apply read_only_fat_get_sectors|].
  intros [np'|]; [apply read_only_ret|apply read_only_fail].
Qed.

(** C10.  [fatfs_lookup_node] and [fatfs_get_node] issue read requests
    only: whatever the directory handle, the name or index, the outcome
    of each request and the return value, every request they add to the
    device log is a read and the device contents (the FAT and the
    directories with them) are the ones they started from.  This holds
    of every prefix of a run, so also of a run that does not end. *)
Theorem lookup_and_get_node_only_read (fuel : nat) (dnp np : fatfs_node)
        (name : option (list Z)) (index : Z) (fmp : fatfsmount) :
  let after_lookup := snd (fatfs_lookup_node fuel dnp name fmp) in
  let after_get := snd (fatfs_get_node fuel dnp index np fmp) in
  (blk_data (dev after_lookup) = blk_data (dev fmp) /\
   only_reads fmp after_lookup) /\
  (blk_data (dev after_get) = blk_data (dev fmp) /\
   only_reads fmp after_get).
Proof.
  split.
  - apply (read_only_fatfs_lookup_node fuel dnp name fmp).
  - apply (read_only_fatfs_get_node fuel dnp index np fmp).
Qed.

End DirectoryReads.

(** The directory store on the root directory [demo_dir]: a lookup skips
    the volume label and the deleted record and finds FILE.TXT in the
    third slot of sector 3; index 2 of the enumeration, the first after
    the two synthesized entries, is the same record; a name that is not
    there ends on the end-of-directory marker with [ENOENT]. *)
Example lookup_file_txt :
  fst (fatfs_lookup_node (H := demo_env) 4 root_node (Some file_txt) (demo_dir []))
  = Ok (mk_fatfs_node (mk_fat_dirent file_txt 32 (repeat 0 10) 0 0 2 100) 3 64).
Proof. vm_compute. reflexivity. Qed.

Example lookup_missing :
  let r := fatfs_lookup_node (H := demo_env) 4 root_node
             (Some [78; 79; 78; 69; 32; 32; 32; 32; 32; 32; 32]) (demo_dir []) in
  fst r = Err ENOENT /\ blk_log (dev (snd r)) = [(UK_BLKREQ_READ, 3)].
Proof. vm_compute. split; reflexivity. Qed.

Example get_node_first_record :
  fst (fatfs_get_node (H := demo_env) 4 root_node 2 root_node (demo_dir []))
  = Ok (mk_fatfs_node (mk_fat_dirent file_txt 32 (repeat 0 10) 0 0 2 100) 3 64).
Proof. vm_compute. reflexivity. Qed.

Example get_node_dot :
  fst (fatfs_get_node (H := demo_env) 4 root_node 0 root_node (demo_dir []))
  = Ok (mk_fatfs_node
          (mk_fat_dirent (46 :: repeat 32 10) 16 [] 0 0 0 0) __U32_MAX 0).
Proof. vm_compute. reflexivity. Qed.

(** A directory on the chain 2 -> 3 -> 4: the lookup reads the four
    sectors of each cluster and follows the FAT between them. *)
Example lookup_in_subdirectory :
  let dnp := mk_fatfs_node (mk_fat_dirent [] 16 [] 0 0 2 0) 3 96 in
  let r := fatfs_lookup_node (H := demo_env) 8 dnp (Some file_txt) (demo_dir []) in
  fst r = Err ENOENT /\
  rev (map snd (blk_log (dev (snd r))))
  = [5; 6; 7; 8; 1; 9; 10; 11; 12; 1; 13; 14; 15; 16; 1].
Proof. vm_compute. split; reflexivity. Qed.

(** ** No operation of fatfs_fat.c assigns a field of the geometry *)

Lemma same_geometry_refl a : same_geometry a a.
Proof. unfold same_geometry. repeat split. Qed.

Lemma keeps_geometry_ret {A} (a : A) : keeps_geometry (ret a).
Proof. intros fmp. apply same_geometry_refl. Qed.

Lemma keeps_geometry_fail {A} e : keeps_geometry (@fail A e).
Proof. intros fmp. apply same_geometry_refl. Qed.

Lemma keeps_geometry_bind {A B} (m : fatfs A) (k : A -> fatfs B) :
  keeps_geometry m -> (forall a, keeps_geometry (k a)) ->
  keeps_geometry (bind m k).
Proof.
  intros Hm Hk fmp. specialize (Hm fmp). unfold bind.
  destruct (m fmp) as [[a|e| |] fmp']; cbn [snd] in *; try assumption.
  eapply same_geometry_trans; [exact Hm|apply Hk].
Qed.

Lemma keeps_geometry_fat_io op sec boff : keeps_geometry (fat_io op sec boff).
Proof.
  intros fmp. unfold fat_io.
  destruct (uk_blkdev_sync_io _ _ _ _ _) as [[e d] b].
  destruct (e =? 0); unfold same_geometry; cbn; repeat split.
Qed.

Lemma keeps_geometry_read_fat_entry cl : keeps_geometry (read_fat_entry cl).
Proof.
  intros fmp. unfold read_fat_entry.
  apply keeps_geometry_bind; [apply keeps_geometry_fat_io|]. intros _.
  destruct (_ || _); [apply keeps_geometry_ret|apply keeps_geometry_fat_io].
Qed.

Lemma keeps_geometry_fat_next_cluster cl : keeps_geometry (fat_next_cluster cl).
Proof.
  unfold fat_next_cluster.
  apply keeps_geometry_bind; [apply keeps_geometry_read_fat_entry|].
  intros _ fmp. apply same_geometry_refl.
Qed.

Lemma keeps_geometry_fat_alloc_scan fuel : forall scan_start cl,
  keeps_geometry (fat_alloc_scan fuel scan_start cl).
Proof.
  induction fuel as [|fuel IH]; intros scan_start cl; cbn [fat_alloc_scan];
    (destruct (cl =? scan_start); [apply keeps_geometry_fail|]).
  - intros fmp. apply same_geometry_refl.
  - apply keeps_geometry_bind; [apply keeps_geometry_fat_next_cluster|].
    intros next. destruct (next =? CL_FREE); [apply keeps_geometry_ret|].
    intros fmp. apply IH.
Qed.

Lemma keeps_geometry_fat_alloc_cluster fuel scan_start :
  keeps_geometry (fat_alloc_cluster fuel scan_start).
Proof. intros fmp. apply keeps_geometry_fat_alloc_scan. Qed.

Lemma keeps_geometry_write_fat_entry cl : keeps_geometry (write_fat_entry cl).
Proof.
  intros fmp. unfold write_fat_entry.
  apply keeps_geometry_bind; [apply keeps_geometry_fat_io|]. intros _.
  destruct (_ || _); [apply keeps_geometry_ret|apply keeps_geometry_fat_io].
Qed.

Lemma keeps_geometry_fat_set_cluster cl next :
  keeps_geometry (fat_set_cluster cl next).
Proof.
  unfold fat_set_cluster.
  apply keeps_geometry_bind; [apply keeps_geometry_read_fat_entry|]. intros _.
  apply keeps_geometry_bind; [|intros _; apply keeps_geometry_write_fat_entry].
  intros fmp. apply same_geometry_set_fat_buf.
Qed.

(** ** The allocation cursor *)

(** The cursor is never stored.  [fat_alloc_cluster] reads [free_scan]
    and has no assignment to it: after every call, whatever the scan
    start, the outcome or the clusters examined, [free_scan] holds the
    value it had before, so that a call with [scan_start == 0] scans
    from that same value exactly as a call with
    [scan_start == free_scan] does.  The comment of the function
    promises otherwise ("If 0, use the previous used value"). *)
Theorem fat_alloc_cluster_keeps_free_scan (fuel : nat) (scan_start : Z)
        (fmp : fatfsmount) :
  free_scan (snd (fat_alloc_cluster fuel scan_start fmp)) = free_scan fmp /\
  fat_alloc_cluster fuel 0 fmp = fat_alloc_cluster fuel (free_scan fmp) fmp.
Proof.
  split.
  - pose proof (keeps_geometry_fat_alloc_cluster fuel scan_start fmp) as G.
    unfold same_geometry in G. symmetry. apply G.
  - unfold fat_alloc_cluster. cbn [Z.eqb].
    destruct (Z.eqb_spec (free_scan fmp) 0) as [E|E]; [rewrite E|]; reflexivity.
Qed.

(** C9: the cursor [free_scan] is not advanced by an allocation,
    against the claim and against the comment of [fat_alloc_cluster]
    ("@scan_start: cluster# to scan first. If 0, use the previous used
    value").  On the volume with clusters 2, 3 and 4 in use and the
    cursor at 2, a call with [scan_start == 0] examines clusters 3, 4
    and 5 (three reads of the FAT sector) and returns 5, yet [free_scan]
    is not 5 afterwards, and the next call with [scan_start == 0] does
    not resume from 5: it examines 3, 4 and 5 again and returns the same
    cluster 5. *)
Lemma free_scan_not_advanced :
  let first := fat_alloc_cluster 8 0 (demo16 chain234 []) in
  let second := fat_alloc_cluster 8 0 (snd first) in
  fst first = Ok 5 /\
  blk_log (dev (snd first)) = repeat (UK_BLKREQ_READ, 1) 3 /\
  free_scan (snd first) <> 5 /\
  fst second = Ok 5 /\
  blk_log (dev (snd second)) = repeat (UK_BLKREQ_READ, 1) 6.
Proof.
  vm_compute. repeat split. discriminate.
Qed.

(** ** Rewriting a node *)

Lemma dir_io_fault op sec fmp e rest :
  blk_faults (dev fmp) = e :: rest -> e <> 0 ->
  dir_io op sec fmp =
  (Err e, set_dev (set_dir_buf fmp (dir_buf fmp))
            (mk_blkdev (blk_data (dev fmp)) rest ((op, sec) :: blk_log (dev fmp)))).
Proof.
  intros Hf He. apply Z.eqb_neq in He.
  unfold dir_io, uk_blkdev_sync_io. rewrite Hf. cbn [hd tl].
  rewrite He. cbv iota beta. rewrite He. reflexivity.
Qed.

(** C7, as the code has it.  [fatfs_put_node] does not test the sector
    of the node against the sentinel: for a node that carries the
    all-ones sector it requests a read of sector 0xFFFFFFFF, and when the
    device fails that read it returns the device's error unchanged,
    having issued no write and changed nothing on the device. *)
Theorem fatfs_put_node_sentinel_read_fault (fmp : fatfsmount)
        (np : fatfs_node) (e : Z) (rest : list Z) :
  sector np = __U32_MAX ->
  blk_faults (dev fmp) = e :: rest -> e <> 0 ->
  exists fmp',
    fatfs_put_node np fmp = (Err e, fmp') /\
    blk_data (dev fmp') = blk_data (dev fmp) /\
    blk_log (dev fmp') = (UK_BLKREQ_READ, __U32_MAX) :: blk_log (dev fmp).
Proof.
  intros Hs Hf He.
  unfold fatfs_put_node, bind, fat_read_dirent.
  rewrite (dir_io_fault _ _ _ e rest Hf He), Hs.
  eexists. split; [reflexivity|]. split; reflexivity.
Qed.

Lemma fatfs_put_node_sentinel_read_fault_witness :
  let np := synth_node (H := demo_env) root_node 1 0 in
  let fmp := demo16 chain234 [EIO] in
  sector np = __U32_MAX /\ blk_faults (dev fmp) = [EIO] /\ EIO <> 0 /\
  exists fmp',
    fatfs_put_node np fmp = (Err EIO, fmp') /\
    blk_data (dev fmp') = blk_data (dev fmp) /\
    blk_log (dev fmp') = (UK_BLKREQ_READ, __U32_MAX) :: blk_log (dev fmp).
Proof.
  cbv zeta.
  assert (He : EIO <> 0) by discriminate.
  split; [reflexivity|split; [reflexivity|split; [exact He|]]].
  exact (fatfs_put_node_sentinel_read_fault (demo16 chain234 [EIO])
           (synth_node (H := demo_env) root_node 1 0) EIO [] eq_refl eq_refl He).
Defined.

(** C7 as stated fails: the node that [fatfs_get_node] synthesizes for
    index 0 of the root directory carries the sentinel sector, and on a
    device that serves sector 0xFFFFFFFF [fatfs_put_node] returns 0 for
    it, having written its record (the name [.] padded with blanks and
    the attribute byte) to that sector. *)
Lemma fatfs_put_node_persists_sentinel :
  let fmp := demo16 chain234 [] in
  exists np,
    fst (fatfs_get_node (H := demo_env) 4 root_node 0 root_node fmp) = Ok np /\
    sector np = __U32_MAX /\
    fst (fatfs_put_node np fmp) = Ok tt /\
    blk_log (dev (snd (fatfs_put_node np fmp))) =
      [(UK_BLKREQ_WRITE, __U32_MAX); (UK_BLKREQ_READ, __U32_MAX)] /\
    map (blk_data (dev fmp) __U32_MAX) [0; 1; 10; 11] = [246; 246; 246; 246] /\
    map (blk_data (dev (snd (fatfs_put_node np fmp))) __U32_MAX) [0; 1; 10; 11]
      = [46; 32; 32; 16].
Proof.
  cbv zeta. eexists. split; [vm_compute; reflexivity|]. vm_compute. repeat split.
Qed.

(** ** What the chain walks return *)

Lemma IS_EOFCL_same a b cl : same_geometry a b -> IS_EOFCL b cl = IS_EOFCL a cl.
Proof.
  unfold IS_EOFCL. intros (_ & _ & _ & _ & <- & _). reflexivity.
Qed.

(** The walk of [fat_expand_dir] can only stop on an end-of-chain value:
    whatever the chain, the cluster number that the function then scans
    from and whose entry it assigns is not a cluster of the chain. *)
Lemma fat_dir_walk_stops_on_eof fuel : forall cl fmp c fmp',
  fat_dir_walk fuel cl fmp = (Ok c, fmp') ->
  IS_EOFCL fmp c = true /\ same_geometry fmp fmp'.
Proof.
  induction fuel as [|fuel IH]; intros cl fmp c fmp'; cbn [fat_dir_walk];
    destruct (IS_EOFCL fmp cl) eqn:E.
  - intros [= <- <-]. split; [assumption|apply same_geometry_refl].
  - discriminate.
  - intros [= <- <-]. split; [assumption|apply same_geometry_refl].
  - unfold bind.
    pose proof (keeps_geometry_fat_next_cluster cl fmp) as G.
    destruct (fat_next_cluster cl fmp) as [[next|e| |] fmp1]; cbn [snd] in G;
      try discriminate.
    intros H. destruct (IH _ _ _ _ H) as [He G'].
    split; [|eapply same_geometry_trans; eassumption].
    rewrite <- (IS_EOFCL_same _ _ c G). assumption.
Qed.

(** The same for the walk of [fat_free_clusters]. *)
Lemma fat_free_walk_stops_on_eof fuel : forall cl fmp c fmp',
  fat_free_walk fuel cl fmp = (Ok c, fmp') -> fat_eof fmp <= c.
Proof.
  induction fuel as [|fuel IH]; intros cl fmp c fmp'; cbn [fat_free_walk];
    destruct (IS_EOFCL fmp cl) eqn:E.
  - intros [= <- <-]. apply Z.leb_le. assumption.
  - discriminate.
  - intros [= <- <-]. apply Z.leb_le. assumption.
  - unfold bind.
    pose proof (keeps_geometry_fat_next_cluster cl fmp) as G.
    destruct (fat_next_cluster cl fmp) as [[next|e| |] fmp1]; cbn [snd] in G;
      try discriminate.
    pose proof (keeps_geometry_fat_set_cluster cl CL_FREE fmp1) as G1.
    destruct (fat_set_cluster cl CL_FREE fmp1) as [[[]|e| |] fmp2]; cbn [snd] in G1;
      try discriminate.
    intros H. apply IH in H.
    destruct G as (_ & _ & _ & _ & -> & _).
    destruct G1 as (_ & _ & _ & _ & -> & _). assumption.
Qed.

(** A reserved starting cluster is refused before any I/O. *)
Lemma fat_free_clusters_reserved fuel start fmp :
  start < CL_FIRST -> fat_free_clusters fuel start fmp = (Err EINVAL, fmp).
Proof.
  intros H. unfold fat_free_clusters.
  destruct (Z.ltb_spec start CL_FIRST); [reflexivity|lia].
Qed.

(** ** Where allocation stays in range

    When the first candidate [scan_start + 1] is a valid cluster, so is
    every later one, and the cluster returned is the one whose entry the
    last read found free. *)
Lemma fat_alloc_scan_in_range fuel : forall scan_start cl fmp f fmp',
  last_cluster fmp < 4294967296 ->
  valid_cluster fmp cl ->
  fat_alloc_scan fuel scan_start cl fmp = (Ok f, fmp') ->
  valid_cluster fmp f /\
  exists fmp0, fat_next_cluster f fmp0 = (Ok CL_FREE, fmp').
Proof.
  induction fuel as [|fuel IH]; intros s cl fmp f fmp' Hl Hv; cbn [fat_alloc_scan];
    destruct (cl =? s); try discriminate.
  unfold bind.
  pose proof (keeps_geometry_fat_next_cluster cl fmp) as G.
  destruct (fat_next_cluster cl fmp) as [[next|e| |] fmp1] eqn:Hn; cbn [snd] in G;
    try discriminate.
  destruct (Z.eqb_spec next CL_FREE) as [->|Hne].
  - intros [= <- <-]. split; [assumption|]. exists fmp. assumption.
  - intros H.
    assert (L : last_cluster fmp1 = last_cluster fmp) by (symmetry; apply G).
    assert (Hv1 : valid_cluster fmp1
                    (if last_cluster fmp1 <=? u32 (cl + 1)
                     then CL_FIRST else u32 (cl + 1))).
    { unfold valid_cluster, CL_FIRST in *. rewrite L.
      pose proof (u32_range (cl + 1)).
      destruct (Z.leb_spec (last_cluster fmp) (u32 (cl + 1))); [lia|].
      assert (u32 (cl + 1) = cl + 1); [|lia].
      apply u32_small. lia. }
    assert (Hl1 : last_cluster fmp1 < 4294967296) by (rewrite L; assumption).
    destruct (IH _ _ _ _ _ Hl1 Hv1 H) as [Hf Hr].
    split; [|assumption]. unfold valid_cluster in *. rewrite <- L. assumption.
Qed.

Lemma fat_alloc_cluster_in_range fuel scan_start fmp f fmp' :
  last_cluster fmp < 4294967296 ->
  valid_cluster fmp
    (u32 ((if scan_start =? 0 then free_scan fmp else scan_start) + 1)) ->
  fat_alloc_cluster fuel scan_start fmp = (Ok f, fmp') ->
  valid_cluster fmp f /\
  exists fmp0, fat_next_cluster f fmp0 = (Ok CL_FREE, fmp').
Proof.
  intros Hl Hv. unfold fat_alloc_cluster.
  apply fat_alloc_scan_in_range; assumption.
Qed.

(** ** Where the code departs from its contract

    The four lemmas below evaluate the code on the FAT16 volume
    [demo16 chain234]: clusters 2 -> 3 -> 4 -> EOF in use, 5 .. 9 free,
    [last_cluster = 10], cursor at 2. *)

(** C5.  [fat_alloc_cluster] tests its first candidate [scan_start + 1]
    without comparing it with [last_cluster]: started from the last
    valid cluster 9 it examines entry 10, which the zero padding of the
    FAT sector makes read as free, and returns cluster 10, outside
    [[CL_FIRST, last_cluster)].  (When the first candidate is a valid
    cluster the result is one too: [fat_alloc_cluster_in_range].) *)
Lemma fat_alloc_cluster_out_of_range :
  let fmp := demo16 chain234 [] in
  valid_cluster fmp 9 /\
  fst (fat_alloc_cluster 8 9 fmp) = Ok 10 /\
  ~ valid_cluster fmp 10.
Proof.
  cbv zeta. unfold valid_cluster, CL_FIRST. cbn [last_cluster demo16].
  split; [lia|]. split; [vm_compute; reflexivity|lia].
Qed.

(** C3.  [fat_free_clusters] on the chain 2 -> 3 -> 4 -> EOF frees the
    entries of 2, 3 and 4 and then, with [cl] holding the end-of-chain
    value 0xFFFF it stopped on, sets the entry numbered 0xFFFF as well:
    it reads and writes sector 256, far outside the FAT, and clears the
    bytes 510 and 511 of that sector. *)
Lemma fat_free_clusters_writes_past_eof :
  let fmp := demo16 chain234 [] in
  let fmp' := snd (fat_free_clusters 8 2 fmp) in
  fst (fat_free_clusters 8 2 fmp) = Ok tt /\
  map (fat_entry fmp) [2; 3; 4] = [3; 4; 65535] /\
  map (fat_entry fmp') [2; 3; 4] = [0; 0; 0] /\
  firstn 2 (blk_log (dev fmp')) =
    [(UK_BLKREQ_WRITE, 256); (UK_BLKREQ_READ, 256)] /\
  map (blk_data (dev fmp) 256) [510; 511] = [246; 246] /\
  map (blk_data (dev fmp') 256) [510; 511] = [0; 0].
Proof.
  vm_compute. repeat split.
Qed.

(** C2.  [fat_expand_dir] leaves its walk with [cl] holding the
    end-of-chain value 0xFFFF, not the last cluster 4: it scans for a
    free cluster from 0xFFFF, finds 5, stores the link to 5 in the entry
    numbered 0xFFFF (sector 256) and marks 5 as end of chain.  The entry
    of the last cluster 4 still holds the end-of-chain value, so 5 is
    not reachable from the directory's chain. *)
Lemma fat_expand_dir_does_not_link :
  let fmp := demo16 chain234 [] in
  let fmp' := snd (fat_expand_dir 8 2 fmp) in
  fst (fat_expand_dir 8 2 fmp) = Ok 5 /\
  map (fat_entry fmp') [2; 3; 4; 5] = [3; 4; 65535; 65528] /\
  fst (fat_next_cluster 4 fmp') = Ok 65535 /\
  fat_entry fmp' 65535 = 5 /\
  firstn 4 (blk_log (dev fmp')) =
    [(UK_BLKREQ_WRITE, 1); (UK_BLKREQ_READ, 1);
     (UK_BLKREQ_WRITE, 256); (UK_BLKREQ_READ, 256)].
Proof.
  vm_compute. repeat split.
Qed.

(** C8.  [fat_expand_file] drops the return value of its last
    [fat_set_cluster]: with the device failing the fifth request (the
    write of the end-of-chain marker) with [EIO], the function still
    returns 0 and hands out cluster 5, whose entry on the device has no
    end-of-chain marker. *)
Lemma fat_expand_file_masks_eof_write_error :
  let fmp := demo16 chain234 [0; 0; 0; 0; EIO] in
  let '(r, cl, fmp') := fat_expand_file 8 CL_FREE 1 fmp in
  errno r = Some 0 /\ cl = 5 /\
  firstn 1 (blk_log (dev fmp')) = [(UK_BLKREQ_WRITE, 1)] /\
  length (blk_log (dev fmp')) = 5%nat /\
  blk_faults (dev fmp') = [] /\
  fat_entry fmp' 5 = 0.
Proof.
  vm_compute. repeat split.
Qed.

(** ** The codec on a good mount *)

Lemma good_same_geometry a b :
  same_geometry a b -> io_ok b -> good a -> good b.
Proof.
  intros G Hio (Hk & Hr & _ & He). pose proof G as G'.
  destruct G as (_ & _ & S & _ & E & _ & _ & L & M & _).
  unfold good, fat_region_ok in *.
  split; [eapply fat_kind_ok_same; eassumption|].
  rewrite <- S, <- E, <- L, <- M. auto.
Qed.

Lemma good_same_disk a b : same_disk a b -> good a -> good b.
Proof.
  intros (G & _ & F) Hg. apply (good_same_geometry a b G); [|assumption].
  destruct Hg as (_ & _ & Hio & _). unfold io_ok in *. congruence.
Qed.

Lemma fat_next_cluster_good fmp cl :
  good fmp ->
  exists fmp',
    fat_next_cluster cl fmp = (Ok (fat_entry fmp cl), fmp') /\
    same_disk fmp fmp' /\ good fmp'.
Proof.
  intros Hg. pose proof Hg as (Hk & _ & Hio & _).
  destruct (fat_next_cluster_ok fmp cl Hk Hio) as (fmp' & Hn & Hsd & _).
  exists fmp'. split; [assumption|]. split; [assumption|].
  eapply good_same_disk; eassumption.
Qed.

Lemma reads_entry fmp cl v : good fmp -> reads fmp cl v <-> fat_entry fmp cl = v.
Proof.
  intros Hg. destruct (fat_next_cluster_good fmp cl Hg) as (fmp' & Hn & _).
  unfold reads. rewrite Hn. cbn [fst]. split; congruence.
Qed.

Lemma fat_set_cluster_good fmp cl next :
  good fmp -> fat_index fmp cl ->
  exists fmp',
    fat_set_cluster cl next fmp = (Ok tt, fmp') /\
    same_geometry fmp fmp' /\ good fmp' /\
    fat_entry fmp' cl = Z.land next (fat_mask fmp) /\
    forall cl', fat_index fmp cl' -> cl' <> cl ->
                fat_entry fmp' cl' = fat_entry fmp cl'.
Proof.
  intros Hg Hc. pose proof Hg as (Hk & Hr & Hio & _).
  destruct (fat_set_cluster_ok fmp cl next Hk Hio) as (fmp' & Hs & G & Hio' & Hd).
  exists fmp'. split; [assumption|]. split; [assumption|].
  split; [eapply good_same_geometry; eassumption|].
  split; [apply (fat_entry_set_same fmp fmp' cl next); assumption|].
  intros cl' Hc' Hne.
  apply (fat_entry_set_other fmp fmp' cl next cl'); assumption.
Qed.

Lemma land_mask_small fmp v :
  fat_kind_ok fmp -> 0 <= v <= fat_mask fmp -> Z.land v (fat_mask fmp) = v.
Proof.
  intros Hk Hv.
  destruct (fat_kind_cases fmp Hk) as [(_ & _ & Km)|(_ & _ & Km)];
    rewrite Km in *.
  - change 4095 with (Z.ones 12). rewrite Z.land_ones by lia.
    apply Z.mod_small. change (2 ^ 12) with 4096. lia.
  - change 65535 with (Z.ones 16). rewrite Z.land_ones by lia.
    apply Z.mod_small. change (2 ^ 16) with 65536. lia.
Qed.

Lemma fat_mask_bound fmp : fat_kind_ok fmp -> 0 < fat_mask fmp <= 65535.
Proof.
  intros Hk. destruct (fat_kind_cases fmp Hk) as [(_ & _ & Km)|(_ & _ & Km)]; lia.
Qed.

(** ** The scan for a free cluster *)

(** From [cl], with every entry in [[cl, f)] in use and the entry of [f]
    free, the scan returns [f], provided it does not meet [scan_start]
    or [last_cluster] on the way and has fuel for [f - cl + 1] reads. *)
Lemma fat_alloc_scan_finds fuel : forall fmp scan_start cl f,
  good fmp ->
  0 <= cl -> scan_start < cl \/ f < scan_start ->
  cl <= f < last_cluster fmp ->
  fat_entry fmp f = CL_FREE ->
  (forall k, cl <= k < f -> fat_entry fmp k <> CL_FREE) ->
  (Z.to_nat (f - cl) < fuel)%nat ->
  exists fmp',
    fat_alloc_scan fuel scan_start cl fmp = (Ok f, fmp') /\
    same_disk fmp fmp' /\ good fmp'.
Proof.
  induction fuel as [|fuel IH]; intros fmp s cl f Hg Hcl Hs Hf Hfree Hused Hfuel;
    [lia|].
  cbn [fat_alloc_scan].
  destruct (Z.eqb_spec cl s) as [|_]; [lia|].
  destruct (fat_next_cluster_good fmp cl Hg) as (fmp1 & Hn & Hsd & Hg1).
  unfold bind. rewrite Hn.
  destruct (Z.eqb_spec (fat_entry fmp cl) CL_FREE) as [E|E].
  - assert (cl = f) as ->.
    { destruct (Z.eq_dec cl f); [assumption|]. exfalso. apply (Hused cl); [lia|assumption]. }
    exists fmp1. split; [reflexivity|]. split; assumption.
  - assert (cl < f).
    { destruct (Z.eq_dec cl f); [subst; contradiction|lia]. }
    destruct (same_disk_flags _ _ Hsd) as (_ & _ & _ & _ & L & _).
    pose proof Hg as (Hk & _ & _ & Hb). pose proof (fat_mask_bound fmp Hk).
    rewrite L, u32_small by lia.
    destruct (Z.leb_spec (last_cluster fmp) (cl + 1)) as [|_]; [lia|].
    destruct (IH fmp1 s (cl + 1) f) as (fmp' & Ha & Hsd' & Hg'); try lia.
    + assumption.
    + rewrite (same_disk_entry _ _ _ Hsd). assumption.
    + intros k Hk'. rewrite (same_disk_entry _ _ _ Hsd). apply Hused. lia.
    + exists fmp'. split; [assumption|]. split; [|assumption].
      eapply same_disk_trans; eassumption.
Qed.

(** From [cl], with every candidate up to [last_cluster] in use, the
    scan wraps around to [CL_FIRST] after at most [m + 1] reads. *)
Lemma fat_alloc_scan_wraps : forall (m : nat) fmp scan_start cl,
  good fmp ->
  scan_start < cl -> 0 <= cl < 4294967295 ->
  (Z.to_nat (last_cluster fmp - cl) <= m)%nat ->
  (forall k, cl <= k -> k < last_cluster fmp \/ k = cl ->
             fat_entry fmp k <> CL_FREE) ->
  exists fmp' steps,
    same_disk fmp fmp' /\ good fmp' /\ (steps <= S m)%nat /\
    forall fuel,
      fat_alloc_scan (steps + fuel) scan_start cl fmp
      = fat_alloc_scan fuel scan_start CL_FIRST fmp'.
Proof.
  induction m as [|m IH]; intros fmp s cl Hg Hs Hcl Hm Hused;
    destruct (fat_next_cluster_good fmp cl Hg) as (fmp1 & Hn & Hsd & Hg1);
    destruct (same_disk_flags _ _ Hsd) as (_ & _ & _ & _ & L & _);
    pose proof Hg as (Hk & _ & _ & Hb); pose proof (fat_mask_bound fmp Hk) as Hmask;
    assert (Hstep : forall fuel,
      fat_alloc_scan (S fuel) s cl fmp
      = fat_alloc_scan fuel s
          (if last_cluster fmp <=? cl + 1 then CL_FIRST else cl + 1) fmp1)
    by (intros fuel; cbn [fat_alloc_scan];
        destruct (Z.eqb_spec cl s) as [|_]; [lia|];
        unfold bind; rewrite Hn;
        destruct (Z.eqb_spec (fat_entry fmp cl) CL_FREE) as [E|_];
        [exfalso; apply (Hused cl); [lia|right; reflexivity|exact E]|];
        rewrite L, u32_small by lia; reflexivity).
  - exists fmp1, 1%nat. split; [assumption|]. split; [assumption|].
    split; [lia|]. intros fuel. cbn [Nat.add]. rewrite Hstep.
    destruct (Z.leb_spec (last_cluster fmp) (cl + 1)); [reflexivity|lia].
  - destruct (Z.leb_spec (last_cluster fmp) (cl + 1)) as [Hle|Hgt].
    + exists fmp1, 1%nat. split; [assumption|]. split; [assumption|].
      split; [lia|]. intros fuel. cbn [Nat.add]. rewrite Hstep.
      destruct (Z.leb_spec (last_cluster fmp) (cl + 1)); [reflexivity|lia].
    + destruct (IH fmp1 s (cl + 1) Hg1) as (fmp' & steps & Hsd' & Hg' & Hst & Hrun);
        try lia.
      * intros k Hk1 Hk2. rewrite (same_disk_entry _ _ _ Hsd).
        apply Hused; [lia|]. left. lia.
      * exists fmp', (S steps). split; [eapply same_disk_trans; eassumption|].
        split; [assumption|]. split; [lia|]. intros fuel.
        cbn [Nat.add]. rewrite Hstep.
        destruct (Z.leb_spec (last_cluster fmp) (cl + 1)); [lia|]. apply Hrun.
Qed.

(** The scan of [fat_alloc_cluster] returns the cluster that
    [scan_finds] describes. *)
Lemma fat_alloc_cluster_finds fuel fmp scan_start f :
  good fmp ->
  let s := if scan_start =? 0 then free_scan fmp else scan_start in
  0 <= s <= 65535 ->
  scan_finds (fun k => fat_entry fmp k = CL_FREE) (last_cluster fmp) s f ->
  (Z.to_nat (2 * last_cluster fmp + 2) <= fuel)%nat ->
  exists fmp',
    fat_alloc_cluster fuel scan_start fmp = (Ok f, fmp') /\
    same_disk fmp fmp' /\ good fmp'.
Proof.
  intros Hg s Hs [Hfree Hscan] Hfuel.
  pose proof Hg as (Hk & _ & _ & Hb). pose proof (fat_mask_bound fmp Hk).
  unfold fat_alloc_cluster. fold s.
  rewrite u32_small by lia.
  destruct Hscan as [(Hf & Hused)|(Hf & Hfs & Hup & Hlow)].
  - apply fat_alloc_scan_finds; try assumption; try lia.
    intros k Hk'. apply Hused. lia.
  - destruct (fat_alloc_scan_wraps (Z.to_nat (last_cluster fmp - (s + 1)))
                fmp s (s + 1) Hg)
      as (fmp1 & steps & Hsd & Hg1 & Hst & Hrun); try lia.
    { intros k Hk1 Hk2. apply Hup; [lia|assumption]. }
    destruct (same_disk_flags _ _ Hsd) as (_ & _ & _ & _ & L & _).
    destruct (fat_alloc_scan_finds (fuel - steps) fmp1 s CL_FIRST f Hg1)
      as (fmp' & Ha & Hsd' & Hg'); unfold CL_FIRST in *; try lia.
    + rewrite (same_disk_entry _ _ _ Hsd). assumption.
    + intros k Hk'. rewrite (same_disk_entry _ _ _ Hsd). apply Hlow. assumption.
    + exists fmp'. split; [|split; [eapply same_disk_trans; eassumption|assumption]].
      replace fuel with (steps + (fuel - steps))%nat by lia.
      rewrite Hrun. exact Ha.
Qed.

(** ** Lists of clusters *)

Lemma last_cons (a : Z) l d : last (a :: l) d = last l a.
Proof.
  revert a d. induction l as [|b l IH]; intros a d; [reflexivity|].
  change (last (a :: b :: l) d) with (last (b :: l) d).
  rewrite (IH b d), (IH b a). reflexivity.
Qed.

Lemma removelast_cons2 (a b : Z) l :
  removelast (a :: b :: l) = a :: removelast (b :: l).
Proof. reflexivity. Qed.

Lemma links_ext a b : forall rest cl,
  (forall x, In x (removelast (cl :: rest)) -> fat_entry b x = fat_entry a x) ->
  links a cl rest -> links b cl rest.
Proof.
  induction rest as [|c rest IH]; intros cl E; cbn [links]; [trivial|].
  intros [H0 Hl]. rewrite removelast_cons2 in E. split.
  - rewrite E; [assumption|left; reflexivity].
  - apply IH; [|assumption]. intros x Hx. apply E. right. assumption.
Qed.

Lemma links_app fmp : forall l1 cl l2,
  links fmp cl l1 -> links fmp (last l1 cl) l2 -> links fmp cl (l1 ++ l2).
Proof.
  induction l1 as [|c l1 IH]; intros cl l2; cbn [links app]; [auto|].
  intros [H0 Hl] H2. split; [assumption|]. apply IH; [assumption|].
  rewrite last_cons in H2. assumption.
Qed.

Lemma links_source fmp : forall rest cl x,
  links fmp cl rest -> In x (removelast (cl :: rest)) -> In (fat_entry fmp x) rest.
Proof.
  induction rest as [|c rest IH]; intros cl x Hl Hin; [contradiction|].
  rewrite removelast_cons2 in Hin. destruct Hl as [H0 Hl].
  destruct Hin as [<-|Hin]; [left; symmetry; assumption|].
  right. apply (IH c); assumption.
Qed.

Lemma chain_of_links fmp : forall rest cl,
  good fmp -> links fmp cl rest ->
  Forall (fun x => x < fat_eof fmp) rest ->
  fat_eof fmp <= fat_entry fmp (last rest cl) ->
  chain fmp cl rest.
Proof.
  induction rest as [|c rest IH]; intros cl Hg; cbn [links chain].
  - intros _ _ He. exists (fat_entry fmp cl). split; [|assumption].
    apply reads_entry; [assumption|reflexivity].
  - intros [H0 Hl] Hf He. inversion Hf; subst.
    split; [apply reads_entry; [assumption|reflexivity]|].
    split; [assumption|]. apply IH; try assumption.
    rewrite last_cons in He. assumption.
Qed.

Lemma links_of_chain fmp : forall rest cl,
  good fmp -> chain fmp cl rest ->
  links fmp cl rest /\ fat_eof fmp <= fat_entry fmp (last rest cl).
Proof.
  induction rest as [|c rest IH]; intros cl Hg; cbn [links chain].
  - intros (v & Hv & He). apply reads_entry in Hv; [|assumption].
    cbn [last]. split; [trivial|lia].
  - intros (H0 & _ & Hc). apply reads_entry in H0; [|assumption].
    destruct (IH c Hg Hc) as [Hl He]. rewrite last_cons. auto.
Qed.

Lemma in_removelast (l : list Z) x : In x (removelast l) -> In x l.
Proof.
  induction l as [|a l IH]; [trivial|].
  destruct l as [|b l]; [contradiction|].
  rewrite removelast_cons2. intros [->|Hin]; [left; reflexivity|].
  right. apply IH. assumption.
Qed.

Lemma last_app_default (l1 l2 : list Z) d :
  last (l1 ++ l2) d = last l2 (last l1 d).
Proof.
  revert d. induction l1 as [|a l1 IH]; intros d; [reflexivity|].
  change ((a :: l1) ++ l2) with (a :: l1 ++ l2).
  rewrite !last_cons. apply IH.
Qed.

Lemma in_last_cons (l : list Z) a : In (last l a) (a :: l).
Proof.
  revert a. induction l as [|b l IH]; intros a; [left; reflexivity|].
  rewrite last_cons. right. apply IH.
Qed.

(** ** What the scans find *)

(** [scan_finds] looks at its predicate on the candidates only. *)
Lemma scan_finds_equiv (P Q : Z -> Prop) last s f bound :
  0 <= s -> s + 1 <= bound -> last <= bound + 1 ->
  (forall k, 0 <= k <= bound -> (P k <-> Q k)) ->
  scan_finds P last s f -> scan_finds Q last s f.
Proof.
  unfold scan_finds, CL_FIRST.
  intros Hs Hsb Hl E [Hf Hscan].
  destruct Hscan as [(Hr & Hu)|(Hr & Hfs & Hup & Hlow)].
  - split; [apply E; [lia|assumption]|]. left. split; [assumption|].
    intros k Hk Hq. apply (Hu k Hk). apply E; [lia|assumption].
  - split; [apply E; [lia|assumption]|]. right.
    split; [assumption|]. split; [assumption|]. split.
    + intros k Hk1 Hk2 Hq. apply (Hup k Hk1 Hk2). apply E; [lia|assumption].
    + intros k Hk Hq. apply (Hlow k Hk). apply E; [lia|assumption].
Qed.

Lemma scan_finds_found (P : Z -> Prop) last s f :
  0 <= s -> scan_finds P last s f -> P f /\ 1 <= f < last /\ f <> s.
Proof.
  unfold scan_finds, CL_FIRST. intros Hs [Hf Hscan].
  split; [assumption|]. destruct Hscan as [(Hr & _)|(Hr & Hfs & _)]; lia.
Qed.

Lemma free_seq_equiv (P Q : Z -> Prop) last : forall fs taken s,
  (forall k, P k <-> Q k) ->
  free_seq P last taken s fs -> free_seq Q last taken s fs.
Proof.
  induction fs as [|f fs IH]; intros taken s E; cbn [free_seq]; [trivial|].
  intros [[Hf Hscan] Hr]. split; [|apply IH; assumption].
  split; [rewrite <- E; assumption|].
  destruct Hscan as [(Hr1 & Hu)|(Hr1 & Hfs & Hup & Hlow)]; [left|right].
  - split; [assumption|]. intros k Hk Hq. apply (Hu k Hk). rewrite E. assumption.
  - repeat (split; [assumption|]). split.
    + intros k Hk1 Hk2 Hq. apply (Hup k Hk1 Hk2). rewrite E. assumption.
    + intros k Hk Hq. apply (Hlow k Hk). rewrite E. assumption.
Qed.

(** Every cluster that the scans find is free, in range, not taken
    before, and differs from the cluster the first scan starts from. *)
Lemma free_seq_in (P : Z -> Prop) last : forall fs taken s x,
  0 <= s -> free_seq P last taken s fs -> In x fs ->
  P x /\ 1 <= x < last /\ ~ In x taken /\ x <> s.
Proof.
  induction fs as [|f fs IH]; intros taken s x Hs; cbn [free_seq In]; [tauto|].
  intros [Hscan Hr] Hin.
  destruct (scan_finds_found _ _ _ _ Hs Hscan) as ([Hf Hnt] & Hrange & Hne).
  destruct Hin as [<-|Hin]; [auto|].
  destruct (IH (s :: taken) f x ltac:(lia) Hr Hin) as (Hx & Hxr & Hxt & _).
  split; [assumption|]. split; [assumption|].
  split; intro; apply Hxt; [right; assumption|left; congruence].
Qed.

(** The last cluster found is none of the clusters linked before it. *)
Lemma free_seq_last (P : Z -> Prop) last_cl : forall fs taken s,
  0 <= s -> free_seq P last_cl taken s fs ->
  ~ In (last fs s) (removelast (s :: fs)).
Proof.
  induction fs as [|f fs IH]; intros taken s Hs Hseq; [intros []|].
  rewrite removelast_cons2, last_cons.
  pose proof Hseq as [Hscan Hr].
  destruct (scan_finds_found _ _ _ _ Hs Hscan) as (_ & Hrange & Hne).
  intros [E|Hin].
  - destruct (in_last_cons fs f) as [E'|Hin'].
    + congruence.
    + rewrite <- E in Hin'.
      destruct (free_seq_in P last_cl fs (s :: taken) f s ltac:(lia) Hr Hin')
        as (_ & _ & Hnt & _).
      apply Hnt. left. reflexivity.
  - apply (IH (s :: taken) f ltac:(lia) Hr). assumption.
Qed.

(** ** The loop of [fat_expand_file] *)

Lemma fat_index_same a b c : same_geometry a b -> fat_index a c -> fat_index b c.
Proof.
  unfold fat_index. intros (_ & _ & _ & _ & _ & _ & _ & _ & <- & _). trivial.
Qed.

Lemma same_disk_geometry a b : same_disk a b -> same_geometry a b.
Proof. intros [G _]. exact G. Qed.

Lemma same_geometry_sym a b : same_geometry a b -> same_geometry b a.
Proof. unfold same_geometry. intuition congruence. Qed.

(** Once the loop allocates, it allocates at every step: from [current]
    it appends the clusters [new] that its scans find, one after the
    other, linking each to its predecessor.  [fmp0] is the state the
    scans are described on; the state [fmp] the loop is in differs from
    it on the clusters [taken], which are linked and so in use. *)
Lemma fat_expand_steps_grow fuel : forall new fmp0 taken fmp alloc current,
  good fmp -> same_geometry fmp0 fmp ->
  (forall k, In k taken -> fat_index fmp0 k /\ fat_entry fmp k <> CL_FREE) ->
  (forall k, fat_index fmp0 k -> ~ In k taken ->
             fat_entry fmp k = fat_entry fmp0 k) ->
  1 <= current < last_cluster fmp0 -> ~ In current taken ->
  alloc = true \/ fat_eof fmp <= fat_entry fmp current ->
  free_seq (fun k => fat_entry fmp0 k = CL_FREE) (last_cluster fmp0)
    taken current new ->
  (Z.to_nat (2 * last_cluster fmp0 + 2) <= fuel)%nat ->
  exists fmp',
    fat_expand_steps fuel (length new) alloc current fmp
      = (Ok (grown alloc new, last new current), fmp') /\
    same_geometry fmp fmp' /\ good fmp' /\
    links fmp' current new /\
    forall c, fat_index fmp c -> ~ In c (removelast (current :: new)) ->
              fat_entry fmp' c = fat_entry fmp c.
Proof.
  induction new as [|f new IH];
    intros fmp0 taken fmp alloc current Hg G0 Htk Hinv Hc Hct Hal Hseq Hfuel.
  - exists fmp. split; [reflexivity|]. split; [apply same_geometry_refl|].
    split; [assumption|]. split; [exact I|]. intros; reflexivity.
  - destruct Hseq as [Hscan Hseq].
    pose proof Hg as (Hk & _ & _ & Hb). pose proof (fat_mask_bound fmp Hk) as Hm.
    assert (L0 : last_cluster fmp0 = last_cluster fmp) by apply G0.
    assert (M0 : fat_mask fmp0 = fat_mask fmp) by apply G0.
    assert (Hc0 : 0 <= current) by lia.
    destruct (scan_finds_found _ _ _ _ Hc0 Hscan) as ([Hf0 Hft] & Hfr & Hfc).
    assert (Hf1 : 0 <= f) by lia.
    (* read the entry of [current] *)
    destruct (fat_next_cluster_good fmp current Hg) as (fmp1 & Hn & Hsd1 & Hg1).
    destruct (same_disk_flags _ _ Hsd1) as (_ & _ & M1 & _ & L1 & E1 & _).
    (* allocate *)
    destruct (fat_alloc_cluster_finds fuel fmp1 current f Hg1)
      as (fmp2 & Ha & Hsd2 & Hg2).
    { destruct (Z.eqb_spec current 0); lia. }
    { destruct (Z.eqb_spec current 0); [lia|]. rewrite L1, <- L0.
      apply (scan_finds_equiv
               (fun k => fat_entry fmp0 k = CL_FREE /\ ~ In k taken)
               (fun k => fat_entry fmp1 k = CL_FREE) _ _ _ (fat_mask fmp));
        [lia|lia|lia| |exact Hscan].
      intros k Hk'. rewrite (same_disk_entry _ _ _ Hsd1).
      assert (Hki : fat_index fmp0 k) by (unfold fat_index; lia).
      split.
      - intros [E Hnt]. rewrite Hinv; assumption.
      - intros E. assert (Hnt : ~ In k taken).
        { intros Hin. apply (proj2 (Htk k Hin)). assumption. }
        split; [rewrite <- Hinv; assumption|assumption]. }
    { rewrite L1, <- L0. assumption. }
    pose proof (same_disk_trans _ _ _ Hsd1 Hsd2) as Hsd12.
    pose proof (same_disk_geometry _ _ Hsd12) as G12.
    assert (Hci : fat_index fmp current) by (unfold fat_index; lia).
    (* link *)
    destruct (fat_set_cluster_good fmp2 current f Hg2 (fat_index_same _ _ _ G12 Hci))
      as (fmp3 & Hs & G3 & Hg3 & Hset & Hframe).
    pose proof (same_geometry_trans _ _ _ G12 G3) as G13.
    assert (Hset' : fat_entry fmp3 current = f).
    { rewrite Hset. destruct G12 as (_ & _ & _ & _ & _ & _ & _ & _ & <- & _).
      apply land_mask_small; [assumption|lia]. }
    assert (Hframe' : forall k, fat_index fmp k -> k <> current ->
                                fat_entry fmp3 k = fat_entry fmp k).
    { intros k Hki Hne. rewrite Hframe; [|eapply fat_index_same; eassumption|assumption].
      apply (same_disk_entry _ _ _ Hsd12). }
    destruct (IH fmp0 (current :: taken) fmp3 true f Hg3) as
        (fmp' & Hsteps & G' & Hg' & Hl' & Hfr').
    { eapply same_geometry_trans; eassumption. }
    { intros k [<-|Hin].
      - split; [unfold fat_index; lia|]. rewrite Hset'. unfold CL_FREE. lia.
      - destruct (Htk k Hin) as [Hki Hne]. split; [assumption|].
        rewrite Hframe'; [assumption| |intros ->; contradiction].
        apply (fat_index_same _ _ _ G0). assumption. }
    { intros k Hki Hnt. rewrite Hframe'.
      - apply Hinv; [assumption|]. intros Hin. apply Hnt. right. assumption.
      - apply (fat_index_same _ _ _ G0). assumption.
      - intros ->. apply Hnt. left. reflexivity. }
    { lia. }
    { intros [E|Hin]; [congruence|contradiction]. }
    { left. reflexivity. }
    { assumption. }
    { assumption. }
    exists fmp'. split; [|split; [|split; [|split]]].
    + cbn [fat_expand_steps length]. unfold bind. rewrite Hn.
      assert (Hcond : alloc || (fat_eof fmp1 <=? fat_entry fmp current) = true).
      { destruct Hal as [->|He]; [reflexivity|].
        rewrite E1. apply orb_true_iff. right. apply Z.leb_le. assumption. }
      rewrite Hcond, Ha. cbn [fst snd ret]. rewrite Hs.
      rewrite Hsteps, last_cons.
      replace (grown true new) with true by (destruct new; reflexivity).
      reflexivity.
    + eapply same_geometry_trans; eassumption.
    + assumption.
    + cbn [links]. split; [|assumption].
      rewrite Hfr'; [assumption|eapply fat_index_same; eassumption|].
      intros Hin. apply in_removelast in Hin. destruct Hin as [E|Hin]; [congruence|].
      destruct (free_seq_in _ _ _ _ _ current Hf1 Hseq Hin)
        as (_ & _ & Hnt & _).
      apply Hnt. left. reflexivity.
    + intros c Hc' Hnin. rewrite removelast_cons2 in Hnin.
      rewrite Hfr'.
      * apply Hframe'; [assumption|]. intros ->. apply Hnin. left. reflexivity.
      * eapply fat_index_same; eassumption.
      * intros Hin. apply Hnin. right. assumption.
Qed.

Lemma valid_cluster_index fmp c : good fmp -> valid_cluster fmp c -> fat_index fmp c.
Proof.
  unfold valid_cluster, fat_index, CL_FIRST. intros (_ & _ & _ & Hb) Hv. lia.
Qed.

Lemma valid_cluster_same a b c :
  same_geometry a b -> valid_cluster a c -> valid_cluster b c.
Proof.
  unfold valid_cluster. intros (_ & _ & _ & _ & _ & _ & _ & <- & _). trivial.
Qed.

(** While the chain goes on, the loop follows it and assigns nothing;
    at its last cluster it starts to grow it. *)
Lemma fat_expand_steps_walk fuel : forall rest new fmp current,
  good fmp ->
  Forall (valid_cluster fmp) (current :: rest) ->
  links fmp current rest ->
  fat_eof fmp <= fat_entry fmp (last rest current) ->
  free_seq (fun k => fat_entry fmp k = CL_FREE) (last_cluster fmp) []
    (last rest current) new ->
  (Z.to_nat (2 * last_cluster fmp + 2) <= fuel)%nat ->
  exists fmp',
    fat_expand_steps fuel (length rest + length new) false current fmp
      = (Ok (grown false new, last new (last rest current)), fmp') /\
    same_geometry fmp fmp' /\ good fmp' /\
    links fmp' (last rest current) new /\
    forall c, fat_index fmp c ->
              ~ In c (removelast (last rest current :: new)) ->
              fat_entry fmp' c = fat_entry fmp c.
Proof.
  induction rest as [|c rest IH]; intros new fmp current Hg Hv Hl He Hseq Hfuel.
  - inversion Hv as [|? ? Hvc _]; subst. cbn [last length Nat.add] in *.
    unfold valid_cluster, CL_FIRST in Hvc.
    apply (fat_expand_steps_grow fuel new fmp [] fmp); try assumption.
    + apply same_geometry_refl.
    + intros k [].
    + intros; reflexivity.
    + lia.
    + intros [].
    + right. assumption.
  - inversion Hv as [|? ? Hvc Hv']; subst.
    destruct Hl as [Hl0 Hl]. rewrite last_cons in *.
    destruct (fat_next_cluster_good fmp current Hg) as (fmp1 & Hn & Hsd1 & Hg1).
    pose proof (same_disk_geometry _ _ Hsd1) as G1.
    destruct (same_disk_flags _ _ Hsd1) as (_ & _ & M1 & _ & L1 & E1 & _).
    assert (Hent : forall x, fat_entry fmp1 x = fat_entry fmp x).
    { intros x. apply (same_disk_entry _ _ _ Hsd1). }
    destruct (IH new fmp1 c) as (fmp' & Hsteps & G' & Hg' & Hl' & Hframe).
    + assumption.
    + eapply Forall_impl; [|exact Hv']. intros x. apply valid_cluster_same. assumption.
    + apply (links_ext fmp); [|assumption]. intros x _. apply Hent.
    + rewrite E1, Hent. assumption.
    + rewrite L1.
      apply (free_seq_equiv (fun k => fat_entry fmp k = CL_FREE)); [|assumption].
      intros k. rewrite Hent. tauto.
    + rewrite L1. assumption.
    + exists fmp'. split; [|split; [|split; [|split]]].
      * cbn [fat_expand_steps length Nat.add]. unfold bind. rewrite Hn, Hl0.
        assert (Hc : (fat_eof fmp1 <=? c) = false).
        { apply Z.leb_gt. rewrite E1. inversion Hv' as [|? ? Hvc' _]; subst.
          unfold valid_cluster in Hvc'. destruct Hg as (_ & _ & _ & Hb). lia. }
        rewrite Hc. cbn [orb fst snd ret]. exact Hsteps.
      * eapply same_geometry_trans; eassumption.
      * assumption.
      * assumption.
      * intros x Hx Hnin. rewrite Hframe, Hent; [reflexivity| |assumption].
        eapply fat_index_same; eassumption.
Qed.

(** ** Growing a file *)

(** The end-of-chain marker stored on the last cluster [z] of the grown
    chain. *)
Lemma fat_set_eof fmp z :
  good fmp -> fat_index fmp z ->
  exists fmp',
    fat_set_cluster z (fat_eof fmp) fmp = (Ok tt, fmp') /\
    same_geometry fmp fmp' /\ good fmp' /\
    fat_entry fmp' z = fat_eof fmp /\
    forall c, fat_index fmp c -> c <> z -> fat_entry fmp' c = fat_entry fmp c.
Proof.
  intros Hg Hz.
  destruct (fat_set_cluster_good fmp z (fat_eof fmp) Hg Hz)
    as (fmp' & Hs & G & Hg' & Hset & Hframe).
  exists fmp'. repeat (split; [assumption|]). split; [|assumption].
  rewrite Hset. destruct Hg as (Hk & _ & _ & Hb).
  pose proof (fat_mask_bound fmp Hk).
  apply land_mask_small; [assumption|].
  unfold valid_cluster, fat_index in *. lia.
Qed.

Lemma reads_same fmp fmp' c v :
  good fmp -> good fmp' -> fat_entry fmp' c = fat_entry fmp c ->
  reads fmp' c v <-> reads fmp c v.
Proof.
  intros Hg Hg' E. rewrite !reads_entry by assumption. rewrite E. tauto.
Qed.

(** The chain left by the loop and the final marker: [cs] is linked
    from [c1] as before, [new] is linked from the last cluster [cM] of
    [cs], and the last cluster [z] of [new] holds the marker. *)
Lemma grown_chain fmp fmp1 fmp2 c1 cs new :
  let cM := last cs c1 in
  let z := last new cM in
  good fmp2 -> fat_eof fmp2 = fat_eof fmp ->
  links fmp c1 cs -> links fmp1 cM new ->
  (forall x, In x (removelast (c1 :: cs)) -> fat_entry fmp2 x = fat_entry fmp x) ->
  (forall x, In x (removelast (cM :: new)) -> fat_entry fmp2 x = fat_entry fmp1 x) ->
  Forall (fun x => x < fat_eof fmp) (cs ++ new) ->
  fat_entry fmp2 z = fat_eof fmp ->
  chain fmp2 c1 (cs ++ new).
Proof.
  intros cM z Hg2 E Hl Hl1 Hold Hnew Hlt Heof.
  apply chain_of_links; [assumption| | |].
  - apply links_app; [apply (links_ext fmp)|apply (links_ext fmp1)]; assumption.
  - rewrite E. assumption.
  - rewrite last_app_default. fold cM. fold z. rewrite Heof, E. lia.
Qed.

(** Growing a file when every scan finds a cluster of the volume.
    [old] is the chain of the file before the call ([[]] for an empty
    file, whose cluster argument is [CL_FREE]) and [new] lists the
    clusters that the circular scans of the allocator find free below
    [last_cluster], one after the other: the first scan starts from the
    cursor for an empty file and from the last cluster of the chain
    otherwise, each next one from the cluster found before.  When [size]
    needs [N = length old + length new] clusters and at least one is
    missing, [fat_expand_file] returns 0 and leaves the chain
    [old ++ new], terminated by an end-of-chain value: [N] clusters for
    an empty file; for a chain of [M] clusters, the same [M] clusters in
    the same order followed by [N - M] clusters that read as free before
    the call.  No entry but those of the last cluster of [old] and of
    the clusters of [new] changes.  A scan whose first candidate is
    free at or past [last_cluster] is outside this statement. *)
Theorem fat_expand_file_chain (fmp : fatfsmount) (old new : list Z) (size : Z) :
  good fmp ->
  fat_index fmp (free_scan fmp) ->
  Forall (valid_cluster fmp) old ->
  (old <> [] -> chain fmp (hd CL_FREE old) (tl old)) ->
  new <> [] ->
  scans_find fmp old new ->
  u32 (size + cluster_size fmp - 1) / cluster_size fmp
    = Z.of_nat (length (old ++ new)) ->
  forall fuel, (Z.to_nat (2 * last_cluster fmp + 2) <= fuel)%nat ->
  exists fmp',
    fat_expand_file fuel (hd CL_FREE old) size fmp
      = (Ok tt, hd CL_FREE (old ++ new), fmp') /\
    chain fmp' (hd CL_FREE (old ++ new)) (tl (old ++ new)) /\
    Forall (fun c => reads fmp c CL_FREE) new /\
    forall c v, fat_index fmp c -> ~ In c (touched old new) ->
                (reads fmp' c v <-> reads fmp c v).
Proof.
  intros Hg Hfs Hv Hch Hnew Hfind Hlen fuel Hfuel.
  pose proof Hg as (Hk & _ & _ & Hb).
  pose proof (fat_mask_bound fmp Hk) as Hm.
  assert (Hre : forall k, reads fmp k CL_FREE <-> fat_entry fmp k = CL_FREE).
  { intros k. apply reads_entry. assumption. }
  unfold fat_index in Hfs.
  assert (Hcs : (cluster_size fmp =? 0) = false).
  { destruct (Z.eqb_spec (cluster_size fmp) 0) as [E|]; [|reflexivity].
    exfalso. rewrite E, Z.div_0_r, length_app in Hlen.
    destruct new; [contradiction|]. cbn [length] in Hlen. lia. }
  unfold fat_expand_file. rewrite Hcs, Hlen.
  destruct old as [|c1 cs].
  - (* an empty file *)
    destruct new as [|f r]; [contradiction|]. clear Hnew Hch Hv.
    cbn [hd tl app length touched scans_find] in *.
    destruct Hfind as [Hscan Hseq].
    apply (scan_finds_equiv _ (fun k => fat_entry fmp k = CL_FREE) _ _ _
             (fat_mask fmp + 1)) in Hscan; [|lia|lia|lia|intros; apply Hre].
    apply (free_seq_equiv _ (fun k => fat_entry fmp k = CL_FREE)) in Hseq;
      [|exact Hre].
    destruct (scan_finds_found _ _ _ _ (proj1 Hfs) Hscan) as (Hf0 & Hfr & _).
    assert (Hf1 : 0 <= f) by lia.
    assert (Hall : forall x, In x (f :: r) ->
                             fat_entry fmp x = CL_FREE /\ 1 <= x < last_cluster fmp).
    { intros x [<-|Hx]; [auto|].
      destruct (free_seq_in _ _ _ _ _ x Hf1 Hseq Hx) as (? & ? & _). auto. }
    destruct (fat_alloc_cluster_finds fuel fmp 0 f Hg) as (fmp0 & Ha & Hsd0 & Hg0);
      cbn [Z.eqb]; [lia|assumption|assumption|].
    pose proof (same_disk_geometry _ _ Hsd0) as G0.
    assert (Hent0 : forall x, fat_entry fmp0 x = fat_entry fmp x).
    { intros x. apply (same_disk_entry _ _ _ Hsd0). }
    destruct (fat_expand_steps_grow fuel r fmp [] fmp0 true f Hg0 G0)
      as (fmp1 & Hsteps & G1 & Hg1 & Hl1 & Hframe1).
    { intros k []. }
    { intros k _ _. apply Hent0. }
    { assumption. }
    { intros []. }
    { left. reflexivity. }
    { assumption. }
    { assumption. }
    pose proof (same_geometry_trans _ _ _ G0 G1) as G01.
    pose proof (in_last_cons r f) as Hz.
    pose proof (free_seq_last _ _ _ _ _ Hf1 Hseq) as Hzl.
    destruct (fat_set_eof fmp1 (last r f) Hg1)
      as (fmp2 & Hs & G2 & Hg2 & Heof & Hframe2).
    { apply (fat_index_same _ _ _ G01). unfold fat_index.
      destruct (Hall _ Hz). lia. }
    assert (E2 : fat_eof fmp2 = fat_eof fmp).
    { destruct G01 as (_ & _ & _ & _ & E1 & _).
      destruct G2 as (_ & _ & _ & _ & E2 & _). congruence. }
    assert (E1 : fat_eof fmp1 = fat_eof fmp).
    { destruct G01 as (_ & _ & _ & _ & E1 & _). congruence. }
    exists fmp2. split; [|split; [|split]].
    + cbn [CL_FREE Z.eqb]. unfold bind at 1. rewrite Ha. cbn [ret].
      replace (Z.to_nat (Z.of_nat (S (length r)) - 1)) with (length r) by lia.
      rewrite Hsteps.
      replace (grown true r) with true by (destruct r; reflexivity).
      rewrite Hs. reflexivity.
    + assert (Hnew : forall x, In x (removelast (f :: r)) ->
                               fat_entry fmp2 x = fat_entry fmp1 x).
      { intros x Hx. apply Hframe2.
        - apply (fat_index_same _ _ _ G01). unfold fat_index.
          destruct (Hall x (in_removelast _ _ Hx)). lia.
        - intros ->. apply Hzl. assumption. }
      assert (Hlt : Forall (fun x => x < fat_eof fmp1) r).
      { apply Forall_forall. intros x Hx. rewrite E1.
        destruct (Hall x (or_intror Hx)). lia. }
      assert (E21 : fat_eof fmp2 = fat_eof fmp1) by congruence.
      exact (grown_chain fmp1 fmp1 fmp2 f [] r Hg2 E21 I Hl1
               (fun x (H : In x []) => False_ind _ H) Hnew Hlt Heof).
    + apply Forall_forall. intros x Hx. apply Hre. apply (Hall x Hx).
    + intros c v Hc Hnin. apply reads_same; [assumption|assumption|].
      rewrite Hframe2, Hframe1, Hent0; [reflexivity| | | |].
      * apply (fat_index_same _ _ _ G0). assumption.
      * intros Hin. apply Hnin. apply in_removelast. assumption.
      * apply (fat_index_same _ _ _ G01). assumption.
      * intros ->. apply Hnin. assumption.
  - (* a chain of [M >= 1] clusters *)
    specialize (Hch ltac:(discriminate)).
    cbn [hd tl app touched scans_find] in *. rewrite last_cons in *.
    destruct (links_of_chain fmp cs c1 Hg Hch) as [Hl He].
    set (cM := last cs c1) in *.
    assert (HvM : valid_cluster fmp cM).
    { apply (proj1 (Forall_forall _ _) Hv). apply in_last_cons. }
    assert (HcM : 2 <= cM < last_cluster fmp) by exact HvM.
    assert (HcM0 : 0 <= cM) by lia.
    inversion Hv as [|? ? Hv1 Hvs]; subst.
    apply (free_seq_equiv _ (fun k => fat_entry fmp k = CL_FREE)) in Hfind;
      [|exact Hre].
    destruct (fat_expand_steps_walk fuel cs new fmp c1 Hg Hv Hl He Hfind Hfuel)
      as (fmp1 & Hsteps & G1 & Hg1 & Hl1 & Hframe1).
    fold cM in Hsteps, Hl1, Hframe1.
    set (z := last new cM) in *.
    assert (Hall : forall x, In x new ->
                     fat_entry fmp x = CL_FREE /\ 1 <= x < last_cluster fmp /\
                     x <> cM).
    { intros x Hx.
      destruct (free_seq_in _ _ _ _ _ x HcM0 Hfind Hx) as (? & ? & _ & ?). auto. }
    pose proof (free_seq_last _ _ _ _ _ HcM0 Hfind) as Hzl. fold z in Hzl.
    assert (Hzin : In z new).
    { unfold z. destruct new as [|g r]; [contradiction|].
      rewrite last_cons. apply in_last_cons. }
    destruct (fat_set_eof fmp1 z Hg1) as (fmp2 & Hs & G2 & Hg2 & Heof & Hframe2).
    { apply (fat_index_same _ _ _ G1). unfold fat_index.
      destruct (Hall z Hzin) as (_ & ? & _). lia. }
    assert (E1 : fat_eof fmp1 = fat_eof fmp).
    { destruct G1 as (_ & _ & _ & _ & E1 & _). congruence. }
    assert (E2 : fat_eof fmp2 = fat_eof fmp).
    { destruct G2 as (_ & _ & _ & _ & E2 & _). congruence. }
    assert (Hsrc : forall x, In x (removelast (c1 :: cs)) ->
                             fat_entry fmp2 x = fat_entry fmp x).
    { intros x Hx.
      pose proof (links_source fmp cs c1 x Hl Hx) as Hin.
      apply (proj1 (Forall_forall _ _) Hvs) in Hin.
      unfold valid_cluster, CL_FIRST in Hin.
      assert (Hxi : fat_index fmp x).
      { apply valid_cluster_index; [assumption|].
        apply (proj1 (Forall_forall _ _) Hv). apply in_removelast. assumption. }
      assert (Hx1 : x <> cM) by (intros ->; lia).
      assert (Hx2 : ~ In x new).
      { intros Hxn. destruct (Hall x Hxn) as [E _]. unfold CL_FREE in E. lia. }
      rewrite Hframe2, Hframe1; [reflexivity|assumption| | |].
      - intros Hxr. apply in_removelast in Hxr. destruct Hxr; auto.
      - apply (fat_index_same _ _ _ G1). assumption.
      - intros ->. auto. }
    exists fmp2. split; [|split; [|split]].
    + destruct (Z.eqb_spec c1 CL_FREE) as [E|_].
      { unfold valid_cluster, CL_FIRST, CL_FREE in *. lia. }
      cbn [length]. rewrite length_app.
      replace (Z.to_nat (Z.of_nat (S (length cs + length new)) - 1))
        with (length cs + length new)%nat by lia.
      rewrite Hsteps.
      replace (grown false new) with true by (destruct new; [contradiction|reflexivity]).
      rewrite Hs. reflexivity.
    + assert (Hnewf : forall x, In x (removelast (cM :: new)) ->
                               fat_entry fmp2 x = fat_entry fmp1 x).
      { intros x Hx. apply Hframe2.
        - apply (fat_index_same _ _ _ G1). unfold fat_index.
          apply in_removelast in Hx. destruct Hx as [<-|Hx]; [lia|].
          destruct (Hall x Hx) as (_ & ? & _). lia.
        - intros ->. apply Hzl. assumption. }
      assert (Hlt : Forall (fun x => x < fat_eof fmp) (cs ++ new)).
      { apply Forall_app. split; apply Forall_forall; intros x Hx.
        - apply (proj1 (Forall_forall _ _) Hvs) in Hx.
          unfold valid_cluster in Hx. lia.
        - destruct (Hall x Hx) as (_ & ? & _). lia. }
      assert (Heof' : fat_entry fmp2 z = fat_eof fmp) by congruence.
      exact (grown_chain fmp fmp1 fmp2 c1 cs new Hg2 E2 Hl Hl1 Hsrc Hnewf Hlt Heof').
    + apply Forall_forall. intros x Hx. apply Hre. apply (Hall x Hx).
    + intros c v Hc Hnin. apply reads_same; [assumption|assumption|].
      rewrite Hframe2, Hframe1; [reflexivity|assumption| | |].
      * intros Hin. apply Hnin. apply in_removelast. assumption.
      * apply (fat_index_same _ _ _ G1). assumption.
      * intros ->. apply Hnin. right. assumption.
Qed.

Lemma good_demo16 entries : good (demo16 entries []).
Proof.
  split; [right; split; reflexivity|].
  split; [unfold fat_region_ok; cbn; lia|].
  split; [reflexivity|]. cbn. lia.
Qed.

(** Three runs on the FAT16 volume: an empty file grown to three
    clusters, the chain 2 -> 3 -> 4 grown to five, and the chain 7 -> 8
    grown to four by a scan that wraps around to clusters 2 and 3. *)
Lemma fat_expand_file_chain_witness :
  (exists fmp',
     fat_expand_file 22 CL_FREE 4097 (demo16 chain234 []) = (Ok tt, 5, fmp') /\
     chain fmp' 5 [6; 7]) /\
  (chain (demo16 chain234 []) 2 [3; 4] /\
   exists fmp',
     fat_expand_file 22 2 10240 (demo16 chain234 []) = (Ok tt, 2, fmp') /\
     chain fmp' 2 [3; 4; 5; 6]) /\
  (chain (demo16 chain78 []) 7 [8] /\
   exists fmp',
     fat_expand_file 22 7 8192 (demo16 chain78 []) = (Ok tt, 7, fmp') /\
     chain fmp' 7 [8; 2; 3]).
Proof.
  pose (a := demo16 chain234 []). pose (b := demo16 chain78 []).
  assert (Hga : good a) by apply good_demo16.
  assert (Hgb : good b) by apply good_demo16.
  assert (Hfa : fat_index a (free_scan a)) by (unfold fat_index; cbn; lia).
  assert (Hfb : fat_index b (free_scan b)) by (unfold fat_index; cbn; lia).
  assert (Hfuela : (Z.to_nat (2 * last_cluster a + 2) <= 22)%nat) by (cbn; lia).
  assert (Hfuelb : (Z.to_nat (2 * last_cluster b + 2) <= 22)%nat) by (cbn; lia).
  assert (Hcha : chain a 2 [3; 4]).
  { cbn [chain]. split; [vm_compute; reflexivity|]. split; [cbn; lia|].
    split; [vm_compute; reflexivity|]. split; [cbn; lia|].
    exists 65535. split; [vm_compute; reflexivity|cbn; lia]. }
  assert (Hchb : chain b 7 [8]).
  { cbn [chain]. split; [vm_compute; reflexivity|]. split; [cbn; lia|].
    exists 65535. split; [vm_compute; reflexivity|cbn; lia]. }
  assert (Hva : Forall (valid_cluster a) [2; 3; 4]).
  { repeat (apply Forall_cons; [unfold valid_cluster, CL_FIRST; cbn; lia|]).
    apply Forall_nil. }
  assert (Hvb : Forall (valid_cluster b) [7; 8]).
  { repeat (apply Forall_cons; [unfold valid_cluster, CL_FIRST; cbn; lia|]).
    apply Forall_nil. }
  (* the scans on the first volume go upwards *)
  assert (Hup : forall taken s f,
             s < f < 10 -> reads a f CL_FREE -> ~ In f taken ->
             (forall k, s < k < f -> ~ reads a k CL_FREE) ->
             scan_finds (fun k => reads a k CL_FREE /\ ~ In k taken)
               (last_cluster a) s f).
  { intros taken s f Hr Hf Hnt Hu. split; [split; assumption|].
    left. split; [exact Hr|]. intros k Hk [Hfree _]. exact (Hu k Hk Hfree). }
  assert (Hused : forall k, 2 < k < 5 -> ~ reads a k CL_FREE).
  { intros k Hk. assert (E : k = 3 \/ k = 4) by lia.
    destruct E as [->| ->]; vm_compute; discriminate. }
  assert (Hnone : forall s k, s < k < s + 1 -> ~ reads a k CL_FREE)
    by (intros; lia).
  assert (H25 : scan_finds (fun k => reads a k CL_FREE) (last_cluster a) 2 5).
  { split; [vm_compute; reflexivity|]. left. split; [cbn; lia|exact Hused]. }
  assert (H56 : forall taken, ~ In 6 taken ->
             scan_finds (fun k => reads a k CL_FREE /\ ~ In k taken)
               (last_cluster a) 5 6).
  { intros taken Hnt. apply Hup; [lia|vm_compute; reflexivity|exact Hnt|apply Hnone]. }
  assert (H67 : forall taken, ~ In 7 taken ->
             scan_finds (fun k => reads a k CL_FREE /\ ~ In k taken)
               (last_cluster a) 6 7).
  { intros taken Hnt. apply Hup; [lia|vm_compute; reflexivity|exact Hnt|apply Hnone]. }
  assert (H45 : scan_finds (fun k => reads a k CL_FREE /\ ~ In k [])
                  (last_cluster a) 4 5).
  { apply Hup; [lia|vm_compute; reflexivity|intros []|apply Hnone]. }
  assert (Hfinda1 : scans_find a [] [5; 6; 7]).
  { cbn [scans_find free_seq]. split; [exact H25|].
    split; [apply H56; intros []|].
    split; [apply H67; cbn; lia|exact I]. }
  assert (Hfinda2 : scans_find a [2; 3; 4] [5; 6]).
  { cbn [scans_find free_seq last]. split; [exact H45|].
    split; [apply H56; cbn; lia|exact I]. }
  (* the first scan on the second volume wraps around *)
  assert (Hfindb : scans_find b [7; 8] [2; 3]).
  { cbn [scans_find free_seq last]. split; [|split; [|exact I]].
    - split; [split; [vm_compute; reflexivity|intros []]|].
      right. unfold CL_FIRST. cbn [last_cluster b demo16].
      split; [lia|]. split; [lia|]. split.
      + intros k Hk1 Hk2 [Hfree _]. assert (E : k = 9) by lia. subst k.
        revert Hfree. vm_compute. discriminate.
      + intros k Hk. lia.
    - split; [split; [vm_compute; reflexivity|cbn; lia]|].
      left. cbn [last_cluster b demo16]. split; [lia|]. intros k Hk. lia. }
  split; [|split].
  - destruct (fat_expand_file_chain a [] [5; 6; 7] 4097
                Hga Hfa (Forall_nil _) (fun H => False_ind _ (H eq_refl))
                ltac:(discriminate) Hfinda1 eq_refl 22%nat Hfuela)
      as (fmp' & Hr & Hc & _).
    exists fmp'. split; [exact Hr|exact Hc].
  - split; [exact Hcha|].
    destruct (fat_expand_file_chain a [2; 3; 4] [5; 6] 10240
                Hga Hfa Hva (fun _ => Hcha)
                ltac:(discriminate) Hfinda2 eq_refl 22%nat Hfuela)
      as (fmp' & Hr & Hc & _).
    exists fmp'. split; [exact Hr|exact Hc].
  - split; [exact Hchb|].
    destruct (fat_expand_file_chain b [7; 8] [2; 3] 8192
                Hgb Hfb Hvb (fun _ => Hchb)
                ltac:(discriminate) Hfindb eq_refl 22%nat Hfuelb)
      as (fmp' & Hr & Hc & _).
    exists fmp'. split; [exact Hr|exact Hc].
Defined.

(** The scenario of the spec: an empty file grown to three clusters on
    the FAT16 volume gets cluster 5 and the next two free clusters, and
    its chain ends with the end-of-chain threshold value. *)
Example expand_empty_file_to_three_clusters :
  let '(r, cl, fmp') := fat_expand_file 10 CL_FREE 4097 (demo16 chain234 []) in
  r = Ok tt /\ cl = 5 /\
  map (fat_entry fmp') [5; 6; 7; 8] = [6; 7; 65528; 0] /\
  map (fat_entry fmp') [2; 3; 4] = [3; 4; 65535].
Proof. vm_compute. repeat split. Qed.

(** The chain 7 -> 8 grown to four clusters: the scan from 8 passes the
    used cluster 9, wraps around and takes clusters 2 and 3. *)
Example expand_file_wraps_around :
  let '(r, cl, fmp') := fat_expand_file 22 7 8192 (demo16 chain78 []) in
  r = Ok tt /\ cl = 7 /\
  map (fat_entry fmp') [7; 8; 2; 3] = [8; 2; 3; 65528].
Proof. vm_compute. repeat split. Qed.

(** * Further properties of the File Allocation Table *)

(** ** Values read from the table *)

Lemma load16_range buf off : 0 <= load16 buf off < 65536.
Proof.
  unfold load16.
  assert (E : Z.lor (u8 (buf off)) (Z.shiftl (u8 (buf (off + 1))) 8)
              = u16 (Z.lor (u8 (buf off)) (Z.shiftl (u8 (buf (off + 1))) 8)))
    by (bits_norm; Z.bitblast).
  rewrite E. unfold u16. apply Z.mod_pos_bound. lia.
Qed.

Lemma entry_of_word_range fmp cl w :
  fat_kind_ok fmp -> 0 <= w < 65536 ->
  0 <= entry_of_word fmp cl w <= fat_mask fmp.
Proof.
  intros Hk Hw. unfold entry_of_word.
  destruct (fat_kind_cases fmp Hk) as [(K12 & _ & Km)|(K12 & _ & Km)];
    rewrite K12, Km; [|lia].
  destruct (Z.land cl 1 =? 0).
  - change 4095 with (Z.ones 12). rewrite Z.land_ones by lia.
    pose proof (Z.mod_pos_bound w (2 ^ 12)). change (2 ^ 12) with 4096 in *.
    change (Z.ones 12) with 4095. lia.
  - rewrite Z.shiftr_div_pow2 by lia. change (2 ^ 4) with 16.
    split; [apply Z.div_pos; lia|].
    apply Z.lt_succ_r. apply Z.div_lt_upper_bound; lia.
Qed.

Lemma fat_entry_range fmp cl :
  fat_kind_ok fmp -> 0 <= fat_entry fmp cl <= fat_mask fmp.
Proof.
  intros Hk. unfold fat_entry. apply entry_of_word_range; [assumption|].
  unfold fat_word, blk_byte.
  exact (load16_range
           (fun i => if i =? 0 then blk_data (dev fmp) (fst (fat_loc0 fmp cl))
                                      (snd (fat_loc0 fmp cl))
                     else blk_data (dev fmp) (fst (fat_loc1 fmp cl))
                            (snd (fat_loc1 fmp cl))) 0).
Qed.

(** Whatever the device holds and whichever requests fail, a value that
    [fat_next_cluster] returns is an entry of the mount's width: at most
    0xFFF on FAT12 and at most 0xFFFF on FAT16. *)
Theorem fat_next_cluster_bounded (fmp fmp' : fatfsmount) (cl next : Z) :
  fat_kind_ok fmp ->
  fat_next_cluster cl fmp = (Ok next, fmp') ->
  0 <= next <= fat_mask fmp.
Proof.
  intros Hk. unfold fat_next_cluster, bind.
  pose proof (keeps_geometry_read_fat_entry cl fmp) as G.
  destruct (read_fat_entry cl fmp) as [[[]|e| |] fmp1]; cbn [snd] in G;
    try discriminate.
  intros [= <- <-].
  destruct (same_geometry_loc _ _ cl G) as (_ & _ & F12 & F16 & Fm).
  pose proof (fat_kind_ok_same _ _ G Hk) as Hk1.
  rewrite <- Fm.
  apply (entry_of_word_range fmp1 cl
           (load16 (fat_buf fmp1)
              (if FAT16 fmp1 then u32 (cl * 2) mod SEC_SIZE
               else u32 (cl * 3) / 2 mod SEC_SIZE)) Hk1).
  apply load16_range.
Qed.

Lemma fat_next_cluster_bounded_witness :
  let fmp := demo16 chain234 [] in
  fat_kind_ok fmp /\
  fat_next_cluster 2 fmp = (Ok 3, snd (fat_next_cluster 2 fmp)) /\
  0 <= 3 <= fat_mask fmp.
Proof.
  cbv zeta.
  assert (Hk : fat_kind_ok (demo16 chain234 [])) by (right; split; reflexivity).
  assert (Hn : fat_next_cluster 2 (demo16 chain234 [])
               = (Ok 3, snd (fat_next_cluster 2 (demo16 chain234 []))))
    by (vm_compute; reflexivity).
  split; [exact Hk|]. split; [exact Hn|].
  exact (fat_next_cluster_bounded (demo16 chain234 []) _ 2 3 Hk Hn).
Defined.

(** ** What setting an entry leaves alone *)

(** On FAT12 and on FAT16 alike, [fat_set_cluster(fmp, c, v)] leaves the
    entry of every other cluster [c'] as it was: [fat_next_cluster]
    returns for [c'] the value it returned before, wherever the entries
    of [c] and [c'] lie in the table. *)
Theorem fat_set_cluster_keeps_other_entries (fmp : fatfsmount) (c c' v : Z) :
  fat_kind_ok fmp -> fat_region_ok fmp -> io_ok fmp ->
  fat_index fmp c -> fat_index fmp c' -> c' <> c ->
  exists stored fmp0 fmp1 fmp2,
    fat_next_cluster c' fmp = (Ok stored, fmp0) /\
    fat_set_cluster c v fmp = (Ok tt, fmp1) /\
    fat_next_cluster c' fmp1 = (Ok stored, fmp2).
Proof.
  intros Hk Hr Hio Hc Hc' Hne.
  destruct (fat_next_cluster_ok fmp c' Hk Hio) as (fmp0 & Hn0 & _).
  destruct (fat_set_cluster_ok fmp c v Hk Hio) as (fmp1 & Hs & Hg & Hio1 & Hd).
  pose proof (fat_kind_ok_same _ _ Hg Hk) as Hk1.
  destruct (fat_next_cluster_ok fmp1 c' Hk1 Hio1) as (fmp2 & Hn2 & _).
  exists (fat_entry fmp c'), fmp0, fmp1, fmp2.
  split; [exact Hn0|]. split; [exact Hs|].
  rewrite Hn2, (fat_entry_set_other fmp fmp1 c v c' Hk Hr Hc Hc' Hne Hg Hd).
  reflexivity.
Qed.

Lemma fat_set_cluster_keeps_other_entries_witness :
  let fmp := demo16 chain234 [] in
  exists fmp0 fmp1 fmp2,
    fat_next_cluster 3 fmp = (Ok 4, fmp0) /\
    fat_set_cluster 9 3 fmp = (Ok tt, fmp1) /\
    fat_next_cluster 3 fmp1 = (Ok 4, fmp2).
Proof.
  cbv zeta.
  assert (Hk : fat_kind_ok (demo16 chain234 [])) by (right; split; reflexivity).
  assert (Hr : fat_region_ok (demo16 chain234 []))
    by (unfold fat_region_ok; cbn; lia).
  assert (H9 : fat_index (demo16 chain234 []) 9) by (unfold fat_index; cbn; lia).
  assert (H3 : fat_index (demo16 chain234 []) 3) by (unfold fat_index; cbn; lia).
  assert (Hne : 3 <> 9) by lia.
  destruct (fat_set_cluster_keeps_other_entries (demo16 chain234 []) 9 3 3
              Hk Hr eq_refl H9 H3 Hne)
    as (stored & fmp0 & fmp1 & fmp2 & Hn0 & Hs & Hn2).
  assert (E : stored = 4).
  { assert (Hv : fst (fat_next_cluster 3 (demo16 chain234 [])) = Ok 4)
      by (vm_compute; reflexivity).
    rewrite Hn0 in Hv. cbn [fst] in Hv. congruence. }
  subst stored. exists fmp0, fmp1, fmp2. auto.
Defined.

(** [fat_set_cluster(fmp, c, v)] changes two bytes of the device at most,
    those of the 16-bit word that holds the entry of [c]: every other
    byte of every sector is after the call what it was before, the other
    bytes of the sectors that were read and written back included. *)
Theorem fat_set_cluster_changes_one_word (fmp : fatfsmount) (c v : Z) :
  fat_kind_ok fmp -> io_ok fmp ->
  exists fmp',
    fat_set_cluster c v fmp = (Ok tt, fmp') /\
    forall s o,
      (s, o) <> fat_loc0 fmp c -> (s, o) <> fat_loc1 fmp c ->
      blk_data (dev fmp') s o = blk_data (dev fmp) s o.
Proof.
  intros Hk Hio.
  destruct (fat_set_cluster_ok fmp c v Hk Hio) as (fmp' & Hs & _ & _ & Hd).
  exists fmp'. split; [exact Hs|]. intros s o H0 H1.
  rewrite Hd. unfold fat_poke, at_loc.
  destruct (fat_loc0 fmp c) as [s0 o0], (fat_loc1 fmp c) as [s1 o1].
  cbn [fst snd].
  destruct (Z.eqb_spec s s0), (Z.eqb_spec o o0); cbn [andb];
    try (exfalso; apply H0; congruence);
    destruct (Z.eqb_spec s s1), (Z.eqb_spec o o1); cbn [andb];
    try (exfalso; apply H1; congruence); reflexivity.
Qed.

Lemma fat_set_cluster_changes_one_word_witness :
  let fmp := demo12 in
  fat_loc0 fmp 341 = (1, 511) /\ fat_loc1 fmp 341 = (2, 0) /\
  exists fmp',
    fat_set_cluster 341 2989 fmp = (Ok tt, fmp') /\
    forall s o,
      (s, o) <> fat_loc0 fmp 341 -> (s, o) <> fat_loc1 fmp 341 ->
      blk_data (dev fmp') s o = blk_data (dev fmp) s o.
Proof.
  cbv zeta.
  assert (Hk : fat_kind_ok demo12) by (left; split; reflexivity).
  split; [vm_compute; reflexivity|]. split; [vm_compute; reflexivity|].
  exact (fat_set_cluster_changes_one_word demo12 341 2989 Hk eq_refl).
Defined.

(** ** A failing first read *)

Lemma fat_io_fault op sec boff fmp e rest :
  blk_faults (dev fmp) = e :: rest -> e <> 0 ->
  fat_io op sec boff fmp =
  (Err e, set_dev (set_fat_buf fmp (fat_buf fmp))
            (mk_blkdev (blk_data (dev fmp)) rest ((op, sec) :: blk_log (dev fmp)))).
Proof.
  intros Hf He. apply Z.eqb_neq in He.
  unfold fat_io, uk_blkdev_sync_io. rewrite Hf. cbn [hd tl].
  rewrite He. cbv iota beta. rewrite He. reflexivity.
Qed.

Lemma fails_clean_bind {A B} (m : fatfs A) (k : A -> fatfs B) e fmp :
  fails_clean e fmp (m fmp) -> fails_clean e fmp (bind m k fmp).
Proof.
  unfold fails_clean, bind. destruct (m fmp) as [[a|e'| |] fmp1]; cbn [fst snd];
    intros [E D]; try discriminate. injection E as ->. split; [reflexivity|assumption].
Qed.

Lemma read_fat_entry_fault cl fmp e rest :
  blk_faults (dev fmp) = e :: rest -> e <> 0 ->
  fails_clean e fmp (read_fat_entry cl fmp).
Proof.
  intros Hf He. unfold read_fat_entry. apply fails_clean_bind.
  rewrite (fat_io_fault _ _ _ _ e rest Hf He). split; reflexivity.
Qed.

Lemma fat_next_cluster_fault cl fmp e rest :
  blk_faults (dev fmp) = e :: rest -> e <> 0 ->
  fails_clean e fmp (fat_next_cluster cl fmp).
Proof.
  intros Hf He. unfold fat_next_cluster. apply fails_clean_bind.
  apply (read_fat_entry_fault cl fmp e rest Hf He).
Qed.

Lemma u32_succ_neq_any s : u32 (s + 1) <> s.
Proof.
  destruct (Z_lt_le_dec s 0) as [Hn|Hp].
  - pose proof (u32_range (s + 1)). lia.
  - destruct (Z_lt_le_dec s 4294967296) as [Hs|Hs].
    + apply u32_succ_neq. lia.
    + pose proof (u32_range (s + 1)). lia.
Qed.

Lemma fat_alloc_cluster_fault fuel scan_start fmp e rest :
  blk_faults (dev fmp) = e :: rest -> e <> 0 ->
  fails_clean e fmp (fat_alloc_cluster (S fuel) scan_start fmp).
Proof.
  intros Hf He. unfold fat_alloc_cluster. cbn [fat_alloc_scan].
  destruct (Z.eqb_spec
              (u32 ((if scan_start =? 0 then free_scan fmp else scan_start) + 1))
              (if scan_start =? 0 then free_scan fmp else scan_start)) as [E|_].
  - exfalso. exact (u32_succ_neq_any _ E).
  - apply fails_clean_bind. apply (fat_next_cluster_fault _ fmp e rest Hf He).
Qed.

(** When the device fails the first request of an operation of
    fatfs_fat.c with the error [e], the operation returns [e] unchanged
    and the device holds what it held before: reading or setting an
    entry, scanning for a free cluster, freeing a chain, seeking at
    least one cluster ahead, expanding a directory, or expanding a file
    (an empty one, whose cluster argument stays [CL_FREE], or one that
    has to be walked). *)
Theorem fat_first_fault_propagates (fmp : fatfsmount) (e : Z) (rest : list Z)
        (cl v offset size : Z) (fuel : nat) :
  blk_faults (dev fmp) = e :: rest -> e <> 0 ->
  CL_FIRST <= cl -> cl < fat_eof fmp -> cl <= last_cluster fmp ->
  0 < cluster_size fmp <= offset ->
  2 * cluster_size fmp <= u32 (size + cluster_size fmp - 1) ->
  fails_clean e fmp (fat_next_cluster cl fmp) /\
  fails_clean e fmp (fat_set_cluster cl v fmp) /\
  fails_clean e fmp (fat_alloc_cluster (S fuel) cl fmp) /\
  fails_clean e fmp (fat_free_clusters (S fuel) cl fmp) /\
  fails_clean e fmp (fat_seek_cluster cl offset fmp) /\
  fails_clean e fmp (fat_expand_dir (S fuel) cl fmp) /\
  (let r := fat_expand_file (S fuel) CL_FREE size fmp in
   fst r = (Err e, CL_FREE) /\ blk_data (dev (snd r)) = blk_data (dev fmp)) /\
  (let r := fat_expand_file (S fuel) cl size fmp in
   fst r = (Err e, cl) /\ blk_data (dev (snd r)) = blk_data (dev fmp)).
Proof.
  intros Hf He Hlo Heof Hlast Hoff Hsize.
  assert (Hcs : (cluster_size fmp =? 0) = false) by (apply Z.eqb_neq; lia).
  pose proof (fat_next_cluster_fault cl fmp e rest Hf He) as Hnext.
  assert (Hnoteof : IS_EOFCL fmp cl = false)
    by (unfold IS_EOFCL; apply Z.leb_gt; assumption).
  split; [exact Hnext|].
  split.
  { unfold fat_set_cluster. apply fails_clean_bind.
    apply (read_fat_entry_fault cl fmp e rest Hf He). }
  split; [apply (fat_alloc_cluster_fault fuel cl fmp e rest Hf He)|].
  split.
  { unfold fat_free_clusters.
    destruct (Z.ltb_spec cl CL_FIRST) as [|_]; [lia|].
    apply fails_clean_bind. cbn [fat_free_walk]. rewrite Hnoteof.
    apply fails_clean_bind. exact Hnext. }
  split.
  { unfold fat_seek_cluster.
    destruct (Z.ltb_spec (last_cluster fmp) cl) as [|_]; [lia|].
    rewrite Hcs.
    assert (Ht : 1 <= offset / cluster_size fmp)
      by (apply Z.div_le_lower_bound; lia).
    destruct (Z.to_nat (offset / cluster_size fmp)) as [|n] eqn:En; [lia|].
    cbn [fat_seek_steps]. apply fails_clean_bind. exact Hnext. }
  split.
  { unfold fat_expand_dir. apply fails_clean_bind.
    cbn [fat_dir_walk]. rewrite Hnoteof.
    apply fails_clean_bind. exact Hnext. }
  split.
  - cbv zeta. unfold fat_expand_file. rewrite Hcs, Z.eqb_refl.
    pose proof (fat_alloc_cluster_fault fuel 0 fmp e rest Hf He) as [Ha Hd].
    unfold bind.
    destruct (fat_alloc_cluster (S fuel) 0 fmp) as [[c|e'| |] fmp1];
      cbn [fst snd] in *; try discriminate.
    split; [congruence|assumption].
  - cbv zeta. unfold fat_expand_file. rewrite Hcs.
    destruct (Z.eqb_spec cl CL_FREE) as [E|_]; [unfold CL_FREE, CL_FIRST in *; lia|].
    assert (Ht : 2 <= u32 (size + cluster_size fmp - 1) / cluster_size fmp)
      by (apply Z.div_le_lower_bound; lia).
    destruct (Z.to_nat (u32 (size + cluster_size fmp - 1) / cluster_size fmp - 1))
      as [|n] eqn:En; [lia|].
    cbn [fat_expand_steps].
    pose proof (fails_clean_bind (fat_next_cluster cl)
                  (fun next fmp0 =>
                     (an <- (if false || (fat_eof fmp0 <=? next)
                             then (next' <- fat_alloc_cluster (S fuel) cl ;;
                                   ret (true, next'))
                             else ret (false, next)) ;;
                      (if fst an then fat_set_cluster cl (snd an) else ret tt) ;;;
                      fat_expand_steps (S fuel) n (fst an) (snd an)) fmp0)
                  e fmp Hnext) as [Ha Hd].
    match goal with
    | |- context [match ?x with _ => _ end] =>
        match type of Ha with fst ?y = _ => change x with y end
    end.
    destruct (bind _ _ fmp) as [[a|e'| |] fmp1]; cbn [fst snd] in *;
      try discriminate.
    split; [congruence|assumption].
Qed.

Lemma fat_first_fault_propagates_witness :
  let fmp := demo16 chain234 [EIO] in
  fails_clean EIO fmp (fat_next_cluster 2 fmp) /\
  fails_clean EIO fmp (fat_set_cluster 2 9 fmp) /\
  fails_clean EIO fmp (fat_alloc_cluster 1 2 fmp) /\
  fails_clean EIO fmp (fat_free_clusters 1 2 fmp) /\
  fails_clean EIO fmp (fat_seek_cluster 2 2048 fmp) /\
  fails_clean EIO fmp (fat_expand_dir 1 2 fmp) /\
  (let r := fat_expand_file 1 CL_FREE 4096 fmp in
   fst r = (Err EIO, CL_FREE) /\ blk_data (dev (snd r)) = blk_data (dev fmp)) /\
  (let r := fat_expand_file 1 2 4096 fmp in
   fst r = (Err EIO, 2) /\ blk_data (dev (snd r)) = blk_data (dev fmp)).
Proof.
  cbv zeta.
  assert (He : EIO <> 0) by discriminate.
  assert (H1 : CL_FIRST <= 2) by (unfold CL_FIRST; lia).
  assert (H2 : 2 < fat_eof (demo16 chain234 [EIO])) by (cbn; lia).
  assert (H3 : 2 <= last_cluster (demo16 chain234 [EIO])) by (cbn; lia).
  assert (H4 : 0 < cluster_size (demo16 chain234 [EIO]) <= 2048) by (cbn; lia).
  assert (H5 : 2 * cluster_size (demo16 chain234 [EIO])
               <= u32 (4096 + cluster_size (demo16 chain234 [EIO]) - 1))
    by (vm_compute; discriminate).
  exact (fat_first_fault_propagates (demo16 chain234 [EIO]) EIO [] 2 9 2048 4096
           0 eq_refl He H1 H2 H3 H4 H5).
Defined.

(** * Allocation *)

Lemma read_only_fat_alloc_scan fuel : forall scan_start cl,
  read_only (fat_alloc_scan fuel scan_start cl).
Proof.
  induction fuel as [|fuel IH]; intros s cl; cbn [fat_alloc_scan];
    destruct (cl =? s); try apply read_only_fail.
  - intros fmp. apply no_write_refl.
  - apply read_only_bind; [apply read_only_fat_next_cluster|].
    intros next. destruct (next =? CL_FREE); [apply read_only_ret|].
    intros fmp. apply IH.
Qed.

Lemma read_only_fat_alloc_cluster fuel scan_start :
  read_only (fat_alloc_cluster fuel scan_start).
Proof. intros fmp. apply read_only_fat_alloc_scan. Qed.

Lemma fat_alloc_scan_not_start fuel : forall scan_start cl fmp f fmp',
  fat_alloc_scan fuel scan_start cl fmp = (Ok f, fmp') -> f <> scan_start.
Proof.
  induction fuel as [|fuel IH]; intros s cl fmp f fmp'; cbn [fat_alloc_scan];
    destruct (Z.eqb_spec cl s) as [|Hne]; try discriminate.
  unfold bind.
  destruct (fat_next_cluster cl fmp) as [[next|e| |] fmp1]; try discriminate.
  destruct (next =? CL_FREE).
  - intros [= <- <-]. assumption.
  - apply IH.
Qed.

(** Every cluster that [fat_alloc_cluster] returns is either its first
    candidate [scan_start + 1], which the loop examines before any range
    test, or a valid data cluster; it is never [scan_start] itself; the
    last read found its entry free; and the scan has written nothing:
    the cluster it returns is not marked as used. *)
Theorem fat_alloc_cluster_result (fmp fmp' : fatfsmount) (scan_start f : Z)
        (fuel : nat) :
  CL_FIRST < last_cluster fmp < 4294967296 ->
  0 <= (if scan_start =? 0 then free_scan fmp else scan_start) < 4294967294 ->
  fat_alloc_cluster fuel scan_start fmp = (Ok f, fmp') ->
  (f = (if scan_start =? 0 then free_scan fmp else scan_start) + 1 \/
   valid_cluster fmp f) /\
  f <> (if scan_start =? 0 then free_scan fmp else scan_start) /\
  (exists fmp0, fat_next_cluster f fmp0 = (Ok CL_FREE, fmp')) /\
  no_write fmp fmp'.
Proof.
  intros Hl Hs Ha.
  pose proof (read_only_fat_alloc_cluster fuel scan_start fmp) as Hro.
  rewrite Ha in Hro. cbn [snd] in Hro.
  unfold fat_alloc_cluster in Ha.
  set (s := if scan_start =? 0 then free_scan fmp else scan_start) in *.
  pose proof (fat_alloc_scan_not_start _ _ _ _ _ _ Ha) as Hne.
  rewrite (u32_small (s + 1)) in Ha by lia.
  destruct fuel as [|fuel]; cbn [fat_alloc_scan] in Ha;
    destruct (s + 1 =? s); try discriminate.
  unfold bind in Ha.
  pose proof (keeps_geometry_fat_next_cluster (s + 1) fmp) as G.
  destruct (fat_next_cluster (s + 1) fmp) as [[next|e| |] fmp1] eqn:Hn;
    cbn [snd] in G; try discriminate.
  destruct (Z.eqb_spec next CL_FREE) as [->|_].
  - injection Ha as <- <-. split; [left; reflexivity|]. split; [assumption|].
    split; [exists fmp; assumption|assumption].
  - assert (L : last_cluster fmp1 = last_cluster fmp) by (symmetry; apply G).
    rewrite (u32_small (s + 1 + 1)) in Ha by lia.
    assert (Hv1 : valid_cluster fmp1
                    (if last_cluster fmp1 <=? s + 1 + 1
                     then CL_FIRST else s + 1 + 1)).
    { unfold valid_cluster, CL_FIRST in *. rewrite L.
      destruct (Z.leb_spec (last_cluster fmp) (s + 1 + 1)); lia. }
    assert (Hl1 : last_cluster fmp1 < 4294967296) by lia.
    destruct (fat_alloc_scan_in_range _ _ _ _ _ _ Hl1 Hv1 Ha) as [Hf Hr].
    split; [right; unfold valid_cluster in *; lia|].
    split; [assumption|]. split; assumption.
Qed.

Lemma fat_alloc_cluster_result_witness :
  let fmp := demo16 chain234 [] in
  let fmp' := snd (fat_alloc_cluster 8 9 fmp) in
  (10 = 9 + 1 \/ valid_cluster fmp 10) /\ 10 <> 9 /\
  (exists fmp0, fat_next_cluster 10 fmp0 = (Ok CL_FREE, fmp')) /\
  no_write fmp fmp'.
Proof.
  cbv zeta.
  assert (Hl : CL_FIRST < last_cluster (demo16 chain234 []) < 4294967296)
    by (unfold CL_FIRST; cbn; lia).
  assert (Hs : 0 <= (if 9 =? 0 then free_scan (demo16 chain234 []) else 9)
               < 4294967294) by (cbn; lia).
  assert (Ha : fat_alloc_cluster 8 9 (demo16 chain234 [])
               = (Ok 10, snd (fat_alloc_cluster 8 9 (demo16 chain234 []))))
    by (vm_compute; reflexivity).
  exact (fat_alloc_cluster_result (demo16 chain234 []) _ 9 10 8 Hl Hs Ha).
Defined.

Lemma scan_finds_reads fmp s f :
  good fmp -> 0 <= s ->
  scan_finds (fun k => reads fmp k CL_FREE) (last_cluster fmp) s f ->
  scan_finds (fun k => fat_entry fmp k = CL_FREE) (last_cluster fmp) s f.
Proof.
  intros Hg Hs. pose proof Hg as (_ & _ & _ & Hb).
  apply (scan_finds_equiv (fun k => reads fmp k CL_FREE)
           (fun k => fat_entry fmp k = CL_FREE)
           (last_cluster fmp) s f (s + 1 + last_cluster fmp)); try lia.
  intros k _. apply reads_entry. assumption.
Qed.

(** On a well-formed mount [fat_alloc_cluster] returns the first free
    cluster in the order of its circular scan.  It writes nothing, so
    the cluster is still free afterwards and a second call with the same
    arguments returns the same cluster again. *)
Theorem fat_alloc_cluster_first_free (fmp : fatfsmount) (scan_start f : Z)
        (fuel : nat) :
  good fmp ->
  0 <= (if scan_start =? 0 then free_scan fmp else scan_start) <= 65535 ->
  scan_finds (fun k => reads fmp k CL_FREE) (last_cluster fmp)
    (if scan_start =? 0 then free_scan fmp else scan_start) f ->
  (Z.to_nat (2 * last_cluster fmp + 2) <= fuel)%nat ->
  exists fmp' fmp'',
    fat_alloc_cluster fuel scan_start fmp = (Ok f, fmp') /\
    blk_data (dev fmp') = blk_data (dev fmp) /\
    reads fmp' f CL_FREE /\
    fat_alloc_cluster fuel scan_start fmp' = (Ok f, fmp'').
Proof.
  intros Hg Hs Hscan Hfuel.
  apply scan_finds_reads in Hscan; [|assumption|lia].
  destruct (fat_alloc_cluster_finds fuel fmp scan_start f Hg Hs Hscan Hfuel)
    as (fmp' & Ha & Hsd & Hg').
  destruct (same_disk_flags _ _ Hsd) as (_ & _ & _ & _ & L & _ & Fs).
  assert (Hscan' : scan_finds (fun k => fat_entry fmp' k = CL_FREE)
                     (last_cluster fmp')
                     (if scan_start =? 0 then free_scan fmp' else scan_start) f).
  { rewrite L, Fs.
    apply (scan_finds_equiv (fun k => fat_entry fmp k = CL_FREE)
             (fun k => fat_entry fmp' k = CL_FREE) (last_cluster fmp) _ f
             ((if scan_start =? 0 then free_scan fmp else scan_start)
              + 1 + last_cluster fmp)); try assumption; try lia.
    - destruct Hg as (_ & _ & _ & Hb). lia.
    - intros k _. rewrite (same_disk_entry _ _ k Hsd). tauto. }
  assert (Hs' : 0 <= (if scan_start =? 0 then free_scan fmp' else scan_start)
                <= 65535) by (rewrite Fs; assumption).
  assert (Hfuel' : (Z.to_nat (2 * last_cluster fmp' + 2) <= fuel)%nat)
    by (rewrite L; assumption).
  destruct (fat_alloc_cluster_finds fuel fmp' scan_start f Hg' Hs' Hscan' Hfuel')
    as (fmp'' & Ha' & _).
  exists fmp', fmp''. split; [exact Ha|].
  split; [symmetry; apply Hsd|]. split; [|exact Ha'].
  apply reads_entry; [assumption|]. apply Hscan'.
Qed.

Lemma fat_alloc_cluster_first_free_witness :
  let fmp := demo16 chain78 [] in
  exists fmp' fmp'',
    fat_alloc_cluster 22 8 fmp = (Ok 2, fmp') /\
    blk_data (dev fmp') = blk_data (dev fmp) /\
    reads fmp' 2 CL_FREE /\
    fat_alloc_cluster 22 8 fmp' = (Ok 2, fmp'').
Proof.
  cbv zeta.
  assert (Hs : 0 <= (if 8 =? 0 then free_scan (demo16 chain78 []) else 8)
               <= 65535) by (cbn; lia).
  assert (Hscan : scan_finds (fun k => reads (demo16 chain78 []) k CL_FREE)
                    (last_cluster (demo16 chain78 []))
                    (if 8 =? 0 then free_scan (demo16 chain78 []) else 8) 2).
  { split; [vm_compute; reflexivity|]. right.
    unfold CL_FIRST. cbn [last_cluster demo16 Z.eqb].
    split; [lia|]. split; [lia|]. split.
    - intros k Hk1 Hk2. assert (E : k = 9) by lia. subst k.
      vm_compute. discriminate.
    - intros k Hk. lia. }
  assert (Hfuel : (Z.to_nat (2 * last_cluster (demo16 chain78 []) + 2) <= 22)%nat)
    by (cbn; lia).
  exact (fat_alloc_cluster_first_free (demo16 chain78 []) 8 2 22
           (good_demo16 chain78) Hs Hscan Hfuel).
Defined.

(** From [cl] up to [scan_start] with every entry on the way in use, the
    scan meets [scan_start] and gives up. *)
Lemma fat_alloc_scan_exhausts fuel : forall fmp scan_start cl,
  good fmp -> 0 <= cl <= scan_start -> scan_start < last_cluster fmp ->
  (forall k, cl <= k < scan_start -> fat_entry fmp k <> CL_FREE) ->
  (Z.to_nat (scan_start - cl) <= fuel)%nat ->
  exists fmp',
    fat_alloc_scan fuel scan_start cl fmp = (Err ENOSPC, fmp') /\
    same_disk fmp fmp'.
Proof.
  assert (Hrefl : forall fmp, same_disk fmp fmp)
    by (intros fmp; split; [apply same_geometry_refl|split; reflexivity]).
  induction fuel as [|fuel IH]; intros fmp s cl Hg Hcl Hs Hused Hfuel;
    cbn [fat_alloc_scan]; destruct (Z.eqb_spec cl s) as [|Hne];
    try (exists fmp; split; [reflexivity|apply Hrefl]); [lia|].
  destruct (fat_next_cluster_good fmp cl Hg) as (fmp1 & Hn & Hsd & Hg1).
  unfold bind. rewrite Hn.
  destruct (Z.eqb_spec (fat_entry fmp cl) CL_FREE) as [E|_];
    [exfalso; apply (Hused cl); [lia|exact E]|].
  destruct (same_disk_flags _ _ Hsd) as (_ & _ & _ & _ & L & _).
  pose proof Hg as (Hk & _ & _ & Hb). pose proof (fat_mask_bound fmp Hk).
  rewrite L, u32_small by lia.
  destruct (Z.leb_spec (last_cluster fmp) (cl + 1)) as [|_]; [lia|].
  destruct (IH fmp1 s (cl + 1) Hg1) as (fmp' & Ha & Hsd'); try lia.
  - intros k Hk'. rewrite (same_disk_entry _ _ _ Hsd). apply Hused. lia.
  - exists fmp'. split; [exact Ha|]. eapply same_disk_trans; eassumption.
Qed.

(** When no candidate of the scan is free, [fat_alloc_cluster] returns
    [ENOSPC] after it has come round to its start, having written
    nothing.  The entry of [scan_start] itself is not among the
    candidates: the result is [ENOSPC] whether that cluster is free or
    not. *)
Theorem fat_alloc_cluster_no_space (fmp : fatfsmount) (scan_start : Z)
        (fuel : nat) :
  good fmp ->
  valid_cluster fmp (if scan_start =? 0 then free_scan fmp else scan_start) ->
  (forall k,
     k <> (if scan_start =? 0 then free_scan fmp else scan_start) ->
     valid_cluster fmp k \/
     k = (if scan_start =? 0 then free_scan fmp else scan_start) + 1 ->
     ~ reads fmp k CL_FREE) ->
  (Z.to_nat (last_cluster fmp) <= fuel)%nat ->
  exists fmp',
    fat_alloc_cluster fuel scan_start fmp = (Err ENOSPC, fmp') /\
    blk_data (dev fmp') = blk_data (dev fmp).
Proof.
  intros Hg Hs Hused Hfuel.
  unfold fat_alloc_cluster.
  set (s := if scan_start =? 0 then free_scan fmp else scan_start) in *.
  pose proof Hg as (Hk & _ & _ & Hb). pose proof (fat_mask_bound fmp Hk).
  unfold valid_cluster, CL_FIRST in Hs.
  assert (Hused' : forall k, k <> s -> valid_cluster fmp k \/ k = s + 1 ->
                             fat_entry fmp k <> CL_FREE).
  { intros k Hne Hv E. apply (Hused k Hne Hv). apply reads_entry; assumption. }
  rewrite u32_small by lia.
  destruct (fat_alloc_scan_wraps (Z.to_nat (last_cluster fmp - (s + 1)))
              fmp s (s + 1) Hg)
    as (fmp1 & steps & Hsd & Hg1 & Hst & Hrun); try lia.
  { intros k Hk1 Hk2. apply Hused'; [lia|].
    unfold valid_cluster, CL_FIRST. lia. }
  destruct (same_disk_flags _ _ Hsd) as (_ & _ & _ & _ & L & _).
  destruct (fat_alloc_scan_exhausts (fuel - steps) fmp1 s CL_FIRST Hg1)
    as (fmp' & Ha & Hsd'); unfold CL_FIRST; try lia.
  { intros k Hk'. rewrite (same_disk_entry _ _ _ Hsd).
    apply Hused'; [lia|]. left. unfold valid_cluster, CL_FIRST. lia. }
  exists fmp'. split.
  - replace fuel with (steps + (fuel - steps))%nat by lia.
    rewrite Hrun. exact Ha.
  - destruct Hsd as (_ & D & _), Hsd' as (_ & D' & _). congruence.
Qed.

Lemma fat_alloc_cluster_no_space_witness :
  let fmp := demo16 [65528; 65535; 0; 7; 65535; 65535; 65535; 65535; 9; 65535;
                     65535] [] in
  reads fmp (free_scan fmp) CL_FREE /\
  exists fmp',
    fat_alloc_cluster 10 0 fmp = (Err ENOSPC, fmp') /\
    blk_data (dev fmp') = blk_data (dev fmp).
Proof.
  cbv zeta.
  set (fat := [65528; 65535; 0; 7; 65535; 65535; 65535; 65535; 9; 65535; 65535]).
  split; [vm_compute; reflexivity|].
  assert (Hs : valid_cluster (demo16 fat [])
                 (if 0 =? 0 then free_scan (demo16 fat []) else 0))
    by (unfold valid_cluster, CL_FIRST; cbn; lia).
  assert (Hused : forall k,
             k <> (if 0 =? 0 then free_scan (demo16 fat []) else 0) ->
             valid_cluster (demo16 fat []) k \/
             k = (if 0 =? 0 then free_scan (demo16 fat []) else 0) + 1 ->
             ~ reads (demo16 fat []) k CL_FREE).
  { unfold valid_cluster, CL_FIRST. cbn [Z.eqb free_scan last_cluster demo16].
    intros k Hne Hv.
    assert (E : k = 3 \/ k = 4 \/ k = 5 \/ k = 6 \/ k = 7 \/ k = 8 \/ k = 9)
      by lia.
    destruct E as [->|[->|[->|[->|[->|[->| ->]]]]]]; vm_compute; discriminate. }
  assert (Hfuel : (Z.to_nat (last_cluster (demo16 fat [])) <= 10)%nat)
    by (cbn; lia).
  exact (fat_alloc_cluster_no_space (demo16 fat []) 0 10
           (good_demo16 fat) Hs Hused Hfuel).
Defined.

Lemma fat_alloc_scan_loops fuel : forall fmp scan_start cl,
  good fmp -> CL_FIRST < last_cluster fmp ->
  0 <= scan_start <= 65535 -> ~ valid_cluster fmp scan_start ->
  valid_cluster fmp cl \/ cl = scan_start + 1 ->
  (forall k, valid_cluster fmp k \/ k = scan_start + 1 ->
             fat_entry fmp k <> CL_FREE) ->
  fst (fat_alloc_scan fuel scan_start cl fmp) = OutOfFuel.
Proof.
  induction fuel as [|fuel IH]; intros fmp s cl Hg Hl Hs Hns Hcl Hused;
    cbn [fat_alloc_scan]; destruct (Z.eqb_spec cl s) as [E|Hne];
    try (exfalso; destruct Hcl as [Hv|Hv]; [subst; contradiction|lia]);
    [reflexivity|].
  destruct (fat_next_cluster_good fmp cl Hg) as (fmp1 & Hn & Hsd & Hg1).
  unfold bind. rewrite Hn.
  destruct (Z.eqb_spec (fat_entry fmp cl) CL_FREE) as [E|_];
    [exfalso; exact (Hused cl Hcl E)|].
  destruct (same_disk_flags _ _ Hsd) as (_ & _ & _ & _ & L & _).
  pose proof Hg as (Hk & _ & _ & Hb). pose proof (fat_mask_bound fmp Hk).
  assert (Hv : forall k, valid_cluster fmp1 k <-> valid_cluster fmp k)
    by (intros k; unfold valid_cluster; rewrite L; tauto).
  assert (Hl1 : CL_FIRST < last_cluster fmp1) by (rewrite L; assumption).
  assert (Hns1 : ~ valid_cluster fmp1 s) by (rewrite Hv; assumption).
  assert (Hused1 : forall k, valid_cluster fmp1 k \/ k = s + 1 ->
                             fat_entry fmp1 k <> CL_FREE).
  { intros k Hk'. rewrite (same_disk_entry _ _ _ Hsd). apply Hused.
    rewrite <- Hv. assumption. }
  assert (Hcl1 : valid_cluster fmp1
                   (if last_cluster fmp1 <=? u32 (cl + 1)
                    then CL_FIRST else u32 (cl + 1)) \/
                 (if last_cluster fmp1 <=? u32 (cl + 1)
                  then CL_FIRST else u32 (cl + 1)) = s + 1).
  { left. rewrite Hv, L. unfold valid_cluster, CL_FIRST in *.
    destruct (Z.leb_spec (last_cluster fmp) (u32 (cl + 1))) as [Hle|Hgt];
      [lia|].
    pose proof (u32_range (cl + 1)).
    assert (Hc : 1 <= cl <= 65536) by lia.
    rewrite u32_small in * by lia. lia. }
  exact (IH fmp1 s _ Hg1 Hl1 Hs Hns1 Hcl1 Hused1).
Qed.

(** A scan that starts outside the valid data clusters never meets its
    start again: the loop wraps from [last_cluster] to [CL_FIRST], and
    its exit test compares with [scan_start] only.  When no candidate is
    free, [fat_alloc_cluster] then does not return, neither [ENOSPC] nor
    anything else: whatever the fuel, the loop is still running when it
    is spent.  [fat_expand_dir] scans from an end-of-chain value, which
    is such a start. *)
Theorem fat_alloc_cluster_never_ends (fmp : fatfsmount) (scan_start : Z) :
  good fmp -> CL_FIRST < last_cluster fmp ->
  0 <= (if scan_start =? 0 then free_scan fmp else scan_start) <= 65535 ->
  ~ valid_cluster fmp (if scan_start =? 0 then free_scan fmp else scan_start) ->
  (forall k,
     valid_cluster fmp k \/
     k = (if scan_start =? 0 then free_scan fmp else scan_start) + 1 ->
     ~ reads fmp k CL_FREE) ->
  forall fuel, fst (fat_alloc_cluster fuel scan_start fmp) = OutOfFuel.
Proof.
  intros Hg Hl Hs Hns Hused fuel.
  unfold fat_alloc_cluster.
  set (s := if scan_start =? 0 then free_scan fmp else scan_start) in *.
  rewrite u32_small by lia.
  apply fat_alloc_scan_loops; try assumption.
  - right. reflexivity.
  - intros k Hk E. apply (Hused k Hk). apply reads_entry; assumption.
Qed.

Lemma fat_alloc_cluster_never_ends_witness :
  let fmp := demo16 [65528; 65535; 3; 65535; 65535; 65535; 65535; 65535; 65535;
                     65535] [] in
  fst (fat_alloc_cluster 1000 65535 fmp) = OutOfFuel.
Proof.
  cbv zeta.
  set (fat := [65528; 65535; 3; 65535; 65535; 65535; 65535; 65535; 65535; 65535]).
  assert (Hl : CL_FIRST < last_cluster (demo16 fat []))
    by (unfold CL_FIRST; cbn; lia).
  assert (Hs : 0 <= (if 65535 =? 0 then free_scan (demo16 fat []) else 65535)
               <= 65535) by (cbn; lia).
  assert (Hns : ~ valid_cluster (demo16 fat [])
                  (if 65535 =? 0 then free_scan (demo16 fat []) else 65535))
    by (unfold valid_cluster; cbn; lia).
  assert (Hused : forall k,
             valid_cluster (demo16 fat []) k \/
             k = (if 65535 =? 0 then free_scan (demo16 fat []) else 65535) + 1 ->
             ~ reads (demo16 fat []) k CL_FREE).
  { unfold valid_cluster, CL_FIRST. cbn [Z.eqb free_scan last_cluster demo16].
    intros k Hv.
    assert (E : k = 2 \/ k = 3 \/ k = 4 \/ k = 5 \/ k = 6 \/ k = 7 \/ k = 8 \/
                k = 9 \/ k = 65536) by lia.
    destruct E as [->|[->|[->|[->|[->|[->|[->|[->| ->]]]]]]]];
      vm_compute; discriminate. }
  exact (fat_alloc_cluster_never_ends (demo16 fat []) 65535
           (good_demo16 fat) Hl Hs Hns Hused 1000%nat).
Defined.

(** * Chains *)

Lemma reads_fun fmp c v w : reads fmp c v -> reads fmp c w -> v = w.
Proof. unfold reads. intros -> [= ->]. reflexivity. Qed.

Lemma chain_fun fmp : forall r1 r2 c,
  chain fmp c r1 -> chain fmp c r2 -> r1 = r2.
Proof.
  induction r1 as [|a r1 IH]; intros [|b r2] c; cbn [chain].
  - reflexivity.
  - intros (v & Hv & He) (Hb & Hlt & _).
    pose proof (reads_fun _ _ _ _ Hv Hb). lia.
  - intros (Ha & Hlt & _) (v & Hv & He).
    pose proof (reads_fun _ _ _ _ Hv Ha). lia.
  - intros (Ha & _ & H1) (Hb & _ & H2).
    pose proof (reads_fun _ _ _ _ Ha Hb) as <-.
    f_equal. apply (IH r2 a); assumption.
Qed.

Lemma chain_suffix fmp : forall l1 c x l2,
  chain fmp c (l1 ++ x :: l2) -> chain fmp x l2.
Proof.
  induction l1 as [|a l1 IH]; intros c x l2; cbn [app chain].
  - intros (_ & _ & H). exact H.
  - intros (_ & _ & H). apply (IH a). exact H.
Qed.

(** A chain that ends does not visit a cluster twice. *)
Lemma chain_not_in fmp c rest : chain fmp c rest -> ~ In c rest.
Proof.
  intros Hc Hin. destruct (in_split _ _ Hin) as (l1 & l2 & E).
  pose proof Hc as Hs. rewrite E in Hs. apply chain_suffix in Hs.
  pose proof (chain_fun _ _ _ _ Hc Hs) as E'.
  apply (f_equal (@length Z)) in E'. rewrite E in E' at 1.
  rewrite length_app in E'. cbn [length] in E'. lia.
Qed.

Lemma chain_nodup fmp : forall rest c, chain fmp c rest -> NoDup (c :: rest).
Proof.
  induction rest as [|a rest IH]; intros c Hc.
  - constructor; [intros []|constructor].
  - constructor; [apply (chain_not_in fmp); assumption|].
    apply IH. apply Hc.
Qed.

Lemma chain_tail_bound fmp : forall rest c x,
  good fmp -> chain fmp c rest -> In x rest -> 0 <= x < fat_eof fmp.
Proof.
  induction rest as [|a rest IH]; intros c x Hg Hc; [intros []|].
  destruct Hc as (Ha & Hlt & Hc). intros [<-|Hin].
  - apply reads_entry in Ha; [|assumption].
    destruct Hg as (Hk & _). pose proof (fat_entry_range fmp c Hk). lia.
  - apply (IH a); assumption.
Qed.

(** A chain is the same in two states that agree on its entries. *)
Lemma chain_ext a b : forall rest c,
  good a -> good b -> fat_eof b = fat_eof a ->
  (forall x, In x (c :: rest) -> fat_entry b x = fat_entry a x) ->
  chain a c rest -> chain b c rest.
Proof.
  induction rest as [|c' rest IH]; intros c Ha Hb E Hsame; cbn [chain].
  - intros (v & Hv & He). exists v. rewrite E. split; [|assumption].
    apply (reads_same a b); [assumption|assumption| |assumption].
    apply Hsame. left. reflexivity.
  - intros (Hv & Hlt & Hc). rewrite E. split; [|split; [assumption|]].
    + apply (reads_same a b); [assumption|assumption| |assumption].
      apply Hsame. left. reflexivity.
    + apply IH; try assumption. intros x Hx. apply Hsame. right. assumption.
Qed.

Lemma chain_same_disk a b c rest :
  good a -> same_disk a b -> chain a c rest -> chain b c rest.
Proof.
  intros Ha Hsd. apply chain_ext; [assumption| | |].
  - eapply good_same_disk; eassumption.
  - apply (same_disk_flags _ _ Hsd).
  - intros x _. apply same_disk_entry. assumption.
Qed.

Lemma same_disk_refl fmp : same_disk fmp fmp.
Proof. split; [apply same_geometry_refl|split; reflexivity]. Qed.

(** ** Seeking along a chain *)

Lemma read_only_fat_seek_steps n : forall c, read_only (fat_seek_steps n c).
Proof.
  induction n as [|n IH]; intros c; cbn [fat_seek_steps];
    [apply read_only_ret|].
  apply read_only_bind; [apply read_only_fat_next_cluster|].
  intros c' fmp. destruct (IS_EOFCL fmp c'); [apply no_write_refl|apply IH].
Qed.

Lemma read_only_fat_seek_cluster start offset :
  read_only (fat_seek_cluster start offset).
Proof.
  intros fmp. unfold fat_seek_cluster.
  destruct (last_cluster fmp <? start); [apply no_write_refl|].
  destruct (cluster_size fmp =? 0); [apply no_write_refl|].
  apply read_only_fat_seek_steps.
Qed.

Lemma fat_seek_steps_chain : forall n fmp c rest,
  good fmp -> chain fmp c rest ->
  exists fmp',
    fat_seek_steps n c fmp
    = (if (n <=? length rest)%nat then Ok (nth n (c :: rest) 0) else Err EIO,
       fmp') /\
    same_disk fmp fmp'.
Proof.
  induction n as [|n IH]; intros fmp c rest Hg Hc.
  - exists fmp. split; [reflexivity|apply same_disk_refl].
  - cbn [fat_seek_steps]. unfold bind.
    destruct (fat_next_cluster_good fmp c Hg) as (fmp1 & Hn & Hsd & Hg1).
    rewrite Hn. unfold IS_EOFCL.
    destruct (same_disk_flags _ _ Hsd) as (_ & _ & _ & _ & _ & E & _).
    rewrite E.
    destruct rest as [|c' rest]; cbn [chain] in Hc.
    + destruct Hc as (v & Hv & He). apply reads_entry in Hv; [|assumption].
      rewrite Hv. destruct (Z.leb_spec (fat_eof fmp) v) as [_|]; [|lia].
      exists fmp1. split; [reflexivity|assumption].
    + destruct Hc as (Hv & Hlt & Hc). apply reads_entry in Hv; [|assumption].
      rewrite Hv. destruct (Z.leb_spec (fat_eof fmp) c') as [|_]; [lia|].
      destruct (IH fmp1 c' rest Hg1 (chain_same_disk _ _ _ _ Hg Hsd Hc))
        as (fmp' & Hr & Hsd').
      exists fmp'. split; [|eapply same_disk_trans; eassumption].
      rewrite Hr. reflexivity.
Qed.

(** On a chain of [n] clusters, [fat_seek_cluster] returns the cluster
    that holds the byte at [offset], the one at position
    [offset / cluster_size] of the chain, when that position is below
    [n], and [EIO] when the offset lies past the end of the chain.
    Either way it has issued read requests only. *)
Theorem fat_seek_cluster_on_chain (fmp : fatfsmount) (start offset : Z)
        (rest : list Z) :
  good fmp -> 0 < cluster_size fmp -> 0 <= offset ->
  start <= last_cluster fmp ->
  chain fmp start rest ->
  let k := Z.to_nat (offset / cluster_size fmp) in
  exists fmp',
    fat_seek_cluster start offset fmp
    = (if (k <=? length rest)%nat then Ok (nth k (start :: rest) 0)
       else Err EIO, fmp') /\
    no_write fmp fmp'.
Proof.
  intros Hg Hcs Hoff Hstart Hc k.
  pose proof (read_only_fat_seek_cluster start offset fmp) as Hro.
  unfold fat_seek_cluster in *.
  destruct (Z.ltb_spec (last_cluster fmp) start) as [|_]; [lia|].
  destruct (Z.eqb_spec (cluster_size fmp) 0) as [|_]; [lia|].
  destruct (fat_seek_steps_chain k fmp start rest Hg Hc) as (fmp' & Hr & _).
  fold k in Hro. rewrite Hr in Hro. exists fmp'. split; assumption.
Qed.

Lemma fat_seek_cluster_on_chain_witness :
  let fmp := demo16 chain234 [] in
  chain fmp 2 [3; 4] /\
  (exists fmp', fat_seek_cluster 2 5000 fmp = (Ok 4, fmp') /\ no_write fmp fmp') /\
  (exists fmp', fat_seek_cluster 2 6144 fmp = (Err EIO, fmp') /\ no_write fmp fmp').
Proof.
  cbv zeta.
  assert (Hch : chain (demo16 chain234 []) 2 [3; 4]).
  { cbn [chain]. split; [vm_compute; reflexivity|]. split; [cbn; lia|].
    split; [vm_compute; reflexivity|]. split; [cbn; lia|].
    exists 65535. split; [vm_compute; reflexivity|cbn; lia]. }
  assert (Hcs : 0 < cluster_size (demo16 chain234 [])) by (cbn; lia).
  assert (Hst : 2 <= last_cluster (demo16 chain234 [])) by (cbn; lia).
  assert (H1 : 0 <= 5000) by lia.
  assert (H2 : 0 <= 6144) by lia.
  split; [exact Hch|]. split.
  - exact (fat_seek_cluster_on_chain (demo16 chain234 []) 2 5000 [3; 4]
             (good_demo16 chain234) Hcs H1 Hst Hch).
  - exact (fat_seek_cluster_on_chain (demo16 chain234 []) 2 6144 [3; 4]
             (good_demo16 chain234) Hcs H2 Hst Hch).
Defined.

(** ** Freeing a chain *)

Lemma IS_EOFCL_false fmp c : c < fat_eof fmp -> IS_EOFCL fmp c = false.
Proof. intros H. unfold IS_EOFCL. apply Z.leb_gt. assumption. Qed.

Lemma IS_EOFCL_true fmp c : fat_eof fmp <= c -> IS_EOFCL fmp c = true.
Proof. intros H. unfold IS_EOFCL. apply Z.leb_le. assumption. Qed.

Lemma fat_free_walk_chain : forall rest fmp c fuel,
  good fmp -> 0 <= c < fat_eof fmp -> chain fmp c rest ->
  (length rest < fuel)%nat ->
  exists fmp',
    fat_free_walk fuel c fmp = (Ok (fat_entry fmp (last rest c)), fmp') /\
    good fmp' /\ same_geometry fmp fmp' /\
    (forall x, In x (c :: rest) -> fat_entry fmp' x = CL_FREE) /\
    (forall x, fat_index fmp x -> ~ In x (c :: rest) ->
               fat_entry fmp' x = fat_entry fmp x).
Proof.
  induction rest as [|c' rest IH]; intros fmp c fuel Hg Hc Hch Hfuel;
    (destruct fuel as [|fuel]; [cbn [length] in Hfuel; lia|]);
    cbn [fat_free_walk]; rewrite (IS_EOFCL_false fmp c) by lia;
    destruct (fat_next_cluster_good fmp c Hg) as (fmp1 & Hn & Hsd & Hg1);
    unfold bind; rewrite Hn;
    pose proof Hg as (Hk & _ & _ & Hb);
    assert (Hci : fat_index fmp1 c)
      by (unfold fat_index;
          destruct (same_disk_flags _ _ Hsd) as (_ & _ & -> & _); lia);
    destruct (fat_set_cluster_good fmp1 c CL_FREE Hg1 Hci)
      as (fmp2 & Hs & G2 & Hg2 & Hset & Hframe);
    rewrite Hs;
    assert (G02 : same_geometry fmp fmp2)
      by (eapply same_geometry_trans; [apply Hsd|exact G2]);
    assert (E2 : fat_eof fmp2 = fat_eof fmp) by (symmetry; apply G02);
    assert (M1 : fat_mask fmp1 = fat_mask fmp)
      by (apply (same_disk_flags _ _ Hsd));
    assert (Hset0 : fat_entry fmp2 c = CL_FREE)
      by (rewrite Hset; apply Z.land_0_l);
    assert (Hother : forall x, fat_index fmp x -> x <> c ->
                               fat_entry fmp2 x = fat_entry fmp x)
      by (intros x Hx Hne; rewrite Hframe;
          [apply same_disk_entry; assumption
          |unfold fat_index in *; rewrite M1; assumption|assumption]).
  - destruct Hch as (v & Hv & He). apply reads_entry in Hv; [|assumption].
    cbn [last]. rewrite Hv.
    destruct fuel as [|fuel]; cbn [fat_free_walk];
      rewrite (IS_EOFCL_true fmp2 v) by lia;
      (exists fmp2; split; [reflexivity|]; split; [assumption|];
       split; [assumption|]; split;
       [intros x [<-|[]]; assumption
       |intros x Hx Hnin; apply Hother; [assumption|];
        intros ->; apply Hnin; left; reflexivity]).
  - pose proof (chain_not_in _ _ _ Hch) as Hnin.
    destruct Hch as (Hv & Hlt & Hch). apply reads_entry in Hv; [|assumption].
    rewrite Hv.
    assert (Hc' : 0 <= c' < fat_eof fmp).
    { pose proof (fat_entry_range fmp c Hk). lia. }
    assert (Hch2 : chain fmp2 c' rest).
    { apply (chain_ext fmp fmp2); try assumption.
      intros x Hx. apply Hother.
      - destruct Hx as [<-|Hx]; [unfold fat_index; lia|].
        pose proof (chain_tail_bound fmp rest c' x Hg Hch Hx).
        unfold fat_index. lia.
      - intros ->. apply Hnin. exact Hx. }
    destruct (IH fmp2 c' fuel Hg2) as (fmp' & Hw & Hg' & G' & Hfree & Hkeep);
      [rewrite E2; assumption|assumption|cbn [length] in Hfuel; lia|].
    exists fmp'. split.
    + rewrite Hw. rewrite last_cons. f_equal. f_equal.
      apply Hother.
      * pose proof (in_last_cons rest c') as Hl.
        destruct Hl as [<-|Hl]; [unfold fat_index; lia|].
        pose proof (chain_tail_bound fmp rest c' _ Hg Hch Hl).
        unfold fat_index. lia.
      * intros E. apply Hnin. rewrite <- E. apply in_last_cons.
    + split; [assumption|].
      split; [eapply same_geometry_trans; eassumption|].
      assert (M2 : fat_mask fmp2 = fat_mask fmp) by (symmetry; apply G02).
      split.
      * intros x [<-|Hx]; [|apply Hfree; assumption].
        rewrite Hkeep; [assumption|unfold fat_index; rewrite M2; lia|assumption].
      * intros x Hx Hnx. rewrite Hkeep.
        -- apply Hother; [assumption|]. intros ->. apply Hnx. left. reflexivity.
        -- unfold fat_index in *. rewrite M2. assumption.
        -- intros Hin. apply Hnx. right. assumption.
Qed.

(** On a chain that starts at a valid data cluster, [fat_free_clusters]
    returns 0 and leaves the entry of every cluster of the chain free.
    Its last write, made after the walk has stopped on the end-of-chain
    value [e] that the last cluster held, clears the entry whose number
    is [e]; the entries of all other clusters are as they were. *)
Theorem fat_free_clusters_frees_chain (fmp : fatfsmount) (start : Z)
        (rest : list Z) (fuel : nat) :
  good fmp -> valid_cluster fmp start -> chain fmp start rest ->
  (length rest < fuel)%nat ->
  exists fmp' e,
    reads fmp (last rest start) e /\ fat_eof fmp <= e /\
    fat_free_clusters fuel start fmp = (Ok tt, fmp') /\
    Forall (fun c => reads fmp' c CL_FREE) (start :: rest) /\
    reads fmp' e CL_FREE /\
    forall c v, fat_index fmp c -> ~ In c (e :: start :: rest) ->
                (reads fmp' c v <-> reads fmp c v).
Proof.
  intros Hg Hv Hch Hfuel.
  pose proof Hg as (Hk & _ & _ & Hb).
  unfold valid_cluster, CL_FIRST in Hv.
  destruct (links_of_chain fmp rest start Hg Hch) as [_ He].
  destruct (fat_free_walk_chain rest fmp start fuel Hg) as
      (fmp1 & Hw & Hg1 & G1 & Hfree & Hkeep); [lia|assumption|assumption|].
  set (e := fat_entry fmp (last rest start)) in *.
  pose proof (fat_entry_range fmp (last rest start) Hk) as Her. fold e in Her.
  assert (M1 : fat_mask fmp1 = fat_mask fmp) by (symmetry; apply G1).
  assert (Hei : fat_index fmp1 e) by (unfold fat_index; rewrite M1; lia).
  destruct (fat_set_cluster_good fmp1 e CL_FREE Hg1 Hei)
    as (fmp' & Hs & G' & Hg' & Hset & Hframe).
  assert (Hlow : forall x, In x (start :: rest) -> 0 <= x < fat_eof fmp).
  { intros x [<-|Hx]; [lia|].
    apply (chain_tail_bound fmp rest start x Hg Hch Hx). }
  exists fmp', e. split; [apply reads_entry; [assumption|reflexivity]|].
  split; [assumption|]. split.
  { unfold fat_free_clusters.
    destruct (Z.ltb_spec start CL_FIRST) as [|_]; [unfold CL_FIRST in *; lia|].
    unfold bind. rewrite Hw. exact Hs. }
  split.
  { apply Forall_forall. intros x Hx. apply reads_entry; [assumption|].
    pose proof (Hlow x Hx).
    rewrite Hframe; [apply Hfree; assumption| |lia].
    unfold fat_index. rewrite M1. lia. }
  split.
  { apply reads_entry; [assumption|]. rewrite Hset. apply Z.land_0_l. }
  intros c v Hc Hnin. apply reads_same; try assumption.
  rewrite Hframe.
  - apply Hkeep; [assumption|]. intros Hin. apply Hnin. right. assumption.
  - unfold fat_index in *. rewrite M1. assumption.
  - intros ->. apply Hnin. left. reflexivity.
Qed.

Lemma fat_free_clusters_frees_chain_witness :
  let fmp := demo16 chain234 [] in
  exists fmp' e,
    reads fmp (last [3; 4] 2) e /\ fat_eof fmp <= e /\
    fat_free_clusters 3 2 fmp = (Ok tt, fmp') /\
    Forall (fun c => reads fmp' c CL_FREE) [2; 3; 4] /\
    reads fmp' e CL_FREE /\
    forall c v, fat_index fmp c -> ~ In c [e; 2; 3; 4] ->
                (reads fmp' c v <-> reads fmp c v).
Proof.
  cbv zeta.
  assert (Hch : chain (demo16 chain234 []) 2 [3; 4]).
  { cbn [chain]. split; [vm_compute; reflexivity|]. split; [cbn; lia|].
    split; [vm_compute; reflexivity|]. split; [cbn; lia|].
    exists 65535. split; [vm_compute; reflexivity|cbn; lia]. }
  assert (Hv : valid_cluster (demo16 chain234 []) 2)
    by (unfold valid_cluster, CL_FIRST; cbn; lia).
  assert (Hfuel : (length [3; 4] < 3)%nat) by (cbn; lia).
  exact (fat_free_clusters_frees_chain (demo16 chain234 []) 2 [3; 4] 3
           (good_demo16 chain234) Hv Hch Hfuel).
Defined.

(** ** A file that is long enough *)

Lemma fat_expand_steps_walk_only fuel : forall n fmp c rest,
  good fmp -> chain fmp c rest -> (n <= length rest)%nat ->
  exists fmp',
    fat_expand_steps fuel n false c fmp = (Ok (false, nth n (c :: rest) 0), fmp') /\
    same_disk fmp fmp' /\ no_write fmp fmp'.
Proof.
  induction n as [|n IH]; intros fmp c rest Hg Hch Hn.
  - exists fmp. split; [reflexivity|].
    split; [apply same_disk_refl|apply no_write_refl].
  - destruct rest as [|c' rest]; [cbn [length] in Hn; lia|].
    destruct Hch as (Hv & Hlt & Hch). apply reads_entry in Hv; [|assumption].
    cbn [fat_expand_steps]. unfold bind.
    pose proof (read_only_fat_next_cluster c fmp) as Hro.
    destruct (fat_next_cluster_good fmp c Hg) as (fmp1 & Hnx & Hsd & Hg1).
    rewrite Hnx in *. cbn [snd] in Hro. rewrite Hv.
    destruct (same_disk_flags _ _ Hsd) as (_ & _ & _ & _ & _ & E & _).
    rewrite E. destruct (Z.leb_spec (fat_eof fmp) c') as [|_]; [lia|].
    cbn [orb]. unfold ret at 1. cbn [fst snd]. unfold ret at 1.
    destruct (IH fmp1 c' rest Hg1 (chain_same_disk _ _ _ _ Hg Hsd Hch))
      as (fmp' & Hr & Hsd' & Hnw); [cbn [length] in Hn; lia|].
    exists fmp'. split; [exact Hr|].
    split; [eapply same_disk_trans; eassumption
           |eapply no_write_trans; eassumption].
Qed.

(** On a mount whose cluster size is not zero, when the chain of a file
    has at least as many clusters as [size] needs, [fat_expand_file]
    returns 0 with the cluster argument as it was, and has issued read
    requests only: nothing is allocated and no entry is rewritten.  The
    cluster count is the rounded-up quotient as the code computes it, in
    32 bits. *)
Theorem fat_expand_file_long_enough (fmp : fatfsmount) (cl size : Z)
        (rest : list Z) (fuel : nat) :
  good fmp -> 0 < cluster_size fmp -> cl <> CL_FREE -> chain fmp cl rest ->
  u32 (size + cluster_size fmp - 1) / cluster_size fmp
    <= Z.of_nat (length (cl :: rest)) ->
  exists fmp',
    fat_expand_file fuel cl size fmp = (Ok tt, cl, fmp') /\
    no_write fmp fmp'.
Proof.
  intros Hg Hcs Hne Hch Hlen. unfold fat_expand_file.
  destruct (Z.eqb_spec (cluster_size fmp) 0) as [|_]; [lia|].
  destruct (Z.eqb_spec cl CL_FREE) as [|_]; [contradiction|].
  destruct (fat_expand_steps_walk_only fuel
              (Z.to_nat (u32 (size + cluster_size fmp - 1) / cluster_size fmp - 1))
              fmp cl rest Hg Hch) as (fmp' & Hr & _ & Hnw).
  { cbn [length] in Hlen. lia. }
  rewrite Hr. exists fmp'. split; [reflexivity|assumption].
Qed.

Lemma fat_expand_file_long_enough_witness :
  let fmp := demo16 chain234 [] in
  (exists fmp', fat_expand_file 0 2 6144 fmp = (Ok tt, 2, fmp') /\ no_write fmp fmp') /\
  (exists fmp', fat_expand_file 0 2 4294967295 fmp = (Ok tt, 2, fmp') /\
                no_write fmp fmp').
Proof.
  cbv zeta.
  assert (Hch : chain (demo16 chain234 []) 2 [3; 4]).
  { cbn [chain]. split; [vm_compute; reflexivity|]. split; [cbn; lia|].
    split; [vm_compute; reflexivity|]. split; [cbn; lia|].
    exists 65535. split; [vm_compute; reflexivity|cbn; lia]. }
  assert (Hne : 2 <> CL_FREE) by discriminate.
  assert (Hcs : 0 < cluster_size (demo16 chain234 [])) by (cbn; lia).
  assert (H1 : u32 (6144 + cluster_size (demo16 chain234 []) - 1)
               / cluster_size (demo16 chain234 [])
               <= Z.of_nat (length [2; 3; 4])) by (vm_compute; discriminate).
  assert (H2 : u32 (4294967295 + cluster_size (demo16 chain234 []) - 1)
               / cluster_size (demo16 chain234 [])
               <= Z.of_nat (length [2; 3; 4])) by (vm_compute; discriminate).
  split.
  - exact (fat_expand_file_long_enough (demo16 chain234 []) 2 6144 [3; 4] 0
             (good_demo16 chain234) Hcs Hne Hch H1).
  - exact (fat_expand_file_long_enough (demo16 chain234 []) 2 4294967295 [3; 4] 0
             (good_demo16 chain234) Hcs Hne Hch H2).
Defined.

(** ** Expanding a directory *)

Lemma fat_dir_walk_chain : forall rest fmp c fuel,
  good fmp -> c < fat_eof fmp -> chain fmp c rest ->
  (length rest < fuel)%nat ->
  exists fmp',
    fat_dir_walk fuel c fmp = (Ok (fat_entry fmp (last rest c)), fmp') /\
    same_disk fmp fmp'.
Proof.
  induction rest as [|c' rest IH]; intros fmp c fuel Hg Hc Hch Hfuel;
    (destruct fuel as [|fuel]; [cbn [length] in Hfuel; lia|]);
    cbn [fat_dir_walk]; rewrite (IS_EOFCL_false fmp c) by lia;
    destruct (fat_next_cluster_good fmp c Hg) as (fmp1 & Hn & Hsd & Hg1);
    unfold bind; rewrite Hn;
    destruct (same_disk_flags _ _ Hsd) as (_ & _ & _ & _ & _ & E & _).
  - destruct Hch as (v & Hv & He). apply reads_entry in Hv; [|assumption].
    cbn [last]. rewrite Hv.
    destruct fuel as [|fuel]; cbn [fat_dir_walk];
      rewrite (IS_EOFCL_true fmp1 v) by lia;
      (exists fmp1; split; [reflexivity|assumption]).
  - destruct Hch as (Hv & Hlt & Hch). apply reads_entry in Hv; [|assumption].
    rewrite Hv.
    destruct (IH fmp1 c' fuel Hg1) as (fmp' & Hw & Hsd');
      [lia|exact (chain_same_disk _ _ _ _ Hg Hsd Hch)
      |cbn [length] in Hfuel; lia|].
    exists fmp'. split; [|eapply same_disk_trans; eassumption].
    rewrite Hw, last_cons, (same_disk_entry _ _ _ Hsd). reflexivity.
Qed.

(** The entry of a cluster of a chain of valid clusters is not free. *)
Lemma chain_entry_used fmp : forall rest c x,
  good fmp -> CL_FIRST < fat_eof fmp ->
  Forall (valid_cluster fmp) rest -> chain fmp c rest ->
  In x (c :: rest) -> fat_entry fmp x <> CL_FREE.
Proof.
  induction rest as [|c' rest IH]; intros c x Hg He Hval Hch.
  - destruct Hch as (v & Hv & Hge). apply reads_entry in Hv; [|assumption].
    intros [<-|[]]. unfold CL_FREE, CL_FIRST in *. lia.
  - destruct Hch as (Hv & _ & Hch). apply reads_entry in Hv; [|assumption].
    pose proof (Forall_inv Hval) as Hc'.
    pose proof (Forall_inv_tail Hval) as Hval'.
    intros [<-|Hin].
    + unfold valid_cluster, CL_FREE, CL_FIRST in *. lia.
    + apply (IH c'); assumption.
Qed.

(** The sectors of an entry are fixed by the geometry of the mount. *)
Lemma fat_sector_same a b c s :
  same_geometry a b -> fat_sector b c s <-> fat_sector a c s.
Proof.
  intros G. destruct (same_geometry_loc a b c G) as (L0 & L1 & _).
  unfold fat_sector. rewrite L0, L1. tauto.
Qed.

(** [fat_set_cluster] writes to no sector but those of the entry. *)
Lemma fat_set_cluster_elsewhere fmp c next fmp' :
  good fmp ->
  fat_set_cluster c next fmp = (Ok tt, fmp') ->
  forall s o, ~ fat_sector fmp c s ->
              blk_data (dev fmp') s o = blk_data (dev fmp) s o.
Proof.
  intros (Hk & _ & Hio & _) Hs s o Hout.
  destruct (fat_set_cluster_ok fmp c next Hk Hio) as (fmp2 & Hs2 & _ & _ & Hd).
  rewrite Hs in Hs2. injection Hs2 as <-.
  rewrite Hd. unfold fat_poke, at_loc.
  destruct (Z.eqb_spec s (fst (fat_loc0 fmp c))) as [E|_];
    [exfalso; apply Hout; left; exact E|].
  destruct (Z.eqb_spec s (fst (fat_loc1 fmp c))) as [E|_];
    [exfalso; apply Hout; right; exact E|].
  reflexivity.
Qed.

(** The scan and the two writes of [fat_expand_dir], from the value [e]
    on which its walk has stopped. *)
Lemma fat_expand_dir_tail fmp e f fuel :
  good fmp -> 0 < e -> fat_eof fmp <= e <= fat_mask fmp ->
  scan_finds (fun k => fat_entry fmp k = CL_FREE) (last_cluster fmp) e f ->
  (Z.to_nat (2 * last_cluster fmp + 2) <= fuel)%nat ->
  exists fmp',
    (next <- fat_alloc_cluster fuel e ;;
     fat_set_cluster e next ;;;
     (fun fmp => fat_set_cluster next (fat_eof fmp) fmp) ;;;
     ret next) fmp = (Ok f, fmp') /\
    good fmp' /\ same_geometry fmp fmp' /\
    (CL_FIRST <= f < last_cluster fmp /\ fat_entry fmp f = CL_FREE) /\
    fat_entry fmp' e = f /\ fat_entry fmp' f = fat_eof fmp /\
    (forall c, fat_index fmp c -> c <> e -> c <> f ->
               fat_entry fmp' c = fat_entry fmp c) /\
    (forall s o, ~ fat_sector fmp e s -> ~ fat_sector fmp f s ->
                 blk_data (dev fmp') s o = blk_data (dev fmp) s o).
Proof.
  intros Hg He0 He Hscan Hfuel.
  pose proof Hg as (Hk & _ & _ & Hb). pose proof (fat_mask_bound fmp Hk) as Hm.
  assert (Hs : 0 <= (if e =? 0 then free_scan fmp else e) <= 65535)
    by (destruct (Z.eqb_spec e 0); lia).
  assert (Hscan1 : scan_finds (fun k => fat_entry fmp k = CL_FREE)
                     (last_cluster fmp) (if e =? 0 then free_scan fmp else e) f)
    by (destruct (Z.eqb_spec e 0) as [|_]; [lia|assumption]).
  destruct (fat_alloc_cluster_finds fuel fmp e f Hg Hs Hscan1 Hfuel)
    as (fmp2 & Ha & Hsd2 & Hg2).
  destruct (same_disk_flags _ _ Hsd2) as (_ & _ & M2 & _ & L2 & E2 & _).
  assert (Hf : fat_entry fmp f = CL_FREE /\ CL_FIRST <= f < last_cluster fmp).
  { destruct Hscan as [Hfree Hcase]. split; [assumption|].
    destruct Hcase as [(Hr & _)|(Hr & _)]; [lia|assumption]. }
  destruct Hf as [Hfree Hfr]. unfold CL_FIRST in Hfr.
  assert (Hei : fat_index fmp2 e) by (unfold fat_index; rewrite M2; lia).
  destruct (fat_set_cluster_good fmp2 e f Hg2 Hei)
    as (fmp3 & Hs3 & G3 & Hg3 & Hset3 & Hframe3).
  assert (M3 : fat_mask fmp3 = fat_mask fmp) by (rewrite <- M2; symmetry; apply G3).
  assert (E3 : fat_eof fmp3 = fat_eof fmp) by (rewrite <- E2; symmetry; apply G3).
  assert (Hfi : fat_index fmp3 f) by (unfold fat_index; rewrite M3; lia).
  destruct (fat_set_eof fmp3 f Hg3 Hfi) as (fmp4 & Hs4 & G4 & Hg4 & Hset4 & Hframe4).
  exists fmp4. split.
  { unfold bind. rewrite Ha, Hs3, Hs4. reflexivity. }
  split; [assumption|]. split.
  { eapply same_geometry_trans; [apply Hsd2|].
    eapply same_geometry_trans; eassumption. }
  split; [unfold CL_FIRST; auto|]. split.
  { rewrite Hframe4; [|unfold fat_index; rewrite M3; lia|lia].
    rewrite Hset3. apply land_mask_small; [apply Hg2|]. rewrite M2. lia. }
  split; [rewrite Hset4; assumption|].
  split.
  - intros c Hc Hne Hnf.
    rewrite Hframe4; [|unfold fat_index in *; rewrite M3; assumption|assumption].
    rewrite Hframe3; [|unfold fat_index in *; rewrite M2; assumption|assumption].
    apply same_disk_entry. assumption.
  - intros s o Hne Hnf.
    assert (G2 : same_geometry fmp fmp2) by apply Hsd2.
    assert (G03 : same_geometry fmp fmp3)
      by (eapply same_geometry_trans; eassumption).
    rewrite (fat_set_cluster_elsewhere fmp3 f (fat_eof fmp3) fmp4 Hg3 Hs4)
      by (rewrite (fat_sector_same fmp fmp3 f s G03); assumption).
    rewrite (fat_set_cluster_elsewhere fmp2 e f fmp3 Hg2 Hs3)
      by (rewrite (fat_sector_same fmp fmp2 e s G2); assumption).
    destruct Hsd2 as (_ & D & _). rewrite D. reflexivity.
Qed.

(** What [fat_expand_dir] does to a directory whose chain of valid
    clusters ends with the end-of-chain value [e].  Its walk stops with
    [cl == e], so the scan starts from [e] and, when it finds [f], the
    link to [f] is stored in the entry whose number is [e] and [f] is
    marked as the end of a chain.  It returns 0 with [f]; the entries of
    all other clusters are as they were, and the chain of the directory
    is the chain it was: its last cluster still holds [e]. *)
Theorem fat_expand_dir_effect (fmp : fatfsmount) (cl e f : Z) (rest : list Z)
        (fuel : nat) :
  good fmp ->
  Forall (valid_cluster fmp) (cl :: rest) -> chain fmp cl rest ->
  reads fmp (last rest cl) e ->
  scan_finds (fun k => reads fmp k CL_FREE) (last_cluster fmp) e f ->
  (length rest < fuel)%nat -> (Z.to_nat (2 * last_cluster fmp + 2) <= fuel)%nat ->
  exists fmp',
    fat_expand_dir fuel cl fmp = (Ok f, fmp') /\
    reads fmp' e f /\ reads fmp' f (fat_eof fmp) /\
    chain fmp' cl rest /\ reads fmp' (last rest cl) e /\
    forall c v, fat_index fmp c -> c <> e -> c <> f ->
                (reads fmp' c v <-> reads fmp c v).
Proof.
  intros Hg Hval Hch He Hscan Hfuel1 Hfuel2.
  pose proof Hg as (Hk & _ & _ & Hb). pose proof (fat_mask_bound fmp Hk) as Hm.
  pose proof (Forall_inv Hval) as Hcl.
  pose proof (Forall_inv_tail Hval) as Hrest.
  unfold valid_cluster, CL_FIRST in Hcl.
  apply reads_entry in He; [|assumption].
  destruct (links_of_chain fmp rest cl Hg Hch) as [_ Hge]. rewrite He in Hge.
  pose proof (fat_entry_range fmp (last rest cl) Hk) as Her. rewrite He in Her.
  destruct (fat_dir_walk_chain rest fmp cl fuel Hg) as (fmp1 & Hw & Hsd1);
    [lia|assumption|assumption|]. rewrite He in Hw.
  pose proof (good_same_disk _ _ Hsd1 Hg) as Hg1.
  destruct (same_disk_flags _ _ Hsd1) as (_ & _ & M1 & _ & L1 & E1 & _).
  destruct (fat_expand_dir_tail fmp1 e f fuel Hg1)
    as (fmp4 & Hrun & Hg4 & G4 & (Hfr & Hfree) & Hlink & Hmark & Hkeep1 & _);
    [lia|rewrite E1, M1; lia| |rewrite L1; assumption|].
  { rewrite L1.
    apply (scan_finds_equiv (fun k => reads fmp k CL_FREE)
             (fun k => fat_entry fmp1 k = CL_FREE) (last_cluster fmp) e f
             (e + 1 + last_cluster fmp)); try assumption; try lia.
    intros k _. rewrite (same_disk_entry _ _ k Hsd1).
    apply reads_entry. assumption. }
  rewrite L1 in Hfr. rewrite (same_disk_entry _ _ f Hsd1) in Hfree.
  rewrite E1 in Hmark. unfold CL_FIRST in Hfr.
  assert (E4 : fat_eof fmp4 = fat_eof fmp) by (rewrite <- E1; symmetry; apply G4).
  assert (Hkeep : forall c, fat_index fmp c -> c <> e -> c <> f ->
                            fat_entry fmp4 c = fat_entry fmp c).
  { intros c Hc Hne Hnf. rewrite Hkeep1; [|unfold fat_index in *; rewrite M1|  |];
      try assumption. apply same_disk_entry. assumption. }
  assert (Hlast : fat_entry fmp4 (last rest cl) = e).
  { rewrite Hkeep; [assumption| | |].
    - pose proof (in_last_cons rest cl) as [<-|Hin]; [unfold fat_index; lia|].
      pose proof (chain_tail_bound fmp rest cl _ Hg Hch Hin).
      unfold fat_index. lia.
    - pose proof (in_last_cons rest cl) as [<-|Hin]; [lia|].
      pose proof (chain_tail_bound fmp rest cl _ Hg Hch Hin). lia.
    - intros E. rewrite E, Hfree in He. unfold CL_FREE in He. lia. }
  exists fmp4. split.
  { unfold fat_expand_dir. unfold bind at 1. rewrite Hw. exact Hrun. }
  split; [apply reads_entry; assumption|].
  split; [apply reads_entry; assumption|].
  split.
  { apply (chain_ext fmp fmp4); try assumption.
    intros x Hx.
    assert (Hxb : 0 <= x < last_cluster fmp).
    { destruct Hx as [<-|Hx]; [lia|].
      rewrite Forall_forall in Hrest. pose proof (Hrest x Hx) as Hvx.
      unfold valid_cluster, CL_FIRST in Hvx. lia. }
    apply Hkeep; [unfold fat_index; lia|lia|].
    intros ->.
    apply (chain_entry_used fmp rest cl f Hg); try assumption.
    unfold CL_FIRST. lia. }
  split; [apply reads_entry; assumption|].
  intros c v Hc Hne Hnf. apply reads_same; try assumption.
  apply Hkeep; assumption.
Qed.

Lemma fat_expand_dir_effect_witness :
  let fmp := demo16 chain234 [] in
  exists fmp',
    fat_expand_dir 22 2 fmp = (Ok 5, fmp') /\
    reads fmp' 65535 5 /\ reads fmp' 5 (fat_eof fmp) /\
    chain fmp' 2 [3; 4] /\ reads fmp' (last [3; 4] 2) 65535 /\
    forall c v, fat_index fmp c -> c <> 65535 -> c <> 5 ->
                (reads fmp' c v <-> reads fmp c v).
Proof.
  cbv zeta.
  assert (Hch : chain (demo16 chain234 []) 2 [3; 4]).
  { cbn [chain]. split; [vm_compute; reflexivity|]. split; [cbn; lia|].
    split; [vm_compute; reflexivity|]. split; [cbn; lia|].
    exists 65535. split; [vm_compute; reflexivity|cbn; lia]. }
  assert (Hval : Forall (valid_cluster (demo16 chain234 [])) [2; 3; 4]).
  { repeat (apply Forall_cons; [unfold valid_cluster, CL_FIRST; cbn; lia|]).
    apply Forall_nil. }
  assert (He : reads (demo16 chain234 []) (last [3; 4] 2) 65535)
    by (vm_compute; reflexivity).
  assert (Hscan : scan_finds (fun k => reads (demo16 chain234 []) k CL_FREE)
                    (last_cluster (demo16 chain234 [])) 65535 5).
  { split; [vm_compute; reflexivity|]. right.
    unfold CL_FIRST. cbn [last_cluster demo16].
    split; [lia|]. split; [lia|]. split.
    - intros k Hk1 Hk2. assert (E : k = 65536) by lia. subst k.
      vm_compute. discriminate.
    - intros k Hk. assert (E : k = 2 \/ k = 3 \/ k = 4) by lia.
      destruct E as [->|[->| ->]]; vm_compute; discriminate. }
  assert (Hf1 : (length [3; 4] < 22)%nat) by (cbn; lia).
  assert (Hf2 : (Z.to_nat (2 * last_cluster (demo16 chain234 []) + 2) <= 22)%nat)
    by (cbn; lia).
  exact (fat_expand_dir_effect (demo16 chain234 []) 2 65535 5 [3; 4] 22
           (good_demo16 chain234) Hval Hch He Hscan Hf1 Hf2).
Defined.

(** * Directory records *)

(** ** One request for [dir_buf] on a device without scripted faults *)

Lemma dir_io_read_ok fmp sec :
  io_ok fmp ->
  dir_io UK_BLKREQ_READ sec fmp =
  (Ok tt,
   set_dev (set_dir_buf fmp
              (buf_blit (dir_buf fmp) 0 (blk_data (dev fmp) sec) SEC_SIZE))
           (mk_blkdev (blk_data (dev fmp)) []
              ((UK_BLKREQ_READ, sec) :: blk_log (dev fmp)))).
Proof.
  unfold io_ok, dir_io, uk_blkdev_sync_io. intros ->. reflexivity.
Qed.

Lemma dir_io_write_ok fmp sec :
  io_ok fmp ->
  dir_io UK_BLKREQ_WRITE sec fmp =
  (Ok tt,
   set_dev (set_dir_buf fmp (dir_buf fmp))
           (mk_blkdev (blk_store (blk_data (dev fmp)) sec (dir_buf fmp) 0) []
              ((UK_BLKREQ_WRITE, sec) :: blk_log (dev fmp)))).
Proof.
  unfold io_ok, dir_io, uk_blkdev_sync_io. intros ->. reflexivity.
Qed.

(** ** The 32 bytes of a record *)

Lemma buf_bytes_ext (b b' : buffer) off off' n :
  (forall k, 0 <= k < Z.of_nat n -> u8 (b (off + k)) = u8 (b' (off' + k))) ->
  buf_bytes b off n = buf_bytes b' off' n.
Proof.
  intros H. unfold buf_bytes. apply map_ext_in. intros k Hk.
  apply in_seq in Hk. apply H. lia.
Qed.

Lemma dirent_at_ext (b b' : buffer) off off' :
  (forall k, 0 <= k < 32 -> u8 (b (off + k)) = u8 (b' (off' + k))) ->
  dirent_at b off = dirent_at b' off'.
Proof.
  intros H. unfold dirent_at, load_le.
  rewrite (buf_bytes_ext b b' off off' 11) by (intros; apply H; lia).
  rewrite (H 11) by lia.
  rewrite (buf_bytes_ext b b' (off + 12) (off' + 12) 10)
    by (intros; rewrite <- !Z.add_assoc; apply H; lia).
  rewrite (buf_bytes_ext b b' (off + 22) (off' + 22) 2)
    by (intros; rewrite <- !Z.add_assoc; apply H; lia).
  rewrite (buf_bytes_ext b b' (off + 24) (off' + 24) 2)
    by (intros; rewrite <- !Z.add_assoc; apply H; lia).
  rewrite (buf_bytes_ext b b' (off + 26) (off' + 26) 2)
    by (intros; rewrite <- !Z.add_assoc; apply H; lia).
  rewrite (buf_bytes_ext b b' (off + 28) (off' + 28) 4)
    by (intros; rewrite <- !Z.add_assoc; apply H; lia).
  reflexivity.
Qed.

Lemma u8_small x : 0 <= x < 256 -> u8 x = x.
Proof. intros. unfold u8. apply Z.mod_small. lia. Qed.

Lemma u8_u8 x : u8 (u8 x) = u8 x.
Proof. unfold u8. apply Z.mod_mod. lia. Qed.

Lemma le2_round_trip v :
  0 <= v < 65536 ->
  Z.lor (u8 (u8 v)) (Z.shiftl (Z.lor (u8 (u8 (Z.shiftr v 8))) (Z.shiftl 0 8)) 8) = v.
Proof.
  intros Hv. rewrite Z.shiftl_0_l, Z.lor_0_r, word_of_bytes.
  unfold u16. apply Z.mod_small. lia.
Qed.

Lemma le4_round_trip v :
  0 <= v < 4294967296 ->
  Z.lor (u8 (u8 v))
    (Z.shiftl
       (Z.lor (u8 (u8 (Z.shiftr v 8)))
          (Z.shiftl
             (Z.lor (u8 (u8 (Z.shiftr v 16)))
                (Z.shiftl (Z.lor (u8 (u8 (Z.shiftr v 24))) (Z.shiftl 0 8)) 8)) 8)) 8)
  = v.
Proof.
  intros Hv. rewrite Z.shiftl_0_l, Z.lor_0_r.
  replace (Z.shiftr v 24) with (Z.shiftr (Z.shiftr v 16) 8)
    by (rewrite Z.shiftr_shiftr by lia; reflexivity).
  rewrite word_of_bytes.
  assert (E : v = v mod 2 ^ 32) by (symmetry; apply Z.mod_small; lia).
  rewrite E at 4. unfold u8, u16.
  change 256 with (2 ^ 8). change 65536 with (2 ^ 16).
  Z.bitblast; subst l0;
    (destruct (Z_lt_le_dec (l - 8 - 8) 0);
     [first [lia|rewrite (Z.testbit_neg_r _ (l - 8 - 8)) by lia; btauto]|]);
    (destruct (Z_lt_le_dec (l - 8 - 8) 16);
     [first [lia|rewrite Z.mod_pow2_bits_low by lia; rewrite Z.shiftr_spec by lia;
                 replace (l - 8 - 8 + 16) with l by lia; btauto]
     |first [lia|rewrite Z.mod_pow2_bits_high by lia; btauto]]).
Qed.

Ltac dirent_compute :=
  cbv [dirent_at dirent_bytes put_dirent load_le buf_bytes le_bytes seq map app
       fold_right nth Z.of_nat Z.to_nat Z.add Z.mul Pos.add Pos.mul
       Pos.of_succ_nat Pos.succ Pos.add_carry Pos.to_nat Pos.iter_op Nat.add
       name attr reserve time date cluster size].

(** Decoding the 32 bytes of a well-formed record gives the record
    back. *)
Lemma dirent_bytes_decode de :
  dirent_wf de ->
  dirent_at (fun j => nth (Z.to_nat j) (dirent_bytes de) 0) 0 = de.
Proof.
  destruct de as [nm at_ rs tm dt cl sz]. unfold dirent_wf.
  cbn [name attr reserve time date cluster size].
  intros (Hn & Hnb & Ha & Hr & Hrb & Ht & Hd & Hc & Hs).
  do 11 (destruct nm as [|? nm]; [discriminate|]).
  destruct nm; [|discriminate].
  do 10 (destruct rs as [|? rs]; [discriminate|]).
  destruct rs; [|discriminate].
  repeat match goal with
         | H : Forall _ (_ :: _) |- _ =>
             let H1 := fresh "Hb" in
             pose proof (Forall_inv H) as H1; cbv beta in H1;
             apply Forall_inv_tail in H
         end.
  dirent_compute.
  rewrite !Z.shiftr_0_r.
  rewrite (le2_round_trip tm Ht), (le2_round_trip dt Hd), (le2_round_trip cl Hc),
    (le4_round_trip sz Hs).
  rewrite !u8_u8. repeat rewrite u8_small by assumption. reflexivity.
Qed.

Lemma le_low x r : u8 (Z.lor (u8 x) (Z.shiftl r 8)) = u8 x.
Proof.
  unfold u8. change 256 with (2 ^ 8). Z.bitblast;
    repeat match goal with
           | |- context [Z.testbit ?a ?j] => rewrite (Z.testbit_neg_r a j) by lia
           end; btauto. Qed.

Lemma le_high x r : Z.shiftr (Z.lor (u8 x) (Z.shiftl r 8)) 8 = r.
Proof.
  unfold u8. change 256 with (2 ^ 8). Z.bitblast;
    repeat match goal with
           | |- context [Z.testbit ?a ?j] => rewrite (Z.testbit_neg_r a j) by lia
           end; btauto. Qed.

(** Encoding the record found at a place of a buffer gives the 32 bytes
    found there. *)
Lemma dirent_at_encode (b : buffer) :
  dirent_bytes (dirent_at b 0) = buf_bytes b 0 32.
Proof.
  dirent_compute. rewrite !Z.shiftr_0_r.
  change 16 with (8 + 8). change 24 with (8 + 8 + 8).
  rewrite <- !Z.shiftr_shiftr by lia.
  rewrite !le_high, !le_low, !u8_u8. reflexivity.
Qed.

Lemma put_dirent_read (b : buffer) off de k :
  0 <= k < 32 ->
  put_dirent b off de (off + k) = nth (Z.to_nat k) (dirent_bytes de) 0.
Proof.
  intros Hk. unfold put_dirent, buf_blit, DIRENT_SIZE.
  destruct (Z.leb_spec off (off + k)); [|lia].
  destruct (Z.ltb_spec (off + k) (off + 32)); [|lia].
  cbn [andb]. replace (off + k - off) with k by lia. reflexivity.
Qed.

Lemma put_dirent_other (b : buffer) off de i :
  ~ off <= i < off + 32 -> put_dirent b off de i = b i.
Proof.
  intros Hi. unfold put_dirent, buf_blit, DIRENT_SIZE.
  destruct (Z.leb_spec off i), (Z.ltb_spec i (off + 32)); cbn [andb];
    try reflexivity. lia.
Qed.

Lemma dirent_at_put (b : buffer) off de :
  dirent_wf de -> dirent_at (put_dirent b off de) off = de.
Proof.
  intros Hwf. rewrite <- (dirent_bytes_decode de Hwf) at 2.
  apply dirent_at_ext. intros k Hk.
  rewrite put_dirent_read by assumption. reflexivity.
Qed.

(** ** Rewriting a record *)

(** What a successful [fatfs_put_node] leaves on the device. *)
Lemma fatfs_put_node_ok fmp np :
  io_ok fmp ->
  exists fmp',
    fatfs_put_node np fmp = (Ok tt, fmp') /\
    io_ok fmp' /\ same_geometry fmp fmp' /\
    blk_data (dev fmp')
    = blk_store (blk_data (dev fmp)) (sector np)
        (put_dirent (buf_blit (dir_buf fmp) 0 (blk_data (dev fmp) (sector np))
                       SEC_SIZE)
           (offset np) (dirent np)) 0.
Proof.
  intros Hio. unfold fatfs_put_node, bind, fat_read_dirent, fat_write_dirent.
  rewrite (dir_io_read_ok fmp _ Hio).
  rewrite dir_io_write_ok by reflexivity.
  eexists. split; [reflexivity|]. split; [reflexivity|].
  split; [|reflexivity].
  unfold same_geometry. cbn. repeat split.
Qed.

(** The device after a sector was read into a buffer, a record put at
    [off] and the buffer written back. *)
Lemma blk_store_record (data : Z -> Z -> Z) (b : buffer) sec off de :
  0 <= off -> off + 32 <= 512 ->
  let data' := blk_store data sec
                 (put_dirent (buf_blit b 0 (data sec) SEC_SIZE) off de) 0 in
  (dirent_wf de -> dirent_at (data' sec) off = de) /\
  (forall s o, ~ (s = sec /\ off <= o < off + 32) -> data' s o = data s o).
Proof.
  intros Hlo Hhi data'. subst data'. split.
  - intros Hwf.
    rewrite <- (dirent_at_put (buf_blit b 0 (data sec) SEC_SIZE) off de Hwf) at 2.
    apply dirent_at_ext. intros k Hk. unfold blk_store, SEC_SIZE.
    rewrite Z.eqb_refl.
    destruct (Z.leb_spec 0 (off + k)); [|lia].
    destruct (Z.ltb_spec (off + k) 512); [|lia].
    reflexivity.
  - intros s o Hno. unfold blk_store, SEC_SIZE.
    destruct (Z.eqb_spec s sec) as [->|]; [|reflexivity].
    destruct (Z.leb_spec 0 o); [|reflexivity].
    destruct (Z.ltb_spec o 512); [|reflexivity].
    cbn [andb]. rewrite put_dirent_other by (cbn; lia).
    unfold buf_blit. cbn [Z.add].
    destruct (Z.leb_spec 0 o); [|lia].
    destruct (Z.ltb_spec o 512); [|lia].
    cbn [andb]. rewrite Z.sub_0_r. reflexivity.
Qed.

(** [fatfs_put_node] stores the record of the handle in the 32 bytes at
    its sector and offset: decoding these bytes afterwards gives the
    record back, and every other byte of the device, in that sector and
    in all others, is what it was. *)
Theorem fatfs_put_node_stores_record (fmp : fatfsmount) (np : fatfs_node) :
  io_ok fmp -> dirent_wf (dirent np) ->
  0 <= offset np -> offset np + DIRENT_SIZE <= SEC_SIZE ->
  exists fmp',
    fatfs_put_node np fmp = (Ok tt, fmp') /\
    dirent_at (blk_data (dev fmp') (sector np)) (offset np) = dirent np /\
    forall s o,
      ~ (s = sector np /\ offset np <= o < offset np + DIRENT_SIZE) ->
      blk_data (dev fmp') s o = blk_data (dev fmp) s o.
Proof.
  intros Hio Hwf Hlo Hhi. unfold DIRENT_SIZE, SEC_SIZE in *.
  destruct (fatfs_put_node_ok fmp np Hio) as (fmp' & Hp & _ & _ & Hd).
  destruct (blk_store_record (blk_data (dev fmp)) (dir_buf fmp) (sector np)
              (offset np) (dirent np) Hlo Hhi) as [Hrec Hframe].
  exists fmp'. split; [exact Hp|]. rewrite Hd.
  split; [exact (Hrec Hwf)|exact Hframe].
Qed.

Lemma fatfs_put_node_stores_record_witness :
  let fmp := demo_dir [] in
  let np := mk_fatfs_node
              (mk_fat_dirent file_txt 32 [0; 0; 0; 0; 0; 0; 0; 0; 0; 0] 0 0 2 4660)
              3 64 in
  exists fmp',
    fatfs_put_node np fmp = (Ok tt, fmp') /\
    dirent_at (blk_data (dev fmp') 3) 64 = dirent np /\
    forall s o,
      ~ (s = 3 /\ 64 <= o < 64 + DIRENT_SIZE) ->
      blk_data (dev fmp') s o = blk_data (dev fmp) s o.
Proof.
  cbv zeta.
  set (de := mk_fat_dirent file_txt 32 [0; 0; 0; 0; 0; 0; 0; 0; 0; 0] 0 0 2 4660).
  assert (Hwf : dirent_wf de).
  { unfold dirent_wf, de, file_txt. cbn [name attr reserve time date cluster size].
    split; [reflexivity|].
    split; [repeat (apply Forall_cons; [lia|]); apply Forall_nil|].
    split; [lia|]. split; [reflexivity|].
    split; [repeat (apply Forall_cons; [lia|]); apply Forall_nil|]. lia. }
  assert (H0 : 0 <= offset (mk_fatfs_node de 3 64)) by (cbn; lia).
  assert (H1 : offset (mk_fatfs_node de 3 64) + DIRENT_SIZE <= SEC_SIZE)
    by (cbn; unfold DIRENT_SIZE, SEC_SIZE; lia).
  exact (fatfs_put_node_stores_record (demo_dir []) (mk_fatfs_node de 3 64)
           eq_refl Hwf H0 H1).
Defined.

Lemma dir_io_read_pass sec fmp rest :
  blk_faults (dev fmp) = 0 :: rest ->
  exists fmp1,
    dir_io UK_BLKREQ_READ sec fmp = (Ok tt, fmp1) /\
    blk_faults (dev fmp1) = rest /\
    blk_data (dev fmp1) = blk_data (dev fmp).
Proof.
  intros Hf. unfold dir_io, uk_blkdev_sync_io. rewrite Hf. cbn [hd tl Z.eqb].
  eexists. split; [reflexivity|]. split; reflexivity.
Qed.

(** [fatfs_put_node] issues a read and then a write of the sector of
    the handle.  When the device fails either of them, the error is
    returned unchanged and the device holds what it held before. *)
Theorem fatfs_put_node_fault (fmp : fatfsmount) (np : fatfs_node)
        (e1 e2 : Z) (rest : list Z) :
  blk_faults (dev fmp) = e1 :: e2 :: rest -> e1 <> 0 \/ e2 <> 0 ->
  exists fmp',
    fatfs_put_node np fmp = (Err (if e1 =? 0 then e2 else e1), fmp') /\
    blk_data (dev fmp') = blk_data (dev fmp).
Proof.
  intros Hf He.
  unfold fatfs_put_node, bind, fat_read_dirent, fat_write_dirent.
  destruct (Z.eqb_spec e1 0) as [->|H1].
  - destruct He as [He|He]; [contradiction|].
    destruct (dir_io_read_pass (sector np) fmp (e2 :: rest) Hf)
      as (fmp1 & Hr & Hf1 & Hd1).
    rewrite Hr.
    assert (Hf2 : blk_faults
                    (dev (set_dir_buf fmp1
                            (buf_blit (dir_buf fmp1) (offset np)
                               (fun k => nth (Z.to_nat k)
                                           (dirent_bytes (dirent np)) 0)
                               DIRENT_SIZE))) = e2 :: rest) by exact Hf1.
    rewrite (dir_io_fault UK_BLKREQ_WRITE (sector np) _ e2 rest Hf2 He).
    eexists. split; [reflexivity|]. exact Hd1.
  - rewrite (dir_io_fault UK_BLKREQ_READ (sector np) fmp e1 (e2 :: rest) Hf H1).
    eexists. split; reflexivity.
Qed.

Lemma fatfs_put_node_fault_witness :
  let fmp := demo_dir [0; EIO] in
  let np := mk_fatfs_node blank_dirent 3 64 in
  exists fmp',
    fatfs_put_node np fmp = (Err EIO, fmp') /\
    blk_data (dev fmp') = blk_data (dev fmp).
Proof.
  cbv zeta.
  assert (He : 0 <> 0 \/ EIO <> 0) by (right; discriminate).
  exact (fatfs_put_node_fault (demo_dir [0; EIO]) (mk_fatfs_node blank_dirent 3 64)
           0 EIO [] eq_refl He).
Defined.

(** * Searching a directory *)

Lemma dir_io_read_inv sec fmp fmp' :
  dir_io UK_BLKREQ_READ sec fmp = (Ok tt, fmp') ->
  dir_buf fmp' = buf_blit (dir_buf fmp) 0 (blk_data (dev fmp) sec) SEC_SIZE.
Proof.
  unfold dir_io, uk_blkdev_sync_io.
  destruct (hd 0 (blk_faults (dev fmp)) =? 0) eqn:E; cbv iota beta;
    rewrite ?E; [|discriminate].
  intros [= <-]. reflexivity.
Qed.

(** The records of a sector just read into a buffer are those of the
    device. *)
Lemma dirent_at_blit (b : buffer) (data : Z -> Z) j :
  0 <= j < 16 ->
  dirent_at (buf_blit b 0 data SEC_SIZE) (DIRENT_SIZE * j)
  = dirent_at data (DIRENT_SIZE * j).
Proof.
  intros Hj. apply dirent_at_ext. intros k Hk.
  unfold buf_blit, SEC_SIZE, DIRENT_SIZE.
  destruct (Z.leb_spec 0 (32 * j + k)); [|lia].
  destruct (Z.ltb_spec (32 * j + k) (0 + 512)); [|lia].
  cbn [andb]. rewrite Z.sub_0_r. reflexivity.
Qed.

Lemma on_disk_same_data a b np :
  blk_data (dev b) = blk_data (dev a) -> on_disk a np -> on_disk b np.
Proof. unfold on_disk. intros ->. trivial. Qed.

(** ** Rewriting what was found *)

Lemma nth_buf_bytes (b : buffer) off n k :
  (k < n)%nat -> nth k (buf_bytes b off n) 0 = u8 (b (off + Z.of_nat k)).
Proof.
  intros Hk. unfold buf_bytes.
  rewrite (nth_indep _ 0 (u8 (b (off + Z.of_nat 0))))
    by (rewrite length_map, length_seq; assumption).
  rewrite (map_nth (fun k => u8 (b (off + Z.of_nat k)))).
  rewrite seq_nth by assumption. reflexivity.
Qed.

Lemma dirent_at_encode_off (b : buffer) off :
  dirent_bytes (dirent_at b off) = buf_bytes b off 32.
Proof.
  rewrite (dirent_at_ext b (fun k => b (off + k)) off 0)
    by (intros; rewrite Z.add_0_l; reflexivity).
  rewrite dirent_at_encode. apply buf_bytes_ext.
  intros k _. rewrite Z.add_0_l. reflexivity.
Qed.

(** Putting a handle that holds the record found at its place writes the
    bytes that are there. *)
Lemma fatfs_put_node_on_disk fmp0 fmp np :
  on_disk fmp0 np -> blk_data (dev fmp) = blk_data (dev fmp0) -> io_ok fmp ->
  exists fmp',
    fatfs_put_node np fmp = (Ok tt, fmp') /\
    forall s o, u8 (blk_data (dev fmp') s o) = u8 (blk_data (dev fmp0) s o).
Proof.
  intros [(j & Hj & Hoff) Hde] Hdata Hio.
  unfold DIR_PER_SEC, SEC_SIZE, DIRENT_SIZE in *.
  assert (Hj' : 0 <= j < 16) by (cbn in Hj; lia).
  destruct (fatfs_put_node_ok fmp np Hio) as (fmp' & Hp & _ & _ & Hd).
  exists fmp'. split; [exact Hp|]. intros s o. rewrite Hd, Hdata.
  unfold blk_store, SEC_SIZE.
  destruct (Z.eqb_spec s (sector np)) as [->|]; [|reflexivity].
  destruct (Z.leb_spec 0 o); [|reflexivity].
  destruct (Z.ltb_spec o 512); [|reflexivity].
  cbn [andb Z.add].
  destruct (Z_le_dec (offset np) o) as [Hlo|Hlo];
    [destruct (Z_lt_dec o (offset np + 32)) as [Hhi|Hhi]|].
  - replace o with (offset np + (o - offset np)) at 1 by lia.
    rewrite put_dirent_read by lia.
    rewrite Hde, dirent_at_encode_off, nth_buf_bytes by lia.
    rewrite Z2Nat.id by lia. rewrite u8_u8. f_equal. f_equal. lia.
  - rewrite put_dirent_other by lia. unfold buf_blit.
    destruct (Z.leb_spec 0 o); [|lia].
    destruct (Z.ltb_spec o (0 + 512)); [|lia].
    cbn [andb]. rewrite Z.sub_0_r. reflexivity.
  - rewrite put_dirent_other by lia. unfold buf_blit.
    destruct (Z.leb_spec 0 o); [|lia].
    destruct (Z.ltb_spec o (0 + 512)); [|lia].
    cbn [andb]. rewrite Z.sub_0_r. reflexivity.
Qed.

Section DirectorySearch.
Context `{fatfs_env}.

Lemma fat_lookup_scan_sound : forall n i b sec fname np,
  0 <= i -> i + Z.of_nat n <= 16 ->
  fat_lookup_scan n i b sec fname = Ok np ->
  sector np = sec /\
  (exists j, 0 <= j < 16 /\ offset np = DIRENT_SIZE * j /\
             dirent np = dirent_at b (DIRENT_SIZE * j)) /\
  IS_EMPTY (dirent np) = false /\ IS_VOL (dirent np) = false /\
  fat_compare_name (name (dirent np)) fname = 0.
Proof.
  induction n as [|n IH]; intros i b sec fname np Hi Hn; cbn [fat_lookup_scan];
    [discriminate|].
  destruct (IS_EMPTY (dirent_at b (DIRENT_SIZE * i))) eqn:Hemp; [discriminate|].
  destruct (IS_VOL (dirent_at b (DIRENT_SIZE * i))) eqn:Hvol; cbn [negb andb].
  - apply IH; lia.
  - destruct (Z.eqb_spec (fat_compare_name (name (dirent_at b (DIRENT_SIZE * i)))
                            fname) 0) as [Hcmp|_].
    + intros [= <-]. cbn [sector offset dirent].
      split; [reflexivity|]. split.
      * exists i. split; [lia|]. split; [|reflexivity].
        apply u32_small. unfold DIRENT_SIZE. lia.
      * auto.
    + apply IH; lia.
Qed.

Lemma fat_lookup_dirent_sound sec fname fmp np fmp' :
  fat_lookup_dirent sec fname fmp = (Ok np, fmp') ->
  on_disk fmp np /\
  IS_EMPTY (dirent np) = false /\ IS_VOL (dirent np) = false /\
  fat_compare_name (name (dirent np)) fname = 0.
Proof.
  unfold fat_lookup_dirent, bind, fat_read_dirent.
  destruct (dir_io UK_BLKREQ_READ sec fmp) as [[[]|e| |] fmp1] eqn:Hr;
    try discriminate.
  intros Heq. apply (f_equal fst) in Heq. cbn [fst] in Heq.
  apply dir_io_read_inv in Hr.
  apply (fat_lookup_scan_sound (Z.to_nat DIR_PER_SEC) 0) in Heq; [|lia|cbn; lia].
  rename Heq into Hs.
  destruct Hs as (Hsec & (j & Hj & Hoff & Hde) & Hrest).
  split; [|exact Hrest]. split.
  - exists j. unfold DIR_PER_SEC, SEC_SIZE, DIRENT_SIZE in *. cbn. split; assumption.
  - rewrite Hsec, Hoff, Hde, Hr. apply dirent_at_blit. assumption.
Qed.

Lemma fat_lookup_sectors_sound n : forall sec fname fmp np fmp',
  fat_lookup_sectors n sec fname fmp = (Ok (Some np), fmp') ->
  on_disk fmp np /\
  IS_EMPTY (dirent np) = false /\ IS_VOL (dirent np) = false /\
  fat_compare_name (name (dirent np)) fname = 0.
Proof.
  induction n as [|n IH]; intros sec fname fmp np fmp'; cbn [fat_lookup_sectors];
    [discriminate|].
  pose proof (read_only_fat_lookup_dirent sec fname fmp) as [Hd _].
  destruct (fat_lookup_dirent sec fname fmp) as [[np1|e| |] fmp1] eqn:Hl;
    cbn [snd] in Hd; try discriminate.
  - intros [= <- <-]. apply (fat_lookup_dirent_sound _ _ _ _ _ Hl).
  - destruct (e =? EAGAIN); [|discriminate].
    intros Hs. apply IH in Hs. destruct Hs as [Hon Hrest].
    split; [|exact Hrest]. apply (on_disk_same_data fmp1); [|assumption].
    symmetry. assumption.
Qed.

Lemma fat_lookup_chain_sound fuel : forall cl fname fmp np fmp',
  fat_lookup_chain fuel cl fname fmp = (Ok np, fmp') ->
  on_disk fmp np /\
  IS_EMPTY (dirent np) = false /\ IS_VOL (dirent np) = false /\
  fat_compare_name (name (dirent np)) fname = 0.
Proof.
  induction fuel as [|fuel IH]; intros cl fname fmp np fmp';
    cbn [fat_lookup_chain]; destruct (IS_EOFCL fmp cl); try discriminate.
  unfold bind.
  pose proof (read_only_fat_lookup_sectors (Z.to_nat (sec_per_cl fmp))
                (u32 (cl_to_sec fmp cl)) fname fmp) as [Hd1 _].
  destruct (fat_lookup_sectors _ _ fname fmp) as [[[np1|]|e| |] fmp1] eqn:Hl;
    cbn [snd] in Hd1; try discriminate.
  - intros [= <- <-]. apply (fat_lookup_sectors_sound _ _ _ _ _ _ Hl).
  - pose proof (read_only_fat_next_cluster cl fmp1) as [Hd2 _].
    destruct (fat_next_cluster cl fmp1) as [[cl'|e| |] fmp2]; cbn [snd] in Hd2;
      try discriminate.
    intros Hs. apply IH in Hs. destruct Hs as [Hon Hrest].
    split; [|exact Hrest]. apply (on_disk_same_data fmp2); [|assumption].
    congruence.
Qed.

(** A handle that [fatfs_lookup_node] fills names a record slot of the
    sector it carries and holds the record that the device has there;
    that record is not the end marker of the directory, is not a volume
    label, and its name compares equal to the converted name searched
    for. *)
Theorem fatfs_lookup_node_sound (fuel : nat) (dnp np : fatfs_node)
        (nm : list Z) (fmp fmp' : fatfsmount) :
  fatfs_lookup_node fuel dnp (Some nm) fmp = (Ok np, fmp') ->
  on_disk fmp np /\
  IS_EMPTY (dirent np) = false /\ IS_VOL (dirent np) = false /\
  fat_compare_name (name (dirent np)) (firstn 11 (fat_convert_name nm) ++ [0]) = 0.
Proof.
  unfold fatfs_lookup_node.
  destruct (cluster (dirent dnp) =? CL_ROOT); [|apply fat_lookup_chain_sound].
  unfold bind.
  destruct (fat_lookup_sectors _ _ _ fmp) as [[[np1|]|e| |] fmp1] eqn:Hl;
    try discriminate.
  intros [= <- <-]. apply (fat_lookup_sectors_sound _ _ _ _ _ _ Hl).
Qed.

Lemma fat_get_scan_sound : forall n i b sec target index np index',
  0 <= i -> i + Z.of_nat n <= 16 ->
  fat_get_scan n i b sec target index = (Ok np, index') ->
  sector np = sec /\
  (exists j, 0 <= j < 16 /\ offset np = DIRENT_SIZE * j /\
             dirent np = dirent_at b (DIRENT_SIZE * j)) /\
  IS_EMPTY (dirent np) = false /\ IS_DELETED (dirent np) = false /\
  IS_VOL (dirent np) = false.
Proof.
  induction n as [|n IH]; intros i b sec target index np index' Hi Hn;
    cbn [fat_get_scan]; [discriminate|].
  destruct (IS_EMPTY (dirent_at b (DIRENT_SIZE * i))) eqn:Hemp; [discriminate|].
  destruct (IS_DELETED (dirent_at b (DIRENT_SIZE * i))) eqn:Hdel; cbn [negb andb];
    [apply IH; lia|].
  destruct (IS_VOL (dirent_at b (DIRENT_SIZE * i))) eqn:Hvol; cbn [negb];
    [apply IH; lia|].
  destruct (index =? target); [|apply IH; lia].
  intros [= <- _]. cbn [sector offset dirent].
  split; [reflexivity|]. split; [|auto].
  exists i. split; [lia|]. split; [|reflexivity].
  apply u32_small. unfold DIRENT_SIZE. lia.
Qed.

Lemma fat_get_dirent_sound sec target index fmp np index' fmp' :
  fat_get_dirent sec target index fmp = (Ok np, index', fmp') ->
  on_disk fmp np /\
  IS_EMPTY (dirent np) = false /\ IS_DELETED (dirent np) = false /\
  IS_VOL (dirent np) = false.
Proof.
  unfold fat_get_dirent, fat_read_dirent.
  destruct (dir_io UK_BLKREQ_READ sec fmp) as [[[]|e| |] fmp1] eqn:Hr;
    try discriminate.
  intros Heq. apply (f_equal fst) in Heq. cbn [fst] in Heq.
  apply dir_io_read_inv in Hr.
  apply (fat_get_scan_sound (Z.to_nat DIR_PER_SEC) 0) in Heq; [|lia|cbn; lia].
  destruct Heq as (Hsec & (j & Hj & Hoff & Hde) & Hrest).
  split; [|exact Hrest]. split.
  - exists j. unfold DIR_PER_SEC, SEC_SIZE, DIRENT_SIZE in *. cbn. split; assumption.
  - rewrite Hsec, Hoff, Hde, Hr. apply dirent_at_blit. assumption.
Qed.

Lemma fat_get_sectors_sound n : forall sec target index fmp np fmp',
  fat_get_sectors n sec target index fmp = (Ok (inl np), fmp') ->
  on_disk fmp np /\
  IS_EMPTY (dirent np) = false /\ IS_DELETED (dirent np) = false /\
  IS_VOL (dirent np) = false.
Proof.
  induction n as [|n IH]; intros sec target index fmp np fmp';
    cbn [fat_get_sectors]; [discriminate|].
  pose proof (no_write_fat_get_dirent sec target index fmp) as [Hd _].
  destruct (fat_get_dirent sec target index fmp) as [[[np1|e| |] index1] fmp1] eqn:Hl;
    cbn [snd] in Hd; try discriminate.
  - intros [= <- <-]. apply (fat_get_dirent_sound _ _ _ _ _ _ _ Hl).
  - destruct (e =? EAGAIN); [|discriminate].
    intros Hs. apply IH in Hs. destruct Hs as [Hon Hrest].
    split; [|exact Hrest]. apply (on_disk_same_data fmp1); [|assumption].
    symmetry. assumption.
Qed.

Lemma fat_get_chain_sound fuel : forall cl target index fmp np fmp',
  fat_get_chain fuel cl target index fmp = (Ok np, fmp') ->
  on_disk fmp np /\
  IS_EMPTY (dirent np) = false /\ IS_DELETED (dirent np) = false /\
  IS_VOL (dirent np) = false.
Proof.
  induction fuel as [|fuel IH]; intros cl target index fmp np fmp';
    cbn [fat_get_chain]; destruct (IS_EOFCL fmp cl); try discriminate.
  unfold bind.
  pose proof (read_only_fat_get_sectors (Z.to_nat (sec_per_cl fmp))
                (u32 (cl_to_sec fmp cl)) target index fmp) as [Hd1 _].
  destruct (fat_get_sectors _ _ target index fmp) as [[[np1|index1]|e| |] fmp1] eqn:Hl;
    cbn [snd] in Hd1; try discriminate.
  - intros [= <- <-]. apply (fat_get_sectors_sound _ _ _ _ _ _ _ Hl).
  - pose proof (read_only_fat_next_cluster cl fmp1) as [Hd2 _].
    destruct (fat_next_cluster cl fmp1) as [[cl'|e| |] fmp2]; cbn [snd] in Hd2;
      try discriminate.
    intros Hs. apply IH in Hs. destruct Hs as [Hon Hrest].
    split; [|exact Hrest]. apply (on_disk_same_data fmp2); [|assumption].
    congruence.
Qed.

(** A handle that [fatfs_get_node] fills is either one of the two
    entries that it makes up for the root directory, at index 0 and 1,
    without any request to the device, or it names a record slot of the
    sector it carries and holds the record that the device has there, a
    record that is not the end marker, not deleted and not a volume
    label. *)
Theorem fatfs_get_node_sound (fuel : nat) (dnp np0 np : fatfs_node)
        (index : Z) (fmp fmp' : fatfsmount) :
  fatfs_get_node fuel dnp index np0 fmp = (Ok np, fmp') ->
  (cluster (dirent dnp) = CL_ROOT /\ (index = 0 \/ index = 1) /\
   np = synth_node np0 (Z.to_nat (index + 1)) CL_ROOT /\ fmp' = fmp) \/
  (on_disk fmp np /\
   IS_EMPTY (dirent np) = false /\ IS_DELETED (dirent np) = false /\
   IS_VOL (dirent np) = false).
Proof.
  unfold fatfs_get_node.
  destruct (Z.eqb_spec (cluster (dirent dnp)) CL_ROOT) as [Hroot|_];
    [|intros Hg; right; apply (fat_get_chain_sound _ _ _ _ _ _ _ Hg)].
  destruct (Z.eqb_spec index 0) as [->|_].
  { intros [= <- <-]. left. rewrite Hroot. auto. }
  destruct (Z.eqb_spec index 1) as [->|_].
  { intros [= <- <-]. left. rewrite Hroot. auto. }
  unfold bind.
  destruct (fat_get_sectors _ _ _ _ fmp) as [[[np1|index1]|e| |] fmp1] eqn:Hl;
    try discriminate.
  intros [= <- <-]. right. apply (fat_get_sectors_sound _ _ _ _ _ _ _ Hl).
Qed.

(** A handle filled by [fatfs_lookup_node], or by [fatfs_get_node] past
    the two made-up entries, can be put back: [fatfs_put_node] on it
    returns 0 and every byte of the device is what it was before the
    search. *)
Theorem search_then_put_keeps_disk (fuel : nat) (dnp np0 np : fatfs_node)
        (nm : list Z) (index : Z) (fmp fmp1 : fatfsmount) :
  fatfs_lookup_node fuel dnp (Some nm) fmp = (Ok np, fmp1) \/
  (fatfs_get_node fuel dnp index np0 fmp = (Ok np, fmp1) /\
   sector np <> __U32_MAX) ->
  io_ok fmp1 ->
  exists fmp2,
    fatfs_put_node np fmp1 = (Ok tt, fmp2) /\
    forall s o, u8 (blk_data (dev fmp2) s o) = u8 (blk_data (dev fmp) s o).
Proof.
  intros Hfound Hio.
  assert (Hon : on_disk fmp np /\ blk_data (dev fmp1) = blk_data (dev fmp)).
  { destruct Hfound as [Hl|[Hg Hsec]].
    - pose proof (read_only_fatfs_lookup_node fuel dnp (Some nm) fmp) as [Hd _].
      rewrite Hl in Hd. split; [|exact Hd].
      unfold fatfs_lookup_node in Hl.
      destruct (cluster (dirent dnp) =? CL_ROOT);
        [|apply (fat_lookup_chain_sound _ _ _ _ _ _ Hl)].
      unfold bind in Hl.
      destruct (fat_lookup_sectors _ _ _ fmp) as [[[np1|]|e| |] fmp2] eqn:Hs;
        try discriminate.
      injection Hl as <- <-. apply (fat_lookup_sectors_sound _ _ _ _ _ _ Hs).
    - pose proof (read_only_fatfs_get_node fuel dnp index np0 fmp) as [Hd _].
      rewrite Hg in Hd. split; [|exact Hd].
      unfold fatfs_get_node in Hg.
      destruct (cluster (dirent dnp) =? CL_ROOT);
        [|apply (fat_get_chain_sound _ _ _ _ _ _ _ Hg)].
      destruct (index =? 0);
        [injection Hg as <- <-; exfalso; apply Hsec; reflexivity|].
      destruct (index =? 1);
        [injection Hg as <- <-; exfalso; apply Hsec; reflexivity|].
      unfold bind in Hg.
      destruct (fat_get_sectors _ _ _ _ fmp) as [[[np1|index1]|e| |] fmp2] eqn:Hs;
        try discriminate.
      injection Hg as <- <-. apply (fat_get_sectors_sound _ _ _ _ _ _ _ Hs). }
  destruct Hon as [Hon Hd].
  exact (fatfs_put_node_on_disk fmp fmp1 np Hon Hd Hio).
Qed.

End DirectorySearch.

Lemma fatfs_lookup_node_sound_witness :
  let fmp := demo_dir [] in
  let np := mk_fatfs_node (mk_fat_dirent file_txt 32 [0; 0; 0; 0; 0; 0; 0; 0; 0; 0]
                             0 0 2 100) 3 64 in
  fatfs_lookup_node (H := demo_env) 4 root_node (Some file_txt) fmp
  = (Ok np, snd (fatfs_lookup_node (H := demo_env) 4 root_node (Some file_txt) fmp)) /\
  on_disk fmp np /\
  IS_EMPTY (dirent np) = false /\ IS_VOL (H := demo_env) (dirent np) = false /\
  fat_compare_name (fatfs_env := demo_env) (name (dirent np))
    (firstn 11 (fat_convert_name (fatfs_env := demo_env) file_txt) ++ [0]) = 0.
Proof.
  cbv zeta.
  assert (Hl : fatfs_lookup_node (H := demo_env) 4 root_node (Some file_txt)
                 (demo_dir [])
               = (Ok (mk_fatfs_node
                        (mk_fat_dirent file_txt 32 [0; 0; 0; 0; 0; 0; 0; 0; 0; 0]
                           0 0 2 100) 3 64),
                  snd (fatfs_lookup_node (H := demo_env) 4 root_node
                         (Some file_txt) (demo_dir []))))
    by (vm_compute; reflexivity).
  split; [exact Hl|].
  exact (fatfs_lookup_node_sound (H := demo_env) 4 root_node _ file_txt
           (demo_dir []) _ Hl).
Defined.

Lemma fatfs_get_node_sound_witness :
  let fmp := demo_dir [] in
  let np := mk_fatfs_node (mk_fat_dirent file_txt 32 [0; 0; 0; 0; 0; 0; 0; 0; 0; 0]
                             0 0 2 100) 3 64 in
  fatfs_get_node (H := demo_env) 4 root_node 2 root_node fmp
  = (Ok np, snd (fatfs_get_node (H := demo_env) 4 root_node 2 root_node fmp)) /\
  on_disk fmp np /\
  IS_EMPTY (dirent np) = false /\ IS_DELETED (dirent np) = false /\
  IS_VOL (H := demo_env) (dirent np) = false.
Proof.
  cbv zeta.
  assert (Hl : fatfs_get_node (H := demo_env) 4 root_node 2 root_node (demo_dir [])
               = (Ok (mk_fatfs_node
                        (mk_fat_dirent file_txt 32 [0; 0; 0; 0; 0; 0; 0; 0; 0; 0]
                           0 0 2 100) 3 64),
                  snd (fatfs_get_node (H := demo_env) 4 root_node 2 root_node
                         (demo_dir []))))
    by (vm_compute; reflexivity).
  split; [exact Hl|].
  destruct (fatfs_get_node_sound (H := demo_env) 4 root_node root_node _ 2
              (demo_dir []) _ Hl) as [(_ & [Hi|Hi] & _)|Hon];
    [discriminate Hi|discriminate Hi|exact Hon].
Defined.

Lemma search_then_put_keeps_disk_witness :
  let fmp := demo_dir [] in
  let found := fatfs_lookup_node (H := demo_env) 4 root_node (Some file_txt) fmp in
  let np := mk_fatfs_node (mk_fat_dirent file_txt 32 [0; 0; 0; 0; 0; 0; 0; 0; 0; 0]
                             0 0 2 100) 3 64 in
  found = (Ok np, snd found) /\
  exists fmp2,
    fatfs_put_node np (snd found) = (Ok tt, fmp2) /\
    forall s o, u8 (blk_data (dev fmp2) s o) = u8 (blk_data (dev fmp) s o).
Proof.
  cbv zeta.
  assert (Hl : fatfs_lookup_node (H := demo_env) 4 root_node (Some file_txt)
                 (demo_dir [])
               = (Ok (mk_fatfs_node
                        (mk_fat_dirent file_txt 32 [0; 0; 0; 0; 0; 0; 0; 0; 0; 0]
                           0 0 2 100) 3 64),
                  snd (fatfs_lookup_node (H := demo_env) 4 root_node
                         (Some file_txt) (demo_dir []))))
    by (vm_compute; reflexivity).
  assert (Hio : io_ok (snd (fatfs_lookup_node (H := demo_env) 4 root_node
                              (Some file_txt) (demo_dir []))))
    by (vm_compute; reflexivity).
  split; [exact Hl|].
  exact (search_then_put_keeps_disk (H := demo_env) 4 root_node root_node _
           file_txt 0 (demo_dir []) _ (or_introl Hl) Hio).
Defined.

(** * The root directory *)

Lemma fat_read_dirent_ok fmp sec :
  io_ok fmp ->
  exists fmp',
    fat_read_dirent sec fmp = (Ok tt, fmp') /\
    io_ok fmp' /\ same_geometry fmp fmp' /\ no_write fmp fmp' /\
    dir_buf fmp' = buf_blit (dir_buf fmp) 0 (blk_data (dev fmp) sec) SEC_SIZE.
Proof.
  intros Hio. unfold fat_read_dirent. rewrite (dir_io_read_ok fmp sec Hio).
  eexists. split; [reflexivity|]. split; [reflexivity|].
  split; [unfold same_geometry; cbn; repeat split|].
  split; [|reflexivity].
  split; [reflexivity|].
  exists [(UK_BLKREQ_READ, sec)]. split; [reflexivity|].
  constructor; [reflexivity|constructor].
Qed.

Lemma slot_same_data a b sec j :
  blk_data (dev b) = blk_data (dev a) -> slot b sec j = slot a sec j.
Proof. unfold slot. intros ->. reflexivity. Qed.

(** ** Putting a record into a sector *)

Lemma fat_add_scan_run : forall (m n : nat) i (b : buffer),
  (forall j, i <= j < i + Z.of_nat m -> in_use (dirent_at b (DIRENT_SIZE * j))) ->
  fat_add_scan (m + n) i b = fat_add_scan n (i + Z.of_nat m) b.
Proof.
  induction m as [|m IH]; intros n i b Huse.
  - cbn [Nat.add Z.of_nat]. rewrite Z.add_0_r. reflexivity.
  - cbn [Nat.add fat_add_scan].
    destruct (Huse i) as [Hd He]; [lia|]. rewrite Hd, He. cbn [orb].
    rewrite IH by (intros j Hj; apply Huse; lia).
    f_equal. lia.
Qed.

Lemma fat_add_dirent_full sec np fmp :
  io_ok fmp ->
  (forall j, 0 <= j < 16 -> in_use (slot fmp sec j)) ->
  exists fmp',
    fat_add_dirent sec np fmp = (Err ENOENT, fmp') /\
    io_ok fmp' /\ same_geometry fmp fmp' /\ no_write fmp fmp'.
Proof.
  intros Hio Huse.
  destruct (fat_read_dirent_ok fmp sec Hio) as (fmp1 & Hr & Hio1 & G & Hnw & Hb).
  unfold fat_add_dirent, bind. rewrite Hr.
  assert (E : fat_add_scan (Z.to_nat DIR_PER_SEC) 0 (dir_buf fmp1) = None).
  { change (Z.to_nat DIR_PER_SEC) with (16 + 0)%nat.
    rewrite fat_add_scan_run; [reflexivity|].
    intros j Hj. rewrite Hb, dirent_at_blit by lia. apply Huse. lia. }
  rewrite E. exists fmp1. auto.
Qed.

Lemma fat_add_dirent_put sec np fmp j :
  io_ok fmp -> 0 <= j < 16 ->
  (forall j', 0 <= j' < j -> in_use (slot fmp sec j')) ->
  IS_DELETED (slot fmp sec j) = true \/ IS_EMPTY (slot fmp sec j) = true ->
  exists fmp',
    fat_add_dirent sec np fmp = (Ok tt, fmp') /\
    io_ok fmp' /\ same_geometry fmp fmp' /\
    blk_data (dev fmp')
    = blk_store (blk_data (dev fmp)) sec
        (put_dirent (buf_blit (dir_buf fmp) 0 (blk_data (dev fmp) sec) SEC_SIZE)
           (DIRENT_SIZE * j) (dirent np)) 0.
Proof.
  intros Hio Hj Huse Hfree.
  destruct (fat_read_dirent_ok fmp sec Hio) as (fmp1 & Hr & Hio1 & G & [Hd _] & Hb).
  unfold fat_add_dirent, bind. rewrite Hr.
  assert (E : fat_add_scan (Z.to_nat DIR_PER_SEC) 0 (dir_buf fmp1) = Some j).
  { replace (Z.to_nat DIR_PER_SEC)
      with (Z.to_nat j + S (Z.to_nat (15 - j)))%nat
      by (change (Z.to_nat DIR_PER_SEC) with 16%nat; lia).
    rewrite fat_add_scan_run.
    - cbn [fat_add_scan]. rewrite Z.add_0_l, Z2Nat.id by lia.
      rewrite Hb, dirent_at_blit by lia. fold (slot fmp sec j).
      destruct Hfree as [-> | ->]; [reflexivity|rewrite orb_true_r; reflexivity].
    - intros j' Hj'. rewrite Hb, dirent_at_blit by lia. apply Huse. lia. }
  rewrite E. unfold fat_write_dirent. rewrite dir_io_write_ok by exact Hio1.
  eexists. split; [reflexivity|]. split; [reflexivity|].
  split.
  - destruct G as (G1 & G2 & G3 & G4 & G5 & G6 & G7 & G8 & G9 & G10).
    unfold same_geometry. cbn. repeat split; assumption.
  - cbn. rewrite Hb, Hd. reflexivity.
Qed.

(** ** Scanning the sectors of the root directory *)

Lemma fat_add_sectors_full : forall (m n : nat) sec np fmp,
  io_ok fmp -> 0 <= sec -> sec + Z.of_nat m < 4294967296 ->
  (forall s j, sec <= s < sec + Z.of_nat m -> 0 <= j < 16 -> in_use (slot fmp s j)) ->
  exists fmp',
    io_ok fmp' /\ same_geometry fmp fmp' /\ no_write fmp fmp' /\
    fat_add_sectors (m + n) sec np fmp
    = fat_add_sectors n (sec + Z.of_nat m) np fmp'.
Proof.
  induction m as [|m IH]; intros n sec np fmp Hio Hsec Hend Huse.
  - exists fmp. split; [assumption|]. split; [apply same_geometry_refl|].
    split; [apply no_write_refl|]. cbn [Nat.add Z.of_nat].
    rewrite Z.add_0_r. reflexivity.
  - destruct (fat_add_dirent_full sec np fmp Hio) as (fmp1 & Ha & Hio1 & G1 & Hnw1).
    { intros j Hj. apply Huse; lia. }
    destruct (IH n (sec + 1) np fmp1 Hio1) as (fmp' & Hio' & G' & Hnw' & Hrun);
      try lia.
    { intros s j Hs Hj. rewrite (slot_same_data fmp fmp1) by apply Hnw1.
      apply Huse; lia. }
    exists fmp'. split; [assumption|].
    split; [eapply same_geometry_trans; eassumption|].
    split; [eapply no_write_trans; eassumption|].
    cbn [Nat.add fat_add_sectors]. rewrite Ha. cbn [Z.eqb ENOENT Pos.eqb].
    rewrite u32_small by lia. rewrite Hrun. f_equal. lia.
Qed.

Section RootDirectory.
Context `{fatfs_env}.

(** The record goes into the first slot of the root directory, in scan
    order, that is deleted or the end marker. *)
Lemma fatfs_add_node_root fuel dnp np fmp s j :
  io_ok fmp -> cluster (dirent dnp) = CL_ROOT ->
  0 <= root_start fmp -> data_start fmp < 4294967296 ->
  root_start fmp <= s < data_start fmp -> 0 <= j < DIR_PER_SEC ->
  (forall s' j', root_before fmp s' j' s j -> in_use (slot fmp s' j')) ->
  IS_DELETED (slot fmp s j) = true \/ IS_EMPTY (slot fmp s j) = true ->
  exists fmp',
    fatfs_add_node fuel dnp np fmp = (Ok tt, fmp') /\
    io_ok fmp' /\ same_geometry fmp fmp' /\
    (dirent_wf (dirent np) -> slot fmp' s j = dirent np) /\
    forall s' o,
      ~ (s' = s /\ DIRENT_SIZE * j <= o < DIRENT_SIZE * j + DIRENT_SIZE) ->
      blk_data (dev fmp') s' o = blk_data (dev fmp) s' o.
Proof.
  intros Hio Hroot Hrs Hds Hs Hj Huse Hfree.
  change DIR_PER_SEC with 16 in Hj. unfold DIRENT_SIZE.
  unfold fatfs_add_node. rewrite Hroot, Z.eqb_refl. unfold bind.
  replace (Z.to_nat (data_start fmp - root_start fmp))
    with (Z.to_nat (s - root_start fmp)
          + S (Z.to_nat (data_start fmp - s - 1)))%nat by lia.
  destruct (fat_add_sectors_full (Z.to_nat (s - root_start fmp))
              (S (Z.to_nat (data_start fmp - s - 1))) (root_start fmp) np fmp Hio)
    as (fmp1 & Hio1 & G1 & [Hd1 _] & Hrun); try lia.
  { intros s' j' Hs' Hj'. apply Huse. unfold root_before.
    change DIR_PER_SEC with 16. lia. }
  rewrite Hrun. rewrite Z2Nat.id by lia.
  replace (root_start fmp + (s - root_start fmp)) with s by lia.
  cbn [fat_add_sectors].
  destruct (fat_add_dirent_put s np fmp1 j Hio1 Hj) as (fmp' & Ha & Hio' & G' & Hd').
  { intros j' Hj'. rewrite (slot_same_data fmp fmp1) by exact Hd1.
    apply Huse. unfold root_before. change DIR_PER_SEC with 16. lia. }
  { rewrite (slot_same_data fmp fmp1) by exact Hd1. exact Hfree. }
  rewrite Ha. exists fmp'. split; [reflexivity|]. split; [assumption|].
  split; [eapply same_geometry_trans; eassumption|].
  destruct (blk_store_record (blk_data (dev fmp1)) (dir_buf fmp1) s (32 * j)
              (dirent np)) as [Hrec Hframe]; [lia|lia|].
  unfold slot. rewrite Hd'. unfold DIRENT_SIZE.
  split; [exact Hrec|]. rewrite <- Hd1. exact Hframe.
Qed.

(** [fatfs_add_node] on the root directory puts the record into the
    first slot, in the order of the scan, that holds a deleted record or
    the end marker: decoding that slot afterwards gives the record, and
    every other byte of the device is what it was.  The slot after an
    end marker that was taken is not touched: no new end marker is
    written. *)
Theorem fatfs_add_node_first_free (fuel : nat) (dnp np : fatfs_node)
        (fmp : fatfsmount) (s j : Z) :
  io_ok fmp -> cluster (dirent dnp) = CL_ROOT ->
  0 <= root_start fmp -> data_start fmp < 4294967296 ->
  root_start fmp <= s < data_start fmp -> 0 <= j < DIR_PER_SEC ->
  (forall s' j', root_before fmp s' j' s j -> in_use (slot fmp s' j')) ->
  IS_DELETED (slot fmp s j) = true \/ IS_EMPTY (slot fmp s j) = true ->
  dirent_wf (dirent np) ->
  exists fmp',
    fatfs_add_node fuel dnp np fmp = (Ok tt, fmp') /\
    slot fmp' s j = dirent np /\
    forall s' o,
      ~ (s' = s /\ DIRENT_SIZE * j <= o < DIRENT_SIZE * j + DIRENT_SIZE) ->
      blk_data (dev fmp') s' o = blk_data (dev fmp) s' o.
Proof.
  intros Hio Hroot Hrs Hds Hs Hj Huse Hfree Hwf.
  destruct (fatfs_add_node_root fuel dnp np fmp s j Hio Hroot Hrs Hds Hs Hj
              Huse Hfree) as (fmp' & Ha & _ & _ & Hrec & Hframe).
  exists fmp'. split; [exact Ha|]. split; [exact (Hrec Hwf)|exact Hframe].
Qed.

(** The root directory cannot be expanded: when none of its slots is
    deleted or the end marker, [fatfs_add_node] returns [ENOENT] after
    it has read every sector of the root region, and has written
    nothing. *)
Theorem fatfs_add_node_root_full (fuel : nat) (dnp np : fatfs_node)
        (fmp : fatfsmount) :
  io_ok fmp -> cluster (dirent dnp) = CL_ROOT ->
  0 <= root_start fmp -> data_start fmp < 4294967296 ->
  (forall s j, root_start fmp <= s < data_start fmp -> 0 <= j < DIR_PER_SEC ->
               in_use (slot fmp s j)) ->
  exists fmp',
    fatfs_add_node fuel dnp np fmp = (Err ENOENT, fmp') /\
    no_write fmp fmp'.
Proof.
  intros Hio Hroot Hrs Hds Huse.
  unfold fatfs_add_node. rewrite Hroot, Z.eqb_refl. unfold bind.
  replace (Z.to_nat (data_start fmp - root_start fmp))
    with (Z.to_nat (data_start fmp - root_start fmp) + 0)%nat by lia.
  destruct (Z_le_gt_dec (data_start fmp) (root_start fmp)) as [Hle|Hgt].
  - replace (Z.to_nat (data_start fmp - root_start fmp)) with 0%nat by lia.
    exists fmp. split; [reflexivity|apply no_write_refl].
  - destruct (fat_add_sectors_full (Z.to_nat (data_start fmp - root_start fmp))
                0 (root_start fmp) np fmp Hio)
      as (fmp1 & _ & _ & Hnw & Hrun); try lia.
    { intros s j Hs Hj. apply Huse; [lia|assumption]. }
    rewrite Hrun. exists fmp1. split; [reflexivity|assumption].
Qed.


(** ** Searching the root directory *)

Lemma fat_lookup_scan_run : forall (m n : nat) i (b : buffer) sec fname,
  (forall j, i <= j < i + Z.of_nat m ->
             miss fname (dirent_at b (DIRENT_SIZE * j))) ->
  fat_lookup_scan (m + n) i b sec fname
  = fat_lookup_scan n (i + Z.of_nat m) b sec fname.
Proof.
  induction m as [|m IH]; intros n i b sec fname Hmiss.
  - cbn [Nat.add Z.of_nat]. rewrite Z.add_0_r. reflexivity.
  - cbn [Nat.add fat_lookup_scan].
    destruct (Hmiss i) as [He Hm]; [lia|]. rewrite He.
    assert (E : negb (IS_VOL (dirent_at b (DIRENT_SIZE * i)))
                && (fat_compare_name (name (dirent_at b (DIRENT_SIZE * i))) fname
                    =? 0) = false).
    { destruct Hm as [-> | Hc]; [reflexivity|].
      apply Z.eqb_neq in Hc. rewrite Hc. apply andb_false_r. }
    rewrite E, IH by (intros j Hj; apply Hmiss; lia).
    f_equal. lia.
Qed.

Lemma fat_lookup_dirent_miss sec fname fmp :
  io_ok fmp ->
  (forall j, 0 <= j < 16 -> miss fname (slot fmp sec j)) ->
  exists fmp',
    fat_lookup_dirent sec fname fmp = (Err EAGAIN, fmp') /\
    io_ok fmp' /\ same_geometry fmp fmp' /\ no_write fmp fmp'.
Proof.
  intros Hio Hmiss.
  destruct (fat_read_dirent_ok fmp sec Hio) as (fmp1 & Hr & Hio1 & G & Hnw & Hb).
  unfold fat_lookup_dirent, bind. rewrite Hr.
  change (Z.to_nat DIR_PER_SEC) with (16 + 0)%nat.
  rewrite fat_lookup_scan_run.
  - exists fmp1. auto.
  - intros j Hj. rewrite Hb, dirent_at_blit by lia. apply Hmiss. lia.
Qed.

(** The first slot of the sector that is not passed over decides. *)
Lemma fat_lookup_dirent_stop sec fname fmp j :
  io_ok fmp -> 0 <= j < 16 ->
  (forall j', 0 <= j' < j -> miss fname (slot fmp sec j')) ->
  exists fmp',
    io_ok fmp' /\ same_geometry fmp fmp' /\ no_write fmp fmp' /\
    (hit fname (slot fmp sec j) ->
     fat_lookup_dirent sec fname fmp
     = (Ok (mk_fatfs_node (slot fmp sec j) sec (DIRENT_SIZE * j)), fmp')) /\
    (IS_EMPTY (slot fmp sec j) = true ->
     fat_lookup_dirent sec fname fmp = (Err ENOENT, fmp')).
Proof.
  intros Hio Hj Hmiss.
  destruct (fat_read_dirent_ok fmp sec Hio) as (fmp1 & Hr & Hio1 & G & Hnw & Hb).
  exists fmp1. split; [assumption|]. split; [assumption|]. split; [assumption|].
  unfold fat_lookup_dirent, bind. rewrite Hr.
  replace (Z.to_nat DIR_PER_SEC)
    with (Z.to_nat j + S (Z.to_nat (15 - j)))%nat
    by (change (Z.to_nat DIR_PER_SEC) with 16%nat; lia).
  rewrite fat_lookup_scan_run
    by (intros j' Hj'; rewrite Hb, dirent_at_blit by lia; apply Hmiss; lia).
  cbn [fat_lookup_scan]. rewrite Z.add_0_l, Z2Nat.id by lia.
  rewrite Hb, dirent_at_blit by lia. fold (slot fmp sec j).
  split.
  - intros (He & Hv & Hc). rewrite He, Hv, Hc. cbn [negb andb Z.eqb].
    rewrite u32_small by (unfold DIRENT_SIZE; lia). reflexivity.
  - intros ->. reflexivity.
Qed.

Lemma fat_lookup_sectors_miss : forall (m n : nat) sec fname fmp,
  io_ok fmp -> 0 <= sec -> sec + Z.of_nat m < 4294967296 ->
  (forall s j, sec <= s < sec + Z.of_nat m -> 0 <= j < 16 ->
               miss fname (slot fmp s j)) ->
  exists fmp',
    io_ok fmp' /\ same_geometry fmp fmp' /\ no_write fmp fmp' /\
    fat_lookup_sectors (m + n) sec fname fmp
    = fat_lookup_sectors n (sec + Z.of_nat m) fname fmp'.
Proof.
  induction m as [|m IH]; intros n sec fname fmp Hio Hsec Hend Hmiss.
  - exists fmp. split; [assumption|]. split; [apply same_geometry_refl|].
    split; [apply no_write_refl|]. cbn [Nat.add Z.of_nat].
    rewrite Z.add_0_r. reflexivity.
  - destruct (fat_lookup_dirent_miss sec fname fmp Hio)
      as (fmp1 & Ha & Hio1 & G1 & Hnw1).
    { intros j Hj. apply Hmiss; lia. }
    destruct (IH n (sec + 1) fname fmp1 Hio1) as (fmp' & Hio' & G' & Hnw' & Hrun);
      try lia.
    { intros s j Hs Hj. rewrite (slot_same_data fmp fmp1) by apply Hnw1.
      apply Hmiss; lia. }
    exists fmp'. split; [assumption|].
    split; [eapply same_geometry_trans; eassumption|].
    split; [eapply no_write_trans; eassumption|].
    cbn [Nat.add fat_lookup_sectors]. rewrite Ha. cbn [Z.eqb EAGAIN Pos.eqb].
    rewrite u32_small by lia. rewrite Hrun. f_equal. lia.
Qed.

(** The search of the root directory, decided by the first slot, in
    scan order, that it does not pass over. *)
Lemma fatfs_lookup_node_root fuel dnp nm fmp s j :
  io_ok fmp -> cluster (dirent dnp) = CL_ROOT ->
  0 <= root_start fmp -> data_start fmp < 4294967296 ->
  root_start fmp <= s < data_start fmp -> 0 <= j < DIR_PER_SEC ->
  (forall s' j', root_before fmp s' j' s j ->
                 miss (firstn 11 (fat_convert_name nm) ++ [0]) (slot fmp s' j')) ->
  exists fmp',
    no_write fmp fmp' /\
    (hit (firstn 11 (fat_convert_name nm) ++ [0]) (slot fmp s j) ->
     fatfs_lookup_node fuel dnp (Some nm) fmp
     = (Ok (mk_fatfs_node (slot fmp s j) s (DIRENT_SIZE * j)), fmp')) /\
    (IS_EMPTY (slot fmp s j) = true ->
     fatfs_lookup_node fuel dnp (Some nm) fmp = (Err ENOENT, fmp')).
Proof.
  intros Hio Hroot Hrs Hds Hs Hj Hmiss.
  change DIR_PER_SEC with 16 in Hj.
  set (fname := firstn 11 (fat_convert_name nm) ++ [0]) in *.
  destruct (fat_lookup_sectors_miss (Z.to_nat (s - root_start fmp))
              (S (Z.to_nat (data_start fmp - s - 1))) (root_start fmp) fname fmp Hio)
    as (fmp1 & Hio1 & G1 & Hnw1 & Hrun); try lia.
  { intros s' j' Hs' Hj'. apply Hmiss. unfold root_before.
    change DIR_PER_SEC with 16. lia. }
  destruct (fat_lookup_dirent_stop s fname fmp1 j Hio1 Hj)
    as (fmp' & _ & _ & Hnw' & Hhit & Hend).
  { intros j' Hj'. rewrite (slot_same_data fmp fmp1) by apply Hnw1.
    apply Hmiss. unfold root_before. change DIR_PER_SEC with 16. lia. }
  rewrite (slot_same_data fmp fmp1) in Hhit, Hend by apply Hnw1.
  assert (Hsplit : fatfs_lookup_node fuel dnp (Some nm) fmp
                   = match fat_lookup_dirent s fname fmp1 with
                     | (Ok np, fmp2) => (Ok np, fmp2)
                     | (Err e, fmp2) =>
                         if e =? EAGAIN
                         then (found <- fat_lookup_sectors
                                          (Z.to_nat (data_start fmp - s - 1))
                                          (u32 (s + 1)) fname ;;
                               match found with
                               | Some np => ret np
                               | None => fail ENOENT
                               end) fmp2
                         else (Err e, fmp2)
                     | (OutOfFuel, fmp2) => (OutOfFuel, fmp2)
                     | (Trap, fmp2) => (Trap, fmp2)
                     end).
  { unfold fatfs_lookup_node. rewrite Hroot, Z.eqb_refl. fold fname. unfold bind.
    replace (Z.to_nat (data_start fmp - root_start fmp))
      with (Z.to_nat (s - root_start fmp)
            + S (Z.to_nat (data_start fmp - s - 1)))%nat by lia.
    rewrite Hrun. rewrite Z2Nat.id by lia.
    replace (root_start fmp + (s - root_start fmp)) with s by lia.
    cbn [fat_lookup_sectors].
    destruct (fat_lookup_dirent s fname fmp1) as [[np|e| |] fmp2]; try reflexivity.
    destruct (e =? EAGAIN); reflexivity. }
  exists fmp'. split; [eapply no_write_trans; eassumption|].
  split.
  - intros Hh. rewrite Hsplit, (Hhit Hh). reflexivity.
  - intros He. rewrite Hsplit, (Hend He). reflexivity.
Qed.

(** [fatfs_lookup_node] on the root directory returns the first record,
    in the order of the scan, that is not a volume label and whose name
    compares equal, provided no end marker comes before it: the handle
    holds that record, its sector and its byte offset. *)
Theorem fatfs_lookup_node_first_match (fuel : nat) (dnp : fatfs_node)
        (nm : list Z) (fmp : fatfsmount) (s j : Z) :
  io_ok fmp -> cluster (dirent dnp) = CL_ROOT ->
  0 <= root_start fmp -> data_start fmp < 4294967296 ->
  root_start fmp <= s < data_start fmp -> 0 <= j < DIR_PER_SEC ->
  (forall s' j', root_before fmp s' j' s j ->
                 miss (firstn 11 (fat_convert_name nm) ++ [0]) (slot fmp s' j')) ->
  hit (firstn 11 (fat_convert_name nm) ++ [0]) (slot fmp s j) ->
  exists fmp',
    fatfs_lookup_node fuel dnp (Some nm) fmp
    = (Ok (mk_fatfs_node (slot fmp s j) s (DIRENT_SIZE * j)), fmp').
Proof.
  intros Hio Hroot Hrs Hds Hs Hj Hmiss Hhit.
  destruct (fatfs_lookup_node_root fuel dnp nm fmp s j Hio Hroot Hrs Hds Hs Hj
              Hmiss) as (fmp' & _ & Hfound & _).
  exists fmp'. exact (Hfound Hhit).
Qed.

(** The end marker ends the search of the root directory: when the
    first record that the scan does not pass over is the end marker, the
    result is [ENOENT], whatever the slots and sectors after it hold. *)
Theorem fatfs_lookup_node_end_marker (fuel : nat) (dnp : fatfs_node)
        (nm : list Z) (fmp : fatfsmount) (s j : Z) :
  io_ok fmp -> cluster (dirent dnp) = CL_ROOT ->
  0 <= root_start fmp -> data_start fmp < 4294967296 ->
  root_start fmp <= s < data_start fmp -> 0 <= j < DIR_PER_SEC ->
  (forall s' j', root_before fmp s' j' s j ->
                 miss (firstn 11 (fat_convert_name nm) ++ [0]) (slot fmp s' j')) ->
  IS_EMPTY (slot fmp s j) = true ->
  exists fmp',
    fatfs_lookup_node fuel dnp (Some nm) fmp = (Err ENOENT, fmp') /\
    no_write fmp fmp'.
Proof.
  intros Hio Hroot Hrs Hds Hs Hj Hmiss Hend.
  destruct (fatfs_lookup_node_root fuel dnp nm fmp s j Hio Hroot Hrs Hds Hs Hj
              Hmiss) as (fmp' & Hnw & _ & Hnone).
  exists fmp'. split; [exact (Hnone Hend)|exact Hnw].
Qed.

(** A record put into the root directory is found there again: when
    [fatfs_add_node] has stored the record of [np] in the first free
    slot, and no record in use before that slot answers to the name,
    [fatfs_lookup_node] for a name that the record answers to returns a
    handle with this record, the sector of the slot and its offset. *)
Theorem fatfs_add_then_lookup (fuel : nat) (dnp np : fatfs_node) (nm : list Z)
        (fmp : fatfsmount) (s j : Z) :
  io_ok fmp -> cluster (dirent dnp) = CL_ROOT ->
  0 <= root_start fmp -> data_start fmp < 4294967296 ->
  root_start fmp <= s < data_start fmp -> 0 <= j < DIR_PER_SEC ->
  (forall s' j', root_before fmp s' j' s j ->
                 in_use (slot fmp s' j') /\
                 miss (firstn 11 (fat_convert_name nm) ++ [0]) (slot fmp s' j')) ->
  IS_DELETED (slot fmp s j) = true \/ IS_EMPTY (slot fmp s j) = true ->
  dirent_wf (dirent np) ->
  hit (firstn 11 (fat_convert_name nm) ++ [0]) (dirent np) ->
  exists fmp1 fmp2,
    fatfs_add_node fuel dnp np fmp = (Ok tt, fmp1) /\
    fatfs_lookup_node fuel dnp (Some nm) fmp1
    = (Ok (mk_fatfs_node (dirent np) s (DIRENT_SIZE * j)), fmp2).
Proof.
  intros Hio Hroot Hrs Hds Hs Hj Hbefore Hfree Hwf Hhit.
  destruct (fatfs_add_node_root fuel dnp np fmp s j Hio Hroot Hrs Hds Hs Hj)
    as (fmp1 & Ha & Hio1 & G1 & Hrec & Hframe);
    [intros s' j' Hb; apply (Hbefore s' j' Hb)|exact Hfree|].
  specialize (Hrec Hwf).
  assert (R1 : root_start fmp1 = root_start fmp) by (symmetry; apply G1).
  assert (D1 : data_start fmp1 = data_start fmp) by (symmetry; apply G1).
  assert (Hslots : forall s' j', root_before fmp s' j' s j ->
                                 slot fmp1 s' j' = slot fmp s' j').
  { intros s' j' (_ & Hj' & Hord). change DIR_PER_SEC with 16 in *.
    unfold slot. apply dirent_at_ext. intros k Hk.
    rewrite Hframe; [reflexivity|]. unfold DIRENT_SIZE. lia. }
  destruct (fatfs_lookup_node_root fuel dnp nm fmp1 s j Hio1 Hroot)
    as (fmp2 & _ & Hfound & _); try (rewrite ?R1, ?D1; assumption).
  { intros s' j' Hb.
    assert (Hb' : root_before fmp s' j' s j)
      by (unfold root_before in *; rewrite <- R1; exact Hb).
    rewrite (Hslots s' j' Hb'). apply (Hbefore s' j' Hb'). }
  exists fmp1, fmp2. split; [exact Ha|].
  rewrite Hrec in Hfound. exact (Hfound Hhit).
Qed.

End RootDirectory.

(** ** The root directory of the demonstration volume *)

Lemma new_node_wf : dirent_wf (dirent new_node).
Proof.
  unfold dirent_wf, new_node, new_txt.
  cbn [dirent name attr reserve time date cluster size].
  split; [reflexivity|].
  split; [repeat (apply Forall_cons; [lia|]); apply Forall_nil|].
  split; [lia|]. split; [reflexivity|].
  split; [repeat (apply Forall_cons; [lia|]); apply Forall_nil|]. lia.
Qed.

Lemma demo_root_before (fmp : fatfsmount) s' j' j :
  root_start fmp = 3 -> root_before fmp s' j' 3 j -> s' = 3 /\ 0 <= j' < j.
Proof. unfold root_before. intros ->. lia. Qed.

Lemma fatfs_add_node_first_free_witness :
  let fmp := demo_dir [] in
  exists fmp',
    fatfs_add_node (H := demo_env) 4 root_node new_node fmp = (Ok tt, fmp') /\
    slot fmp' 3 1 = dirent new_node /\
    forall s' o,
      ~ (s' = 3 /\ DIRENT_SIZE * 1 <= o < DIRENT_SIZE * 1 + DIRENT_SIZE) ->
      blk_data (dev fmp') s' o = blk_data (dev fmp) s' o.
Proof.
  cbv zeta.
  assert (H0 : 0 <= root_start (demo_dir [])) by (cbn; lia).
  assert (H1 : data_start (demo_dir []) < 4294967296) by (cbn; lia).
  assert (H2 : root_start (demo_dir []) <= 3 < data_start (demo_dir []))
    by (cbn; lia).
  assert (H3 : 0 <= 1 < DIR_PER_SEC) by (vm_compute; split; [discriminate|reflexivity]).
  assert (Huse : forall s' j', root_before (demo_dir []) s' j' 3 1 ->
                               in_use (slot (demo_dir []) s' j')).
  { intros s' j' Hb. apply demo_root_before in Hb; [|reflexivity].
    destruct Hb as [-> Hj]. assert (j' = 0) as -> by lia.
    split; vm_compute; reflexivity. }
  assert (Hfree : IS_DELETED (slot (demo_dir []) 3 1) = true \/
                  IS_EMPTY (slot (demo_dir []) 3 1) = true)
    by (left; vm_compute; reflexivity).
  exact (fatfs_add_node_first_free (H := demo_env) 4 root_node new_node
           (demo_dir []) 3 1 eq_refl eq_refl H0 H1 H2 H3 Huse Hfree new_node_wf).
Defined.

Lemma demo16_root_in_use entries s j :
  3 <= s < 5 -> in_use (slot (demo16 entries []) s j).
Proof.
  intros Hs. unfold in_use, IS_DELETED, IS_EMPTY, slot, dirent_at, buf_bytes.
  cbn [name seq map nth dev demo16 blk_data]. unfold demo_data.
  destruct (Z.eqb_spec s 1) as [|_]; [lia|]. split; reflexivity.
Qed.

Lemma fatfs_add_node_root_full_witness :
  let fmp := demo16 chain234 [] in
  exists fmp',
    fatfs_add_node (H := demo_env) 4 root_node new_node fmp = (Err ENOENT, fmp') /\
    no_write fmp fmp'.
Proof.
  cbv zeta.
  assert (H0 : 0 <= root_start (demo16 chain234 [])) by (cbn; lia).
  assert (H1 : data_start (demo16 chain234 []) < 4294967296) by (cbn; lia).
  assert (Huse : forall s j,
             root_start (demo16 chain234 []) <= s < data_start (demo16 chain234 []) ->
             0 <= j < DIR_PER_SEC -> in_use (slot (demo16 chain234 []) s j)).
  { intros s j Hs _. apply demo16_root_in_use. exact Hs. }
  exact (fatfs_add_node_root_full (H := demo_env) 4 root_node new_node
           (demo16 chain234 []) eq_refl eq_refl H0 H1 Huse).
Defined.

Lemma fatfs_lookup_node_first_match_witness :
  let fmp := demo_dir [] in
  exists fmp',
    fatfs_lookup_node (H := demo_env) 4 root_node (Some file_txt) fmp
    = (Ok (mk_fatfs_node (slot fmp 3 2) 3 (DIRENT_SIZE * 2)), fmp').
Proof.
  cbv zeta.
  assert (H0 : 0 <= root_start (demo_dir [])) by (cbn; lia).
  assert (H1 : data_start (demo_dir []) < 4294967296) by (cbn; lia).
  assert (H2 : root_start (demo_dir []) <= 3 < data_start (demo_dir []))
    by (cbn; lia).
  assert (H3 : 0 <= 2 < DIR_PER_SEC) by (vm_compute; split; [discriminate|reflexivity]).
  assert (Hmiss : forall s' j', root_before (demo_dir []) s' j' 3 2 ->
             miss (H := demo_env)
               (firstn 11 (fat_convert_name (fatfs_env := demo_env) file_txt) ++ [0])
               (slot (demo_dir []) s' j')).
  { intros s' j' Hb. apply demo_root_before in Hb; [|reflexivity].
    destruct Hb as [-> Hj]. assert (E : j' = 0 \/ j' = 1) by lia.
    destruct E as [-> | ->]; (split; [vm_compute; reflexivity|]).
    - left. vm_compute. reflexivity.
    - right. vm_compute. discriminate. }
  assert (Hhit : hit (H := demo_env)
                   (firstn 11 (fat_convert_name (fatfs_env := demo_env) file_txt)
                    ++ [0])
                   (slot (demo_dir []) 3 2))
    by (repeat split; vm_compute; reflexivity).
  exact (fatfs_lookup_node_first_match (H := demo_env) 4 root_node file_txt
           (demo_dir []) 3 2 eq_refl eq_refl H0 H1 H2 H3 Hmiss Hhit).
Defined.

Lemma fatfs_lookup_node_end_marker_witness :
  let fmp := demo_dir [] in
  exists fmp',
    fatfs_lookup_node (H := demo_env) 4 root_node (Some new_txt) fmp
    = (Err ENOENT, fmp') /\
    no_write fmp fmp'.
Proof.
  cbv zeta.
  assert (H0 : 0 <= root_start (demo_dir [])) by (cbn; lia).
  assert (H1 : data_start (demo_dir []) < 4294967296) by (cbn; lia).
  assert (H2 : root_start (demo_dir []) <= 3 < data_start (demo_dir []))
    by (cbn; lia).
  assert (H3 : 0 <= 3 < DIR_PER_SEC) by (vm_compute; split; [discriminate|reflexivity]).
  assert (Hmiss : forall s' j', root_before (demo_dir []) s' j' 3 3 ->
             miss (H := demo_env)
               (firstn 11 (fat_convert_name (fatfs_env := demo_env) new_txt) ++ [0])
               (slot (demo_dir []) s' j')).
  { intros s' j' Hb. apply demo_root_before in Hb; [|reflexivity].
    destruct Hb as [-> Hj]. assert (E : j' = 0 \/ j' = 1 \/ j' = 2) by lia.
    destruct E as [-> |[-> | ->]]; (split; [vm_compute; reflexivity|]).
    - left. vm_compute. reflexivity.
    - right. vm_compute. discriminate.
    - right. vm_compute. discriminate. }
  assert (Hend : IS_EMPTY (slot (demo_dir []) 3 3) = true)
    by (vm_compute; reflexivity).
  exact (fatfs_lookup_node_end_marker (H := demo_env) 4 root_node new_txt
           (demo_dir []) 3 3 eq_refl eq_refl H0 H1 H2 H3 Hmiss Hend).
Defined.

Lemma fatfs_add_then_lookup_witness :
  let fmp := demo_dir [] in
  exists fmp1 fmp2,
    fatfs_add_node (H := demo_env) 4 root_node new_node fmp = (Ok tt, fmp1) /\
    fatfs_lookup_node (H := demo_env) 4 root_node (Some new_txt) fmp1
    = (Ok (mk_fatfs_node (dirent new_node) 3 (DIRENT_SIZE * 1)), fmp2).
Proof.
  cbv zeta.
  assert (H0 : 0 <= root_start (demo_dir [])) by (cbn; lia).
  assert (H1 : data_start (demo_dir []) < 4294967296) by (cbn; lia).
  assert (H2 : root_start (demo_dir []) <= 3 < data_start (demo_dir []))
    by (cbn; lia).
  assert (H3 : 0 <= 1 < DIR_PER_SEC) by (vm_compute; split; [discriminate|reflexivity]).
  assert (Hbefore : forall s' j', root_before (demo_dir []) s' j' 3 1 ->
             in_use (slot (demo_dir []) s' j') /\
             miss (H := demo_env)
               (firstn 11 (fat_convert_name (fatfs_env := demo_env) new_txt) ++ [0])
               (slot (demo_dir []) s' j')).
  { intros s' j' Hb. apply demo_root_before in Hb; [|reflexivity].
    destruct Hb as [-> Hj]. assert (j' = 0) as -> by lia.
    split; [split; vm_compute; reflexivity|].
    split; [vm_compute; reflexivity|]. left. vm_compute. reflexivity. }
  assert (Hfree : IS_DELETED (slot (demo_dir []) 3 1) = true \/
                  IS_EMPTY (slot (demo_dir []) 3 1) = true)
    by (left; vm_compute; reflexivity).
  assert (Hhit : hit (H := demo_env)
                   (firstn 11 (fat_convert_name (fatfs_env := demo_env) new_txt)
                    ++ [0])
                   (dirent new_node))
    by (repeat split; vm_compute; reflexivity).
  exact (fatfs_add_then_lookup (H := demo_env) 4 root_node new_node new_txt
           (demo_dir []) 3 1 eq_refl eq_refl H0 H1 H2 H3 Hbefore Hfree
           new_node_wf Hhit).
Defined.

(** * Enumerating the root directory *)

Section RootEnumeration.
Context `{fatfs_env}.

Lemma live_slots_nonneg (data : Z -> Z) : forall m i, 0 <= live_slots data m i.
Proof.
  induction m as [|m IH]; intros i; cbn [live_slots]; [lia|].
  specialize (IH (i + 1)). destruct (is_live _); lia.
Qed.

Lemma live_slots_ext (b b' : Z -> Z) : forall m i,
  (forall j, i <= j < i + Z.of_nat m ->
             dirent_at b (DIRENT_SIZE * j) = dirent_at b' (DIRENT_SIZE * j)) ->
  live_slots b m i = live_slots b' m i.
Proof.
  induction m as [|m IH]; intros i Hsame; cbn [live_slots]; [reflexivity|].
  rewrite (Hsame i) by lia. rewrite IH; [reflexivity|].
  intros j Hj. apply Hsame. lia.
Qed.

Lemma live_slots_app (data : Z -> Z) : forall m n i,
  live_slots data (m + n) i
  = live_slots data m i + live_slots data n (i + Z.of_nat m).
Proof.
  induction m as [|m IH]; intros n i.
  - cbn [Nat.add live_slots Z.of_nat]. rewrite Z.add_0_r. reflexivity.
  - cbn [Nat.add live_slots]. rewrite IH.
    replace (i + 1 + Z.of_nat m) with (i + Z.of_nat (S m)) by lia. lia.
Qed.

Lemma live_sectors_nonneg fmp : forall n sec, 0 <= live_sectors fmp n sec.
Proof.
  induction n as [|n IH]; intros sec; cbn [live_sectors]; [lia|].
  specialize (IH (sec + 1)).
  pose proof (live_slots_nonneg (blk_data (dev fmp) sec) (Z.to_nat DIR_PER_SEC) 0).
  lia.
Qed.

Lemma live_sectors_same_data a b : forall n sec,
  blk_data (dev b) = blk_data (dev a) ->
  live_sectors b n sec = live_sectors a n sec.
Proof.
  induction n as [|n IH]; intros sec E; cbn [live_sectors]; [reflexivity|].
  rewrite E, IH by assumption. reflexivity.
Qed.

(** The scan passes over [m] slots none of which is the end marker, as
    long as the records it counts there do not reach the target. *)
Lemma fat_get_scan_run : forall (m n : nat) i (b : buffer) sec target index,
  (forall j, i <= j < i + Z.of_nat m ->
             IS_EMPTY (dirent_at b (DIRENT_SIZE * j)) = false) ->
  index + live_slots b m i <= target ->
  fat_get_scan (m + n) i b sec target index
  = fat_get_scan n (i + Z.of_nat m) b sec target (index + live_slots b m i).
Proof.
  induction m as [|m IH]; intros n i b sec target index Hne Hle.
  - cbn [Nat.add Z.of_nat live_slots]. rewrite !Z.add_0_r. reflexivity.
  - cbn [Nat.add fat_get_scan live_slots] in *.
    rewrite (Hne i) by lia.
    pose proof (live_slots_nonneg b m (i + 1)) as Hnn.
    unfold is_live in *.
    destruct (negb (IS_DELETED (dirent_at b (DIRENT_SIZE * i)))
              && negb (IS_VOL (dirent_at b (DIRENT_SIZE * i)))).
    + destruct (Z.eqb_spec index target) as [|_]; [lia|].
      rewrite IH; [|intros j Hj; apply Hne; lia|lia].
      f_equal; lia.
    + rewrite IH; [|intros j Hj; apply Hne; lia|lia].
      f_equal; lia.
Qed.

Lemma fat_get_dirent_pass sec target index fmp :
  io_ok fmp ->
  (forall j, 0 <= j < 16 -> IS_EMPTY (slot fmp sec j) = false) ->
  index + live_slots (blk_data (dev fmp) sec) (Z.to_nat DIR_PER_SEC) 0 <= target ->
  exists fmp',
    fat_get_dirent sec target index fmp
    = (Err EAGAIN,
       index + live_slots (blk_data (dev fmp) sec) (Z.to_nat DIR_PER_SEC) 0, fmp') /\
    io_ok fmp' /\ same_geometry fmp fmp' /\ no_write fmp fmp'.
Proof.
  intros Hio Hne Hle.
  destruct (fat_read_dirent_ok fmp sec Hio) as (fmp1 & Hr & Hio1 & G & Hnw & Hb).
  unfold fat_get_dirent. rewrite Hr. cbv beta iota.
  assert (E : live_slots (dir_buf fmp1) (Z.to_nat DIR_PER_SEC) 0
              = live_slots (blk_data (dev fmp) sec) (Z.to_nat DIR_PER_SEC) 0).
  { apply live_slots_ext. intros j Hj. rewrite Hb. apply dirent_at_blit.
    change (Z.of_nat (Z.to_nat DIR_PER_SEC)) with 16 in Hj. lia. }
  exists fmp1. split; [|auto].
  change (fat_get_scan (Z.to_nat DIR_PER_SEC) 0 (dir_buf fmp1) sec target index)
    with (fat_get_scan (Z.to_nat DIR_PER_SEC + 0) 0 (dir_buf fmp1) sec target index).
  rewrite fat_get_scan_run.
  - cbn [fat_get_scan]. rewrite E. reflexivity.
  - intros j Hj. change (Z.of_nat (Z.to_nat DIR_PER_SEC)) with 16 in Hj.
    rewrite Hb, dirent_at_blit by lia. apply Hne. lia.
  - rewrite E. assumption.
Qed.

Lemma fat_get_dirent_stop sec target index fmp j :
  io_ok fmp -> 0 <= j < 16 ->
  (forall j', 0 <= j' < j -> IS_EMPTY (slot fmp sec j') = false) ->
  exists fmp',
    io_ok fmp' /\ same_geometry fmp fmp' /\ no_write fmp fmp' /\
    (IS_EMPTY (slot fmp sec j) = false -> is_live (slot fmp sec j) = true ->
     index + live_slots (blk_data (dev fmp) sec) (Z.to_nat j) 0 = target ->
     fst (fst (fat_get_dirent sec target index fmp))
     = Ok (mk_fatfs_node (slot fmp sec j) sec (DIRENT_SIZE * j)) /\
     snd (fat_get_dirent sec target index fmp) = fmp') /\
    (IS_EMPTY (slot fmp sec j) = true ->
     index + live_slots (blk_data (dev fmp) sec) (Z.to_nat j) 0 <= target ->
     fst (fst (fat_get_dirent sec target index fmp)) = Err ENOENT /\
     snd (fat_get_dirent sec target index fmp) = fmp').
Proof.
  intros Hio Hj Hne.
  destruct (fat_read_dirent_ok fmp sec Hio) as (fmp1 & Hr & Hio1 & G & Hnw & Hb).
  exists fmp1. split; [assumption|]. split; [assumption|]. split; [assumption|].
  assert (E : live_slots (dir_buf fmp1) (Z.to_nat j) 0
              = live_slots (blk_data (dev fmp) sec) (Z.to_nat j) 0).
  { apply live_slots_ext. intros j' Hj'. rewrite Hb. apply dirent_at_blit. lia. }
  assert (Hrun : index + live_slots (blk_data (dev fmp) sec) (Z.to_nat j) 0
                 <= target ->
                 fat_get_dirent sec target index fmp
                 = (fat_get_scan (S (Z.to_nat (15 - j))) j (dir_buf fmp1) sec target
                      (index + live_slots (blk_data (dev fmp) sec) (Z.to_nat j) 0),
                    fmp1)).
  { intros Hle. unfold fat_get_dirent. rewrite Hr. cbv beta iota.
    replace (Z.to_nat DIR_PER_SEC)
      with (Z.to_nat j + S (Z.to_nat (15 - j)))%nat
      by (change (Z.to_nat DIR_PER_SEC) with 16%nat; lia).
    rewrite fat_get_scan_run.
    - rewrite E, Z.add_0_l, Z2Nat.id by lia. reflexivity.
    - intros j' Hj'. rewrite Hb, dirent_at_blit by lia. apply Hne. lia.
    - rewrite E. assumption. }
  split.
  - intros He Hl Hidx. rewrite Hrun by lia. cbn [fat_get_scan fst snd].
    rewrite Hb, dirent_at_blit by lia. fold (slot fmp sec j).
    rewrite He. unfold is_live in Hl. rewrite Hl, Hidx, Z.eqb_refl.
    rewrite u32_small by (unfold DIRENT_SIZE; lia). cbn [fst]. auto.
  - intros He Hle. rewrite Hrun by lia. cbn [fat_get_scan fst snd].
    rewrite Hb, dirent_at_blit by lia. fold (slot fmp sec j).
    rewrite He. cbn [fst]. auto.
Qed.

Lemma fat_get_sectors_pass : forall (m n : nat) sec target index fmp,
  io_ok fmp -> 0 <= sec -> sec + Z.of_nat m < 4294967296 ->
  (forall s j, sec <= s < sec + Z.of_nat m -> 0 <= j < 16 ->
               IS_EMPTY (slot fmp s j) = false) ->
  index + live_sectors fmp m sec <= target ->
  exists fmp',
    io_ok fmp' /\ same_geometry fmp fmp' /\ no_write fmp fmp' /\
    fat_get_sectors (m + n) sec target index fmp
    = fat_get_sectors n (sec + Z.of_nat m) target
        (index + live_sectors fmp m sec) fmp'.
Proof.
  induction m as [|m IH]; intros n sec target index fmp Hio Hsec Hend Hne Hle.
  - exists fmp. split; [assumption|]. split; [apply same_geometry_refl|].
    split; [apply no_write_refl|]. cbn [Nat.add Z.of_nat live_sectors].
    rewrite !Z.add_0_r. reflexivity.
  - cbn [live_sectors] in Hle.
    pose proof (live_sectors_nonneg fmp m (sec + 1)) as Hnn.
    destruct (fat_get_dirent_pass sec target index fmp Hio)
      as (fmp1 & Ha & Hio1 & G1 & Hnw1); [intros j Hj; apply Hne; lia|lia|].
    destruct (IH n (sec + 1) target
                (index + live_slots (blk_data (dev fmp) sec) (Z.to_nat DIR_PER_SEC) 0)
                fmp1 Hio1) as (fmp' & Hio' & G' & Hnw' & Hrun); try lia.
    { intros s j Hs Hj. rewrite (slot_same_data fmp fmp1) by apply Hnw1.
      apply Hne; lia. }
    { rewrite (live_sectors_same_data fmp fmp1) by apply Hnw1. lia. }
    exists fmp'. split; [assumption|].
    split; [eapply same_geometry_trans; eassumption|].
    split; [eapply no_write_trans; eassumption|].
    cbn [Nat.add fat_get_sectors live_sectors]. rewrite Ha.
    cbn [Z.eqb EAGAIN Pos.eqb]. rewrite u32_small by lia. rewrite Hrun.
    rewrite (live_sectors_same_data fmp fmp1) by apply Hnw1.
    f_equal; lia.
Qed.

(** The enumeration of the root directory, decided at the first slot
    that is the end marker or holds the record counted as number
    [index - 2]. *)
Lemma fatfs_get_node_root fuel dnp np0 index fmp s j :
  io_ok fmp -> cluster (dirent dnp) = CL_ROOT ->
  0 <= root_start fmp -> data_start fmp < 4294967296 ->
  root_start fmp <= s < data_start fmp -> 0 <= j < DIR_PER_SEC ->
  (forall s' j', root_before fmp s' j' s j -> IS_EMPTY (slot fmp s' j') = false) ->
  2 <= index ->
  exists fmp',
    no_write fmp fmp' /\
    (IS_EMPTY (slot fmp s j) = false -> is_live (slot fmp s j) = true ->
     index = live_before fmp s j + 2 ->
     fatfs_get_node fuel dnp index np0 fmp
     = (Ok (mk_fatfs_node (slot fmp s j) s (DIRENT_SIZE * j)), fmp')) /\
    (IS_EMPTY (slot fmp s j) = true -> live_before fmp s j + 2 <= index ->
     fatfs_get_node fuel dnp index np0 fmp = (Err ENOENT, fmp')).
Proof.
  intros Hio Hroot Hrs Hds Hs Hj Hne Hidx.
  change DIR_PER_SEC with 16 in Hj. unfold live_before.
  pose proof (live_slots_nonneg (blk_data (dev fmp) s) (Z.to_nat j) 0) as Hnn.
  pose proof (live_sectors_nonneg fmp (Z.to_nat (s - root_start fmp))
                (root_start fmp)) as Hnn'.
  set (before := live_sectors fmp (Z.to_nat (s - root_start fmp)) (root_start fmp))
    in *.
  assert (Hpass : 0 + before <= index - 2 ->
            exists fmp1,
              io_ok fmp1 /\ no_write fmp fmp1 /\
              fatfs_get_node fuel dnp index np0 fmp
              = match fat_get_dirent s (index - 2) (0 + before) fmp1 with
                | (Ok np, _, fmp2) => (Ok np, fmp2)
                | (Err e, index', fmp2) =>
                    if e =? EAGAIN
                    then (found <- fat_get_sectors
                                     (Z.to_nat (data_start fmp - s - 1))
                                     (u32 (s + 1)) (index - 2) index' ;;
                          match found with
                          | inl np' => ret np'
                          | inr _ => fail ENOENT
                          end) fmp2
                    else (Err e, fmp2)
                | (OutOfFuel, _, fmp2) => (OutOfFuel, fmp2)
                | (Trap, _, fmp2) => (Trap, fmp2)
                end).
  { intros Hle.
    destruct (fat_get_sectors_pass (Z.to_nat (s - root_start fmp))
                (S (Z.to_nat (data_start fmp - s - 1))) (root_start fmp)
                (index - 2) 0 fmp Hio)
      as (fmp1 & Hio1 & G1 & Hnw1 & Hrun); try lia.
    { intros s' j' Hs' Hj'. apply Hne. unfold root_before.
      change DIR_PER_SEC with 16. lia. }
    exists fmp1. split; [assumption|]. split; [assumption|].
    unfold fatfs_get_node. rewrite Hroot, Z.eqb_refl.
    destruct (Z.eqb_spec index 0) as [|_]; [lia|].
    destruct (Z.eqb_spec index 1) as [|_]; [lia|].
    unfold bind.
    replace (Z.to_nat (data_start fmp - root_start fmp))
      with (Z.to_nat (s - root_start fmp)
            + S (Z.to_nat (data_start fmp - s - 1)))%nat by lia.
    rewrite Hrun. rewrite Z2Nat.id by lia.
    replace (root_start fmp + (s - root_start fmp)) with s by lia.
    cbn [fat_get_sectors]. fold before.
    destruct (fat_get_dirent s (index - 2) (0 + before) fmp1)
      as [[[np|e| |] index'] fmp2]; try reflexivity.
    destruct (e =? EAGAIN); reflexivity. }
  destruct (Z_le_gt_dec (0 + before) (index - 2)) as [Hle|Hgt].
  - destruct (Hpass Hle) as (fmp1 & Hio1 & Hnw1 & Hsplit).
    destruct (fat_get_dirent_stop s (index - 2) (0 + before) fmp1 j Hio1 Hj)
      as (fmp' & _ & _ & Hnw' & Hhit & Hend).
    { intros j' Hj'. rewrite (slot_same_data fmp fmp1) by apply Hnw1.
      apply Hne. unfold root_before. change DIR_PER_SEC with 16. lia. }
    rewrite (slot_same_data fmp fmp1) in Hhit, Hend by apply Hnw1.
    assert (Hd : blk_data (dev fmp1) = blk_data (dev fmp)) by apply Hnw1.
    rewrite Hd in Hhit, Hend.
    exists fmp'. split; [eapply no_write_trans; eassumption|].
    split.
    + intros He Hl Hi. destruct (Hhit He Hl) as [Hr Hf]; [lia|].
      rewrite Hsplit.
      destruct (fat_get_dirent s (index - 2) (0 + before) fmp1)
        as [[r index'] fmp2]. cbn [fst snd] in Hr, Hf. subst r fmp2.
      reflexivity.
    + intros He Hi. destruct (Hend He) as [Hr Hf]; [lia|].
      rewrite Hsplit.
      destruct (fat_get_dirent s (index - 2) (0 + before) fmp1)
        as [[r index'] fmp2]. cbn [fst snd] in Hr, Hf. subst r fmp2.
      reflexivity.
  - exists fmp. split; [apply no_write_refl|]. split; intros; lia.
Qed.

(** [fatfs_get_node] enumerates the records of the root directory in
    the order of the scan, after the two entries it makes up: with [k]
    records that are neither deleted nor volume labels before a slot
    that holds such a record, and no end marker before it, index
    [k + 2] yields the handle of that slot. *)
Theorem fatfs_get_node_enumerates (fuel : nat) (dnp np0 : fatfs_node)
        (fmp : fatfsmount) (s j : Z) :
  io_ok fmp -> cluster (dirent dnp) = CL_ROOT ->
  0 <= root_start fmp -> data_start fmp < 4294967296 ->
  root_start fmp <= s < data_start fmp -> 0 <= j < DIR_PER_SEC ->
  (forall s' j', root_before fmp s' j' s j -> IS_EMPTY (slot fmp s' j') = false) ->
  IS_EMPTY (slot fmp s j) = false -> is_live (slot fmp s j) = true ->
  exists fmp',
    fatfs_get_node fuel dnp (live_before fmp s j + 2) np0 fmp
    = (Ok (mk_fatfs_node (slot fmp s j) s (DIRENT_SIZE * j)), fmp').
Proof.
  intros Hio Hroot Hrs Hds Hs Hj Hne He Hl.
  assert (Hidx : 2 <= live_before fmp s j + 2).
  { unfold live_before.
    pose proof (live_slots_nonneg (blk_data (dev fmp) s) (Z.to_nat j) 0).
    pose proof (live_sectors_nonneg fmp (Z.to_nat (s - root_start fmp))
                  (root_start fmp)). lia. }
  destruct (fatfs_get_node_root fuel dnp np0 (live_before fmp s j + 2) fmp s j
              Hio Hroot Hrs Hds Hs Hj Hne Hidx) as (fmp' & _ & Hfound & _).
  exists fmp'. exact (Hfound He Hl eq_refl).
Qed.

(** Past the last record the enumeration of the root directory ends
    with [ENOENT]: with [k] counted records before the end marker, every
    index from [k + 2] on is refused, and the slots and sectors after
    the end marker are not looked at. *)
Theorem fatfs_get_node_past_end (fuel : nat) (dnp np0 : fatfs_node)
        (index : Z) (fmp : fatfsmount) (s j : Z) :
  io_ok fmp -> cluster (dirent dnp) = CL_ROOT ->
  0 <= root_start fmp -> data_start fmp < 4294967296 ->
  root_start fmp <= s < data_start fmp -> 0 <= j < DIR_PER_SEC ->
  (forall s' j', root_before fmp s' j' s j -> IS_EMPTY (slot fmp s' j') = false) ->
  IS_EMPTY (slot fmp s j) = true ->
  live_before fmp s j + 2 <= index ->
  exists fmp',
    fatfs_get_node fuel dnp index np0 fmp = (Err ENOENT, fmp') /\
    no_write fmp fmp'.
Proof.
  intros Hio Hroot Hrs Hds Hs Hj Hne He Hidx.
  assert (Hidx2 : 2 <= index).
  { unfold live_before in Hidx.
    pose proof (live_slots_nonneg (blk_data (dev fmp) s) (Z.to_nat j) 0).
    pose proof (live_sectors_nonneg fmp (Z.to_nat (s - root_start fmp))
                  (root_start fmp)). lia. }
  destruct (fatfs_get_node_root fuel dnp np0 index fmp s j
              Hio Hroot Hrs Hds Hs Hj Hne Hidx2) as (fmp' & Hnw & _ & Hnone).
  exists fmp'. split; [exact (Hnone He Hidx)|exact Hnw].
Qed.

End RootEnumeration.

Lemma fatfs_get_node_enumerates_witness :
  let fmp := demo_dir [] in
  live_before (H := demo_env) fmp 3 2 = 0 /\
  exists fmp',
    fatfs_get_node (H := demo_env) 4 root_node
      (live_before (H := demo_env) fmp 3 2 + 2) root_node fmp
    = (Ok (mk_fatfs_node (slot fmp 3 2) 3 (DIRENT_SIZE * 2)), fmp').
Proof.
  cbv zeta. split; [vm_compute; reflexivity|].
  assert (H0 : 0 <= root_start (demo_dir [])) by (cbn; lia).
  assert (H1 : data_start (demo_dir []) < 4294967296) by (cbn; lia).
  assert (H2 : root_start (demo_dir []) <= 3 < data_start (demo_dir []))
    by (cbn; lia).
  assert (H3 : 0 <= 2 < DIR_PER_SEC) by (vm_compute; split; [discriminate|reflexivity]).
  assert (Hne : forall s' j', root_before (demo_dir []) s' j' 3 2 ->
                              IS_EMPTY (slot (demo_dir []) s' j') = false).
  { intros s' j' Hb. apply demo_root_before in Hb; [|reflexivity].
    destruct Hb as [-> Hj]. assert (E : j' = 0 \/ j' = 1) by lia.
    destruct E as [-> | ->]; vm_compute; reflexivity. }
  assert (He : IS_EMPTY (slot (demo_dir []) 3 2) = false)
    by (vm_compute; reflexivity).
  assert (Hl : is_live (H := demo_env) (slot (demo_dir []) 3 2) = true)
    by (vm_compute; reflexivity).
  exact (fatfs_get_node_enumerates (H := demo_env) 4 root_node root_node
           (demo_dir []) 3 2 eq_refl eq_refl H0 H1 H2 H3 Hne He Hl).
Defined.

Lemma fatfs_get_node_past_end_witness :
  let fmp := demo_dir [] in
  exists fmp',
    fatfs_get_node (H := demo_env) 4 root_node 3 root_node fmp
    = (Err ENOENT, fmp') /\
    no_write fmp fmp'.
Proof.
  cbv zeta.
  assert (H0 : 0 <= root_start (demo_dir [])) by (cbn; lia).
  assert (H1 : data_start (demo_dir []) < 4294967296) by (cbn; lia).
  assert (H2 : root_start (demo_dir []) <= 3 < data_start (demo_dir []))
    by (cbn; lia).
  assert (H3 : 0 <= 3 < DIR_PER_SEC) by (vm_compute; split; [discriminate|reflexivity]).
  assert (Hne : forall s' j', root_before (demo_dir []) s' j' 3 3 ->
                              IS_EMPTY (slot (demo_dir []) s' j') = false).
  { intros s' j' Hb. apply demo_root_before in Hb; [|reflexivity].
    destruct Hb as [-> Hj]. assert (E : j' = 0 \/ j' = 1 \/ j' = 2) by lia.
    destruct E as [-> |[-> | ->]]; vm_compute; reflexivity. }
  assert (He : IS_EMPTY (slot (demo_dir []) 3 3) = true)
    by (vm_compute; reflexivity).
  assert (Hi : live_before (H := demo_env) (demo_dir []) 3 3 + 2 <= 3)
    by (vm_compute; discriminate).
  exact (fatfs_get_node_past_end (H := demo_env) 4 root_node root_node 3
           (demo_dir []) 3 3 eq_refl eq_refl H0 H1 H2 H3 Hne He Hi).
Defined.

(** * The internal "try the next sector" code *)

Lemma faults_after_io d op sec buf boff (P : Z -> Prop) :
  Forall P (blk_faults d) ->
  let r := uk_blkdev_sync_io d op sec buf boff in
  Forall P (blk_faults (snd (fst r))) /\ (fst (fst r) <> 0 -> P (fst (fst r))).
Proof.
  intros Hf. unfold uk_blkdev_sync_io.
  assert (Htl : Forall P (tl (blk_faults d)))
    by (destruct (blk_faults d); [constructor|apply (Forall_inv_tail Hf)]).
  destruct (Z.eqb_spec (hd 0 (blk_faults d)) 0) as [E|E].
  - destruct op; cbn [fst snd blk_faults]; (split; [assumption|]);
      intros Hne; exfalso; apply Hne; reflexivity.
  - cbn [fst snd blk_faults]. split; [assumption|]. intros _.
    destruct (blk_faults d) as [|e l]; [exfalso; apply E; reflexivity|].
    apply (Forall_inv Hf).
Qed.

(** An operation that returns the code [EAGAIN] only if the device
    fails a request with it. *)
Lemma dir_io_no_eagain op sec fmp :
  Forall (fun e => e <> EAGAIN) (blk_faults (dev fmp)) ->
  fst (dir_io op sec fmp) <> Err EAGAIN /\
  Forall (fun e => e <> EAGAIN) (blk_faults (dev (snd (dir_io op sec fmp)))).
Proof.
  intros Hf.
  pose proof (faults_after_io (dev fmp) op sec (dir_buf fmp) 0 _ Hf) as [Hk He].
  unfold dir_io.
  destruct (uk_blkdev_sync_io (dev fmp) op sec (dir_buf fmp) 0) as [[e d] b].
  cbn [fst snd] in *.
  destruct (Z.eqb_spec e 0) as [|Hne]; cbn [fst snd dev set_dev];
    (split; [|assumption]); [discriminate|].
  intros [= E]. exact (He Hne E).
Qed.

Lemma fat_io_no_eagain op sec boff fmp :
  Forall (fun e => e <> EAGAIN) (blk_faults (dev fmp)) ->
  fst (fat_io op sec boff fmp) <> Err EAGAIN /\
  Forall (fun e => e <> EAGAIN) (blk_faults (dev (snd (fat_io op sec boff fmp)))).
Proof.
  intros Hf.
  pose proof (faults_after_io (dev fmp) op sec (fat_buf fmp) boff _ Hf) as [Hk He].
  unfold fat_io.
  destruct (uk_blkdev_sync_io (dev fmp) op sec (fat_buf fmp) boff) as [[e d] b].
  cbn [fst snd] in *.
  destruct (Z.eqb_spec e 0) as [|Hne]; cbn [fst snd dev set_dev];
    (split; [|assumption]); [discriminate|].
  intros [= E]. exact (He Hne E).
Qed.

Lemma no_eagain_bind {A B} (m : fatfs A) (k : A -> fatfs B) fmp :
  (fst (m fmp) <> Err EAGAIN /\
   Forall (fun e => e <> EAGAIN) (blk_faults (dev (snd (m fmp))))) ->
  (forall a fmp1,
     Forall (fun e => e <> EAGAIN) (blk_faults (dev fmp1)) ->
     fst (k a fmp1) <> Err EAGAIN /\
     Forall (fun e => e <> EAGAIN) (blk_faults (dev (snd (k a fmp1))))) ->
  fst (bind m k fmp) <> Err EAGAIN /\
  Forall (fun e => e <> EAGAIN) (blk_faults (dev (snd (bind m k fmp)))).
Proof.
  intros [Hm Hf] Hk. unfold bind.
  destruct (m fmp) as [[a|e| |] fmp1]; cbn [fst snd] in *.
  - apply Hk. assumption.
  - split; [|assumption]. intros [= E]. apply Hm. rewrite E. reflexivity.
  - split; [discriminate|assumption].
  - split; [discriminate|assumption].
Qed.

Lemma read_fat_entry_no_eagain cl fmp :
  Forall (fun e => e <> EAGAIN) (blk_faults (dev fmp)) ->
  fst (read_fat_entry cl fmp) <> Err EAGAIN /\
  Forall (fun e => e <> EAGAIN) (blk_faults (dev (snd (read_fat_entry cl fmp)))).
Proof.
  intros Hf. unfold read_fat_entry. apply no_eagain_bind.
  - apply fat_io_no_eagain. assumption.
  - intros _ fmp1 Hf1.
    destruct (negb (FAT12 fmp) || negb _);
      [split; [discriminate|assumption]|].
    apply fat_io_no_eagain. assumption.
Qed.

Lemma fat_next_cluster_no_eagain cl fmp :
  Forall (fun e => e <> EAGAIN) (blk_faults (dev fmp)) ->
  fst (fat_next_cluster cl fmp) <> Err EAGAIN /\
  Forall (fun e => e <> EAGAIN) (blk_faults (dev (snd (fat_next_cluster cl fmp)))).
Proof.
  intros Hf. unfold fat_next_cluster. apply no_eagain_bind.
  - apply read_fat_entry_no_eagain. assumption.
  - intros _ fmp1 Hf1. split; [discriminate|assumption].
Qed.

Section NoLeak.
Context `{fatfs_env}.

Lemma fat_lookup_sectors_no_eagain n : forall sec fname fmp,
  fst (fat_lookup_sectors n sec fname fmp) <> Err EAGAIN.
Proof.
  induction n as [|n IH]; intros sec fname fmp; cbn [fat_lookup_sectors];
    [discriminate|].
  destruct (fat_lookup_dirent sec fname fmp) as [[np|e| |] fmp1]; cbn [fst];
    try discriminate.
  destruct (Z.eqb_spec e EAGAIN) as [|Hne]; [apply IH|].
  cbn [fst]. intros [= E]. contradiction.
Qed.

Lemma fat_lookup_sectors_faults n : forall sec fname fmp,
  Forall (fun e => e <> EAGAIN) (blk_faults (dev fmp)) ->
  Forall (fun e => e <> EAGAIN)
    (blk_faults (dev (snd (fat_lookup_sectors n sec fname fmp)))).
Proof.
  induction n as [|n IH]; intros sec fname fmp Hf; cbn [fat_lookup_sectors];
    [assumption|].
  assert (Hd : Forall (fun e => e <> EAGAIN)
                 (blk_faults (dev (snd (fat_lookup_dirent sec fname fmp))))).
  { unfold fat_lookup_dirent, bind, fat_read_dirent.
    pose proof (dir_io_no_eagain UK_BLKREQ_READ sec fmp Hf) as [_ Hk].
    destruct (dir_io UK_BLKREQ_READ sec fmp) as [[[]|e| |] fmp1]; exact Hk. }
  destruct (fat_lookup_dirent sec fname fmp) as [[np|e| |] fmp1]; cbn [snd] in *;
    try assumption.
  destruct (e =? EAGAIN); [apply IH; assumption|assumption].
Qed.

Lemma fat_lookup_chain_no_eagain fuel : forall cl fname fmp,
  Forall (fun e => e <> EAGAIN) (blk_faults (dev fmp)) ->
  fst (fat_lookup_chain fuel cl fname fmp) <> Err EAGAIN.
Proof.
  induction fuel as [|fuel IH]; intros cl fname fmp Hf; cbn [fat_lookup_chain];
    destruct (IS_EOFCL fmp cl); try discriminate.
  unfold bind.
  pose proof (fat_lookup_sectors_no_eagain (Z.to_nat (sec_per_cl fmp))
                (u32 (cl_to_sec fmp cl)) fname fmp) as Hs.
  pose proof (fat_lookup_sectors_faults (Z.to_nat (sec_per_cl fmp))
                (u32 (cl_to_sec fmp cl)) fname fmp Hf) as Hk.
  destruct (fat_lookup_sectors _ _ fname fmp) as [[[np|]|e| |] fmp1];
    cbn [fst snd] in *; try discriminate;
    try (intros [= ->]; apply Hs; reflexivity).
  pose proof (fat_next_cluster_no_eagain cl fmp1 Hk) as [Hn Hk2].
  destruct (fat_next_cluster cl fmp1) as [[cl'|e| |] fmp2]; cbn [fst snd] in *;
    try discriminate; try (intros [= ->]; apply Hn; reflexivity).
  apply IH. assumption.
Qed.

Lemma fat_get_sectors_no_eagain n : forall sec target index fmp,
  fst (fat_get_sectors n sec target index fmp) <> Err EAGAIN.
Proof.
  induction n as [|n IH]; intros sec target index fmp; cbn [fat_get_sectors];
    [discriminate|].
  destruct (fat_get_dirent sec target index fmp) as [[[np|e| |] index'] fmp1];
    cbn [fst]; try discriminate.
  destruct (Z.eqb_spec e EAGAIN) as [|Hne]; [apply IH|].
  cbn [fst]. intros [= E]. contradiction.
Qed.

Lemma fat_get_sectors_faults n : forall sec target index fmp,
  Forall (fun e => e <> EAGAIN) (blk_faults (dev fmp)) ->
  Forall (fun e => e <> EAGAIN)
    (blk_faults (dev (snd (fat_get_sectors n sec target index fmp)))).
Proof.
  induction n as [|n IH]; intros sec target index fmp Hf; cbn [fat_get_sectors];
    [assumption|].
  assert (Hd : Forall (fun e => e <> EAGAIN)
                 (blk_faults (dev (snd (fat_get_dirent sec target index fmp))))).
  { unfold fat_get_dirent, fat_read_dirent.
    pose proof (dir_io_no_eagain UK_BLKREQ_READ sec fmp Hf) as [_ Hk].
    destruct (dir_io UK_BLKREQ_READ sec fmp) as [[[]|e| |] fmp1]; exact Hk. }
  destruct (fat_get_dirent sec target index fmp) as [[[np|e| |] index'] fmp1];
    cbn [snd] in *; try assumption.
  destruct (e =? EAGAIN); [apply IH; assumption|assumption].
Qed.

Lemma fat_get_chain_no_eagain fuel : forall cl target index fmp,
  Forall (fun e => e <> EAGAIN) (blk_faults (dev fmp)) ->
  fst (fat_get_chain fuel cl target index fmp) <> Err EAGAIN.
Proof.
  induction fuel as [|fuel IH]; intros cl target index fmp Hf;
    cbn [fat_get_chain]; destruct (IS_EOFCL fmp cl); try discriminate.
  unfold bind.
  pose proof (fat_get_sectors_no_eagain (Z.to_nat (sec_per_cl fmp))
                (u32 (cl_to_sec fmp cl)) target index fmp) as Hs.
  pose proof (fat_get_sectors_faults (Z.to_nat (sec_per_cl fmp))
                (u32 (cl_to_sec fmp cl)) target index fmp Hf) as Hk.
  destruct (fat_get_sectors _ _ target index fmp) as [[[np|index']|e| |] fmp1];
    cbn [fst snd] in *; try discriminate;
    try (intros [= ->]; apply Hs; reflexivity).
  pose proof (fat_next_cluster_no_eagain cl fmp1 Hk) as [Hn Hk2].
  destruct (fat_next_cluster cl fmp1) as [[cl'|e| |] fmp2]; cbn [fst snd] in *;
    try discriminate; try (intros [= ->]; apply Hn; reflexivity).
  apply IH. assumption.
Qed.

(** The code [EAGAIN], by which the scan of one sector asks for the next
    sector, does not leave the loops that use it: a search or an
    enumeration of the root directory never returns it, whatever the
    device does, and one of a sub-directory returns it only if the
    device itself fails a request with this code. *)
Theorem search_never_returns_eagain (fuel : nat) (dnp np : fatfs_node)
        (name : option (list Z)) (index : Z) (fmp : fatfsmount) :
  cluster (dirent dnp) = CL_ROOT \/
  Forall (fun e => e <> EAGAIN) (blk_faults (dev fmp)) ->
  fst (fatfs_lookup_node fuel dnp name fmp) <> Err EAGAIN /\
  fst (fatfs_get_node fuel dnp index np fmp) <> Err EAGAIN.
Proof.
  intros Hcase. split.
  - unfold fatfs_lookup_node. destruct name as [nm|]; [|discriminate].
    destruct (Z.eqb_spec (cluster (dirent dnp)) CL_ROOT) as [_|Hnr].
    + unfold bind.
      pose proof (fat_lookup_sectors_no_eagain
                    (Z.to_nat (data_start fmp - root_start fmp)) (root_start fmp)
                    (firstn 11 (fat_convert_name nm) ++ [0]) fmp) as Hs.
      destruct (fat_lookup_sectors _ _ _ fmp) as [[[np1|]|e| |] fmp1];
        cbn [fst] in *; try discriminate.
      intros [= ->]. apply Hs. reflexivity.
    + destruct Hcase as [|Hf]; [contradiction|].
      apply fat_lookup_chain_no_eagain. assumption.
  - unfold fatfs_get_node.
    destruct (Z.eqb_spec (cluster (dirent dnp)) CL_ROOT) as [_|Hnr].
    + destruct (index =? 0); [discriminate|].
      destruct (index =? 1); [discriminate|].
      unfold bind.
      pose proof (fat_get_sectors_no_eagain
                    (Z.to_nat (data_start fmp - root_start fmp)) (root_start fmp)
                    (index - 2) 0 fmp) as Hs.
      destruct (fat_get_sectors _ _ _ _ fmp) as [[[np1|i1]|e| |] fmp1];
        cbn [fst] in *; try discriminate.
      intros [= ->]. apply Hs. reflexivity.
    + destruct Hcase as [|Hf]; [contradiction|].
      apply fat_get_chain_no_eagain. assumption.
Qed.

End NoLeak.

Lemma search_never_returns_eagain_witness :
  let fmp := demo_dir [EAGAIN; EIO] in
  fst (fatfs_lookup_node (H := demo_env) 4 root_node (Some file_txt) fmp)
    = Err EIO /\
  fst (fatfs_lookup_node (H := demo_env) 4 root_node (Some file_txt) fmp)
    <> Err EAGAIN /\
  fst (fatfs_get_node (H := demo_env) 4 root_node 2 root_node fmp) <> Err EAGAIN.
Proof.
  cbv zeta. split; [vm_compute; reflexivity|].
  exact (search_never_returns_eagain (H := demo_env) 4 root_node root_node
           (Some file_txt) 2 (demo_dir [EAGAIN; EIO]) (or_introl eq_refl)).
Defined.

(** * Putting a record into a full sub-directory *)

Lemma IS_EMPTY_at (b : buffer) off : IS_EMPTY (dirent_at b off) = (u8 (b off) =? 0).
Proof.
  unfold IS_EMPTY, dirent_at, buf_bytes. cbn [name seq map nth Z.of_nat].
  rewrite Z.add_0_r. reflexivity.
Qed.

(** The entry of a cluster depends on the sectors that hold it alone. *)
Lemma fat_entry_same_sectors a b c :
  same_geometry a b ->
  (forall s o, fat_sector a c s ->
               blk_data (dev b) s o = blk_data (dev a) s o) ->
  fat_entry b c = fat_entry a c.
Proof.
  intros G Hsame.
  destruct (same_geometry_loc _ _ c G) as (L0 & L1 & F12 & _).
  unfold fat_entry, entry_of_word, fat_word, blk_byte.
  rewrite L0, L1, F12.
  rewrite !Hsame; [reflexivity|right; reflexivity|left; reflexivity].
Qed.

Lemma fat_clear_sectors_ok : forall (n : nat) sec fmp,
  io_ok fmp -> (forall o, 0 <= o < 512 -> dir_buf fmp o = 0) ->
  0 <= sec -> sec + Z.of_nat n < 4294967296 ->
  exists fmp',
    fat_clear_sectors n sec fmp = (Ok tt, fmp') /\
    io_ok fmp' /\ same_geometry fmp fmp' /\
    forall s o,
      blk_data (dev fmp') s o
      = if (sec <=? s) && (s <? sec + Z.of_nat n) && (0 <=? o) && (o <? 512)
        then 0 else blk_data (dev fmp) s o.
Proof.
  induction n as [|n IH]; intros sec fmp Hio Hz Hsec Hend.
  - exists fmp. split; [reflexivity|]. split; [assumption|].
    split; [apply same_geometry_refl|]. intros s o.
    destruct (Z.leb_spec sec s), (Z.ltb_spec s (sec + Z.of_nat 0));
      cbn [andb]; try reflexivity. lia.
  - cbn [fat_clear_sectors]. unfold bind, fat_write_dirent.
    rewrite (dir_io_write_ok fmp sec Hio).
    match goal with
    | |- context [fat_clear_sectors n _ ?st] => set (fmp1 := st)
    end.
    destruct (IH (sec + 1) fmp1) as (fmp' & Hr & Hio' & G' & Hd');
      [reflexivity|exact Hz|lia|lia|].
    rewrite u32_small by lia. rewrite Hr.
    exists fmp'. split; [reflexivity|]. split; [assumption|]. split.
    { eapply same_geometry_trans; [|exact G'].
      unfold same_geometry, fmp1. cbn. repeat split. }
    intros s o. rewrite Hd'. subst fmp1. cbn [dev set_dev blk_data].
    unfold blk_store, SEC_SIZE.
    destruct (Z.leb_spec (sec + 1) s), (Z.ltb_spec s (sec + 1 + Z.of_nat n)),
      (Z.leb_spec sec s), (Z.ltb_spec s (sec + Z.of_nat (S n))),
      (Z.eqb_spec s sec), (Z.leb_spec 0 o), (Z.ltb_spec o 512);
      cbn [andb]; try reflexivity; try lia.
    cbn [Z.add]. apply Hz. lia.
Qed.

Lemma same_disk_intro a b :
  same_geometry a b -> blk_data (dev b) = blk_data (dev a) ->
  io_ok a -> io_ok b -> same_disk a b.
Proof.
  intros G D Ha Hb. split; [assumption|]. split; [symmetry; assumption|].
  unfold io_ok in *. congruence.
Qed.

Section SubDirectory.
Context `{fatfs_env}.
Hypothesis cl_to_sec_geometry :
  forall a b c, same_geometry a b -> cl_to_sec a c = cl_to_sec b c.

Lemma first_sector_same a b c :
  same_geometry a b -> first_sector b c = first_sector a c.
Proof.
  intros G. unfold first_sector. rewrite (cl_to_sec_geometry a b c G). reflexivity.
Qed.

(** The loop of [fatfs_add_node] over a chain all of whose slots are in
    use ends with the end-of-chain value that the last cluster holds. *)
Lemma fat_add_chain_full np : forall rest fmp c fuel,
  good fmp -> 0 <= sec_per_cl fmp -> c < fat_eof fmp -> chain fmp c rest ->
  (length rest < fuel)%nat ->
  (forall x, In x (c :: rest) ->
             first_sector fmp x + sec_per_cl fmp < 4294967296) ->
  (forall x k j, In x (c :: rest) -> 0 <= k < sec_per_cl fmp -> 0 <= j < 16 ->
                 in_use (slot fmp (first_sector fmp x + k) j)) ->
  exists fmp',
    fat_add_chain fuel c np fmp = (Ok (Some (fat_entry fmp (last rest c))), fmp') /\
    same_disk fmp fmp'.
Proof.
  induction rest as [|c' rest IH]; intros fmp c fuel Hg Hspc Hc Hch Hfuel Hfit Huse;
    (destruct fuel as [|fuel]; [cbn [length] in Hfuel; lia|]);
    cbn [fat_add_chain]; rewrite (IS_EOFCL_false fmp c) by lia;
    pose proof Hg as (_ & _ & Hio & _);
    pose proof (u32_range (cl_to_sec fmp c)) as Hsr;
    (destruct (fat_add_sectors_full (Z.to_nat (sec_per_cl fmp)) 0
                 (u32 (cl_to_sec fmp c)) np fmp Hio)
      as (fmp1 & Hio1 & G1 & [Hd1 _] & Hrun);
     [lia
     |rewrite Z2Nat.id by lia; apply (Hfit c); left; reflexivity
     |intros s j Hs Hj; rewrite Z2Nat.id in Hs by lia;
      replace s with (first_sector fmp c + (s - first_sector fmp c)) by lia;
      apply Huse; [left; reflexivity|unfold first_sector; lia|assumption]
     |]);
    unfold bind; rewrite Nat.add_0_r in Hrun; rewrite Hrun;
    cbn [fat_add_sectors]; unfold ret at 1;
    pose proof (same_disk_intro fmp fmp1 G1 Hd1 Hio Hio1) as Hsd1;
    pose proof (good_same_disk _ _ Hsd1 Hg) as Hg1;
    destruct (fat_next_cluster_good fmp1 c Hg1) as (fmp2 & Hn & Hsd2 & Hg2);
    rewrite Hn, (same_disk_entry _ _ c Hsd1);
    pose proof (same_disk_trans _ _ _ Hsd1 Hsd2) as Hsd02;
    destruct (same_disk_flags _ _ Hsd02) as (_ & _ & _ & _ & _ & E2 & _).
  - destruct Hch as (v & Hv & He). apply reads_entry in Hv; [|assumption].
    cbn [last]. rewrite Hv.
    destruct fuel as [|fuel]; cbn [fat_add_chain];
      rewrite (IS_EOFCL_true fmp2 v) by lia;
      (exists fmp2; split; [reflexivity|assumption]).
  - destruct Hch as (Hv & Hlt & Hch). apply reads_entry in Hv; [|assumption].
    rewrite Hv.
    assert (G02 : same_geometry fmp fmp2) by apply Hsd02.
    assert (S2 : sec_per_cl fmp2 = sec_per_cl fmp) by (symmetry; apply G02).
    assert (D2 : blk_data (dev fmp2) = blk_data (dev fmp))
      by (symmetry; apply Hsd02).
    destruct (IH fmp2 c' fuel Hg2) as (fmp' & Hw & Hsd');
      [rewrite S2; assumption|lia
      |exact (chain_same_disk _ _ _ _ Hg Hsd02 Hch)
      |cbn [length] in Hfuel; lia
      |intros x Hx; rewrite S2, (first_sector_same fmp fmp2 x G02);
       apply Hfit; right; assumption
      |intros x k j Hx Hk Hj; rewrite S2 in Hk;
       rewrite (first_sector_same fmp fmp2 x G02),
         (slot_same_data fmp fmp2) by exact D2;
       apply Huse; [right; assumption|assumption|assumption]
      |].
    exists fmp'. split; [|eapply same_disk_trans; eassumption].
    rewrite Hw, last_cons, (same_disk_entry _ _ _ Hsd02). reflexivity.
Qed.


(** The run of [fatfs_add_node] on a sub-directory all of whose slots
    are in use. *)
Lemma fatfs_add_node_full_run (fuel : nat) (dnp np : fatfs_node)
        (fmp : fatfsmount) (rest : list Z) (e f : Z) :
  good fmp -> 0 < sec_per_cl fmp ->
  cluster (dirent dnp) <> CL_ROOT ->
  Forall (valid_cluster fmp) (cluster (dirent dnp) :: rest) ->
  chain fmp (cluster (dirent dnp)) rest ->
  reads fmp (last rest (cluster (dirent dnp))) e ->
  scan_finds (fun k => reads fmp k CL_FREE) (last_cluster fmp) e f ->
  (forall x, In x (f :: cluster (dirent dnp) :: rest) ->
             first_sector fmp x + sec_per_cl fmp < 4294967296) ->
  (forall c s, In c (cluster (dirent dnp) :: rest) -> cluster_sector fmp f s ->
               ~ fat_sector fmp c s) ->
  (forall x k j, In x (cluster (dirent dnp) :: rest) ->
                 0 <= k < sec_per_cl fmp -> 0 <= j < 16 ->
                 in_use (slot fmp (first_sector fmp x + k) j)) ->
  dirent_wf (dirent np) ->
  (length rest < fuel)%nat -> (Z.to_nat (2 * last_cluster fmp + 2) <= fuel)%nat ->
  exists fmp',
    fatfs_add_node fuel dnp np fmp = (Ok tt, fmp') /\
    (good fmp' /\ same_geometry fmp fmp') /\
    slot fmp' (first_sector fmp f) 0 = dirent np /\
    (forall k j, 0 <= k < sec_per_cl fmp -> 0 <= j < 16 -> (k, j) <> (0, 0) ->
                 IS_EMPTY (slot fmp' (first_sector fmp f + k) j) = true) /\
    ~ In f (cluster (dirent dnp) :: rest) /\
    chain fmp' (cluster (dirent dnp)) rest /\
    (forall s o,
       ~ fat_sector fmp e s -> ~ fat_sector fmp f s ->
       ~ cluster_sector fmp f s ->
       blk_data (dev fmp') s o = blk_data (dev fmp) s o).
Proof.
  intros Hg Hspc Hnr Hval Hch He Hscan Hfits Hlay Huse Hwf Hfuel1 Hfuel2.
  set (cl := cluster (dirent dnp)) in *.
  pose proof Hg as (Hk & Hreg & Hio & Hb).
  pose proof (fat_mask_bound fmp Hk) as Hm.
  pose proof (Forall_inv Hval) as Hcl.
  pose proof (Forall_inv_tail Hval) as Hrest.
  unfold valid_cluster, CL_FIRST in Hcl.
  apply reads_entry in He; [|assumption].
  destruct (links_of_chain fmp rest cl Hg Hch) as [_ Hge]. rewrite He in Hge.
  pose proof (fat_entry_range fmp (last rest cl) Hk) as Her. rewrite He in Her.
  (* the loop over the chain *)
  destruct (fat_add_chain_full np rest fmp cl fuel Hg) as (fmp1 & Hloop & Hsd1);
    [lia|lia|assumption|assumption
    |intros x Hx; apply Hfits; right; assumption|exact Huse|].
  rewrite He in Hloop.
  pose proof (good_same_disk _ _ Hsd1 Hg) as Hg1.
  destruct (same_disk_flags _ _ Hsd1) as (_ & _ & M1 & F1 & L1 & E1 & _).
  assert (G1 : same_geometry fmp fmp1) by apply Hsd1.
  (* the expansion *)
  destruct (fat_expand_dir_tail fmp1 e f fuel Hg1)
    as (fmp4 & Hrun & Hg4 & G4 & (Hfr & Hfree) & Hlink & Hmark & Hkeep1 & Hbeh4);
    [lia|rewrite E1, M1; lia| |rewrite L1; assumption|].
  { rewrite L1.
    apply (scan_finds_equiv (fun k => reads fmp k CL_FREE)
             (fun k => fat_entry fmp1 k = CL_FREE) (last_cluster fmp) e f
             (e + 1 + last_cluster fmp)); try assumption; try lia.
    intros k _. rewrite (same_disk_entry _ _ k Hsd1).
    apply reads_entry. assumption. }
  rewrite L1 in Hfr. rewrite (same_disk_entry _ _ f Hsd1) in Hfree.
  unfold CL_FIRST in Hfr.
  assert (Hexp : fat_expand_dir fuel e fmp1 = (Ok f, fmp4)).
  { unfold fat_expand_dir. unfold bind at 1.
    assert (Hw : fat_dir_walk fuel e fmp1 = (Ok e, fmp1))
      by (destruct fuel; cbn [fat_dir_walk];
          rewrite (IS_EOFCL_true fmp1 e) by lia; reflexivity).
    rewrite Hw. exact Hrun. }
  assert (G04 : same_geometry fmp fmp4)
    by (eapply same_geometry_trans; [apply Hsd1|exact G4]).
  pose proof Hg4 as (Hk4 & Hreg4 & Hio4 & _).
  (* the new cluster is cleared *)
  set (fmp5 := set_dir_buf fmp4 (buf_blit (dir_buf fmp4) 0 (fun _ => 0) SEC_SIZE)).
  assert (G45 : same_geometry fmp4 fmp5) by (unfold same_geometry; cbn; repeat split).
  assert (G05 : same_geometry fmp fmp5)
    by (eapply same_geometry_trans; eassumption).
  assert (S5 : sec_per_cl fmp5 = sec_per_cl fmp) by (symmetry; apply G05).
  assert (Sf : first_sector fmp5 f = first_sector fmp f)
    by (apply first_sector_same; assumption).
  pose proof (Hfits f (or_introl eq_refl)) as Hfit.
  pose proof (u32_range (cl_to_sec fmp f)) as Hsr. fold (first_sector fmp f) in Hsr.
  destruct (fat_clear_sectors_ok (Z.to_nat (sec_per_cl fmp)) (first_sector fmp f) fmp5)
    as (fmp6 & Hclr & Hio6 & G56 & Hd6); [exact Hio4| |lia|lia|].
  { intros o Ho. unfold fmp5. cbn [dir_buf set_dir_buf]. unfold buf_blit, SEC_SIZE.
    destruct (Z.leb_spec 0 o); [|lia].
    destruct (Z.ltb_spec o (0 + 512)); [reflexivity|lia]. }
  rewrite Z2Nat.id in Hd6 by lia.
  assert (G06 : same_geometry fmp fmp6)
    by (eapply same_geometry_trans; eassumption).
  assert (Sf6 : first_sector fmp6 f = first_sector fmp f)
    by (apply first_sector_same; assumption).
  (* the record goes into its first slot *)
  destruct (fat_add_dirent_put (first_sector fmp f) np fmp6 0 Hio6)
    as (fmp7 & Hput & Hio7 & G67 & Hd7); [lia|intros j' Hj'; lia| |].
  { right. unfold slot. rewrite IS_EMPTY_at, Hd6. unfold DIRENT_SIZE.
    destruct (Z.leb_spec (first_sector fmp f) (first_sector fmp f)); [|lia].
    destruct (Z.ltb_spec (first_sector fmp f)
                (first_sector fmp f + sec_per_cl fmp)); [|lia].
    reflexivity. }
  destruct (blk_store_record (blk_data (dev fmp6)) (dir_buf fmp6)
              (first_sector fmp f) (32 * 0) (dirent np)) as [Hrec Hframe];
    [lia|lia|].
  change (DIRENT_SIZE * 0) with (32 * 0) in Hd7. rewrite <- Hd7 in Hrec, Hframe.
  assert (G07 : same_geometry fmp fmp7)
    by (eapply same_geometry_trans; eassumption).
  assert (Hg7 : good fmp7) by (apply (good_same_geometry fmp fmp7); assumption).
  assert (Hnotin : ~ In f (cl :: rest)).
  { intros Hin. apply (chain_entry_used fmp rest cl f Hg); try assumption.
    unfold CL_FIRST. lia. }
  (* the entries of the chain are in none of the sectors written since *)
  assert (Hfat : forall c, In c (cl :: rest) ->
                           fat_entry fmp7 c = fat_entry fmp4 c).
  { intros c Hc.
    apply (fat_entry_same_sectors fmp4 fmp7 c).
    - eapply same_geometry_trans; [exact G45|].
      eapply same_geometry_trans; eassumption.
    - intros s o Hs. apply (fat_sector_same fmp fmp4 c s G04) in Hs.
      assert (Hout : ~ cluster_sector fmp f s)
        by (intros Hin; exact (Hlay c s Hc Hin Hs)).
      unfold cluster_sector in Hout.
      rewrite Hframe by (intros [Es _]; apply Hout; lia). rewrite Hd6.
      destruct (Z.leb_spec (first_sector fmp f) s),
        (Z.ltb_spec s (first_sector fmp f + sec_per_cl fmp)); cbn [andb];
        try reflexivity.
      exfalso. apply Hout. lia. }
  assert (Hkeep : forall c, In c (cl :: rest) ->
                            fat_entry fmp7 c = fat_entry fmp c).
  { intros c Hc. rewrite Hfat by assumption.
    assert (Hcb : 0 <= c < last_cluster fmp).
    { destruct Hc as [<-|Hc]; [lia|].
      rewrite Forall_forall in Hrest. pose proof (Hrest c Hc) as Hvc.
      unfold valid_cluster, CL_FIRST in Hvc. lia. }
    rewrite Hkeep1; [apply same_disk_entry; assumption
                    |unfold fat_index; rewrite M1; lia|lia|].
    intros ->. exact (Hnotin Hc). }
  exists fmp7. split.
  { unfold fatfs_add_node. fold cl.
    destruct (Z.eqb_spec cl CL_ROOT) as [|_]; [contradiction|].
    unfold bind at 1. rewrite Hloop.
    unfold bind at 1. rewrite Hexp.
    unfold bind at 1. fold fmp5.
    unfold bind at 1. rewrite S5. fold (first_sector fmp5 f). rewrite Sf, Hclr.
    fold (first_sector fmp6 f). rewrite Sf6. exact Hput. }
  split; [split; assumption|].
  split; [unfold slot; change (DIRENT_SIZE * 0) with (32 * 0); exact (Hrec Hwf)|].
  split.
  { intros k j Hk' Hj Hkj. unfold slot. rewrite IS_EMPTY_at.
    rewrite Hframe.
    - rewrite Hd6. unfold DIRENT_SIZE.
      destruct (Z.leb_spec (first_sector fmp f) (first_sector fmp f + k)); [|lia].
      destruct (Z.ltb_spec (first_sector fmp f + k)
                  (first_sector fmp f + sec_per_cl fmp)); [|lia].
      destruct (Z.leb_spec 0 (32 * j)); [|lia].
      destruct (Z.ltb_spec (32 * j) 512); [|lia].
      reflexivity.
    - unfold DIRENT_SIZE. intros [E1' E2'].
      apply Hkj. f_equal; lia. }
  split; [assumption|].
  split.
  { apply (chain_ext fmp fmp7); try assumption. symmetry. apply G07. }
  intros s o Hne Hnf Hout. unfold cluster_sector in Hout.
  rewrite Hframe by (intros [Es _]; apply Hout; lia). rewrite Hd6.
  destruct (Z.leb_spec (first_sector fmp f) s),
    (Z.ltb_spec s (first_sector fmp f + sec_per_cl fmp)); cbn [andb];
    try (exfalso; apply Hout; lia);
    (unfold fmp5; cbn [dev set_dir_buf blk_data];
     rewrite Hbeh4
       by (rewrite (fat_sector_same fmp fmp1 _ s G1); assumption);
     destruct Hsd1 as (_ & D & _); rewrite D; reflexivity).
Qed.



(** When every slot of a sub-directory is in use, [fatfs_add_node]
    expands the directory and returns 0: the record is in the first slot
    of the first sector of the cluster [f] that [fat_expand_dir] has
    returned, and every other slot of that cluster is an end marker.
    The loop hands [fat_expand_dir] the end-of-chain value [e] on which
    it stopped, so [f], the cluster that the scan of the allocator
    started from [e] finds, is linked from the entry of that number:
    [f] is not a cluster of the directory, whose chain is the chain it
    was.  The conditions on the layout: the sectors of the clusters are
    addressable in 32 bits, no sector of [f] holds the FAT entry of a
    cluster of the directory, and [cl_to_sec] depends on the geometry of
    the mount alone. *)
Theorem fatfs_add_node_full_subdirectory (fuel : nat) (dnp np : fatfs_node)
        (fmp : fatfsmount) (rest : list Z) (e f : Z) :
  good fmp -> 0 < sec_per_cl fmp ->
  cluster (dirent dnp) <> CL_ROOT ->
  Forall (valid_cluster fmp) (cluster (dirent dnp) :: rest) ->
  chain fmp (cluster (dirent dnp)) rest ->
  reads fmp (last rest (cluster (dirent dnp))) e ->
  scan_finds (fun k => reads fmp k CL_FREE) (last_cluster fmp) e f ->
  (forall x, In x (f :: cluster (dirent dnp) :: rest) ->
             first_sector fmp x + sec_per_cl fmp < 4294967296) ->
  (forall c s, In c (cluster (dirent dnp) :: rest) -> cluster_sector fmp f s ->
               ~ fat_sector fmp c s) ->
  (forall x k j, In x (cluster (dirent dnp) :: rest) ->
                 0 <= k < sec_per_cl fmp -> 0 <= j < 16 ->
                 in_use (slot fmp (first_sector fmp x + k) j)) ->
  dirent_wf (dirent np) ->
  (length rest < fuel)%nat -> (Z.to_nat (2 * last_cluster fmp + 2) <= fuel)%nat ->
  exists fmp',
    fatfs_add_node fuel dnp np fmp = (Ok tt, fmp') /\
    slot fmp' (first_sector fmp f) 0 = dirent np /\
    (forall k j, 0 <= k < sec_per_cl fmp -> 0 <= j < 16 -> (k, j) <> (0, 0) ->
                 IS_EMPTY (slot fmp' (first_sector fmp f + k) j) = true) /\
    ~ In f (cluster (dirent dnp) :: rest) /\
    chain fmp' (cluster (dirent dnp)) rest.
Proof.
  intros Hg Hspc Hnr Hval Hch He Hscan Hfits Hlay Huse Hwf Hfuel1 Hfuel2.
  destruct (fatfs_add_node_full_run fuel dnp np fmp rest e f Hg Hspc Hnr Hval Hch
              He Hscan Hfits Hlay Huse Hwf Hfuel1 Hfuel2)
    as (fmp' & Ha & _ & Hrec & Hempty & Hnotin & Hchain & _).
  exists fmp'. auto.
Qed.

(** The search of a sub-directory none of whose records answers to the
    name walks the whole chain and ends with [ENOENT]. *)
Lemma fat_lookup_chain_miss fname : forall rest fmp c fuel,
  good fmp -> 0 <= sec_per_cl fmp -> c < fat_eof fmp -> chain fmp c rest ->
  (length rest < fuel)%nat ->
  (forall x, In x (c :: rest) ->
             first_sector fmp x + sec_per_cl fmp < 4294967296) ->
  (forall x k j, In x (c :: rest) -> 0 <= k < sec_per_cl fmp -> 0 <= j < 16 ->
                 miss fname (slot fmp (first_sector fmp x + k) j)) ->
  exists fmp', fat_lookup_chain fuel c fname fmp = (Err ENOENT, fmp').
Proof.
  induction rest as [|c' rest IH]; intros fmp c fuel Hg Hspc Hc Hch Hfuel Hfit Hmiss;
    (destruct fuel as [|fuel]; [cbn [length] in Hfuel; lia|]);
    cbn [fat_lookup_chain]; rewrite (IS_EOFCL_false fmp c) by lia;
    pose proof Hg as (_ & _ & Hio & _);
    pose proof (u32_range (cl_to_sec fmp c)) as Hsr;
    (destruct (fat_lookup_sectors_miss (Z.to_nat (sec_per_cl fmp)) 0
                 (u32 (cl_to_sec fmp c)) fname fmp Hio)
      as (fmp1 & Hio1 & G1 & [Hd1 _] & Hrun);
     [lia
     |rewrite Z2Nat.id by lia; apply (Hfit c); left; reflexivity
     |intros s j Hs Hj; rewrite Z2Nat.id in Hs by lia;
      replace s with (first_sector fmp c + (s - first_sector fmp c)) by lia;
      apply Hmiss; [left; reflexivity|unfold first_sector; lia|assumption]
     |]);
    unfold bind; rewrite Nat.add_0_r in Hrun; rewrite Hrun;
    cbn [fat_lookup_sectors]; unfold ret at 1;
    pose proof (same_disk_intro fmp fmp1 G1 Hd1 Hio Hio1) as Hsd1;
    pose proof (good_same_disk _ _ Hsd1 Hg) as Hg1;
    destruct (fat_next_cluster_good fmp1 c Hg1) as (fmp2 & Hn & Hsd2 & Hg2);
    rewrite Hn, (same_disk_entry _ _ c Hsd1);
    pose proof (same_disk_trans _ _ _ Hsd1 Hsd2) as Hsd02;
    destruct (same_disk_flags _ _ Hsd02) as (_ & _ & _ & _ & _ & E2 & _).
  - destruct Hch as (v & Hv & He). apply reads_entry in Hv; [|assumption].
    rewrite Hv.
    destruct fuel as [|fuel]; cbn [fat_lookup_chain];
      rewrite (IS_EOFCL_true fmp2 v) by lia;
      (exists fmp2; reflexivity).
  - destruct Hch as (Hv & Hlt & Hch). apply reads_entry in Hv; [|assumption].
    rewrite Hv.
    assert (G02 : same_geometry fmp fmp2) by apply Hsd02.
    assert (S2 : sec_per_cl fmp2 = sec_per_cl fmp) by (symmetry; apply G02).
    assert (D2 : blk_data (dev fmp2) = blk_data (dev fmp))
      by (symmetry; apply Hsd02).
    apply (IH fmp2 c' fuel Hg2);
      [rewrite S2; assumption|lia
      |exact (chain_same_disk _ _ _ _ Hg Hsd02 Hch)
      |cbn [length] in Hfuel; lia
      |intros x Hx; rewrite S2, (first_sector_same fmp fmp2 x G02);
       apply Hfit; right; assumption
      |intros x k j Hx Hk Hj; rewrite S2 in Hk;
       rewrite (first_sector_same fmp fmp2 x G02),
         (slot_same_data fmp fmp2) by exact D2;
       apply Hmiss; [right; assumption|assumption|assumption]].
Qed.

(** A record put into a full sub-directory is not found there again.
    [fatfs_add_node] returns 0, but the cluster [f] that holds the
    record is linked from the entry numbered by the end-of-chain value
    [e], not from the last cluster of the directory: when no record of
    the directory answered to the name before, the following
    [fatfs_lookup_node] walks the same chain as before and returns
    [ENOENT], whether the new record answers to the name or not.  The
    conditions on the layout are those of the theorem before and, for
    the records of the directory to be what they were, that no sector
    of a cluster of the directory holds the FAT entry of [e] or of [f]
    or is a sector of [f]. *)
Theorem fatfs_add_then_lookup_subdirectory (fuel : nat) (dnp np : fatfs_node)
        (nm : list Z) (fmp : fatfsmount) (rest : list Z) (e f : Z) :
  good fmp -> 0 < sec_per_cl fmp ->
  cluster (dirent dnp) <> CL_ROOT ->
  Forall (valid_cluster fmp) (cluster (dirent dnp) :: rest) ->
  chain fmp (cluster (dirent dnp)) rest ->
  reads fmp (last rest (cluster (dirent dnp))) e ->
  scan_finds (fun k => reads fmp k CL_FREE) (last_cluster fmp) e f ->
  (forall x, In x (f :: cluster (dirent dnp) :: rest) ->
             first_sector fmp x + sec_per_cl fmp < 4294967296) ->
  (forall c s, In c (cluster (dirent dnp) :: rest) -> cluster_sector fmp f s ->
               ~ fat_sector fmp c s) ->
  (forall x s, In x (cluster (dirent dnp) :: rest) -> cluster_sector fmp x s ->
               ~ fat_sector fmp e s /\ ~ fat_sector fmp f s /\
               ~ cluster_sector fmp f s) ->
  (forall x k j, In x (cluster (dirent dnp) :: rest) ->
                 0 <= k < sec_per_cl fmp -> 0 <= j < 16 ->
                 in_use (slot fmp (first_sector fmp x + k) j) /\
                 miss (firstn 11 (fat_convert_name nm) ++ [0])
                   (slot fmp (first_sector fmp x + k) j)) ->
  dirent_wf (dirent np) ->
  (length rest < fuel)%nat -> (Z.to_nat (2 * last_cluster fmp + 2) <= fuel)%nat ->
  exists fmp1 fmp2,
    fatfs_add_node fuel dnp np fmp = (Ok tt, fmp1) /\
    fatfs_lookup_node fuel dnp (Some nm) fmp1 = (Err ENOENT, fmp2).
Proof.
  intros Hg Hspc Hnr Hval Hch He Hscan Hfits Hlay Hapart Hslots Hwf Hfuel1 Hfuel2.
  destruct (fatfs_add_node_full_run fuel dnp np fmp rest e f Hg Hspc Hnr Hval Hch
              He Hscan Hfits Hlay)
    as (fmp1 & Ha & (Hg1 & G1) & _ & _ & _ & Hch1 & Hsame);
    [intros x k j Hx Hk Hj; apply (Hslots x k j Hx Hk Hj)
    |assumption|assumption|assumption|].
  assert (S1 : sec_per_cl fmp1 = sec_per_cl fmp) by (symmetry; apply G1).
  assert (E1 : fat_eof fmp1 = fat_eof fmp) by (symmetry; apply G1).
  pose proof (Forall_inv Hval) as Hcl. unfold valid_cluster in Hcl.
  pose proof Hg as (_ & _ & _ & Hb).
  destruct (fat_lookup_chain_miss (firstn 11 (fat_convert_name nm) ++ [0])
              rest fmp1 (cluster (dirent dnp)) fuel Hg1) as (fmp2 & Hl);
    [rewrite S1; lia|rewrite E1; lia|assumption|assumption| | |].
  - intros x Hx. rewrite S1, (first_sector_same fmp fmp1 x G1).
    apply Hfits. right. assumption.
  - intros x k j Hx Hk Hj. rewrite S1 in Hk.
    rewrite (first_sector_same fmp fmp1 x G1).
    replace (slot fmp1 (first_sector fmp x + k) j)
      with (slot fmp (first_sector fmp x + k) j);
      [apply (Hslots x k j Hx Hk Hj)|].
    unfold slot. apply dirent_at_ext. intros i Hi.
    assert (Hin : cluster_sector fmp x (first_sector fmp x + k))
      by (unfold cluster_sector; lia).
    destruct (Hapart x _ Hx Hin) as (Hne & Hnf & Hout).
    rewrite Hsame; [reflexivity|assumption|assumption|assumption].
  - exists fmp1, fmp2. split; [exact Ha|].
    unfold fatfs_lookup_node.
    destruct (Z.eqb_spec (cluster (dirent dnp)) CL_ROOT) as [|_]; [contradiction|].
    exact Hl.
Qed.

End SubDirectory.

Lemma demo_env_geometry a b c :
  same_geometry a b ->
  cl_to_sec (fatfs_env := demo_env) a c = cl_to_sec (fatfs_env := demo_env) b c.
Proof.
  intros (_ & _ & _ & D & _ & S & _). cbn [cl_to_sec demo_env].
  rewrite D, S. reflexivity.
Qed.


(** The sub-directory 2 -> 3 -> 4 of the volume [demo16 chain234]: its
    clusters and cluster 5 take the sectors 5 .. 20, the FAT entries of
    these clusters are in sector 1 and that of 65535 in sector 256. *)
Lemma demo16_first_sector x :
  In x [5; 2; 3; 4] ->
  first_sector (H := demo_env) (demo16 chain234 []) x = 4 * x - 3.
Proof. intros [<-|[<-|[<-|[<-|[]]]]]; vm_compute; reflexivity. Qed.

Lemma demo16_fat_sector c s :
  In c [5; 2; 3; 4] -> fat_sector (demo16 chain234 []) c s -> s = 1.
Proof.
  intros [<-|[<-|[<-|[<-|[]]]]] [->| ->]; vm_compute; reflexivity.
Qed.

Lemma demo16_fat_sector_eof s :
  fat_sector (demo16 chain234 []) 65535 s -> s = 256.
Proof. intros [->| ->]; vm_compute; reflexivity. Qed.

Lemma demo16_sub_chain :
  Forall (valid_cluster (demo16 chain234 [])) (cluster (dirent sub_node) :: [3; 4]) /\
  chain (demo16 chain234 []) (cluster (dirent sub_node)) [3; 4] /\
  reads (demo16 chain234 []) (last [3; 4] (cluster (dirent sub_node))) 65535 /\
  scan_finds (fun k => reads (demo16 chain234 []) k CL_FREE)
    (last_cluster (demo16 chain234 [])) 65535 5.
Proof.
  split.
  { repeat (apply Forall_cons; [unfold valid_cluster, CL_FIRST; cbn; lia|]).
    apply Forall_nil. }
  split.
  { cbn [chain]. split; [vm_compute; reflexivity|]. split; [cbn; lia|].
    split; [vm_compute; reflexivity|]. split; [cbn; lia|].
    exists 65535. split; [vm_compute; reflexivity|cbn; lia]. }
  split; [vm_compute; reflexivity|].
  split; [vm_compute; reflexivity|]. right.
  unfold CL_FIRST. cbn [last_cluster demo16].
  split; [lia|]. split; [lia|]. split.
  - intros k Hk1 Hk2. assert (E : k = 65536) by lia. subst k.
    vm_compute. discriminate.
  - intros k Hk. assert (E : k = 2 \/ k = 3 \/ k = 4) by lia.
    destruct E as [->|[->| ->]]; vm_compute; discriminate.
Qed.

Lemma demo16_sub_layout :
  let fmp := demo16 chain234 [] in
  (forall x, In x (5 :: cluster (dirent sub_node) :: [3; 4]) ->
             first_sector (H := demo_env) fmp x + sec_per_cl fmp < 4294967296) /\
  (forall c s, In c (cluster (dirent sub_node) :: [3; 4]) ->
               cluster_sector (H := demo_env) fmp 5 s -> ~ fat_sector fmp c s) /\
  (forall x s, In x (cluster (dirent sub_node) :: [3; 4]) ->
               cluster_sector (H := demo_env) fmp x s ->
               ~ fat_sector fmp 65535 s /\ ~ fat_sector fmp 5 s /\
               ~ cluster_sector (H := demo_env) fmp 5 s).
Proof.
  cbv zeta. cbn [cluster dirent sub_node]. unfold cluster_sector.
  cbn [sec_per_cl demo16].
  split; [|split].
  - intros x Hx. rewrite (demo16_first_sector x Hx).
    destruct Hx as [<-|[<-|[<-|[<-|[]]]]]; lia.
  - intros c s Hc Hs Hf.
    rewrite (demo16_first_sector 5) in Hs by (left; reflexivity).
    apply (demo16_fat_sector c s (or_intror Hc)) in Hf. lia.
  - intros x s Hx Hs.
    rewrite (demo16_first_sector x (or_intror Hx)) in Hs.
    rewrite (demo16_first_sector 5) by (left; reflexivity).
    assert (Hxb : 2 <= x <= 4) by (destruct Hx as [<-|[<-|[<-|[]]]]; lia).
    split; [intros Hf; apply demo16_fat_sector_eof in Hf; lia|].
    split; [|lia].
    intros Hf. apply (demo16_fat_sector 5 s) in Hf; [lia|left; reflexivity].
Qed.

Lemma demo16_sub_slots x k j :
  In x (cluster (dirent sub_node) :: [3; 4]) ->
  0 <= k < sec_per_cl (demo16 chain234 []) -> 0 <= j < 16 ->
  in_use (slot (demo16 chain234 [])
            (first_sector (H := demo_env) (demo16 chain234 []) x + k) j) /\
  miss (H := demo_env)
    (firstn 11 (fat_convert_name (fatfs_env := demo_env) new_txt) ++ [0])
    (slot (demo16 chain234 [])
       (first_sector (H := demo_env) (demo16 chain234 []) x + k) j).
Proof.
  intros Hx Hk _. cbn [sec_per_cl demo16] in Hk.
  cbn [cluster dirent sub_node] in Hx.
  rewrite (demo16_first_sector x (or_intror Hx)).
  assert (Hxb : 2 <= x <= 4) by (destruct Hx as [<-|[<-|[<-|[]]]]; lia).
  set (s := 4 * x - 3 + k).
  assert (Hbytes : forall o, blk_data (dev (demo16 chain234 [])) s o = 246).
  { intros o. cbn [dev demo16 blk_data]. unfold demo_data.
    destruct (Z.eqb_spec s 1) as [|_]; [subst s; lia|reflexivity]. }
  assert (Hslot : slot (demo16 chain234 []) s j = dirent_at (fun _ => 246) 0).
  { unfold slot. apply dirent_at_ext. intros i _. rewrite Hbytes. reflexivity. }
  rewrite Hslot. split; [split; vm_compute; reflexivity|].
  split; [vm_compute; reflexivity|]. right. vm_compute. discriminate.
Qed.

Lemma fatfs_add_node_full_subdirectory_witness :
  let fmp := demo16 chain234 [] in
  exists fmp',
    fatfs_add_node (H := demo_env) 22 sub_node new_node fmp = (Ok tt, fmp') /\
    slot fmp' (first_sector (H := demo_env) fmp 5) 0 = dirent new_node /\
    (forall k j, 0 <= k < sec_per_cl fmp -> 0 <= j < 16 -> (k, j) <> (0, 0) ->
                 IS_EMPTY (slot fmp' (first_sector (H := demo_env) fmp 5 + k) j)
                 = true) /\
    ~ In 5 (cluster (dirent sub_node) :: [3; 4]) /\
    chain fmp' (cluster (dirent sub_node)) [3; 4].
Proof.
  cbv zeta.
  assert (Hspc : 0 < sec_per_cl (demo16 chain234 [])) by (cbn; lia).
  assert (Hnr : cluster (dirent sub_node) <> CL_ROOT (fatfs_env := demo_env))
    by (cbn; discriminate).
  destruct demo16_sub_chain as (Hval & Hch & He & Hscan).
  destruct demo16_sub_layout as (Hfits & Hlay & _).
  assert (Hf1 : (length [3; 4] < 22)%nat) by (cbn; lia).
  assert (Hf2 : (Z.to_nat (2 * last_cluster (demo16 chain234 []) + 2) <= 22)%nat)
    by (cbn; lia).
  exact (fatfs_add_node_full_subdirectory (H := demo_env) demo_env_geometry
           22 sub_node new_node (demo16 chain234 []) [3; 4] 65535 5
           (good_demo16 chain234) Hspc Hnr Hval Hch He Hscan Hfits Hlay
           (fun x k j Hx Hk Hj => proj1 (demo16_sub_slots x k j Hx Hk Hj))
           new_node_wf Hf1 Hf2).
Defined.

Lemma fatfs_add_then_lookup_subdirectory_witness :
  let fmp := demo16 chain234 [] in
  hit (H := demo_env)
    (firstn 11 (fat_convert_name (fatfs_env := demo_env) new_txt) ++ [0])
    (dirent new_node) /\
  exists fmp1 fmp2,
    fatfs_add_node (H := demo_env) 22 sub_node new_node fmp = (Ok tt, fmp1) /\
    fatfs_lookup_node (H := demo_env) 22 sub_node (Some new_txt) fmp1
    = (Err ENOENT, fmp2).
Proof.
  cbv zeta.
  split; [repeat split; vm_compute; reflexivity|].
  assert (Hspc : 0 < sec_per_cl (demo16 chain234 [])) by (cbn; lia).
  assert (Hnr : cluster (dirent sub_node) <> CL_ROOT (fatfs_env := demo_env))
    by (cbn; discriminate).
  destruct demo16_sub_chain as (Hval & Hch & He & Hscan).
  destruct demo16_sub_layout as (Hfits & Hlay & Hapart).
  assert (Hf1 : (length [3; 4] < 22)%nat) by (cbn; lia).
  assert (Hf2 : (Z.to_nat (2 * last_cluster (demo16 chain234 []) + 2) <= 22)%nat)
    by (cbn; lia).
  exact (fatfs_add_then_lookup_subdirectory (H := demo_env) demo_env_geometry
           22 sub_node new_node new_txt (demo16 chain234 []) [3; 4] 65535 5
           (good_demo16 chain234) Hspc Hnr Hval Hch He Hscan Hfits Hlay Hapart
           demo16_sub_slots new_node_wf Hf1 Hf2).
Defined.
(** ** A chain that comes out too short *)

(** C6: the chain that [fat_expand_file] leaves can be shorter than the
    size needs.  On the largest FAT16 volume (clusters 2 .. 65525, all
    free but the last), the file is the one cluster 65525 and the call
    asks for 2048 bytes, four clusters of 512 bytes.  Every scan of the
    allocator returns its first candidate, the cluster after the scan
    start, which is not tested against [last_cluster]: 65526, 65527 and
    65528 are taken one after the other from the padding of the FAT,
    although none is a cluster of the volume and the clusters 2 .. 65524
    are free.  The link to 65528 reads as an end-of-chain value, so
    the call returns 0 and leaves the chain 65525 -> 65526 -> 65527 of
    three clusters: two clusters are appended, not three, and no chain
    of four clusters starts at 65525. *)
Theorem fat_expand_file_chain_too_short :
  let fmp := demo_max in
  let r := fat_expand_file 4 65525 2048 fmp in
  (good fmp /\ chain fmp 65525 [] /\
   u32 (2048 + cluster_size fmp - 1) / cluster_size fmp = 4 /\
   Forall (fun c => reads fmp c CL_FREE) [2; 3; 4; 65524]) /\
  fst r = (Ok tt, 65525) /\
  blk_faults (dev (snd r)) = [] /\
  chain (snd r) 65525 [65526; 65527] /\
  reads (snd r) 65527 65528 /\
  Forall (fun c => ~ valid_cluster fmp c) [65526; 65527; 65528] /\
  forall new, length new = 3%nat -> ~ chain (snd r) 65525 new.
Proof.
  cbv zeta.
  assert (Hch : chain (snd (fat_expand_file 4 65525 2048 demo_max)) 65525
                  [65526; 65527]).
  { cbn [chain]. split; [vm_compute; reflexivity|].
    split; [vm_compute; reflexivity|].
    split; [vm_compute; reflexivity|]. split; [vm_compute; reflexivity|].
    exists 65528. split; [vm_compute; reflexivity|vm_compute; discriminate]. }
  split; [split; [|split; [|split]]|].
  - split; [right; split; reflexivity|].
    split; [unfold fat_region_ok; cbn; lia|].
    split; [reflexivity|]. cbn. lia.
  - exists 65535. split; [vm_compute; reflexivity|cbn; lia].
  - vm_compute. reflexivity.
  - repeat (apply Forall_cons; [vm_compute; reflexivity|]). apply Forall_nil.
  - split; [vm_compute; reflexivity|].
    split; [vm_compute; reflexivity|].
    split; [exact Hch|].
    split; [vm_compute; reflexivity|].
    split.
    + repeat (apply Forall_cons; [unfold valid_cluster; cbn; lia|]).
      apply Forall_nil.
    + intros new Hlen Hnew.
      pose proof (chain_fun _ _ _ _ Hnew Hch) as E.
      rewrite E in Hlen. discriminate.
Qed.
